(** * Request execution and pagination engine of atlassian-graphql

    A shallow embedding of the Python client library
    ([python/atlassian_graphql]) and the properties its specification
    states about it.

    Conventions of the embedding.
    - Python [None] for an optional value is [None] of [option]; inside a
      decoded JSON document it is [JNull].
    - Instants ([datetime]) and durations ([timedelta], [float] seconds)
      are exact rationals, in seconds.  Rounding of binary floating point
      is not modelled, nor are the ranges of [datetime] and [timedelta]: an
      [OverflowError] of their arithmetic has no run here.
    - Strings are sequences of ASCII characters: [strip], [upper], [lower]
      and [isdigit] are those of Python on ASCII text.
    - Raising an exception is the [Raise] outcome; the mutable environment
      of a call (clock, transport, token bucket, call log) is threaded
      explicitly as a [World].
    - [while True] loops take a fuel argument; the outcome [OutOfFuel] is
      shown unreachable where the source loop is bounded.
    - Logging calls have no effect on results and are left out. *)

From Stdlib Require Import ZArith QArith Qminmax Lqa String Ascii List Lia.
From stdpp Require Import base gmap strings list pretty.

Local Open Scope string_scope.
Local Open Scope Z_scope.

#[local] Set Warnings "-register-all".

(** ** Python built-ins used by the sources *)

Module Py.

(** [str.isspace] on one (ASCII) character. *)
Definition isspace (a : ascii) : bool :=
  let n := nat_of_ascii a in
  ((9 <=? n)%nat && (n <=? 13)%nat) || ((28 <=? n)%nat && (n <=? 32)%nat).

Fixpoint lstrip (s : string) : string :=
  match s with
  | EmptyString => EmptyString
  | String a s' => if isspace a then lstrip s' else s
  end.

Definition rstrip (s : string) : string := String.rev (lstrip (String.rev s)).

(** [s.strip()] *)
Definition strip (s : string) : string := rstrip (lstrip s).

(** Truth value of a [str]: non-empty. *)
Definition truthy (s : string) : bool :=
  match s with EmptyString => false | String _ _ => true end.

(** Truth value of an [Optional[str]]. *)
Definition truthy_opt (s : option string) : bool :=
  match s with Some s' => truthy s' | None => false end.

(** [x or ""] for an [Optional[str]]. *)
Definition or_empty (s : option string) : string :=
  match s with Some s' => s' | None => "" end.

Definition is_digit (a : ascii) : bool :=
  let n := nat_of_ascii a in (48 <=? n)%nat && (n <=? 57)%nat.

Fixpoint all_digits (s : string) : bool :=
  match s with
  | EmptyString => true
  | String a s' => is_digit a && all_digits s'
  end.

(** [s.isdigit()] *)
Definition isdigit (s : string) : bool := truthy s && all_digits s.

Fixpoint int_from (acc : Z) (s : string) : Z :=
  match s with
  | EmptyString => acc
  | String a s' => int_from (10 * acc + (Z.of_nat (nat_of_ascii a) - 48)) s'
  end.

(** [int(s)] for a string of decimal digits. *)
Definition int (s : string) : Z := int_from 0 s.

Definition upper_char (a : ascii) : ascii :=
  let n := nat_of_ascii a in
  if (97 <=? n)%nat && (n <=? 122)%nat then ascii_of_nat (n - 32) else a.

Fixpoint map_chars (f : ascii -> ascii) (s : string) : string :=
  match s with
  | EmptyString => EmptyString
  | String a s' => String (f a) (map_chars f s')
  end.

(** [s.upper()] *)
Definition upper (s : string) : string := map_chars upper_char s.

(** [s.replace(old, new)] for one-character [old] and [new]. *)
Definition replace_char (old new : ascii) (s : string) : string :=
  map_chars (fun a => if Ascii.eqb a old then new else a) s.

(** [s[:n]] *)
Definition slice_to (n : nat) (s : string) : string := substring 0 n s.

(** [max(0, x)] on integers. *)
Definition max0 (x : Z) : Z := if 0 <? x then x else 0.

End Py.

(** Comparison of rationals as the booleans Python computes. *)
Definition Qlt_bool (x y : Q) : bool := negb (Qle_bool y x).

(** ** Decoded JSON *)

Inductive Json :=
| JNull
| JBool (b : bool)
| JInt (n : Z)
| JStr (s : string)
| JList (items : list Json)
| JDict (fields : list (string * Json)).

(** [d.get(key)] on a decoded object; a missing key gives [None]. *)
Definition dict_get (key : string) (fields : list (string * Json)) : Json :=
  match find (fun kv => String.eqb (fst kv) key) fields with
  | Some kv => snd kv
  | None => JNull
  end.

(** ** models.py and errors.py *)

Record GraphQLErrorItem := {
  message : string;
  path : Json;
  item_extensions : Json
}.

Record GraphQLResult := {
  data : Json;
  errors : option (list GraphQLErrorItem);
  extensions : Json
}.

Inductive Error :=
| ValueError (msg : string)
| TransportError (status_code : Z) (body_snippet : string)
| RateLimitError (retry_after : option Q) (attempts : nat)
    (header_value : option string) (wait_seconds : option Q)
    (max_wait_seconds : option Z)
| LocalRateLimitError (estimated_cost wait_seconds max_wait_seconds : Q)
| GraphQLOperationError (errors : list GraphQLErrorItem) (partial_data : Json)
| SerializationError (msg : string).

(** Outcome of a call: a value, an exception, or fuel exhausted. *)
Inductive result (A : Type) :=
| Return (a : A)
| Raise (e : Error)
| OutOfFuel.
Arguments Return {A} a.
Arguments Raise {A} e.
Arguments OutOfFuel {A}.

(** ** The environment of a call *)

(** What the transport gives back for one HTTP exchange. *)
Record Response := {
  status_code : Z;
  retry_after_header : option string;   (* response.headers.get("Retry-After") *)
  text : string;                        (* response.text *)
  json : option Json                    (* response.json(); None: JSONDecodeError *)
}.

Inductive Exchange :=
| RequestError (msg : string)           (* httpx.RequestError, str(exc) = msg *)
| Responded (response : Response).

(** State of a [TokenBucket] (throttle.py). *)
Record TokenBucket := {
  capacity : Q;
  refill_rate_per_sec : Q;
  tokens : Q;
  last_refill : Q
}.

(** Observable actions of the executor, newest first in the log. *)
Inductive Event :=
| EvConsume (cost max_wait : Q)         (* TokenBucket.consume(cost, max_wait) *)
| EvHeaders                             (* headers built, auth applied *)
| EvPost                                (* one HTTP exchange issued *)
| EvSleep (seconds : Q).                (* sleeper(seconds) *)

Record World := {
  clock : Q;                            (* what the time provider returns *)
  transport : nat -> Exchange;          (* outcome of the n-th exchange *)
  bucket : option TokenBucket;          (* client._token_bucket *)
  log : list Event
}.

Fixpoint posts (l : list Event) : nat :=
  match l with
  | [] => O
  | EvPost :: l' => S (posts l')
  | _ :: l' => posts l'
  end.

Fixpoint sleeps (l : list Event) : list Q :=
  match l with
  | [] => []
  | EvSleep s :: l' => s :: sleeps l'
  | _ :: l' => sleeps l'
  end.

Fixpoint consumed (l : list Event) : list Q :=
  match l with
  | [] => []
  | EvConsume c _ :: l' => c :: consumed l'
  | _ :: l' => consumed l'
  end.

Definition record (ev : Event) (w : World) : World :=
  {| clock := clock w; transport := transport w; bucket := bucket w;
     log := ev :: log w |}.

Definition set_bucket (b : TokenBucket) (w : World) : World :=
  {| clock := clock w; transport := transport w; bucket := Some b;
     log := log w |}.

(** Computations over a state [S] that return, raise or run out of fuel. *)
Definition Prog (S A : Type) : Type := S -> result A * S.

Definition ret {S A} (a : A) : Prog S A := fun s => (Return a, s).

Definition raise {S A} (e : Error) : Prog S A := fun s => (Raise e, s).

Definition out_of_fuel {S A} : Prog S A := fun s => (OutOfFuel, s).

Definition bind {S A B} (m : Prog S A) (k : A -> Prog S B) : Prog S B :=
  fun s =>
    match m s with
    | (Return a, s') => k a s'
    | (Raise e, s') => (Raise e, s')
    | (OutOfFuel, s') => (OutOfFuel, s')
    end.

Notation "x <- m ;; k" := (bind m (fun x => k))
  (at level 100, m at next level, k at level 200, right associativity, only parsing).
Notation "'exec' m ;; k" := (bind m (fun _ => k))
  (at level 100, m at next level, k at level 200, right associativity, only parsing).

Definition lift {S A} (r : Error + A) : Prog S A :=
  match r with inl e => raise e | inr a => ret a end.

(** Computations of the executor, over the world. *)
Abbreviation IO := (Prog World).

(** The injected time provider and sleeper.  The sleeper advances the
    clock by the time slept, as the sleepers of the test-suite do. *)
Definition now : IO Q := fun w => (Return (clock w), w).

Definition sleeper (seconds : Q) : IO unit :=
  fun w =>
    (Return tt,
     {| clock := (clock w + seconds)%Q; transport := transport w;
        bucket := bucket w; log := EvSleep seconds :: log w |}).

(** One HTTP exchange: the transport answers the next scripted outcome. *)
Definition exchange : IO Exchange :=
  fun w => (Return (transport w (posts (log w))), record EvPost w).

(** ** auth.py: the authentication capability *)

Definition Headers := list (string * string).

Record AuthProvider := {
  apply : Headers -> Error + Headers;
  get_cookies : option (list (string * string))
}.

(** ** retry.py *)

(** The parser of [Retry-After] values that both clients import.  [None]
    stands for the [ValueError] the clients catch; the second argument is
    the current time, the third component of a result the parser label. *)
Class RetryParser := parse_retry_after : option string -> Q -> option (Q * string).

(** Modelled from the spec: [retry.parse_retry_after] (retry.py is not
    among the sources).  Section 4.1: fails when the value is empty or
    whitespace or matches no supported variant; the variants, in order, are
    delta-seconds (the trimmed string is all decimal digits: whole seconds
    from now) and an ISO-8601 timestamp (an absolute instant).  The ISO-8601
    reader of the Python runtime is the parameter [fromisoformat]. *)
Definition spec_parse_retry_after (fromisoformat : string -> option Q) : RetryParser :=
  fun raw now =>
    match raw with
    | None => None
    | Some raw =>
      let candidate := Py.strip raw in
      if negb (Py.truthy candidate) then None
      else if Py.isdigit candidate then
        Some ((now + inject_Z (Py.int candidate))%Q, "delta-seconds")
      else
        match fromisoformat candidate with
        | Some instant => Some (instant, "iso8601")
        | None => None
        end
    end.

(** ** throttle.py *)

Module Throttle.

(** Modelled from the spec: [TokenBucket.consume] (throttle.py is not among
    the sources).  Section 4.2: refill by the elapsed time, capped at the
    capacity; if the available tokens cover the cost, deduct and return 0;
    otherwise the wait is the deficit over the refill rate: above the
    ceiling, fail with [LocalRateLimitError] without sleeping and without
    deducting; else sleep that long and pay the full cost, the level never
    going below zero. *)
Definition consume (cost max_wait_seconds : Q) (b : TokenBucket) : IO Q :=
  fun w =>
    let w := record (EvConsume cost max_wait_seconds) w in
    let elapsed := (clock w - last_refill b)%Q in
    let available := Qmin (capacity b) (tokens b + elapsed * refill_rate_per_sec b)%Q in
    if Qle_bool cost available then
      (Return 0%Q,
       set_bucket {| capacity := capacity b; refill_rate_per_sec := refill_rate_per_sec b;
                     tokens := (available - cost)%Q; last_refill := clock w |} w)
    else
      let deficit := (cost - available)%Q in
      let wait := (deficit / refill_rate_per_sec b)%Q in
      if Qlt_bool max_wait_seconds wait then
        (Raise (LocalRateLimitError cost wait max_wait_seconds), w)
      else
        let w := snd (sleeper wait w) in
        let refilled := Qmin (capacity b) (available + wait * refill_rate_per_sec b)%Q in
        (Return wait,
         set_bucket {| capacity := capacity b; refill_rate_per_sec := refill_rate_per_sec b;
                       tokens := Qmax 0 (refilled - cost)%Q; last_refill := clock w |} w).

End Throttle.

(** ** models.py: reader of the [errors] member of a GraphQL response *)

Class ErrorItemsParser := parse_error_items : Json -> option (list GraphQLErrorItem).

(** Truth value of an [Optional[list]]. *)
Definition nonempty {A} (l : option (list A)) : bool :=
  match l with Some (_ :: _) => true | _ => false end.

Definition list_of {A} (l : option (list A)) : list A :=
  match l with Some l' => l' | None => [] end.

(** [base_url.rstrip("/")] *)
Fixpoint lstrip_slash (s : string) : string :=
  match s with
  | String "/" s' => lstrip_slash s'
  | _ => s
  end.

Definition rstrip_slash (s : string) : string :=
  String.rev (lstrip_slash (String.rev s)).

(** ** client.py *)

Module GraphQLClient.

Record t := {
  base_url : string;
  auth : AuthProvider;
  strict : bool;
  max_retries_429 : Z;
  max_wait_seconds : Z;
  _user_agent : string
}.

(** [GraphQLClient.__init__]; the token bucket the constructor creates when
    local throttling is enabled lives in the [World]. *)
Definition init (base_url : string) (auth : option AuthProvider) (strict : bool)
    (user_agent : option string) (max_retries_429 max_wait_seconds : Z) : Error + t :=
  if negb (Py.truthy base_url) then inl (ValueError "base_url is required")
  else match auth with
  | None => inl (ValueError "auth is required")
  | Some auth =>
    inr {| base_url := rstrip_slash base_url;
           auth := auth;
           strict := strict;
           max_retries_429 := Py.max0 max_retries_429;
           max_wait_seconds := Py.max0 max_wait_seconds;
           _user_agent := if Py.truthy_opt user_agent then Py.or_empty user_agent
                          else "atlassian-graphql-python/0.1.0" |}
  end.

Definition _bucket_capacity : Q := 10000.
Definition _bucket_refill_rate : Q := (_bucket_capacity / 60)%Q.

Definition _base_headers (c : t) : Headers :=
  [("Content-Type", "application/json"); ("Accept", "application/json");
   ("User-Agent", _user_agent c)].

Definition _consume_local_budget (c : t) (estimated_cost : Z) : IO unit :=
  fun w =>
    match bucket w with
    | None => (Return tt, w)
    | Some b =>
      (wait_time <- Throttle.consume (inject_Z estimated_cost)
                      (inject_Z (max_wait_seconds c)) b ;;
       ret tt) w
    end.

Definition _build_headers (c : t) (experimental_apis : option (list string)) : IO Headers :=
  let header_items :=
    (_base_headers c
     ++ List.map (fun beta => ("X-ExperimentalApi", beta))
          (List.filter Py.truthy (list_of experimental_apis)))%list in
  headers <- lift (apply (auth c) header_items) ;;
  fun w => (Return headers, record EvHeaders w).

(** Lines 140-142 of [execute]: the cost handed to the local throttle. *)
Definition cost_value (estimated_cost : option Z) : Z :=
  let cost_value := match estimated_cost with None => 1 | Some c => c end in
  if cost_value <? 0 then 0 else cost_value.

(** The [while True] loop of [execute]; [retries] is its counter. *)
Fixpoint execute_loop `{RetryParser} `{ErrorItemsParser} (fuel : nat) (c : t)
    (experimental_apis : option (list string)) (cost_value : Z)
    (retries : nat) : IO GraphQLResult :=
  match fuel with
  | O => out_of_fuel
  | S fuel' =>
    let attempt_number := S retries in
    exec _consume_local_budget c cost_value ;;
    headers <- _build_headers c experimental_apis ;;
    answer <- exchange ;;
    match answer with
    | RequestError msg => raise (TransportError 0 msg)
    | Responded response =>
      if status_code response =? 429 then
        let retry_header := retry_after_header response in
        parse_time <- now ;;
        match parse_retry_after retry_header parse_time with
        | None =>
          raise (RateLimitError None attempt_number retry_header None None)
        | Some (retry_at, parser_used) =>
          current <- now ;;
          let computed_wait := (retry_at - current)%Q in
          let wait_seconds := if Qle_bool computed_wait 0 then 0%Q else computed_wait in
          let retry_allowed := Z.of_nat retries <? max_retries_429 c in
          let over_cap := Qlt_bool (inject_Z (max_wait_seconds c)) computed_wait in
          if over_cap then
            raise (RateLimitError (Some retry_at) attempt_number retry_header
                     (Some computed_wait) (Some (max_wait_seconds c)))
          else if negb retry_allowed then
            raise (RateLimitError (Some retry_at) attempt_number retry_header
                     (Some computed_wait) None)
          else
            exec (if Qlt_bool 0 wait_seconds then sleeper wait_seconds else ret tt) ;;
            execute_loop fuel' c experimental_apis cost_value (S retries)
        end
      else if 500 <=? status_code response then
        raise (TransportError (status_code response) (Py.slice_to 200 (text response)))
      else if 400 <=? status_code response then
        raise (TransportError (status_code response) (Py.slice_to 200 (text response)))
      else
        match json response with
        | None => raise (SerializationError "Failed to parse JSON")
        | Some body =>
          let data := match body with JDict d => dict_get "data" d | _ => JNull end in
          let errors :=
            match body with
            | JDict d => parse_error_items (dict_get "errors" d)
            | _ => None
            end in
          let extensions :=
            match body with JDict d => dict_get "extensions" d | _ => JNull end in
          if strict c && nonempty errors then
            raise (GraphQLOperationError (list_of errors) data)
          else
            ret {| data := data; errors := errors; extensions := extensions |}
        end
    end
  end.

(** [GraphQLClient.execute].  The loop makes at most [max_retries_429 + 1]
    attempts, which is the fuel it is given. *)
Definition execute `{RetryParser} `{ErrorItemsParser} (c : t) (query : string)
    (experimental_apis : option (list string)) (estimated_cost : option Z)
    : IO GraphQLResult :=
  if negb (Py.truthy query) || negb (Py.truthy (Py.strip query)) then
    raise (ValueError "query must be a non-empty string")
  else
    execute_loop (S (Z.to_nat (max_retries_429 c))) c experimental_apis
      (cost_value estimated_cost) 0.

End GraphQLClient.

(** ** jira_rest_client.py *)

Module JiraRestClient.

Record t := {
  base_url : string;
  auth : AuthProvider;
  max_retries_429 : Z;
  max_wait_seconds : Z;
  _user_agent : string
}.

Definition init (base_url : string) (auth : option AuthProvider)
    (timeout_seconds : option Q) (user_agent : option string)
    (max_retries_429 max_wait_seconds : Z) : Error + t :=
  if negb (Py.truthy base_url) || negb (Py.truthy (Py.strip base_url)) then
    inl (ValueError "base_url is required")
  else match auth with
  | None => inl (ValueError "auth is required")
  | Some auth =>
    if match timeout_seconds with None => true | Some s => Qle_bool s 0 end then
      inl (ValueError "timeout_seconds must be > 0")
    else
      inr {| base_url := rstrip_slash base_url;
             auth := auth;
             max_retries_429 := Py.max0 max_retries_429;
             max_wait_seconds := Py.max0 max_wait_seconds;
             _user_agent := if Py.truthy_opt user_agent then Py.or_empty user_agent
                            else "atlassian-jira-rest-python/0.1.0" |}
  end.

Definition _base_headers (c : t) : Headers :=
  [("Accept", "application/json"); ("User-Agent", _user_agent c)].

Definition _build_headers (c : t) : IO Headers :=
  headers <- lift (apply (auth c) (_base_headers c)) ;;
  fun w => (Return headers, record EvHeaders w).

(** [JiraRestClient._parse_retry_after]; [None] is its [ValueError]. *)
Definition _parse_retry_after `{RetryParser} (header_value : option string)
    : IO (option (Q * string)) :=
  match header_value with
  | None => ret None
  | Some header_value =>
    let candidate := Py.strip header_value in
    if negb (Py.truthy candidate) then ret None
    else if Py.isdigit candidate then
      let seconds := Py.int candidate in
      current <- now ;;
      ret (Some ((current + inject_Z seconds)%Q, "delta-seconds"))
    else
      current <- now ;;
      ret (parse_retry_after (Some candidate) current)
  end.

(** The [while True] loop of [get_json]. *)
Fixpoint get_json_loop `{RetryParser} (fuel : nat) (c : t) (retries : nat) : IO Json :=
  match fuel with
  | O => out_of_fuel
  | S fuel' =>
    let attempt_number := S retries in
    headers <- _build_headers c ;;
    answer <- exchange ;;
    match answer with
    | RequestError msg => raise (TransportError 0 msg)
    | Responded response =>
      if status_code response =? 429 then
        let retry_header := retry_after_header response in
        parsed <- _parse_retry_after retry_header ;;
        match parsed with
        | None =>
          raise (RateLimitError None attempt_number retry_header None None)
        | Some (retry_at, parser_used) =>
          current <- now ;;
          let computed_wait := (retry_at - current)%Q in
          let wait_seconds := if Qle_bool computed_wait 0 then 0%Q else computed_wait in
          let retry_allowed := Z.of_nat retries <? max_retries_429 c in
          let over_cap := Qlt_bool (inject_Z (max_wait_seconds c)) computed_wait in
          if over_cap then
            raise (RateLimitError (Some retry_at) attempt_number retry_header
                     (Some computed_wait) (Some (max_wait_seconds c)))
          else if negb retry_allowed then
            raise (RateLimitError (Some retry_at) attempt_number retry_header
                     (Some computed_wait) None)
          else
            exec (if Qlt_bool 0 wait_seconds then sleeper wait_seconds else ret tt) ;;
            get_json_loop fuel' c (S retries)
        end
      else if 500 <=? status_code response then
        raise (TransportError (status_code response) (Py.slice_to 200 (text response)))
      else if 400 <=? status_code response then
        raise (TransportError (status_code response) (Py.slice_to 200 (text response)))
      else
        match json response with
        | None => raise (SerializationError "Failed to parse JSON")
        | Some (JDict d) => ret (JDict d)
        | Some _ => raise (SerializationError "Expected object JSON response")
        end
    end
  end.

(** [JiraRestClient.get_json] *)
Definition get_json `{RetryParser} (c : t) (path : string) : IO Json :=
  if negb (Py.truthy path) || negb (Py.truthy (Py.strip path)) then
    raise (ValueError "path is required")
  else
    get_json_loop (S (Z.to_nat (max_retries_429 c))) c 0.

End JiraRestClient.

(** ** Lazy sequences: what a generator requests and yields *)

(** The run of a generator over a client whose state is [W]: the requests
    it issued and the items it yielded, newest first, and the client's
    state. *)
Inductive Emitted (Req Item : Type) :=
| Requested (r : Req)
| Yielded (i : Item).
Arguments Requested {Req Item} r.
Arguments Yielded {Req Item} i.

Record Run (Req Item W : Type) := {
  emitted : list (Emitted Req Item);
  world : W
}.
Arguments emitted {Req Item W} r.
Arguments world {Req Item W} r.

(** [yield item] *)
Definition yield {Req Item W} (item : Item) : Prog (Run Req Item W) unit :=
  fun s => (Return tt, {| emitted := Yielded item :: emitted s; world := world s |}).

(** A call of the client: the request is recorded, the client runs. *)
Definition call {Req Item W A} (run : Req -> Prog W A) (r : Req)
    : Prog (Run Req Item W) A :=
  fun s =>
    let '(a, w) := run r (world s) in
    (a, {| emitted := Requested r :: emitted s; world := w |}).

(** The events of a run in the order they happened. *)
Definition history {Req Item W} (s : Run Req Item W) : list (Emitted Req Item) :=
  rev (emitted s).

Fixpoint requests_of {Req Item} (l : list (Emitted Req Item)) : list Req :=
  match l with
  | [] => []
  | Requested r :: l' => r :: requests_of l'
  | Yielded _ :: l' => requests_of l'
  end.

Fixpoint yields_of {Req Item} (l : list (Emitted Req Item)) : list Item :=
  match l with
  | [] => []
  | Requested _ :: l' => yields_of l'
  | Yielded i :: l' => i :: yields_of l'
  end.

(** ** canonical_models.py *)

Module JiraProject.
Record t := { cloud_id : string; key : string; name : string; type : option string }.
End JiraProject.

Module OpsgenieTeamRef.
Record t := { id : string; name : string }.
End OpsgenieTeamRef.

Module CanonicalProjectWithOpsgenieTeams.
Record t := { project : JiraProject.t; opsgenie_teams : list OpsgenieTeamRef.t }.
End CanonicalProjectWithOpsgenieTeams.

(** ** gen/jira_projects_api.py: the generated GraphQL data model *)

Module PageInfo.
Record t := { has_next_page : bool; end_cursor : option string }.
End PageInfo.

Module OpsgenieTeamNode.
Record t := { id : string; name : string }.
End OpsgenieTeamNode.

Module OpsgenieTeamEdge.
Record t := { cursor : option string; node : OpsgenieTeamNode.t }.
End OpsgenieTeamEdge.

Module OpsgenieTeamsConnection.
Record t := { page_info : PageInfo.t; edges : list OpsgenieTeamEdge.t }.
End OpsgenieTeamsConnection.

Module JiraProjectNode.
Record t := {
  id : option string;
  key : string;
  name : string;
  opsgenie_teams : OpsgenieTeamsConnection.t
}.
End JiraProjectNode.

Module JiraProjectEdge.
Record t := { cursor : option string; node : JiraProjectNode.t }.
End JiraProjectEdge.

Module JiraProjectsConnection.
Record t := { page_info : PageInfo.t; edges : list JiraProjectEdge.t }.
End JiraProjectsConnection.

Module JiraProjectsPageData.
Record t := { projects : JiraProjectsConnection.t }.
End JiraProjectsPageData.

(** The generated module is not among the sources; its constants and its
    readers of response data are the members of this interface. *)
Class JiraProjectsApi := {
  PAGEINFO_HAS_END_CURSOR : bool;
  PROJECTS_EDGE_HAS_CURSOR : bool;
  OPSGENIE_EDGE_HAS_CURSOR : bool;
  REFETCH_STRATEGY : string;
  JIRA_PROJECT_OPSGENIE_TEAMS_PAGE_QUERY : string;
  build_jira_projects_page_query : list string -> Error + string;
  parse_jira_projects_page : Json -> Error + JiraProjectsPageData.t;
  parse_project_opsgenie_teams : Json -> Error + OpsgenieTeamsConnection.t
}.

(** A GraphQL operation as [GraphQLClient.execute] receives it. *)
Record GraphQLRequest := {
  query : string;
  variables : list (string * Json);
  operation_name : string;
  experimental_apis : option (list string)
}.

(** The client the paginator drives. *)
Class Executor (W : Type) := execute : GraphQLRequest -> Prog W GraphQLResult.

(** ** mappers/jira_projects_mapper.py *)

(** The [for t in opsgenie_teams] loop of the mapper. *)
Fixpoint map_teams (seen : gset string) (teams : list OpsgenieTeamRef.t)
    (opsgenie_teams : list OpsgenieTeamNode.t) : Error + list OpsgenieTeamRef.t :=
  match opsgenie_teams with
  | [] => inr teams
  | t :: rest =>
    let team_id := Py.strip (OpsgenieTeamNode.id t) in
    if negb (Py.truthy team_id) then inl (ValueError "opsgenie_team.id is required")
    else if bool_decide (team_id ∈ seen) then map_teams seen teams rest
    else
      let seen := {[team_id]} ∪ seen in
      let team_name := Py.strip (OpsgenieTeamNode.name t) in
      if negb (Py.truthy team_name) then inl (ValueError "opsgenie_team.name is required")
      else
        map_teams seen
          (teams ++ [{| OpsgenieTeamRef.id := team_id; OpsgenieTeamRef.name := team_name |}])
          rest
  end.

Definition map_project_with_opsgenie_teams (cloud_id : string)
    (project : JiraProjectNode.t) (opsgenie_teams : list OpsgenieTeamNode.t)
    : Error + CanonicalProjectWithOpsgenieTeams.t :=
  let cloud_id_clean := Py.strip cloud_id in
  if negb (Py.truthy cloud_id_clean) then inl (ValueError "cloud_id is required")
  else
    let project_key := Py.strip (JiraProjectNode.key project) in
    if negb (Py.truthy project_key) then inl (ValueError "project.key is required")
    else
      let project_name := Py.strip (JiraProjectNode.name project) in
      if negb (Py.truthy project_name) then inl (ValueError "project.name is required")
      else
        match map_teams ∅ [] opsgenie_teams with
        | inl e => inl e
        | inr teams =>
          inr {| CanonicalProjectWithOpsgenieTeams.project :=
                   {| JiraProject.cloud_id := cloud_id_clean;
                      JiraProject.key := project_key;
                      JiraProject.name := project_name;
                      JiraProject.type := None |};
                 CanonicalProjectWithOpsgenieTeams.opsgenie_teams := teams |}
        end.

(** ** jira_projects.py *)

Module JiraProjects.

Abbreviation Gen W := (Prog (Run GraphQLRequest CanonicalProjectWithOpsgenieTeams.t W)).

Definition _normalize_project_types (project_types : list string) : Error + list string :=
  let cleaned :=
    List.filter Py.truthy (List.map (fun raw => Py.upper (Py.strip raw)) project_types) in
  match cleaned with
  | [] => inl (ValueError "project_types must be non-empty")
  | _ => inr cleaned
  end.

Definition _next_after_from_pageinfo `{JiraProjectsApi} (has_next_page : bool)
    (end_cursor : option string) (edge_has_cursor : bool)
    (edges_cursors : list (option string)) (path : string) : Error + option string :=
  if negb has_next_page then inr None
  else if PAGEINFO_HAS_END_CURSOR && Py.truthy_opt end_cursor then inr end_cursor
  else
    match (if edge_has_cursor then List.find Py.truthy_opt (rev edges_cursors) else None) with
    | Some cursor => inr cursor
    | None => inl (SerializationError ("Pagination cursor missing for " +:+ path))
    end.

(** [list(experimental_apis) if experimental_apis else None] *)
Definition apis_argument (experimental_apis : option (list string)) : option (list string) :=
  if nonempty experimental_apis then experimental_apis else None.

(** The [try: parse ... except SerializationError] blocks of both loops. *)
Definition parsed {S A} (result : GraphQLResult) (r : Error + A) : Prog S A :=
  match r with
  | inr a => ret a
  | inl (SerializationError msg) =>
    if nonempty (errors result) then
      raise (GraphQLOperationError (list_of (errors result)) (data result))
    else raise (SerializationError msg)
  | inl e => raise e
  end.

Definition is_none (j : Json) : bool :=
  match j with JNull => true | _ => false end.

Definition opsgenie_path (project : JiraProjectNode.t) : string :=
  "jira.project[" +:+ JiraProjectNode.key project +:+ "].opsgenieTeams".

(** The [while True] loop of [_paginate_opsgenie_teams]. *)
Fixpoint opsgenie_loop `{JiraProjectsApi} {W} `{Executor W} (fuel : nat)
    (cloud_id : string) (project : JiraProjectNode.t) (page_size : Z)
    (experimental_apis : option (list string))
    (after : string) (seen_after : gset string) (out : list OpsgenieTeamNode.t)
    : Gen W (list OpsgenieTeamNode.t) :=
  match fuel with
  | O => out_of_fuel
  | S fuel' =>
    variables <-
      (if String.eqb REFETCH_STRATEGY "node" then
         let project_id := Py.strip (Py.or_empty (JiraProjectNode.id project)) in
         if negb (Py.truthy project_id) then
           raise (SerializationError
                    "Project id is required for node-based opsgenie pagination")
         else
           ret [("projectId", JStr project_id); ("first", JInt page_size);
                ("after", JStr after)]
       else
         let project_key := Py.strip (JiraProjectNode.key project) in
         if negb (Py.truthy project_key) then
           raise (SerializationError "Project key is required for opsgenie pagination")
         else
           ret [("cloudId", JStr cloud_id); ("projectKey", JStr project_key);
                ("first", JInt page_size); ("after", JStr after)]) ;;
    result <- call execute
                {| query := JIRA_PROJECT_OPSGENIE_TEAMS_PAGE_QUERY;
                   variables := variables;
                   operation_name := "JiraProjectOpsgenieTeamsPage";
                   experimental_apis := apis_argument experimental_apis |} ;;
    if is_none (data result) then
      raise (SerializationError "Missing GraphQL data in opsgenie pagination response")
    else
      conn <- parsed result (parse_project_opsgenie_teams (data result)) ;;
      let out := (out ++ List.map OpsgenieTeamEdge.node (OpsgenieTeamsConnection.edges conn))%list in
      next_after <-
        lift (_next_after_from_pageinfo
                (PageInfo.has_next_page (OpsgenieTeamsConnection.page_info conn))
                (PageInfo.end_cursor (OpsgenieTeamsConnection.page_info conn))
                OPSGENIE_EDGE_HAS_CURSOR
                (List.map OpsgenieTeamEdge.cursor (OpsgenieTeamsConnection.edges conn))
                (opsgenie_path project)) ;;
      match next_after with
      | None => ret out
      | Some next_after =>
        if bool_decide (next_after ∈ seen_after) then
          raise (SerializationError "Opsgenie pagination cursor repeated; aborting")
        else
          opsgenie_loop fuel' cloud_id project page_size experimental_apis
            next_after ({[next_after]} ∪ seen_after) out
      end
  end.

Definition _paginate_opsgenie_teams `{JiraProjectsApi} {W} `{Executor W} (fuel : nat)
    (cloud_id : string) (project : JiraProjectNode.t)
    (initial_connection : OpsgenieTeamsConnection.t) (page_size : Z)
    (experimental_apis : option (list string)) : Gen W (list OpsgenieTeamNode.t) :=
  after <-
    lift (_next_after_from_pageinfo
            (PageInfo.has_next_page (OpsgenieTeamsConnection.page_info initial_connection))
            (PageInfo.end_cursor (OpsgenieTeamsConnection.page_info initial_connection))
            OPSGENIE_EDGE_HAS_CURSOR
            (List.map OpsgenieTeamEdge.cursor (OpsgenieTeamsConnection.edges initial_connection))
            (opsgenie_path project)) ;;
  match after with
  | None => ret []
  | Some after =>
    opsgenie_loop fuel cloud_id project page_size experimental_apis after {[after]} []
  end.

(** The body of the [for edge in conn.edges] loop of the outer paginator:
    the nested connection of the edge is drained when it has a next page,
    then the composed record is yielded. *)
Definition for_edge `{JiraProjectsApi} {W} `{Executor W} (fuel : nat)
    (cloud_id_clean : string) (page_size : Z) (experimental_apis : option (list string))
    (edge : JiraProjectEdge.t) : Gen W unit :=
  let project := JiraProjectEdge.node edge in
  let teams_conn := JiraProjectNode.opsgenie_teams project in
  let teams := List.map OpsgenieTeamEdge.node (OpsgenieTeamsConnection.edges teams_conn) in
  teams <-
    (if PageInfo.has_next_page (OpsgenieTeamsConnection.page_info teams_conn) then
       more <- _paginate_opsgenie_teams fuel cloud_id_clean project teams_conn
                 page_size experimental_apis ;;
       ret (teams ++ more)%list
     else ret teams) ;;
  item <- lift (map_project_with_opsgenie_teams cloud_id_clean project teams) ;;
  yield item.

(** The [for edge in conn.edges] loop. *)
Fixpoint for_edges `{JiraProjectsApi} {W} `{Executor W} (fuel : nat)
    (cloud_id_clean : string) (page_size : Z) (experimental_apis : option (list string))
    (edges : list JiraProjectEdge.t) : Gen W unit :=
  match edges with
  | [] => ret tt
  | edge :: rest =>
    exec for_edge fuel cloud_id_clean page_size experimental_apis edge ;;
    for_edges fuel cloud_id_clean page_size experimental_apis rest
  end.

(** The [while True] loop of [iter_projects_with_opsgenie_linkable_teams]. *)
Fixpoint projects_loop `{JiraProjectsApi} {W} `{Executor W} (fuel : nat)
    (query : string) (cloud_id_clean : string) (page_size : Z)
    (experimental_apis : option (list string))
    (after : option string) (seen_after : gset string) : Gen W unit :=
  match fuel with
  | O => out_of_fuel
  | S fuel' =>
    let variables :=
      [("cloudId", JStr cloud_id_clean); ("first", JInt page_size);
       ("after", match after with Some a => JStr a | None => JNull end);
       ("opsFirst", JInt page_size)] in
    result <- call execute
                {| query := query;
                   variables := variables;
                   operation_name := "JiraProjectsPage";
                   experimental_apis := apis_argument experimental_apis |} ;;
    if is_none (data result) then
      raise (SerializationError "Missing GraphQL data in response")
    else
      page <- parsed result (parse_jira_projects_page (data result)) ;;
      let conn := JiraProjectsPageData.projects page in
      exec for_edges fuel' cloud_id_clean page_size experimental_apis
             (JiraProjectsConnection.edges conn) ;;
      next_after <-
        lift (_next_after_from_pageinfo
                (PageInfo.has_next_page (JiraProjectsConnection.page_info conn))
                (PageInfo.end_cursor (JiraProjectsConnection.page_info conn))
                PROJECTS_EDGE_HAS_CURSOR
                (List.map JiraProjectEdge.cursor (JiraProjectsConnection.edges conn))
                "jira.projects") ;;
      match next_after with
      | None => ret tt
      | Some next_after =>
        if bool_decide (next_after ∈ seen_after) then
          raise (SerializationError
                   "Pagination cursor repeated; aborting to prevent infinite loop")
        else
          projects_loop fuel' query cloud_id_clean page_size experimental_apis
            (Some next_after) ({[next_after]} ∪ seen_after)
      end
  end.

Definition iter_projects_with_opsgenie_linkable_teams `{JiraProjectsApi} {W}
    `{Executor W} (fuel : nat) (cloud_id : string) (project_types : list string)
    (page_size : Z) (experimental_apis : option (list string)) : Gen W unit :=
  let cloud_id_clean := Py.strip cloud_id in
  if negb (Py.truthy cloud_id_clean) then raise (ValueError "cloud_id is required")
  else if page_size <=? 0 then raise (ValueError "page_size must be > 0")
  else
    normalized_types <- lift (_normalize_project_types project_types) ;;
    query <- lift (build_jira_projects_page_query normalized_types) ;;
    projects_loop fuel query cloud_id_clean page_size experimental_apis None ∅.

End JiraProjects.

(** ** gen/jira_rest_api.py: the generated REST data model *)

Module RestProject.
Record t := {
  id : option string;
  key : option string;
  name : option string;
  project_type_key : option string
}.
End RestProject.

Module PageBeanProject.
Record t := {
  start_at : option Z;
  max_results : option Z;
  total : option Z;
  is_last : option bool;
  values : list RestProject.t
}.
End PageBeanProject.

Module SearchResults.
Record t (IssueBean : Type) := {
  start_at : option Z;
  max_results : option Z;
  total : option Z;
  issues : list IssueBean
}.
Arguments total {IssueBean} _.
Arguments issues {IssueBean} _.
End SearchResults.

(** The generated readers of response bodies, and the issue mapper
    (mappers/jira_rest_issues_mapper.py: a validation of one issue that
    returns the canonical issue or raises). *)
Class JiraRestApi := {
  IssueBean : Type;
  JiraIssue : Type;
  PageBeanProject_from_dict : Json -> string -> Error + PageBeanProject.t;
  SearchResults_from_dict : Json -> string -> Error + SearchResults.t IssueBean;
  map_issue : string -> IssueBean -> Error + JiraIssue
}.

(** A read as [JiraRestClient.get_json] receives it. *)
Record RestRequest := {
  rest_path : string;
  params : list (string * Json)
}.

(** The REST client the offset paginators drive. *)
Class RestClient (W : Type) := get_json : RestRequest -> Prog W Json.

(** ** mappers/jira_rest_projects_mapper.py *)

Definition _normalize_project_type (value : string) : string :=
  Py.replace_char " " "_" (Py.replace_char "-" "_" (Py.upper (Py.strip value))).

Definition map_rest_project (cloud_id : string) (project : RestProject.t)
    : Error + JiraProject.t :=
  let cloud_id_clean := Py.strip cloud_id in
  if negb (Py.truthy cloud_id_clean) then inl (ValueError "cloud_id is required")
  else
    let key := Py.strip (Py.or_empty (RestProject.key project)) in
    if negb (Py.truthy key) then inl (ValueError "project.key is required")
    else
      let name := Py.strip (Py.or_empty (RestProject.name project)) in
      if negb (Py.truthy name) then inl (ValueError "project.name is required")
      else
        let raw_type := Py.strip (Py.or_empty (RestProject.project_type_key project)) in
        let project_type :=
          if Py.truthy raw_type then Some (_normalize_project_type raw_type) else None in
        inr {| JiraProject.cloud_id := cloud_id_clean;
               JiraProject.key := key;
               JiraProject.name := name;
               JiraProject.type := project_type |}.

(** [len(values)] *)
Definition len {A} (l : list A) : Z := Z.of_nat (length l).

(** ** jira_rest_projects.py *)

Module JiraRestProjects.

Abbreviation Gen W := (Prog (Run RestRequest CanonicalProjectWithOpsgenieTeams.t W)).

Definition _normalize_project_types (project_types : list string) : Error + list string :=
  let cleaned :=
    List.filter Py.truthy (List.map (fun raw => Py.upper (Py.strip raw)) project_types) in
  match cleaned with
  | [] => inl (ValueError "project_types must be non-empty")
  | _ => inr cleaned
  end.

(** The [for item in values] loop. *)
Fixpoint for_values {W} (cloud_id_clean : string) (normalized_types : gset string)
    (values : list RestProject.t) : Gen W unit :=
  match values with
  | [] => ret tt
  | item :: rest =>
    project <- lift (map_rest_project cloud_id_clean item) ;;
    match JiraProject.type project with
    | None => for_values cloud_id_clean normalized_types rest
    | Some project_type =>
      if negb (bool_decide (project_type ∈ normalized_types)) then
        for_values cloud_id_clean normalized_types rest
      else
        exec yield {| CanonicalProjectWithOpsgenieTeams.project := project;
                      CanonicalProjectWithOpsgenieTeams.opsgenie_teams := [] |} ;;
        for_values cloud_id_clean normalized_types rest
    end
  end.

(** The [while True] loop of [iter_projects_via_rest]. *)
Fixpoint projects_loop `{JiraRestApi} {W} `{RestClient W} (fuel : nat)
    (cloud_id_clean : string) (normalized_types : gset string) (page_size : Z)
    (start_at : Z) (seen_start_at : gset Z) : Gen W unit :=
  match fuel with
  | O => out_of_fuel
  | S fuel' =>
    if bool_decide (start_at ∈ seen_start_at) then
      raise (SerializationError
               "Pagination startAt repeated; aborting to prevent infinite loop")
    else
      let seen_start_at := {[start_at]} ∪ seen_start_at in
      payload <- call get_json
                   {| rest_path := "/rest/api/3/project/search";
                      params := [("startAt", JInt start_at);
                                 ("maxResults", JInt page_size)] |} ;;
      page <- lift (PageBeanProject_from_dict payload "data") ;;
      let values := PageBeanProject.values page in
      exec for_values cloud_id_clean normalized_types values ;;
      let has_is_last :=
        match PageBeanProject.is_last page with Some _ => true | None => false end in
      if has_is_last && (match PageBeanProject.is_last page with
                         | Some b => b | None => false end) then
        ret tt
      else
        let has_total :=
          match PageBeanProject.total page with Some t => 0 <=? t | None => false end in
        if (if has_total then
              match PageBeanProject.total page with
              | Some t => t <=? start_at + len values
              | None => false
              end
            else len values <? page_size) then
          ret tt
        else if len values =? 0 then
          if has_is_last && negb (match PageBeanProject.is_last page with
                                  | Some b => b | None => false end) then
            raise (SerializationError
                     "Received empty page with isLast=false; cannot continue pagination")
          else ret tt
        else
          projects_loop fuel' cloud_id_clean normalized_types page_size
            (start_at + len values) seen_start_at
  end.

Definition iter_projects_via_rest `{JiraRestApi} {W} `{RestClient W} (fuel : nat)
    (cloud_id : string) (project_types : list string) (page_size : Z) : Gen W unit :=
  let cloud_id_clean := Py.strip cloud_id in
  if negb (Py.truthy cloud_id_clean) then raise (ValueError "cloud_id is required")
  else if page_size <=? 0 then raise (ValueError "page_size must be > 0")
  else
    types <- lift (_normalize_project_types project_types) ;;
    let normalized_types : gset string := list_to_set types in
    projects_loop fuel cloud_id_clean normalized_types page_size 0 ∅.

End JiraRestProjects.

(** ** jira_rest_issues.py *)

Module JiraRestIssues.

Definition _DEFAULT_SEARCH_FIELDS : list string :=
  ["project"; "issuetype"; "status"; "created"; "updated"; "resolutiondate";
   "assignee"; "reporter"; "labels"; "components"].

(** [",".join(field_list)] *)
Fixpoint join_commas (l : list string) : string :=
  match l with
  | [] => ""
  | [x] => x
  | x :: rest => x +:+ "," +:+ join_commas rest
  end.

(** The [for issue in issues] loop. *)
Fixpoint for_issues `{JiraRestApi} {W} (cloud_id_clean : string)
    (issues : list IssueBean) : Prog (Run RestRequest JiraIssue W) unit :=
  match issues with
  | [] => ret tt
  | issue :: rest =>
    item <- lift (map_issue cloud_id_clean issue) ;;
    exec yield item ;;
    for_issues cloud_id_clean rest
  end.

(** The [while True] loop of [iter_issues_via_rest]. *)
Fixpoint issues_loop `{JiraRestApi} {W} `{RestClient W} (fuel : nat)
    (cloud_id_clean jql_clean fields_param : string) (page_size : Z)
    (start_at : Z) (seen_start_at : gset Z) : Prog (Run RestRequest JiraIssue W) unit :=
  match fuel with
  | O => out_of_fuel
  | S fuel' =>
    if bool_decide (start_at ∈ seen_start_at) then
      raise (SerializationError
               "Pagination startAt repeated; aborting to prevent infinite loop")
    else
      let seen_start_at := {[start_at]} ∪ seen_start_at in
      payload <- call get_json
                   {| rest_path := "/rest/api/3/search";
                      params := [("jql", JStr jql_clean); ("startAt", JInt start_at);
                                 ("maxResults", JInt page_size);
                                 ("fields", JStr fields_param)] |} ;;
      page <- lift (SearchResults_from_dict payload "data") ;;
      let issues := SearchResults.issues page in
      exec for_issues cloud_id_clean issues ;;
      let has_total :=
        match SearchResults.total page with Some t => 0 <=? t | None => false end in
      if (if has_total then
            match SearchResults.total page with
            | Some t => t <=? start_at + len issues
            | None => false
            end
          else len issues <? page_size) then
        ret tt
      else if len issues =? 0 then ret tt
      else
        issues_loop fuel' cloud_id_clean jql_clean fields_param page_size
          (start_at + len issues) seen_start_at
  end.

Definition iter_issues_via_rest `{JiraRestApi} {W} `{RestClient W} (fuel : nat)
    (cloud_id jql : string) (page_size : Z) (fields : option (list string))
    : Prog (Run RestRequest JiraIssue W) unit :=
  let cloud_id_clean := Py.strip cloud_id in
  if negb (Py.truthy cloud_id_clean) then raise (ValueError "cloud_id is required")
  else
    let jql_clean := Py.strip jql in
    if negb (Py.truthy jql_clean) then raise (ValueError "jql is required")
    else if page_size <=? 0 then raise (ValueError "page_size must be > 0")
    else
      let field_list :=
        List.map Py.strip
          (List.filter (fun f => Py.truthy f && Py.truthy (Py.strip f))
             (if nonempty fields then list_of fields else _DEFAULT_SEARCH_FIELDS)) in
      match field_list with
      | [] => raise (ValueError "fields must be non-empty")
      | _ =>
        let fields_param := join_commas field_list in
        issues_loop fuel cloud_id_clean jql_clean fields_param page_size 0 ∅
      end.

End JiraRestIssues.

(** * Vocabulary of the properties and test doubles *)

(** [carries R m]: every run of [m] relates its start to its end by [R]. *)
Definition carries {S : Type} (R : S -> S -> Prop) {A} (m : Prog S A) : Prop :=
  forall s, R s (snd (m s)).

(** [m] never runs out of fuel. *)
Definition total {S A} (m : Prog S A) : Prop :=
  forall s, fst (m s) <> OutOfFuel.

(** The log of [w'] is the log of [w] with new events put in front, and
    every cost handed to the token bucket among them is [cost]. *)
Definition grows_consuming (cost : Q) (w w' : World) : Prop :=
  exists new, log w' = (new ++ log w)%list /\ Forall (eq cost) (consumed new).

(** [execute]: the attempt that starts in [w] passes the local throttle,
    builds its headers and reaches the transport, which answers [answer];
    [w'] is the world at that point. *)
Definition graphql_attempt (c : GraphQLClient.t) (apis : option (list string))
    (cost : Z) (w : World) (answer : Exchange) (w' : World) : Prop :=
  exists w1 headers w2,
    GraphQLClient._consume_local_budget c cost w = (Return tt, w1)
    /\ GraphQLClient._build_headers c apis w1 = (Return headers, w2)
    /\ answer = transport w2 (posts (log w2))
    /\ w' = record EvPost w2.

(** [get_json]: the same for the REST client, which has no local throttle. *)
Definition rest_attempt (c : JiraRestClient.t) (w : World) (answer : Exchange)
    (w' : World) : Prop :=
  exists headers w2,
    JiraRestClient._build_headers c w = (Return headers, w2)
    /\ answer = transport w2 (posts (log w2))
    /\ w' = record EvPost w2.

(** The decision the specification words for a 429 response whose
    [Retry-After] resolved to [retry_at]: [outcome] is what the loop does
    from there, [retry] the loop entered with one more retry counted. *)
Definition rate_limit_decision {A} (max_wait_seconds max_retries : Z) (retries : nat)
    (header : option string) (retry_at computed_wait : Q) (w : World)
    (outcome : result A * World) (retry : IO A) : Prop :=
  ((inject_Z max_wait_seconds < computed_wait)%Q ->
     outcome = (Raise (RateLimitError (Some retry_at) (S retries) header
                         (Some computed_wait) (Some max_wait_seconds)), w))
  /\ ((computed_wait <= inject_Z max_wait_seconds)%Q ->
      max_retries <= Z.of_nat retries ->
      outcome = (Raise (RateLimitError (Some retry_at) (S retries) header
                          (Some computed_wait) None), w))
  /\ ((computed_wait <= inject_Z max_wait_seconds)%Q ->
      Z.of_nat retries < max_retries ->
      outcome = retry (if Qlt_bool 0 computed_wait
                       then snd (sleeper computed_wait w) else w)).

(** An ISO-8601 reader that knows the one timestamp of the unit tests,
    [2021-05-10T11:00Z], as seconds since the epoch. *)
Definition demo_fromisoformat (s : string) : option Q :=
  if String.eqb s "2021-05-10T11:00Z" then Some 1620644400%Q else None.

Definition demo_parser : RetryParser := spec_parse_retry_after demo_fromisoformat.

Definition demo_error_items : ErrorItemsParser := fun _ => None.

(** [OAuthBearerAuth(lambda: "token")] *)
Definition demo_auth : AuthProvider :=
  {| apply := fun headers => inr (("Authorization", "Bearer token") :: headers);
     get_cookies := None |}.

Definition demo_graphql (max_retries_429 max_wait_seconds : Z) : GraphQLClient.t :=
  {| GraphQLClient.base_url := "https://api.atlassian.com";
     GraphQLClient.auth := demo_auth;
     GraphQLClient.strict := false;
     GraphQLClient.max_retries_429 := max_retries_429;
     GraphQLClient.max_wait_seconds := max_wait_seconds;
     GraphQLClient._user_agent := "atlassian-graphql-python/0.1.0" |}.

Definition demo_rest (max_retries_429 max_wait_seconds : Z) : JiraRestClient.t :=
  {| JiraRestClient.base_url := "https://api.atlassian.com/ex/jira/cloud-123";
     JiraRestClient.auth := demo_auth;
     JiraRestClient.max_retries_429 := max_retries_429;
     JiraRestClient.max_wait_seconds := max_wait_seconds;
     JiraRestClient._user_agent := "atlassian-jira-rest-python/0.1.0" |}.

Definition demo_response (status : Z) (retry_after : option string) (body : option Json)
    : Exchange :=
  Responded {| status_code := status; retry_after_header := retry_after;
               text := ""; json := body |}.

Definition demo_ok : Exchange :=
  demo_response 200 None (Some (JDict [("data", JDict [("ok", JBool true)])])).

(** A world at time [clock] whose transport answers [first], then [second]
    for every later exchange. *)
Definition demo_world (clock : Q) (bucket : option TokenBucket) (first second : Exchange)
    : World :=
  {| clock := clock;
     transport := fun n => match n with O => first | _ => second end;
     bucket := bucket;
     log := [] |}.




(** A full bucket of the client's capacity and refill rate. *)
Definition demo_bucket : TokenBucket :=
  {| capacity := GraphQLClient._bucket_capacity;
     refill_rate_per_sec := GraphQLClient._bucket_refill_rate;
     tokens := GraphQLClient._bucket_capacity;
     last_refill := 0 |}.

(** No cursor of the page can serve: the schema has no edge cursors, or no
    edge carries a non-empty one. *)
Definition no_edge_cursor (edge_has_cursor : bool) (edges_cursors : list (option string))
    : Prop :=
  edge_has_cursor = false \/ Forall (fun c => Py.truthy_opt c = false) edges_cursors.

(** The [end_cursor] of the page can serve: the schema exposes it and it
    is a non-empty string. *)
Definition end_cursor_usable `{JiraProjectsApi} (end_cursor : option string) : bool :=
  PAGEINFO_HAS_END_CURSOR && Py.truthy_opt end_cursor.

Section CursorTerms.

Context {api : JiraProjectsApi} {W : Type} {client : Executor W}.

Abbreviation Item := CanonicalProjectWithOpsgenieTeams.t.
Abbreviation State := (Run GraphQLRequest Item W).

(** The request of the outer loop for the page after [after]. *)
Definition projects_request (query cloud_id : string) (page_size : Z)
    (apis : option (list string)) (after : option string) : GraphQLRequest :=
  {| query := query;
     variables :=
       [("cloudId", JStr cloud_id); ("first", JInt page_size);
        ("after", match after with Some a => JStr a | None => JNull end);
        ("opsFirst", JInt page_size)];
     operation_name := "JiraProjectsPage";
     experimental_apis := JiraProjects.apis_argument apis |}.

(** The variables that key a nested request to its parent project. *)
Definition parent_key (cloud_id : string) (project : JiraProjectNode.t)
    : Error + list (string * Json) :=
  if String.eqb REFETCH_STRATEGY "node" then
    let project_id := Py.strip (Py.or_empty (JiraProjectNode.id project)) in
    if negb (Py.truthy project_id) then
      inl (SerializationError "Project id is required for node-based opsgenie pagination")
    else inr [("projectId", JStr project_id)]
  else
    let project_key := Py.strip (JiraProjectNode.key project) in
    if negb (Py.truthy project_key) then
      inl (SerializationError "Project key is required for opsgenie pagination")
    else inr [("cloudId", JStr cloud_id); ("projectKey", JStr project_key)].

(** The request of the nested loop of [project] for the page after [after]. *)
Definition opsgenie_request (parent : list (string * Json)) (page_size : Z)
    (apis : option (list string)) (after : string) : GraphQLRequest :=
  {| query := JIRA_PROJECT_OPSGENIE_TEAMS_PAGE_QUERY;
     variables := (parent ++ [("first", JInt page_size); ("after", JStr after)])%list;
     operation_name := "JiraProjectOpsgenieTeamsPage";
     experimental_apis := JiraProjects.apis_argument apis |}.

(** The client answers [req] in state [s] with data that reads as [page]. *)
Definition served {Page} (parse : Json -> Error + Page) (req : GraphQLRequest)
    (s : State) (page : Page) (s' : State) : Prop :=
  exists result,
    call execute req s = (Return result, s')
    /\ JiraProjects.is_none (data result) = false
    /\ parse (data result) = inr page.

(** The cursor selection applied to a page of each level. *)
Definition projects_next (page : JiraProjectsPageData.t) : Error + option string :=
  let conn := JiraProjectsPageData.projects page in
  JiraProjects._next_after_from_pageinfo
    (PageInfo.has_next_page (JiraProjectsConnection.page_info conn))
    (PageInfo.end_cursor (JiraProjectsConnection.page_info conn))
    PROJECTS_EDGE_HAS_CURSOR
    (List.map JiraProjectEdge.cursor (JiraProjectsConnection.edges conn))
    "jira.projects".

Definition opsgenie_next (project : JiraProjectNode.t) (conn : OpsgenieTeamsConnection.t)
    : Error + option string :=
  JiraProjects._next_after_from_pageinfo
    (PageInfo.has_next_page (OpsgenieTeamsConnection.page_info conn))
    (PageInfo.end_cursor (OpsgenieTeamsConnection.page_info conn))
    OPSGENIE_EDGE_HAS_CURSOR
    (List.map OpsgenieTeamEdge.cursor (OpsgenieTeamsConnection.edges conn))
    (JiraProjects.opsgenie_path project).

Definition nodes_of (conn : OpsgenieTeamsConnection.t) : list OpsgenieTeamNode.t :=
  List.map OpsgenieTeamEdge.node (OpsgenieTeamsConnection.edges conn).

(** What either loop does with the cursor selected for the page just read. *)
Definition outer_continue (fuel : nat) (query cloud_id : string) (page_size : Z)
    (apis : option (list string)) (seen_after : gset string)
    (next : Error + option string) : JiraProjects.Gen W unit :=
  match next with
  | inl e => raise e
  | inr None => ret tt
  | inr (Some next_after) =>
    if bool_decide (next_after ∈ seen_after) then
      raise (SerializationError
               "Pagination cursor repeated; aborting to prevent infinite loop")
    else
      JiraProjects.projects_loop fuel query cloud_id page_size apis
        (Some next_after) ({[next_after]} ∪ seen_after)
  end.

Definition nested_continue (fuel : nat) (cloud_id : string) (project : JiraProjectNode.t)
    (page_size : Z) (apis : option (list string)) (seen_after : gset string)
    (out : list OpsgenieTeamNode.t) (next : Error + option string)
    : JiraProjects.Gen W (list OpsgenieTeamNode.t) :=
  match next with
  | inl e => raise e
  | inr None => ret out
  | inr (Some next_after) =>
    if bool_decide (next_after ∈ seen_after) then
      raise (SerializationError "Opsgenie pagination cursor repeated; aborting")
    else
      JiraProjects.opsgenie_loop fuel cloud_id project page_size apis
        next_after ({[next_after]} ∪ seen_after) out
  end.

(** The nested request of [project] for the page after [after]. *)
Definition nested_request (cloud_id : string) (project : JiraProjectNode.t)
    (page_size : Z) (apis : option (list string)) (after : string) : GraphQLRequest :=
  opsgenie_request
    (match parent_key cloud_id project with inr parent => parent | inl _ => [] end)
    page_size apis after.

(** A complete drain of the nested connection of [project], from the page
    after [after] on: every page is the answer to the request for the
    cursor selected on the page before, and the last page has no next. *)
Inductive drained (cloud_id : string) (project : JiraProjectNode.t) (page_size : Z)
    (apis : option (list string))
    : string -> State -> list OpsgenieTeamsConnection.t -> State -> Prop :=
| drained_last after s conn s' :
    served parse_project_opsgenie_teams
      (nested_request cloud_id project page_size apis after) s conn s' ->
    opsgenie_next project conn = inr None ->
    drained cloud_id project page_size apis after s [conn] s'
| drained_next after s conn s0 next pages s' :
    served parse_project_opsgenie_teams
      (nested_request cloud_id project page_size apis after) s conn s0 ->
    opsgenie_next project conn = inr (Some next) ->
    drained cloud_id project page_size apis next s0 pages s' ->
    drained cloud_id project page_size apis after s (conn :: pages) s'.

(** The cursors a drain requests, in order. *)
Fixpoint cursors_after (project : JiraProjectNode.t) (after : string)
    (pages : list OpsgenieTeamsConnection.t) : list string :=
  match pages with
  | [] => []
  | conn :: rest =>
    after :: match opsgenie_next project conn with
             | inr (Some next) => cursors_after project next rest
             | _ => []
             end
  end.

(** The requests of a nested loop, newest first. *)
Definition nested_requests (cloud_id : string) (project : JiraProjectNode.t)
    (page_size : Z) (apis : option (list string)) (cursors : list string)
    : list (Emitted GraphQLRequest Item) :=
  rev (List.map (fun c => Requested (nested_request cloud_id project page_size apis c))
         cursors).

Definition has_next (conn : OpsgenieTeamsConnection.t) : bool :=
  PageInfo.has_next_page (OpsgenieTeamsConnection.page_info conn).

(** The state after [item] is yielded in [s]. *)
Definition yielded (item : Item) (s : State) : State :=
  {| emitted := Yielded item :: emitted s; world := world s |}.

(** The cursors the outer loop asked for, among the events of a run. *)
Fixpoint outer_cursors (l : list (Emitted GraphQLRequest Item)) : list Json :=
  match l with
  | [] => []
  | Requested r :: l' =>
    if String.eqb (operation_name r) "JiraProjectsPage"
    then dict_get "after" (variables r) :: outer_cursors l'
    else outer_cursors l'
  | Yielded _ :: l' => outer_cursors l'
  end.

Definition cursor_json (after : option string) : Json :=
  match after with Some a => JStr a | None => JNull end.

(** [s'] extends [s] by events among which the outer loop asked nothing. *)
Definition quiet (s s' : State) : Prop :=
  exists new, emitted s' = (new ++ emitted s)%list /\ outer_cursors new = [].

End CursorTerms.

(** The page after [after] was served to the outer loop and all its edges
    were processed; [s'] is the state at that point. *)
Definition projects_page_done {api : JiraProjectsApi} {W : Type} {client : Executor W}
    (fuel : nat) (query cloud_id : string) (page_size : Z) (apis : option (list string))
    (after : option string)
    (s : Run GraphQLRequest CanonicalProjectWithOpsgenieTeams.t W)
    (page : JiraProjectsPageData.t)
    (s' : Run GraphQLRequest CanonicalProjectWithOpsgenieTeams.t W) : Prop :=
  exists s0,
    served parse_jira_projects_page
      (projects_request query cloud_id page_size apis after) s page s0
    /\ JiraProjects.for_edges fuel cloud_id page_size apis
         (JiraProjectsConnection.edges (JiraProjectsPageData.projects page)) s0
       = (Return tt, s').

(** The page after [after] of the nested connection of [project] was served
    to the nested loop. *)
Definition opsgenie_page_done {api : JiraProjectsApi} {W : Type} {client : Executor W}
    (cloud_id : string) (project : JiraProjectNode.t) (page_size : Z)
    (apis : option (list string)) (after : string)
    (s : Run GraphQLRequest CanonicalProjectWithOpsgenieTeams.t W)
    (conn : OpsgenieTeamsConnection.t)
    (s' : Run GraphQLRequest CanonicalProjectWithOpsgenieTeams.t W) : Prop :=
  exists parent,
    parent_key cloud_id project = inr parent
    /\ served parse_project_opsgenie_teams
         (opsgenie_request parent page_size apis after) s conn s'.

(** The record composed for [edge]: its project with some list of teams. *)
Definition record_of (cloud_id : string) (edge : JiraProjectEdge.t)
    (item : CanonicalProjectWithOpsgenieTeams.t) : Prop :=
  exists teams,
    map_project_with_opsgenie_teams cloud_id (JiraProjectEdge.node edge) teams = inr item.

(** The loop over the edges of a page as the answers of the client
    determine it.  An edge whose teams all came with the page is mapped and
    yielded at once; an edge whose connection has a next page is mapped and
    yielded after a complete drain of that connection, of at most [fuel]
    pages with distinct cursors; the loop then turns to the next edge.
    [events] are the events of the loop in the order they happen, [s'] is
    the state it ends in. *)
Inductive edges_drained {api : JiraProjectsApi} {W : Type} {client : Executor W}
    (fuel : nat) (cloud_id : string) (page_size : Z) (apis : option (list string))
    : list JiraProjectEdge.t ->
      Run GraphQLRequest CanonicalProjectWithOpsgenieTeams.t W ->
      list (Emitted GraphQLRequest CanonicalProjectWithOpsgenieTeams.t) ->
      Run GraphQLRequest CanonicalProjectWithOpsgenieTeams.t W -> Prop :=
| edges_none s : edges_drained fuel cloud_id page_size apis [] s [] s
| edge_at_once edge rest s item events s' :
    let project := JiraProjectEdge.node edge in
    let initial := JiraProjectNode.opsgenie_teams project in
    has_next initial = false ->
    map_project_with_opsgenie_teams cloud_id project (nodes_of initial) = inr item ->
    edges_drained fuel cloud_id page_size apis rest (yielded item s) events s' ->
    edges_drained fuel cloud_id page_size apis (edge :: rest) s (Yielded item :: events) s'
| edge_after_drain edge rest s parent after pages s1 item events s' :
    let project := JiraProjectEdge.node edge in
    let initial := JiraProjectNode.opsgenie_teams project in
    has_next initial = true ->
    parent_key cloud_id project = inr parent ->
    opsgenie_next project initial = inr (Some after) ->
    drained cloud_id project page_size apis after s pages s1 ->
    NoDup (cursors_after project after pages) ->
    (length pages <= fuel)%nat ->
    map_project_with_opsgenie_teams cloud_id project
      (nodes_of initial ++ concat (List.map nodes_of pages)) = inr item ->
    edges_drained fuel cloud_id page_size apis rest (yielded item s1) events s' ->
    edges_drained fuel cloud_id page_size apis (edge :: rest) s
      (List.map (fun c => Requested (nested_request cloud_id project page_size apis c))
         (cursors_after project after pages)
       ++ Yielded item :: events)%list
      s'.

Section OffsetTerms.

Context {api : JiraRestApi} {W : Type} {client : RestClient W}.

(** The request of [iter_projects_via_rest] for the page at [start_at]. *)
Definition project_search (page_size start_at : Z) : RestRequest :=
  {| rest_path := "/rest/api/3/project/search";
     params := [("startAt", JInt start_at); ("maxResults", JInt page_size)] |}.

(** The request of [iter_issues_via_rest] for the page at [start_at]. *)
Definition issue_search (jql fields : string) (page_size start_at : Z) : RestRequest :=
  {| rest_path := "/rest/api/3/search";
     params := [("jql", JStr jql); ("startAt", JInt start_at);
                ("maxResults", JInt page_size); ("fields", JStr fields)] |}.

(** The page at [start_at] was requested, read as [page], and its items
    were mapped and yielded; [s'] is the state at that point. *)
Definition projects_page_read (cloud_id : string) (types : gset string)
    (page_size start_at : Z)
    (s : Run RestRequest CanonicalProjectWithOpsgenieTeams.t W)
    (page : PageBeanProject.t)
    (s' : Run RestRequest CanonicalProjectWithOpsgenieTeams.t W) : Prop :=
  exists payload s0,
    call get_json (project_search page_size start_at) s = (Return payload, s0)
    /\ PageBeanProject_from_dict payload "data" = inr page
    /\ JiraRestProjects.for_values cloud_id types (PageBeanProject.values page) s0
       = (Return tt, s').

Definition issues_page_read (cloud_id jql fields : string) (page_size start_at : Z)
    (s : Run RestRequest JiraIssue W) (page : SearchResults.t IssueBean)
    (s' : Run RestRequest JiraIssue W) : Prop :=
  exists payload s0,
    call get_json (issue_search jql fields page_size start_at) s = (Return payload, s0)
    /\ SearchResults_from_dict payload "data" = inr page
    /\ JiraRestIssues.for_issues cloud_id (SearchResults.issues page) s0 = (Return tt, s').

(** A usable total: present and not negative. *)
Definition total_is (total : option Z) (t : Z) : Prop := total = Some t /\ 0 <= t.

Definition no_total (total : option Z) : Prop :=
  total = None \/ exists t, total = Some t /\ t < 0.

(** The offsets asked for, among the events of a run (newest first). *)
Fixpoint offsets {Item} (l : list (Emitted RestRequest Item)) : list Z :=
  match l with
  | [] => []
  | Requested r :: l' =>
    match dict_get "startAt" (params r) with
    | JInt z => z :: offsets l'
    | _ => offsets l'
    end
  | Yielded _ :: l' => offsets l'
  end.

End OffsetTerms.

(** Test doubles: a client that answers from a script, and readers that
    take the payload [JInt k] for the [k]-th page of a table. *)
Definition scripted_rest : RestClient (list Json) :=
  fun _ script =>
    match script with
    | [] => (Raise (TransportError 0 "no more responses"), [])
    | payload :: rest => (Return payload, rest)
    end.

Definition demo_rest_api (pages : list PageBeanProject.t) : JiraRestApi :=
  {| IssueBean := string;
     JiraIssue := string;
     PageBeanProject_from_dict := fun payload path =>
       match payload with
       | JInt k =>
         match nth_error pages (Z.to_nat k) with
         | Some page => inr page
         | None => inl (SerializationError ("Expected object at " +:+ path))
         end
       | _ => inl (SerializationError ("Expected object at " +:+ path))
       end;
     SearchResults_from_dict := fun payload path =>
       inl (SerializationError ("Expected object at " +:+ path));
     map_issue := fun cloud_id issue => inr issue |}.

Definition demo_rest_project (key type : string) : RestProject.t :=
  {| RestProject.id := None; RestProject.key := Some key;
     RestProject.name := Some ("Project " +:+ key);
     RestProject.project_type_key := Some type |}.

Definition start_of_run {Req Item W} (w : W) : Run Req Item W :=
  {| emitted := []; world := w |}.

Definition scripted_graphql : Executor (list GraphQLResult) :=
  fun _ script =>
    match script with
    | [] => (Raise (TransportError 0 "no more responses"), [])
    | result :: rest => (Return result, rest)
    end.

(** An API whose readers take the data [JInt k] for the [k]-th page of a
    table; the schema exposes [endCursor] and edge cursors and refetches
    nested pages through [jira.project]. *)
Definition demo_projects_api (pages : list JiraProjectsPageData.t)
    (connections : list OpsgenieTeamsConnection.t) : JiraProjectsApi :=
  {| PAGEINFO_HAS_END_CURSOR := true;
     PROJECTS_EDGE_HAS_CURSOR := true;
     OPSGENIE_EDGE_HAS_CURSOR := true;
     REFETCH_STRATEGY := "jira";
     JIRA_PROJECT_OPSGENIE_TEAMS_PAGE_QUERY := "query JiraProjectOpsgenieTeamsPage";
     build_jira_projects_page_query := fun _ => inr "query JiraProjectsPage";
     parse_jira_projects_page := fun data =>
       match data with
       | JInt k =>
         match nth_error pages (Z.to_nat k) with
         | Some page => inr page
         | None => inl (SerializationError "Missing data.jira")
         end
       | _ => inl (SerializationError "Expected object at data")
       end;
     parse_project_opsgenie_teams := fun data =>
       match data with
       | JInt k =>
         match nth_error connections (Z.to_nat k) with
         | Some conn => inr conn
         | None => inl (SerializationError "Missing data.jira")
         end
       | _ => inl (SerializationError "Expected object at data")
       end |}.

Definition demo_result (k : Z) : GraphQLResult :=
  {| data := JInt k; errors := None; extensions := JNull |}.

Definition demo_team (cursor id name : string) : OpsgenieTeamEdge.t :=
  {| OpsgenieTeamEdge.cursor := Some cursor;
     OpsgenieTeamEdge.node := {| OpsgenieTeamNode.id := id; OpsgenieTeamNode.name := name |} |}.

Definition demo_teams (has_next : bool) (end_cursor : option string)
    (edges : list OpsgenieTeamEdge.t) : OpsgenieTeamsConnection.t :=
  {| OpsgenieTeamsConnection.page_info :=
       {| PageInfo.has_next_page := has_next; PageInfo.end_cursor := end_cursor |};
     OpsgenieTeamsConnection.edges := edges |}.

Definition demo_project (cursor id key name : string) (teams : OpsgenieTeamsConnection.t)
    : JiraProjectEdge.t :=
  {| JiraProjectEdge.cursor := Some cursor;
     JiraProjectEdge.node :=
       {| JiraProjectNode.id := Some id; JiraProjectNode.key := key;
          JiraProjectNode.name := name; JiraProjectNode.opsgenie_teams := teams |} |}.

Definition demo_page (has_next : bool) (end_cursor : option string)
    (edges : list JiraProjectEdge.t) : JiraProjectsPageData.t :=
  {| JiraProjectsPageData.projects :=
       {| JiraProjectsConnection.page_info :=
            {| PageInfo.has_next_page := has_next; PageInfo.end_cursor := end_cursor |};
          JiraProjectsConnection.edges := edges |} |}.

Definition edge_A : JiraProjectEdge.t :=
  demo_project "pc1" "projA" "A" "Project A"
    (demo_teams true (Some "TA1") [demo_team "tc1" "t1" "Team 1"; demo_team "tc2" "t2" "Team 2"]).

Definition edge_B : JiraProjectEdge.t :=
  demo_project "pc2" "projB" "B" "Project B" (demo_teams false None []).

Definition edge_C : JiraProjectEdge.t :=
  demo_project "pc3" "projC" "C" "Project C"
    (demo_teams false None [demo_team "tc4" "t4" "Team 4"]).

Definition page_1 : JiraProjectsPageData.t := demo_page true (Some "P1") [edge_A; edge_B].
Definition page_2 : JiraProjectsPageData.t := demo_page false None [edge_C].
Definition teams_A_2 : OpsgenieTeamsConnection.t :=
  demo_teams false None [demo_team "tc3" "t3" "Team 3"].

Definition test_api : JiraProjectsApi := demo_projects_api [page_1; page_2] [teams_A_2].

Definition canonical (key name : string) (teams : list (string * string))
    : CanonicalProjectWithOpsgenieTeams.t :=
  {| CanonicalProjectWithOpsgenieTeams.project :=
       {| JiraProject.cloud_id := "cloud-123"; JiraProject.key := key;
          JiraProject.name := name; JiraProject.type := None |};
     CanonicalProjectWithOpsgenieTeams.opsgenie_teams :=
       List.map (fun t => {| OpsgenieTeamRef.id := fst t; OpsgenieTeamRef.name := snd t |})
         teams |}.

Definition test_run :=
  @JiraProjects.iter_projects_with_opsgenie_linkable_teams test_api _ scripted_graphql
    5 "cloud-123" ["software"] 2 None
    (start_of_run [demo_result 0; demo_result 0; demo_result 1]).

(** A server that answers every request with the same page and the same
    end cursor: the second page computes a cursor already asked for, and
    the call ends there. *)
Definition stuck_api : JiraProjectsApi :=
  demo_projects_api [demo_page true (Some "P1") [edge_B]] [].

Definition stuck_run :=
  @JiraProjects.iter_projects_with_opsgenie_linkable_teams stuck_api _ scripted_graphql
    10 "cloud-123" ["software"] 2 None
    (start_of_run [demo_result 0; demo_result 0; demo_result 0; demo_result 0]).

(** A 429 whose [Retry-After] asks for 120 seconds, under a ceiling of 60. *)
Definition world_over_cap : World :=
  demo_world 0 None (demo_response 429 (Some "120") None) demo_ok.

Definition response_over_cap : Response :=
  {| status_code := 429; retry_after_header := Some "120"; text := ""; json := None |}.

Definition world_invalid : World :=
  demo_world 0 None (demo_response 429 (Some "invalid") None) demo_ok.

Definition response_invalid : Response :=
  {| status_code := 429; retry_after_header := Some "invalid"; text := ""; json := None |}.

Definition response_unavailable : Response :=
  {| status_code := 503; retry_after_header := None; text := "Service Unavailable";
     json := None |}.

Definition world_unavailable : World :=
  demo_world 0 None (Responded response_unavailable) demo_ok.




(** The second round of [stuck_run]: the page after "P1" selects "P1". *)
Definition stuck_state : Run GraphQLRequest CanonicalProjectWithOpsgenieTeams.t
                           (list GraphQLResult) :=
  start_of_run [demo_result 0; demo_result 0].

Definition stuck_state_after : Run GraphQLRequest CanonicalProjectWithOpsgenieTeams.t
                                 (list GraphQLResult) :=
  {| emitted := [Yielded (canonical "B" "Project B" []);
                 Requested (projects_request "query JiraProjectsPage" "cloud-123" 2 None
                              (Some "P1"))];
     world := [demo_result 0] |}.

(** An empty page with [isLast=false] before the total is reached. *)
Definition page_short : PageBeanProject.t :=
  {| PageBeanProject.start_at := Some 0; PageBeanProject.max_results := Some 2;
     PageBeanProject.total := Some 3; PageBeanProject.is_last := Some false;
     PageBeanProject.values := [] |}.

Definition rest_state : Run RestRequest CanonicalProjectWithOpsgenieTeams.t (list Json) :=
  start_of_run [JInt 0].

Definition rest_state_after : Run RestRequest CanonicalProjectWithOpsgenieTeams.t
                                (list Json) :=
  {| emitted := [Requested (project_search 2 0)]; world := [] |}.

(** Project A of the unit test, whose nested connection has a next page. *)
Definition drain_state : Run GraphQLRequest CanonicalProjectWithOpsgenieTeams.t
                           (list GraphQLResult) :=
  start_of_run [demo_result 0].

Definition drain_state_after : Run GraphQLRequest CanonicalProjectWithOpsgenieTeams.t
                                 (list GraphQLResult) :=
  {| emitted :=
       [Yielded (canonical "A" "Project A"
                   [("t1", "Team 1"); ("t2", "Team 2"); ("t3", "Team 3")]);
        Requested (@nested_request test_api "cloud-123" (JiraProjectEdge.node edge_A)
                     2 None "TA1")];
     world := [] |}.

(** The first page of the unit test: the state once it is served, the
    events of the loop over its edges, and the state when that loop ends. *)
Definition page_1_served : Run GraphQLRequest CanonicalProjectWithOpsgenieTeams.t
                             (list GraphQLResult) :=
  {| emitted := [Requested (projects_request "query JiraProjectsPage" "cloud-123" 2 None
                              None)];
     world := [demo_result 0; demo_result 1] |}.

Definition page_1_events : list (Emitted GraphQLRequest CanonicalProjectWithOpsgenieTeams.t) :=
  [Requested (@nested_request test_api "cloud-123" (JiraProjectEdge.node edge_A) 2 None
                "TA1");
   Yielded (canonical "A" "Project A" [("t1", "Team 1"); ("t2", "Team 2"); ("t3", "Team 3")]);
   Yielded (canonical "B" "Project B" [])].

Definition page_1_done : Run GraphQLRequest CanonicalProjectWithOpsgenieTeams.t
                           (list GraphQLResult) :=
  {| emitted := (rev page_1_events ++ emitted page_1_served)%list;
     world := [demo_result 1] |}.

(** * The modules around the engine *)

(** ** More Python built-ins *)

Module Str.

Definition lower_char (a : ascii) : ascii :=
  let n := nat_of_ascii a in
  if (65 <=? n)%nat && (n <=? 90)%nat then ascii_of_nat (n + 32) else a.

(** [s.lower()] *)
Definition lower (s : string) : string := Py.map_chars lower_char s.

(** [s.startswith(prefix)] *)
Definition startswith (s prefix : string) : bool := String.prefix prefix s.

(** [s.endswith(suffix)] *)
Definition endswith (s suffix : string) : bool :=
  String.prefix (String.rev suffix) (String.rev s).

(** [s[:-n]] for a positive [n]. *)
Definition drop_last (n : nat) (s : string) : string :=
  substring 0 (String.length s - n) s.

(** [s.split(sep)] for a one-character [sep]. *)
Fixpoint split (sep : ascii) (s : string) : list string :=
  match s with
  | EmptyString => [""]
  | String a s' =>
    if Ascii.eqb a sep then "" :: split sep s'
    else
      match split sep s' with
      | part :: parts => String a part :: parts
      | [] => [String a ""]
      end
  end.

(** [s.split(sep, 1)] for a one-character [sep]. *)
Fixpoint split_once (sep : ascii) (s : string) : list string :=
  match s with
  | EmptyString => [""]
  | String a s' =>
    if Ascii.eqb a sep then [""; s']
    else
      match split_once sep s' with
      | part :: parts => String a part :: parts
      | [] => [String a ""]
      end
  end.

(** A path with an index, [f"{path}[{idx}]"]. *)
Definition indexed (path : string) (idx : nat) : string :=
  path +:+ "[" +:+ pretty idx +:+ "]".

End Str.

(** What a call outside the two executors may raise: an exception of
    errors.py (or a [ValueError]), or one the library lets through. *)
Inductive Exception :=
| Library (e : Error)
| IndexError
| HttpxRequestError (msg : string).

(** ** auth.py: bearer tokens *)

Module OAuthBearerAuth.

(** [OAuthBearerAuth.apply]; [token] is what the token getter returned. *)
Definition apply (token : option string) (headers : gmap string string)
    : Exception + gmap string string :=
  if negb (Py.truthy_opt token) then
    inl (Library (ValueError "OAuth token getter returned empty token"))
  else
    let token := Py.strip (Py.or_empty token) in
    match (if Str.startswith (Str.lower token) "bearer " then
             match Str.split_once " " token with
             | _ :: rest :: _ => inr (Py.strip rest)
             | _ => inl IndexError
             end
           else inr token) with
    | inl e => inl e
    | inr token =>
      if negb (Py.truthy token) then
        inl (Library (ValueError "OAuth token getter returned empty token"))
      else inr (<["Authorization" := "Bearer " +:+ token]> headers)
    end.

End OAuthBearerAuth.

(** ** Reading the process environment *)

Definition Environ := gmap string string.

(** [os.getenv(name)] *)
Definition getenv (env : Environ) (name : string) : option string := env !! name.

(** jira_projects.py: [_env_experimental_apis]. *)
Definition _env_experimental_apis (env : Environ) : list string :=
  let raw := default "" (getenv env "ATLASSIAN_GQL_EXPERIMENTAL_APIS") in
  List.map Py.strip
    (List.filter (fun part => Py.truthy (Py.strip part)) (Str.split "," raw)).

(** ** jira_rest_env.py *)

Module JiraRestEnv.

Definition suffixes : list string := ["/gateway/api/graphql"; "/gateway/api"; "/graphql"].

(** The [for suffix in ...] loop of [_derive_site_base_url_from_gql_base]. *)
Fixpoint for_suffixes (candidate : string) (suffixes : list string) : option string :=
  match suffixes with
  | [] => None
  | suffix :: rest =>
    if Str.endswith candidate suffix then
      let stripped := Str.drop_last (String.length suffix) candidate in
      Some (rstrip_slash stripped)
    else for_suffixes candidate rest
  end.

Definition _derive_site_base_url_from_gql_base (gql_base_url : option string)
    : option string :=
  let candidate := rstrip_slash (Py.strip (Py.or_empty gql_base_url)) in
  if negb (Py.truthy candidate) then None
  else for_suffixes candidate suffixes.

Definition jira_rest_base_url_from_env (env : Environ) (cloud_id : option string)
    : option string :=
  let explicit := getenv env "ATLASSIAN_JIRA_BASE_URL" in
  if Py.truthy_opt explicit && Py.truthy (Py.strip (Py.or_empty explicit)) then
    Some (rstrip_slash (Py.strip (Py.or_empty explicit)))
  else if Py.truthy_opt (getenv env "ATLASSIAN_OAUTH_ACCESS_TOKEN")
          || Py.truthy_opt (getenv env "ATLASSIAN_OAUTH_REFRESH_TOKEN") then
    let cloud_id_clean := Py.strip (Py.or_empty cloud_id) in
    if negb (Py.truthy cloud_id_clean) then None
    else Some ("https://api.atlassian.com/ex/jira/" +:+ cloud_id_clean)
  else
    let gql_base := getenv env "ATLASSIAN_GQL_BASE_URL" in
    if Py.truthy_opt gql_base then _derive_site_base_url_from_gql_base gql_base
    else None.

End JiraRestEnv.

(** ** oauth_3lo.py *)

Module OAuth.

Definition ATLASSIAN_TOKEN_URL : string := "https://auth.atlassian.com/oauth/token".

Record OAuthToken := {
  access_token : string;
  token_type : string;
  expires_in : Z;
  scope : option string;
  refresh_token : option string
}.

(** [value.strip() if isinstance(value, str) else None] *)
Definition stripped_str (value : Json) : option string :=
  match value with JStr s => Some (Py.strip s) | _ => None end.

(** [_parse_oauth_token].  A JSON boolean passes [isinstance(x, int)], as
    the integer it equals. *)
Definition _parse_oauth_token (payload : Json) : Error + OAuthToken :=
  match payload with
  | JDict fields =>
    let access_token := dict_get "access_token" fields in
    let token_type := dict_get "token_type" fields in
    let expires_in := dict_get "expires_in" fields in
    let scope := dict_get "scope" fields in
    let refresh_token := dict_get "refresh_token" fields in
    match access_token with
    | JStr access =>
      if negb (Py.truthy (Py.strip access)) then
        inl (SerializationError "OAuth token response missing access_token")
      else
        match token_type with
        | JStr type =>
          if negb (Py.truthy (Py.strip type)) then
            inl (SerializationError "OAuth token response missing token_type")
          else
            match (match expires_in with
                   | JInt n => Some n
                   | JBool b => Some (if b then 1 else 0)
                   | _ => None
                   end) with
            | Some expires =>
              inr {| access_token := Py.strip access;
                     token_type := Py.strip type;
                     expires_in := expires;
                     scope := stripped_str scope;
                     refresh_token := stripped_str refresh_token |}
            | None => inl (SerializationError "OAuth token response missing expires_in")
            end
        | _ => inl (SerializationError "OAuth token response missing token_type")
        end
    | _ => inl (SerializationError "OAuth token response missing access_token")
    end
  | _ => inl (SerializationError "OAuth token response must be a JSON object")
  end.

(** The token endpoint as the functions of this module see it: the time,
    the answers still to come, and the bodies posted so far (newest
    first), each with the URL it went to. *)
Record Endpoint := {
  clock : Q;
  answers : nat -> Exchange;
  posted : list (string * list (string * string))
}.

Definition Call (A : Type) : Type := Endpoint -> (Exception + A) * Endpoint.

(** [_post_json]: a transport failure is not caught here.  The message of
    the error for a body that does not decode goes on with the text of the
    decoding error, which the model of a response does not hold. *)
Definition _post_json (url : string) (payload : list (string * string)) : Call Json :=
  fun w =>
    let answer := answers w (length (posted w)) in
    let w := {| clock := clock w; answers := answers w;
                posted := (url, payload) :: posted w |} in
    match answer with
    | RequestError msg => (inl (HttpxRequestError msg), w)
    | Responded resp =>
      if negb (status_code resp =? 200) then
        (inl (Library (TransportError (status_code resp) (Py.slice_to 200 (text resp)))), w)
      else
        match json resp with
        | None => (inl (Library (SerializationError "Failed to parse JSON")), w)
        | Some body => (inr body, w)
        end
    end.

Definition blank (s : string) : bool :=
  negb (Py.truthy s) || negb (Py.truthy (Py.strip s)).

Definition refresh_access_token (client_id client_secret refresh_token token_url : string)
    (timeout_seconds : option Q) : Call OAuthToken :=
  fun w =>
    if blank client_id then (inl (Library (ValueError "client_id is required")), w)
    else if blank client_secret then
      (inl (Library (ValueError "client_secret is required")), w)
    else if blank refresh_token then
      (inl (Library (ValueError "refresh_token is required")), w)
    else if blank token_url then (inl (Library (ValueError "token_url is required")), w)
    else if match timeout_seconds with None => true | Some s => Qle_bool s 0 end then
      (inl (Library (ValueError "timeout_seconds must be > 0")), w)
    else
      let payload :=
        [("grant_type", "refresh_token");
         ("client_id", Py.strip client_id);
         ("client_secret", Py.strip client_secret);
         ("refresh_token", Py.strip refresh_token)] in
      match _post_json (Py.strip token_url) payload w with
      | (inl e, w) => (inl e, w)
      | (inr body, w) =>
        match _parse_oauth_token body with
        | inl e => (inl (Library e), w)
        | inr token => (inr token, w)
        end
      end.

End OAuth.

Module OAuthRefreshTokenAuth.

(** The fields of the object; the last three are the ones [apply] updates. *)
Record t := {
  _client_id : string;
  _client_secret : string;
  _token_url : string;
  _timeout_seconds : option Q;
  _refresh_margin : Z;
  _access_token : option string;
  _expires_at : option Q;
  _refresh_token : string
}.

Definition init (client_id client_secret refresh_token token_url : string)
    (timeout_seconds : option Q) (refresh_margin_seconds : Z) : Error + t :=
  if OAuth.blank client_id then inl (ValueError "client_id is required")
  else if OAuth.blank client_secret then inl (ValueError "client_secret is required")
  else if OAuth.blank refresh_token then inl (ValueError "refresh_token is required")
  else if OAuth.blank token_url then inl (ValueError "token_url is required")
  else if match timeout_seconds with None => true | Some s => Qle_bool s 0 end then
    inl (ValueError "timeout_seconds must be > 0")
  else if refresh_margin_seconds <? 0 then
    inl (ValueError "refresh_margin_seconds must be >= 0")
  else
    inr {| _client_id := Py.strip client_id;
           _client_secret := Py.strip client_secret;
           _token_url := Py.strip token_url;
           _timeout_seconds := timeout_seconds;
           _refresh_margin := refresh_margin_seconds;
           _access_token := None;
           _expires_at := None;
           _refresh_token := Py.strip refresh_token |}.

(** [_get_access_token]: the token in hand while it is fresh, a new one
    from the token endpoint otherwise.  Instants are rationals without the
    range of [datetime]: the [OverflowError] of [now + timedelta(...)] for
    an expiry past that range, raised once the new access token is stored
    and before the expiry and the refresh token are, has no run here. *)
Definition _get_access_token (self : t) (w : OAuth.Endpoint)
    : (Exception + string) * t * OAuth.Endpoint :=
  let now := OAuth.clock w in
  match (match _access_token self, _expires_at self with
         | Some token, Some expires_at =>
           if Py.truthy token && Qlt_bool (now + inject_Z (_refresh_margin self)) expires_at
           then Some token else None
         | _, _ => None
         end) with
  | Some token => (inr token, self, w)
  | None =>
    match OAuth.refresh_access_token (_client_id self) (_client_secret self)
            (_refresh_token self) (_token_url self) (_timeout_seconds self) w with
    | (inl e, w) => (inl e, self, w)
    | (inr token, w) =>
      let expires_in := OAuth.expires_in token in
      let expires_in := if expires_in <? 0 then 0 else expires_in in
      let self :=
        {| _client_id := _client_id self;
           _client_secret := _client_secret self;
           _token_url := _token_url self;
           _timeout_seconds := _timeout_seconds self;
           _refresh_margin := _refresh_margin self;
           _access_token := Some (OAuth.access_token token);
           _expires_at := Some (now + inject_Z expires_in)%Q;
           _refresh_token :=
             if Py.truthy_opt (OAuth.refresh_token token)
             then Py.strip (Py.or_empty (OAuth.refresh_token token))
             else _refresh_token self |} in
      (inr (OAuth.access_token token), self, w)
    end
  end.

(** [OAuthRefreshTokenAuth.apply] *)
Definition apply (self : t) (headers : gmap string string) (w : OAuth.Endpoint)
    : (Exception + gmap string string) * t * OAuth.Endpoint :=
  match _get_access_token self w with
  | (inl e, self, w) => (inl e, self, w)
  | (inr token, self, w) => (inr (<["Authorization" := "Bearer " +:+ token]> headers), self, w)
  end.

End OAuthRefreshTokenAuth.

(** ** Sequencing of steps that may raise *)

Definition and_then {A B} (r : Error + A) (k : A -> Error + B) : Error + B :=
  match r with inl e => inl e | inr a => k a end.

Notation "x <~ r ;; k" := (and_then r (fun x => k))
  (at level 100, r at next level, k at level 200, right associativity, only parsing).

(** ** canonical_models.py, continued *)

Module JiraUser.
Record t := { account_id : string; display_name : string; email : option string }.
End JiraUser.

Module JiraIssue.
Record t := {
  cloud_id : string;
  key : string;
  project_key : string;
  issue_type : string;
  status : string;
  created_at : string;
  updated_at : string;
  resolved_at : option string;
  assignee : option JiraUser.t;
  reporter : option JiraUser.t;
  labels : list string;
  components : list string;
  story_points : option Q;
  sprint_ids : list string
}.
End JiraIssue.

Module JiraChangelogItem.
Record t := {
  field : string;
  from_value : option string;
  to_value : option string;
  from_string : option string;
  to_string : option string
}.
End JiraChangelogItem.

Module JiraChangelogEvent.
Record t := {
  issue_key : string;
  event_id : string;
  created_at : string;
  items : list JiraChangelogItem.t;
  author : option JiraUser.t
}.
End JiraChangelogEvent.

Module JiraWorklog.
Record t := {
  issue_key : string;
  worklog_id : string;
  started_at : string;
  time_spent_seconds : Z;
  created_at : string;
  updated_at : string;
  author : option JiraUser.t
}.
End JiraWorklog.

(** ** gen/jira_rest_api.py, as tools/generate_jira_rest_models.py writes it *)

Module Generated.

Definition _expect_dict (obj : Json) (path : string) : Error + list (string * Json) :=
  match obj with
  | JDict fields => inr fields
  | _ => inl (SerializationError ("Expected object at " +:+ path))
  end.

Definition _expect_list (obj : Json) (path : string) : Error + list Json :=
  match obj with
  | JList items => inr items
  | _ => inl (SerializationError ("Expected list at " +:+ path))
  end.

Definition _expect_str (obj : Json) (path : string) : Error + string :=
  match obj with
  | JStr s => inr s
  | _ => inl (SerializationError ("Expected string at " +:+ path))
  end.

Definition _expect_bool (obj : Json) (path : string) : Error + bool :=
  match obj with
  | JBool b => inr b
  | _ => inl (SerializationError ("Expected boolean at " +:+ path))
  end.

Definition _expect_int (obj : Json) (path : string) : Error + Z :=
  match obj with
  | JInt n => inr n
  | _ => inl (SerializationError ("Expected integer at " +:+ path))
  end.

(** [value = None; if raw.get(key) is not None: value = read(raw.get(key), path)] *)
Definition optional {A} (read : Json -> string -> Error + A) (obj : Json) (path : string)
    : Error + option A :=
  match obj with
  | JNull => inr None
  | _ => a <~ read obj path ;; inr (Some a)
  end.

(** [[read(item, f"{path}[{idx}]") for idx, item in enumerate(items)]],
    from index [idx] on. *)
Fixpoint each {A} (read : Json -> string -> Error + A) (path : string) (idx : nat)
    (items : list Json) : Error + list A :=
  match items with
  | [] => inr []
  | item :: rest =>
    a <~ read item (Str.indexed path idx) ;;
    others <~ each read path (S idx) rest ;;
    inr (a :: others)
  end.

(** [_expect_list(raw, path) if raw is not None else []], then the items. *)
Definition items_of {A} (read : Json -> string -> Error + A) (obj : Json) (path : string)
    : Error + list A :=
  items <~ (match obj with JNull => inr [] | _ => _expect_list obj path end) ;;
  each read path 0 items.

End Generated.

Module UserDetails.
Record t := {
  account_id : option string;
  display_name : option string;
  email_address : option string
}.

Definition from_dict (obj : Json) (path : string) : Error + t :=
  raw <~ Generated._expect_dict obj path ;;
  account_id <~ Generated.optional Generated._expect_str (dict_get "accountId" raw)
                  (path +:+ ".accountId") ;;
  display_name <~ Generated.optional Generated._expect_str (dict_get "displayName" raw)
                    (path +:+ ".displayName") ;;
  email_address <~ Generated.optional Generated._expect_str (dict_get "emailAddress" raw)
                     (path +:+ ".emailAddress") ;;
  inr {| account_id := account_id; display_name := display_name;
         email_address := email_address |}.
End UserDetails.

Module Project.
Definition from_dict (obj : Json) (path : string) : Error + RestProject.t :=
  raw <~ Generated._expect_dict obj path ;;
  project_id <~ Generated.optional Generated._expect_str (dict_get "id" raw) (path +:+ ".id") ;;
  key <~ Generated.optional Generated._expect_str (dict_get "key" raw) (path +:+ ".key") ;;
  name <~ Generated.optional Generated._expect_str (dict_get "name" raw) (path +:+ ".name") ;;
  project_type_key <~ Generated.optional Generated._expect_str (dict_get "projectTypeKey" raw)
                        (path +:+ ".projectTypeKey") ;;
  inr {| RestProject.id := project_id; RestProject.key := key; RestProject.name := name;
         RestProject.project_type_key := project_type_key |}.
End Project.

Module PageBeanProjectReader.
Definition from_dict (obj : Json) (path : string) : Error + PageBeanProject.t :=
  raw <~ Generated._expect_dict obj path ;;
  start_at <~ Generated.optional Generated._expect_int (dict_get "startAt" raw) (path +:+ ".startAt") ;;
  max_results <~ Generated.optional Generated._expect_int (dict_get "maxResults" raw)
                   (path +:+ ".maxResults") ;;
  total <~ Generated.optional Generated._expect_int (dict_get "total" raw) (path +:+ ".total") ;;
  is_last <~ Generated.optional Generated._expect_bool (dict_get "isLast" raw) (path +:+ ".isLast") ;;
  values <~ Generated.items_of Project.from_dict (dict_get "values" raw) (path +:+ ".values") ;;
  inr {| PageBeanProject.start_at := start_at; PageBeanProject.max_results := max_results;
         PageBeanProject.total := total; PageBeanProject.is_last := is_last;
         PageBeanProject.values := values |}.
End PageBeanProjectReader.

Module IssueBean.
Record t := {
  id : option string;
  key : option string;
  fields : list (string * Json)
}.

Definition from_dict (obj : Json) (path : string) : Error + t :=
  raw <~ Generated._expect_dict obj path ;;
  issue_id <~ Generated.optional Generated._expect_str (dict_get "id" raw) (path +:+ ".id") ;;
  key <~ Generated.optional Generated._expect_str (dict_get "key" raw) (path +:+ ".key") ;;
  fields <~ (match dict_get "fields" raw with
             | JNull => inr []
             | fields_raw => Generated._expect_dict fields_raw (path +:+ ".fields")
             end) ;;
  inr {| id := issue_id; key := key; fields := fields |}.
End IssueBean.

Module SearchResultsReader.
Definition from_dict (obj : Json) (path : string) : Error + SearchResults.t IssueBean.t :=
  raw <~ Generated._expect_dict obj path ;;
  start_at <~ Generated.optional Generated._expect_int (dict_get "startAt" raw) (path +:+ ".startAt") ;;
  max_results <~ Generated.optional Generated._expect_int (dict_get "maxResults" raw)
                   (path +:+ ".maxResults") ;;
  total <~ Generated.optional Generated._expect_int (dict_get "total" raw) (path +:+ ".total") ;;
  issues <~ Generated.items_of IssueBean.from_dict (dict_get "issues" raw) (path +:+ ".issues") ;;
  inr {| SearchResults.start_at := start_at; SearchResults.max_results := max_results;
         SearchResults.total := total; SearchResults.issues := issues |}.
End SearchResultsReader.

Module ChangeDetails.
Record t := {
  field : option string;
  from_value : option string;
  to_value : option string;
  from_string : option string;
  to_string : option string
}.

Definition from_dict (obj : Json) (path : string) : Error + t :=
  raw <~ Generated._expect_dict obj path ;;
  field <~ Generated.optional Generated._expect_str (dict_get "field" raw) (path +:+ ".field") ;;
  from_value <~ Generated.optional Generated._expect_str (dict_get "from" raw) (path +:+ ".from") ;;
  to_value <~ Generated.optional Generated._expect_str (dict_get "to" raw) (path +:+ ".to") ;;
  from_string <~ Generated.optional Generated._expect_str (dict_get "fromString" raw)
                   (path +:+ ".fromString") ;;
  to_string <~ Generated.optional Generated._expect_str (dict_get "toString" raw)
                 (path +:+ ".toString") ;;
  inr {| field := field; from_value := from_value; to_value := to_value;
         from_string := from_string; to_string := to_string |}.
End ChangeDetails.

Module Changelog.
Record t := {
  id : option string;
  created : option string;
  items : list ChangeDetails.t;
  author : option UserDetails.t
}.

Definition from_dict (obj : Json) (path : string) : Error + t :=
  raw <~ Generated._expect_dict obj path ;;
  event_id <~ Generated.optional Generated._expect_str (dict_get "id" raw) (path +:+ ".id") ;;
  created <~ Generated.optional Generated._expect_str (dict_get "created" raw) (path +:+ ".created") ;;
  author <~ Generated.optional UserDetails.from_dict (dict_get "author" raw)
              (path +:+ ".author") ;;
  items <~ Generated.items_of ChangeDetails.from_dict (dict_get "items" raw) (path +:+ ".items") ;;
  inr {| id := event_id; created := created; items := items; author := author |}.
End Changelog.

Module PageBeanChangelog.
Record t := {
  start_at : option Z;
  max_results : option Z;
  total : option Z;
  is_last : option bool;
  values : list Changelog.t
}.

Definition from_dict (obj : Json) (path : string) : Error + t :=
  raw <~ Generated._expect_dict obj path ;;
  start_at <~ Generated.optional Generated._expect_int (dict_get "startAt" raw) (path +:+ ".startAt") ;;
  max_results <~ Generated.optional Generated._expect_int (dict_get "maxResults" raw)
                   (path +:+ ".maxResults") ;;
  total <~ Generated.optional Generated._expect_int (dict_get "total" raw) (path +:+ ".total") ;;
  is_last <~ Generated.optional Generated._expect_bool (dict_get "isLast" raw) (path +:+ ".isLast") ;;
  values <~ Generated.items_of Changelog.from_dict (dict_get "values" raw) (path +:+ ".values") ;;
  inr {| start_at := start_at; max_results := max_results; total := total;
         is_last := is_last; values := values |}.
End PageBeanChangelog.

Module Worklog.
Record t := {
  id : option string;
  started : option string;
  time_spent_seconds : option Z;
  created : option string;
  updated : option string;
  author : option UserDetails.t
}.

Definition from_dict (obj : Json) (path : string) : Error + t :=
  raw <~ Generated._expect_dict obj path ;;
  worklog_id <~ Generated.optional Generated._expect_str (dict_get "id" raw) (path +:+ ".id") ;;
  started <~ Generated.optional Generated._expect_str (dict_get "started" raw) (path +:+ ".started") ;;
  time_spent_seconds <~ Generated.optional Generated._expect_int (dict_get "timeSpentSeconds" raw)
                          (path +:+ ".timeSpentSeconds") ;;
  created <~ Generated.optional Generated._expect_str (dict_get "created" raw) (path +:+ ".created") ;;
  updated <~ Generated.optional Generated._expect_str (dict_get "updated" raw) (path +:+ ".updated") ;;
  author <~ Generated.optional UserDetails.from_dict (dict_get "author" raw)
              (path +:+ ".author") ;;
  inr {| id := worklog_id; started := started; time_spent_seconds := time_spent_seconds;
         created := created; updated := updated; author := author |}.
End Worklog.

Module PageOfWorklogs.
Record t := {
  start_at : option Z;
  max_results : option Z;
  total : option Z;
  worklogs : list Worklog.t
}.

Definition from_dict (obj : Json) (path : string) : Error + t :=
  raw <~ Generated._expect_dict obj path ;;
  start_at <~ Generated.optional Generated._expect_int (dict_get "startAt" raw) (path +:+ ".startAt") ;;
  max_results <~ Generated.optional Generated._expect_int (dict_get "maxResults" raw)
                   (path +:+ ".maxResults") ;;
  total <~ Generated.optional Generated._expect_int (dict_get "total" raw) (path +:+ ".total") ;;
  worklogs <~ Generated.items_of Worklog.from_dict (dict_get "worklogs" raw)
                (path +:+ ".worklogs") ;;
  inr {| start_at := start_at; max_results := max_results; total := total;
         worklogs := worklogs |}.
End PageOfWorklogs.

(** ** mappers/jira_rest_worklogs_mapper.py and jira_rest_changelog_mapper.py *)

Module RestMappers.

(** [_require_non_empty], the same in both modules. *)
Definition _require_non_empty (value : option string) (path : string) : Error + string :=
  match value with
  | Some s =>
    if negb (Py.truthy (Py.strip s)) then inl (ValueError (path +:+ " is required"))
    else inr (Py.strip s)
  | None => inl (ValueError (path +:+ " is required"))
  end.

(** [value.strip() if isinstance(value, str) and value.strip() else None] *)
Definition stripped_or_none (value : option string) : option string :=
  match value with
  | Some s => if Py.truthy (Py.strip s) then Some (Py.strip s) else None
  | None => None
  end.

(** [_map_user], the same in both modules. *)
Definition _map_user (user : option UserDetails.t) (path : string)
    : Error + option JiraUser.t :=
  match user with
  | None => inr None
  | Some user =>
    account_id <~ _require_non_empty (UserDetails.account_id user)
                    (path +:+ ".accountId") ;;
    display_name <~ _require_non_empty (UserDetails.display_name user)
                      (path +:+ ".displayName") ;;
    inr (Some {| JiraUser.account_id := account_id;
                 JiraUser.display_name := display_name;
                 JiraUser.email := stripped_or_none (UserDetails.email_address user) |})
  end.

Definition map_worklog (issue_key : string) (worklog : Worklog.t) : Error + JiraWorklog.t :=
  let issue_key_clean := Py.strip issue_key in
  if negb (Py.truthy issue_key_clean) then inl (ValueError "issue_key is required")
  else
    worklog_id <~ _require_non_empty (Worklog.id worklog) "worklog.id" ;;
    started_at <~ _require_non_empty (Worklog.started worklog) "worklog.started" ;;
    created_at <~ _require_non_empty (Worklog.created worklog) "worklog.created" ;;
    updated_at <~ _require_non_empty (Worklog.updated worklog) "worklog.updated" ;;
    match Worklog.time_spent_seconds worklog with
    | Some tss =>
      if tss <? 0 then
        inl (ValueError "worklog.timeSpentSeconds is required and must be >= 0")
      else
        author <~ _map_user (Worklog.author worklog) "worklog.author" ;;
        inr {| JiraWorklog.issue_key := issue_key_clean;
               JiraWorklog.worklog_id := worklog_id;
               JiraWorklog.started_at := started_at;
               JiraWorklog.time_spent_seconds := tss;
               JiraWorklog.created_at := created_at;
               JiraWorklog.updated_at := updated_at;
               JiraWorklog.author := author |}
    | None => inl (ValueError "worklog.timeSpentSeconds is required and must be >= 0")
    end.

Definition _map_item (item : ChangeDetails.t) (path : string) : Error + JiraChangelogItem.t :=
  field <~ _require_non_empty (ChangeDetails.field item) (path +:+ ".field") ;;
  inr {| JiraChangelogItem.field := field;
         JiraChangelogItem.from_value := stripped_or_none (ChangeDetails.from_value item);
         JiraChangelogItem.to_value := stripped_or_none (ChangeDetails.to_value item);
         JiraChangelogItem.from_string := stripped_or_none (ChangeDetails.from_string item);
         JiraChangelogItem.to_string := stripped_or_none (ChangeDetails.to_string item) |}.

(** [[_map_item(item, f"changelog.items[{idx}]") for idx, item in enumerate(...)]] *)
Fixpoint map_items (idx : nat) (items : list ChangeDetails.t)
    : Error + list JiraChangelogItem.t :=
  match items with
  | [] => inr []
  | item :: rest =>
    mapped <~ _map_item item (Str.indexed "changelog.items" idx) ;;
    others <~ map_items (S idx) rest ;;
    inr (mapped :: others)
  end.

Definition map_changelog_event (issue_key : string) (changelog : Changelog.t)
    : Error + JiraChangelogEvent.t :=
  let issue_key_clean := Py.strip issue_key in
  if negb (Py.truthy issue_key_clean) then inl (ValueError "issue_key is required")
  else
    event_id <~ _require_non_empty (Changelog.id changelog) "changelog.id" ;;
    created_at <~ _require_non_empty (Changelog.created changelog) "changelog.created" ;;
    items <~ map_items 0 (Changelog.items changelog) ;;
    match items with
    | [] => inl (ValueError "changelog.items is required")
    | _ =>
      author <~ _map_user (Changelog.author changelog) "changelog.author" ;;
      inr {| JiraChangelogEvent.issue_key := issue_key_clean;
             JiraChangelogEvent.event_id := event_id;
             JiraChangelogEvent.created_at := created_at;
             JiraChangelogEvent.items := items;
             JiraChangelogEvent.author := author |}
    end.

End RestMappers.

(** ** mappers/jira_rest_issues_mapper.py *)

Module IssuesMapper.

Definition _expect_dict (obj : Json) (path : string) : Error + list (string * Json) :=
  match obj with
  | JDict fields => inr fields
  | _ => inl (ValueError ("Expected object at " +:+ path))
  end.

Definition _expect_str (obj : Json) (path : string) : Error + string :=
  match obj with
  | JStr s =>
    let value := Py.strip s in
    if negb (Py.truthy value) then
      inl (ValueError ("Expected non-empty string at " +:+ path))
    else inr value
  | _ => inl (ValueError ("Expected string at " +:+ path))
  end.

Definition _expect_list (obj : Json) (path : string) : Error + list Json :=
  match obj with
  | JList items => inr items
  | _ => inl (ValueError ("Expected list at " +:+ path))
  end.

Definition _maybe_user (obj : Json) (path : string) : Error + option JiraUser.t :=
  match obj with
  | JNull => inr None
  | _ =>
    raw <~ _expect_dict obj path ;;
    let account_id := dict_get "accountId" raw in
    let display_name := dict_get "displayName" raw in
    let email := dict_get "emailAddress" raw in
    email_value <~
      (match email with
       | JNull => inr None
       | JStr e => inr (if Py.truthy (Py.strip e) then Some (Py.strip e) else None)
       | _ => inl (ValueError ("Expected string at " +:+ path +:+ ".emailAddress"))
       end) ;;
    account_id <~ _expect_str account_id (path +:+ ".accountId") ;;
    display_name <~ _expect_str display_name (path +:+ ".displayName") ;;
    inr (Some {| JiraUser.account_id := account_id;
                 JiraUser.display_name := display_name;
                 JiraUser.email := email_value |})
  end.

(** The loop over [labels], from index [idx] on. *)
Fixpoint for_labels (idx : nat) (items : list Json) : Error + list string :=
  match items with
  | [] => inr []
  | item :: rest =>
    label <~ _expect_str item (Str.indexed "issue.fields.labels" idx) ;;
    others <~ for_labels (S idx) rest ;;
    inr (label :: others)
  end.

(** The loop over [components], from index [idx] on. *)
Fixpoint for_components (idx : nat) (items : list Json) : Error + list string :=
  match items with
  | [] => inr []
  | comp :: rest =>
    comp_obj <~ _expect_dict comp (Str.indexed "issue.fields.components" idx) ;;
    name <~ _expect_str (dict_get "name" comp_obj)
              (Str.indexed "issue.fields.components" idx +:+ ".name") ;;
    others <~ for_components (S idx) rest ;;
    inr (name :: others)
  end.

Definition map_issue (cloud_id : string) (issue : IssueBean.t) : Error + JiraIssue.t :=
  let cloud_id_clean := Py.strip cloud_id in
  if negb (Py.truthy cloud_id_clean) then inl (ValueError "cloud_id is required")
  else
    issue_key <~
      (match IssueBean.key issue with
       | Some key => _expect_str (JStr key) "issue.key"
       | None => _expect_str JNull "issue.key"
       end) ;;
    let fields := IssueBean.fields issue in
    project <~ _expect_dict (dict_get "project" fields) "issue.fields.project" ;;
    project_key <~ _expect_str (dict_get "key" project) "issue.fields.project.key" ;;
    issuetype <~ _expect_dict (dict_get "issuetype" fields) "issue.fields.issuetype" ;;
    issue_type <~ _expect_str (dict_get "name" issuetype) "issue.fields.issuetype.name" ;;
    status_obj <~ _expect_dict (dict_get "status" fields) "issue.fields.status" ;;
    status <~ _expect_str (dict_get "name" status_obj) "issue.fields.status.name" ;;
    created_at <~ _expect_str (dict_get "created" fields) "issue.fields.created" ;;
    updated_at <~ _expect_str (dict_get "updated" fields) "issue.fields.updated" ;;
    resolved_at <~
      (match dict_get "resolutiondate" fields with
       | JNull => inr None
       | JStr r => inr (if Py.truthy (Py.strip r) then Some (Py.strip r) else None)
       | _ => inl (ValueError "issue.fields.resolutiondate must be a string when present")
       end) ;;
    labels <~
      (match dict_get "labels" fields with
       | JNull => inr []
       | raw_labels =>
         items <~ _expect_list raw_labels "issue.fields.labels" ;;
         for_labels 0 items
       end) ;;
    components <~
      (match dict_get "components" fields with
       | JNull => inr []
       | raw_components =>
         items <~ _expect_list raw_components "issue.fields.components" ;;
         for_components 0 items
       end) ;;
    assignee <~ _maybe_user (dict_get "assignee" fields) "issue.fields.assignee" ;;
    reporter <~ _maybe_user (dict_get "reporter" fields) "issue.fields.reporter" ;;
    inr {| JiraIssue.cloud_id := cloud_id_clean;
           JiraIssue.key := issue_key;
           JiraIssue.project_key := project_key;
           JiraIssue.issue_type := issue_type;
           JiraIssue.status := status;
           JiraIssue.created_at := created_at;
           JiraIssue.updated_at := updated_at;
           JiraIssue.resolved_at := resolved_at;
           JiraIssue.assignee := assignee;
           JiraIssue.reporter := reporter;
           JiraIssue.labels := labels;
           JiraIssue.components := components;
           JiraIssue.story_points := None;
           JiraIssue.sprint_ids := [] |}.

End IssuesMapper.

(** The generated module and the issue mapper, as the interface the
    paginators are written against. *)
Definition generated_rest_api : JiraRestApi :=
  {| IssueBean := IssueBean.t;
     JiraIssue := JiraIssue.t;
     PageBeanProject_from_dict := PageBeanProjectReader.from_dict;
     SearchResults_from_dict := SearchResultsReader.from_dict;
     map_issue := IssuesMapper.map_issue |}.

(** ** jira_rest_worklogs.py *)

Module JiraRestWorklogs.

Abbreviation Gen W := (Prog (Run RestRequest JiraWorklog.t W)).

(** The [for wl in worklogs] loop. *)
Fixpoint for_worklogs {W} (issue_key_clean : string) (worklogs : list Worklog.t)
    : Gen W unit :=
  match worklogs with
  | [] => ret tt
  | wl :: rest =>
    item <- lift (RestMappers.map_worklog issue_key_clean wl) ;;
    exec yield item ;;
    for_worklogs issue_key_clean rest
  end.

(** The [while True] loop of [iter_issue_worklogs_via_rest]. *)
Fixpoint worklogs_loop {W} `{RestClient W} (fuel : nat) (issue_key_clean : string)
    (page_size : Z) (start_at : Z) (seen_start_at : gset Z) : Gen W unit :=
  match fuel with
  | O => out_of_fuel
  | S fuel' =>
    if bool_decide (start_at ∈ seen_start_at) then
      raise (SerializationError
               "Pagination startAt repeated; aborting to prevent infinite loop")
    else
      let seen_start_at := {[start_at]} ∪ seen_start_at in
      payload <- call get_json
                   {| rest_path := "/rest/api/3/issue/" +:+ issue_key_clean +:+ "/worklog";
                      params := [("startAt", JInt start_at);
                                 ("maxResults", JInt page_size)] |} ;;
      page <- lift (PageOfWorklogs.from_dict payload "data") ;;
      let worklogs := PageOfWorklogs.worklogs page in
      exec for_worklogs issue_key_clean worklogs ;;
      let has_total :=
        match PageOfWorklogs.total page with Some t => 0 <=? t | None => false end in
      if (if has_total then
            match PageOfWorklogs.total page with
            | Some t => t <=? start_at + len worklogs
            | None => false
            end
          else len worklogs <? page_size) then
        ret tt
      else if len worklogs =? 0 then ret tt
      else
        worklogs_loop fuel' issue_key_clean page_size (start_at + len worklogs)
          seen_start_at
  end.

Definition iter_issue_worklogs_via_rest {W} `{RestClient W} (fuel : nat)
    (issue_key : string) (page_size : Z) : Gen W unit :=
  let issue_key_clean := Py.strip issue_key in
  if negb (Py.truthy issue_key_clean) then raise (ValueError "issue_key is required")
  else if page_size <=? 0 then raise (ValueError "page_size must be > 0")
  else worklogs_loop fuel issue_key_clean page_size 0 ∅.

End JiraRestWorklogs.

(** * Vocabulary of the further properties and test doubles *)

(** The characters [lstrip] leaves. *)
Fixpoint lstrip_chars (l : list ascii) : list ascii :=
  match l with
  | [] => []
  | a :: l' => if Py.isspace a then lstrip_chars l' else l
  end.

Definition rstrip_chars (l : list ascii) : list ascii := rev (lstrip_chars (rev l)).

(** A list that is empty or begins with a character that is no space. *)
Definition clean_head (l : list ascii) : Prop :=
  match l with [] => True | a :: _ => Py.isspace a = false end.

Definition clean_last (l : list ascii) : Prop := clean_head (rev l).

(** A string without white space at either end. *)
Definition stripped (s : string) : Prop := Py.strip s = s.

(** What [_normalize_project_types] leaves of one entry. *)
Definition canonical_type (t : string) : Prop :=
  Py.truthy t = true /\ stripped t /\ Py.upper t = t.

(** A reference the mapper may emit: both fields trimmed and not empty. *)
Definition clean_team (r : OpsgenieTeamRef.t) : Prop :=
  Py.truthy (OpsgenieTeamRef.id r) = true /\ stripped (OpsgenieTeamRef.id r)
  /\ Py.truthy (OpsgenieTeamRef.name r) = true /\ stripped (OpsgenieTeamRef.name r).

(** [r] is read from the first team of [teams] that carries its id. *)
Definition first_with_id (teams : list OpsgenieTeamNode.t) (r : OpsgenieTeamRef.t) : Prop :=
  exists before t after,
    teams = (before ++ t :: after)%list
    /\ Py.strip (OpsgenieTeamNode.id t) = OpsgenieTeamRef.id r
    /\ Py.strip (OpsgenieTeamNode.name t) = OpsgenieTeamRef.name r
    /\ Forall (fun u => Py.strip (OpsgenieTeamNode.id u) <> OpsgenieTeamRef.id r) before.

Definition team_node (id name : string) : OpsgenieTeamNode.t :=
  {| OpsgenieTeamNode.id := id; OpsgenieTeamNode.name := name |}.

Definition mapper_project : JiraProjectNode.t :=
  {| JiraProjectNode.id := Some "projA"; JiraProjectNode.key := "  KEY  ";
     JiraProjectNode.name := "  Name  ";
     JiraProjectNode.opsgenie_teams :=
       {| OpsgenieTeamsConnection.page_info :=
            {| PageInfo.has_next_page := false; PageInfo.end_cursor := None |};
          OpsgenieTeamsConnection.edges := [] |} |}.

Definition mapper_teams : list OpsgenieTeamNode.t :=
  [team_node "  t1 " " Team 1 "; team_node "t1" "Team 1 duplicate"; team_node "t2" "Team 2"].

Definition mapper_item : CanonicalProjectWithOpsgenieTeams.t :=
  {| CanonicalProjectWithOpsgenieTeams.project :=
       {| JiraProject.cloud_id := "cloud"; JiraProject.key := "KEY";
          JiraProject.name := "Name"; JiraProject.type := None |};
     CanonicalProjectWithOpsgenieTeams.opsgenie_teams :=
       [{| OpsgenieTeamRef.id := "t1"; OpsgenieTeamRef.name := "Team 1" |};
        {| OpsgenieTeamRef.id := "t2"; OpsgenieTeamRef.name := "Team 2" |}] |}.

(** The shape [_normalize_project_type] gives a type key: upper case, with
    neither hyphen nor blank. *)
Definition normal_type (ty : string) : Prop :=
  Forall (fun a => a <> "-"%char /\ a <> " "%char /\ Py.upper_char a = a)
    (list_ascii_of_string ty).

(** What [iter_projects_via_rest] may yield for the requested [types]. *)
Definition requested_project (cloud_id : string) (types : gset string)
    (item : CanonicalProjectWithOpsgenieTeams.t) : Prop :=
  CanonicalProjectWithOpsgenieTeams.opsgenie_teams item = []
  /\ JiraProject.cloud_id (CanonicalProjectWithOpsgenieTeams.project item) = cloud_id
  /\ exists ty,
       JiraProject.type (CanonicalProjectWithOpsgenieTeams.project item) = Some ty
       /\ ty ∈ types /\ normal_type ty.

(** [s'] extends [s] by events whose yields all satisfy [P]. *)
Definition yields_only {Req Item W} (P : Item -> Prop) (s s' : Run Req Item W) : Prop :=
  exists new, emitted s' = (new ++ emitted s)%list /\ Forall P (yields_of new).

(** A sleep of the back-off: positive and at most the ceiling. *)
Definition backoff_sleep (max_wait : Z) (s : Q) : Prop :=
  (0 < s)%Q /\ (s <= inject_Z max_wait)%Q.

(** [w'] continues [w] with at most [p] exchanges; when the token bucket
    satisfies [G] ([G] is kept), with at most [k] sleeps, each a back-off
    sleep. *)
Definition within (G : option TokenBucket -> Prop) (max_wait : Z) (p k : nat)
    (w w' : World) : Prop :=
  transport w' = transport w
  /\ exists new,
       log w' = (new ++ log w)%list
       /\ (posts new <= p)%nat
       /\ (G (bucket w) ->
           G (bucket w')
           /\ (length (sleeps new) <= k)%nat
           /\ Forall (backoff_sleep max_wait) (sleeps new)).

(** The local throttle is off. *)
Definition throttle_off (b : option TokenBucket) : Prop := b = None.

(** No condition on the token bucket. *)
Definition any_bucket (b : option TokenBucket) : Prop := True.

(** The attempts left to a loop that has made [retries] retries. *)
Definition retries_left (max_retries : Z) (retries : nat) : nat :=
  Z.to_nat (max_retries - Z.of_nat retries).

(** The response a returned value was decoded from: the answer to the last
    exchange of the call, which is the last thing the call did. *)
Definition answered_last (w w' : World) (response : Response) : Prop :=
  exists earlier,
    log w' = EvPost :: earlier
    /\ transport w (posts earlier) = Responded response
    /\ status_code response < 400
    /\ status_code response <> 429.

(** The members of a decoded body that [execute] hands back. *)
Definition member (key : string) (body : Json) : Json :=
  match body with JDict d => dict_get key d | _ => JNull end.

(** The slice of [items] a request for [page_size] items from [start_at] is
    owed. *)
Definition slice {A} (items : list A) (page_size start_at : Z) : list A :=
  take (Z.to_nat page_size) (drop (Z.to_nat start_at) items).

(** Paging data that agree with the table: a total that is not negative is
    the size of the table, an is-last flag says whether the slice ends it. *)
Definition consistent_paging (size page_size start_at : Z) (total : option Z)
    (is_last : option bool) : Prop :=
  (forall t, total = Some t -> 0 <= t -> t = size)
  /\ (forall b, is_last = Some b -> b = (size <=? start_at + Z.min page_size (size - start_at))).

(** The projects [iter_projects_via_rest] owes for [items]. *)
Fixpoint selected (cloud_id : string) (types : gset string) (items : list RestProject.t)
    : list CanonicalProjectWithOpsgenieTeams.t :=
  match items with
  | [] => []
  | item :: rest =>
    match map_rest_project cloud_id item with
    | inr project =>
      match JiraProject.type project with
      | Some ty =>
        if bool_decide (ty ∈ types) then
          {| CanonicalProjectWithOpsgenieTeams.project := project;
             CanonicalProjectWithOpsgenieTeams.opsgenie_teams := [] |}
          :: selected cloud_id types rest
        else selected cloud_id types rest
      | None => selected cloud_id types rest
      end
    | inl _ => selected cloud_id types rest
    end
  end.

Definition mappable (cloud_id : string) (item : RestProject.t) : Prop :=
  exists project, map_rest_project cloud_id item = inr project.

Section ServedProjectsTerms.

Context {api : JiraRestApi} {W : Type} {client : RestClient W}.

(** The client answers every request for a page of projects with the slice
    of [items] asked for and consistent paging data. *)
Definition serves_projects (items : list RestProject.t) (page_size : Z) : Prop :=
  forall start_at (s : Run RestRequest CanonicalProjectWithOpsgenieTeams.t W),
    0 <= start_at <= len items ->
    exists payload s0 page,
      call get_json (project_search page_size start_at) s = (Return payload, s0)
      /\ PageBeanProject_from_dict payload "data" = inr page
      /\ PageBeanProject.values page = slice items page_size start_at
      /\ consistent_paging (len items) page_size start_at
           (PageBeanProject.total page) (PageBeanProject.is_last page).

End ServedProjectsTerms.

(** The words a bearer prefix can be: "bearer " in any case. *)
Definition bearer_prefix (p : string) : Prop := Str.lower p = "bearer ".

(** [s] holds no character [c]. *)
Definition free_of (c : ascii) (s : string) : Prop := ~ In c (list_ascii_of_string s).

(** A name as [_env_experimental_apis] returns it. *)
Definition api_name (s : string) : Prop :=
  Py.truthy s = true /\ stripped s /\ free_of "," s.

(** A string that does not end with a slash. *)
Definition no_trailing_slash (s : string) : Prop := rstrip_slash s = s.

(** The endpoint of the site [site] under one of the three suffixes. *)
Definition endpoint_of (site suffix : string) : Prop :=
  suffix = "/gateway/api/graphql"
  \/ suffix = "/gateway/api"
  \/ (suffix = "/graphql" /\ Str.endswith site "/gateway/api" = false).

(** The settings the constructor checks, as they stand in the object. *)
Definition well_formed (self : OAuthRefreshTokenAuth.t) : Prop :=
  OAuth.blank (OAuthRefreshTokenAuth._client_id self) = false
  /\ OAuth.blank (OAuthRefreshTokenAuth._client_secret self) = false
  /\ OAuth.blank (OAuthRefreshTokenAuth._refresh_token self) = false
  /\ OAuth.blank (OAuthRefreshTokenAuth._token_url self) = false
  /\ (match OAuthRefreshTokenAuth._timeout_seconds self with
      | None => true
      | Some s => Qle_bool s 0
      end) = false.

(** The messages of the argument checks of [refresh_access_token]. *)
Definition argument_checks : list string :=
  ["client_id is required"; "client_secret is required"; "refresh_token is required";
   "token_url is required"; "timeout_seconds must be > 0"].

(** A failure of one of these checks. *)
Definition argument_error (e : Exception) : Prop :=
  exists msg, In msg argument_checks /\ e = Library (ValueError msg).

(** The token in hand is still good at time [now]. *)
Definition fresh_at (self : OAuthRefreshTokenAuth.t) (token : string) (now : Q) : Prop :=
  OAuthRefreshTokenAuth._access_token self = Some token
  /\ Py.truthy token = true
  /\ exists expires_at,
       OAuthRefreshTokenAuth._expires_at self = Some expires_at
       /\ (now + inject_Z (OAuthRefreshTokenAuth._refresh_margin self) < expires_at)%Q.

(** The object after a refresh at time [now] that brought [token]. *)
Definition refreshed (self : OAuthRefreshTokenAuth.t) (now : Q) (token : OAuth.OAuthToken)
    (self' : OAuthRefreshTokenAuth.t) : Prop :=
  OAuthRefreshTokenAuth._access_token self' = Some (OAuth.access_token token)
  /\ OAuthRefreshTokenAuth._expires_at self'
     = Some (now + inject_Z (Z.max 0 (OAuth.expires_in token)))%Q
  /\ OAuthRefreshTokenAuth._refresh_token self'
     = (match OAuth.refresh_token token with
        | Some rotated => if Py.truthy rotated then rotated
                          else OAuthRefreshTokenAuth._refresh_token self
        | None => OAuthRefreshTokenAuth._refresh_token self
        end)
  /\ OAuthRefreshTokenAuth._refresh_margin self' = OAuthRefreshTokenAuth._refresh_margin self.

(** The endpoint was asked once more, with the refresh token of [self]. *)
Definition asked_once (self : OAuthRefreshTokenAuth.t) (w w' : OAuth.Endpoint) : Prop :=
  w' = {| OAuth.clock := OAuth.clock w; OAuth.answers := OAuth.answers w;
          OAuth.posted :=
            (Py.strip (OAuthRefreshTokenAuth._token_url self),
             [("grant_type", "refresh_token");
              ("client_id", Py.strip (OAuthRefreshTokenAuth._client_id self));
              ("client_secret", Py.strip (OAuthRefreshTokenAuth._client_secret self));
              ("refresh_token", Py.strip (OAuthRefreshTokenAuth._refresh_token self))])
            :: OAuth.posted w |}.

(** A string a mapper lets through: trimmed and not empty. *)
Definition clean (s : string) : Prop := Py.truthy s = true /\ stripped s.

Definition clean_opt (s : option string) : Prop :=
  match s with Some s' => clean s' | None => True end.

Definition clean_user (u : option JiraUser.t) : Prop :=
  match u with
  | Some u' =>
    clean (JiraUser.account_id u') /\ clean (JiraUser.display_name u')
    /\ clean_opt (JiraUser.email u')
  | None => True
  end.

(** An exception of the validation kind. *)
Definition is_value_error (e : Error) : Prop :=
  match e with ValueError _ => True | _ => False end.

(** A change whose field name is present and not blank. *)
Definition names_field (item : ChangeDetails.t) : Prop :=
  exists raw, ChangeDetails.field item = Some raw /\ Py.truthy (Py.strip raw) = true.

(** The canonical item of a change. *)
Definition item_of (src : ChangeDetails.t) (dst : JiraChangelogItem.t) : Prop :=
  clean (JiraChangelogItem.field dst)
  /\ Some (JiraChangelogItem.field dst) = option_map Py.strip (ChangeDetails.field src)
  /\ JiraChangelogItem.from_value dst = RestMappers.stripped_or_none (ChangeDetails.from_value src)
  /\ JiraChangelogItem.to_value dst = RestMappers.stripped_or_none (ChangeDetails.to_value src)
  /\ JiraChangelogItem.from_string dst
     = RestMappers.stripped_or_none (ChangeDetails.from_string src)
  /\ JiraChangelogItem.to_string dst
     = RestMappers.stripped_or_none (ChangeDetails.to_string src).

(** The list a field of the issue holds: none when the field is absent. *)
Definition listed (fields : list (string * Json)) (key : string) : list Json :=
  match dict_get key fields with JList items => items | _ => [] end.

(** A reader whose result, when it has one, does not depend on the path it
    is given, and whose failures are of the serialization kind. *)
Definition reader {A} (read : Json -> string -> Error + A) : Prop :=
  (forall obj p1 p2 a, read obj p1 = inr a -> read obj p2 = inr a)
  /\ (forall obj p e, read obj p = inl e -> exists msg, e = SerializationError msg).

Section ServedIssuesTerms.

Context {api : JiraRestApi} {W : Type} {client : RestClient W}.

(** The client answers every search with the slice of [items] asked for
    and a total that, when it is not negative, is their number. *)
Definition serves_issues (items : list IssueBean) (jql fields : string) (page_size : Z)
    : Prop :=
  forall start_at (s : Run RestRequest JiraIssue W),
    0 <= start_at <= len items ->
    exists payload s0 page,
      call get_json (issue_search jql fields page_size start_at) s = (Return payload, s0)
      /\ SearchResults_from_dict payload "data" = inr page
      /\ SearchResults.issues page = slice items page_size start_at
      /\ forall t, SearchResults.total page = Some t -> 0 <= t -> t = len items.

End ServedIssuesTerms.

(** The request of [iter_issue_worklogs_via_rest] for the page at [start_at]. *)
Definition worklog_request (issue_key : string) (page_size start_at : Z) : RestRequest :=
  {| rest_path := "/rest/api/3/issue/" +:+ issue_key +:+ "/worklog";
     params := [("startAt", JInt start_at); ("maxResults", JInt page_size)] |}.

Section ServedWorklogsTerms.

Context {W : Type} {client : RestClient W}.

(** The client answers every request for a page of worklogs with a body
    that reads as the slice of [items] asked for, with a total that, when
    it is not negative, is their number. *)
Definition serves_worklogs (items : list Worklog.t) (issue_key : string) (page_size : Z)
    : Prop :=
  forall start_at (s : Run RestRequest JiraWorklog.t W),
    0 <= start_at <= len items ->
    exists payload s0 page,
      call get_json (worklog_request issue_key page_size start_at) s = (Return payload, s0)
      /\ PageOfWorklogs.from_dict payload "data" = inr page
      /\ PageOfWorklogs.worklogs page = slice items page_size start_at
      /\ forall t, PageOfWorklogs.total page = Some t -> 0 <= t -> t = len items.

End ServedWorklogsTerms.

Section ServedPagesTerms.

Context {api : JiraProjectsApi} {W : Type} {client : Executor W}.

(** The client answers the request for the page after [after] with [page],
    in every state. *)
Definition serves_page (query cloud_id : string) (page_size : Z)
    (apis : option (list string)) (after : option string)
    (page : JiraProjectsPageData.t) : Prop :=
  forall s : Run GraphQLRequest CanonicalProjectWithOpsgenieTeams.t W,
    exists s0,
      served parse_jira_projects_page
        (projects_request query cloud_id page_size apis after) s page s0.

(** A chain of pages, from the one after [after] on: each is served for the
    cursor selected on the one before, and the last selects none. *)
Fixpoint serves_chain (query cloud_id : string) (page_size : Z)
    (apis : option (list string)) (after : option string)
    (pages : list JiraProjectsPageData.t) : Prop :=
  match pages with
  | [] => False
  | page :: rest =>
    serves_page query cloud_id page_size apis after page
    /\ match rest with
       | [] => projects_next page = inr None
       | _ =>
         exists next,
           projects_next page = inr (Some next)
           /\ serves_chain query cloud_id page_size apis (Some next) rest
       end
  end.

(** The cursors the pages of a chain select, in order. *)
Fixpoint selected_cursors (pages : list JiraProjectsPageData.t) : list string :=
  match pages with
  | [] => []
  | page :: rest =>
    match projects_next page with
    | inr (Some next) => next :: selected_cursors rest
    | _ => selected_cursors rest
    end
  end.

Definition edges_of (pages : list JiraProjectsPageData.t) : list JiraProjectEdge.t :=
  concat (List.map (fun page => JiraProjectsConnection.edges (JiraProjectsPageData.projects page))
            pages).

(** An edge whose teams all came with the page, and the record it maps to. *)
Definition whole_edge (cloud_id : string) (edge : JiraProjectEdge.t)
    (item : CanonicalProjectWithOpsgenieTeams.t) : Prop :=
  has_next (JiraProjectNode.opsgenie_teams (JiraProjectEdge.node edge)) = false
  /\ map_project_with_opsgenie_teams cloud_id (JiraProjectEdge.node edge)
       (nodes_of (JiraProjectNode.opsgenie_teams (JiraProjectEdge.node edge))) = inr item.

End ServedPagesTerms.

(** Test doubles for the offset paginators: a server that holds a table of
    rows and answers a read with the rows asked for, under [key], and their
    number as total. *)
Definition table_rest (key : string) (rows : list Json) : RestClient unit :=
  fun r w =>
    match dict_get "startAt" (params r), dict_get "maxResults" (params r) with
    | JInt start_at, JInt max_results =>
      (Return (JDict [("startAt", JInt start_at); ("maxResults", JInt max_results);
                      ("total", JInt (len rows));
                      (key, JList (slice rows max_results start_at))]), w)
    | _, _ => (Raise (TransportError 400 "Bad Request"), w)
    end.

(** The three projects of the unit test of the REST paginator. *)
Definition project_row (key name type : string) : Json :=
  JDict [("key", JStr key); ("name", JStr name); ("projectTypeKey", JStr type)].

Definition table_project (key name type : string) : RestProject.t :=
  {| RestProject.id := None; RestProject.key := Some key; RestProject.name := Some name;
     RestProject.project_type_key := Some type |}.

Definition project_table : list (string * string * string) :=
  [("A", " Project A ", "software"); ("B", "Project B", "business");
   ("C", "Project C", "software")].

Definition project_rows : list Json :=
  List.map (fun '(key, name, type) => project_row key name type) project_table.

Definition table_projects : list RestProject.t :=
  List.map (fun '(key, name, type) => table_project key name type) project_table.

Definition software_project (key name : string) : CanonicalProjectWithOpsgenieTeams.t :=
  {| CanonicalProjectWithOpsgenieTeams.project :=
       {| JiraProject.cloud_id := "cloud-123"; JiraProject.key := key;
          JiraProject.name := name; JiraProject.type := Some "SOFTWARE" |};
     CanonicalProjectWithOpsgenieTeams.opsgenie_teams := [] |}.

(** The three issues of the unit test of the issue search. *)
Definition issue_fields (type status created updated : string) (more : list (string * Json))
    : list (string * Json) :=
  ([("project", JDict [("key", JStr "A")]); ("issuetype", JDict [("name", JStr type)]);
    ("status", JDict [("name", JStr status)]); ("created", JStr created);
    ("updated", JStr updated)] ++ more)%list.

Definition issue_table : list (string * string * list (string * Json)) :=
  [("1", "A-1",
    issue_fields "Bug" "Done" "2021-01-01T00:00:00.000+0000" "2021-01-02T00:00:00.000+0000"
      [("labels", JList [JStr "l1"]); ("components", JList [JDict [("name", JStr "Comp1")]])]);
   ("2", "A-2",
    issue_fields "Task" "To Do" "2021-01-03T00:00:00.000+0000" "2021-01-04T00:00:00.000+0000"
      [("assignee", JDict [("accountId", JStr "u1"); ("displayName", JStr "User 1")]);
       ("reporter", JDict [("accountId", JStr "u2"); ("displayName", JStr "User 2")])]);
   ("3", "A-3",
    issue_fields "Story" "In Progress" "2021-01-05T00:00:00.000+0000"
      "2021-01-06T00:00:00.000+0000"
      [("resolutiondate", JStr "2021-01-07T00:00:00.000+0000")])].

Definition issue_rows : list Json :=
  List.map (fun '(id, key, fields) =>
              JDict [("id", JStr id); ("key", JStr key); ("fields", JDict fields)])
    issue_table.

Definition table_issues : list IssueBean.t :=
  List.map (fun '(id, key, fields) =>
              {| IssueBean.id := Some id; IssueBean.key := Some key;
                 IssueBean.fields := fields |})
    issue_table.

Definition issue_A_2 : IssueBean.t :=
  {| IssueBean.id := Some "2"; IssueBean.key := Some "A-2";
     IssueBean.fields :=
       issue_fields "Task" "To Do" "2021-01-03T00:00:00.000+0000"
         "2021-01-04T00:00:00.000+0000"
         [("assignee", JDict [("accountId", JStr "u1"); ("displayName", JStr "User 1")]);
          ("reporter", JDict [("accountId", JStr "u2"); ("displayName", JStr "User 2")])] |}.

(** The two worklogs of the unit test of the worklog paginator. *)
Definition worklog_rows : list Json :=
  [JDict [("id", JStr "200");
          ("author", JDict [("accountId", JStr "u1"); ("displayName", JStr "User 1")]);
          ("started", JStr "2021-01-02T00:00:00.000+0000");
          ("timeSpentSeconds", JInt 60);
          ("created", JStr "2021-01-02T00:00:00.000+0000");
          ("updated", JStr "2021-01-02T00:00:00.000+0000")];
   JDict [("id", JStr "201");
          ("started", JStr "2021-01-03T00:00:00.000+0000");
          ("timeSpentSeconds", JInt 120);
          ("created", JStr "2021-01-03T00:00:00.000+0000");
          ("updated", JStr "2021-01-03T00:00:00.000+0000")]].

Definition worklog_200 : Worklog.t :=
  {| Worklog.id := Some "200"; Worklog.started := Some "2021-01-02T00:00:00.000+0000";
     Worklog.time_spent_seconds := Some 60;
     Worklog.created := Some "2021-01-02T00:00:00.000+0000";
     Worklog.updated := Some "2021-01-02T00:00:00.000+0000";
     Worklog.author :=
       Some {| UserDetails.account_id := Some "u1";
               UserDetails.display_name := Some "User 1";
               UserDetails.email_address := None |} |}.

Definition worklog_201 : Worklog.t :=
  {| Worklog.id := Some "201"; Worklog.started := Some "2021-01-03T00:00:00.000+0000";
     Worklog.time_spent_seconds := Some 120;
     Worklog.created := Some "2021-01-03T00:00:00.000+0000";
     Worklog.updated := Some "2021-01-03T00:00:00.000+0000";
     Worklog.author := None |}.

Definition table_worklogs : list Worklog.t := [worklog_200; worklog_201].

(** A changelog entry with one change of status. *)
Definition status_change : Changelog.t :=
  {| Changelog.id := Some " 100 "; Changelog.created := Some "2021-01-02T00:00:00.000+0000";
     Changelog.author := None;
     Changelog.items :=
       [{| ChangeDetails.field := Some " status "; ChangeDetails.from_value := Some "1";
           ChangeDetails.to_value := Some "2"; ChangeDetails.from_string := Some "To Do";
           ChangeDetails.to_string := Some " " |}] |}.

(** A GraphQL server that answers with the cursor it was sent, and an API
    that reads the first page for no cursor and the second for "P1"; no
    project of either page has more teams to fetch. *)
Definition cursor_graphql : Executor unit :=
  fun req w =>
    (Return {| data := JDict [("after", dict_get "after" (variables req))];
               errors := None; extensions := JNull |}, w).

Definition page_B : JiraProjectsPageData.t := demo_page true (Some "P1") [edge_B].

Definition cursor_api : JiraProjectsApi :=
  {| PAGEINFO_HAS_END_CURSOR := true;
     PROJECTS_EDGE_HAS_CURSOR := true;
     OPSGENIE_EDGE_HAS_CURSOR := true;
     REFETCH_STRATEGY := "jira";
     JIRA_PROJECT_OPSGENIE_TEAMS_PAGE_QUERY := "query JiraProjectOpsgenieTeamsPage";
     build_jira_projects_page_query := fun _ => inr "query JiraProjectsPage";
     parse_jira_projects_page := fun data =>
       match data with
       | JDict d =>
         match dict_get "after" d with
         | JNull => inr page_B
         | JStr cursor =>
           if String.eqb cursor "P1" then inr page_2
           else inl (SerializationError "Missing data.jira")
         | _ => inl (SerializationError "Missing data.jira")
         end
       | _ => inl (SerializationError "Expected object at data")
       end;
     parse_project_opsgenie_teams := fun _ =>
       inl (SerializationError "Expected object at data") |}.

(** The provider and the token endpoint of the unit test of the refreshing
    provider, and both after the first use. *)
Definition test_provider : OAuthRefreshTokenAuth.t :=
  {| OAuthRefreshTokenAuth._client_id := "client-id";
     OAuthRefreshTokenAuth._client_secret := "client-secret";
     OAuthRefreshTokenAuth._token_url := "https://example.com/oauth/token";
     OAuthRefreshTokenAuth._timeout_seconds := Some 30%Q;
     OAuthRefreshTokenAuth._refresh_margin := 60;
     OAuthRefreshTokenAuth._access_token := None;
     OAuthRefreshTokenAuth._expires_at := None;
     OAuthRefreshTokenAuth._refresh_token := "refresh-token" |}.

Definition token_answers : nat -> Exchange :=
  fun _ =>
    Responded {| status_code := 200; retry_after_header := None; text := "";
                 json := Some (JDict [("access_token", JStr "access-1");
                                      ("token_type", JStr "Bearer");
                                      ("expires_in", JInt 3600)]) |}.

Definition token_endpoint : OAuth.Endpoint :=
  {| OAuth.clock := 0; OAuth.answers := token_answers; OAuth.posted := [] |}.

Definition provider_after : OAuthRefreshTokenAuth.t :=
  {| OAuthRefreshTokenAuth._client_id := "client-id";
     OAuthRefreshTokenAuth._client_secret := "client-secret";
     OAuthRefreshTokenAuth._token_url := "https://example.com/oauth/token";
     OAuthRefreshTokenAuth._timeout_seconds := Some 30%Q;
     OAuthRefreshTokenAuth._refresh_margin := 60;
     OAuthRefreshTokenAuth._access_token := Some "access-1";
     OAuthRefreshTokenAuth._expires_at := Some (0 + inject_Z 3600)%Q;
     OAuthRefreshTokenAuth._refresh_token := "refresh-token" |}.

Definition endpoint_after : OAuth.Endpoint :=
  {| OAuth.clock := 0; OAuth.answers := token_answers;
     OAuth.posted :=
       [("https://example.com/oauth/token",
         [("grant_type", "refresh_token"); ("client_id", "client-id");
          ("client_secret", "client-secret"); ("refresh_token", "refresh-token")])] |}.

(** A token endpoint that refuses the refresh token, before and after it
    was asked. *)
Definition refusing_answers : nat -> Exchange :=
  fun _ =>
    Responded {| status_code := 401; retry_after_header := None; text := "unauthorized";
                 json := None |}.

Definition refusing_endpoint : OAuth.Endpoint :=
  {| OAuth.clock := 0; OAuth.answers := refusing_answers; OAuth.posted := [] |}.

Definition refused_endpoint : OAuth.Endpoint :=
  {| OAuth.clock := 0; OAuth.answers := refusing_answers;
     OAuth.posted :=
       [("https://example.com/oauth/token",
         [("grant_type", "refresh_token"); ("client_id", "client-id");
          ("client_secret", "client-secret"); ("refresh_token", "refresh-token")])] |}.

(** * Properties *)

(** ** Rational comparisons and string slices *)

Lemma Qlt_bool_true (x y : Q) : Qlt_bool x y = true <-> (x < y)%Q.
Proof.
  unfold Qlt_bool. rewrite negb_true_iff. split.
  - intros Hb. apply Qnot_le_lt. intros Hle.
    apply Qle_bool_iff in Hle. congruence.
  - intros Hlt. destruct (Qle_bool y x) eqn:E; [|reflexivity].
    apply Qle_bool_iff in E. exfalso. exact (Qlt_not_le _ _ Hlt E).
Qed.

Lemma Qlt_bool_false (x y : Q) : Qlt_bool x y = false <-> (y <= x)%Q.
Proof.
  unfold Qlt_bool. rewrite negb_false_iff. apply Qle_bool_iff.
Qed.

Lemma Qle_bool_false (x y : Q) : Qle_bool x y = false <-> (y < x)%Q.
Proof.
  rewrite <- Qlt_bool_true. unfold Qlt_bool.
  destruct (Qle_bool x y); simpl; split; congruence.
Qed.

Lemma slice_to_length (n : nat) (s : string) :
  (String.length (Py.slice_to n s) <= n)%nat.
Proof.
  unfold Py.slice_to. revert s.
  induction n as [|n IH]; intros [|a s]; simpl; try lia.
  specialize (IH s). lia.
Qed.

(** ** Invariants carried through a computation *)

Section Carried.

Context {S : Type} (R : S -> S -> Prop).
Hypothesis R_refl : forall s, R s s.
Hypothesis R_trans : forall s1 s2 s3, R s1 s2 -> R s2 s3 -> R s1 s3.

Lemma carries_ret {A} (a : A) : carries R (ret a).
Proof. intros s. apply R_refl. Qed.

Lemma carries_raise {A} (e : Error) : carries R (@raise S A e).
Proof. intros s. apply R_refl. Qed.

Lemma carries_out_of_fuel {A} : carries R (@out_of_fuel S A).
Proof. intros s. apply R_refl. Qed.

Lemma carries_lift {A} (r : Error + A) : carries R (lift r).
Proof. destruct r; [apply carries_raise | apply carries_ret]. Qed.

Lemma carries_bind {A B} (m : Prog S A) (k : A -> Prog S B) :
  carries R m -> (forall a, carries R (k a)) -> carries R (bind m k).
Proof.
  intros Hm Hk s. unfold bind. specialize (Hm s).
  destruct (m s) as [[a|e|] s1]; simpl in *; auto.
  eapply R_trans; [exact Hm | apply Hk].
Qed.

End Carried.

Lemma total_ret {S A} (a : A) : total (@ret S A a).
Proof. intros s. discriminate. Qed.

Lemma total_raise {S A} (e : Error) : total (@raise S A e).
Proof. intros s. discriminate. Qed.

Lemma total_lift {S A} (r : Error + A) : total (@lift S A r).
Proof. destruct r; [apply total_raise | apply total_ret]. Qed.

Lemma total_bind {S A B} (m : Prog S A) (k : A -> Prog S B) :
  total m -> (forall a, total (k a)) -> total (bind m k).
Proof.
  intros Hm Hk s. unfold bind. specialize (Hm s).
  destruct (m s) as [[a|e|] s1]; simpl in *; [apply Hk | discriminate | congruence].
Qed.

(** ** The executor's log only grows *)

Lemma consumed_app (l1 l2 : list Event) :
  consumed (l1 ++ l2) = (consumed l1 ++ consumed l2)%list.
Proof.
  induction l1 as [|[] l1 IH]; simpl; rewrite ?IH; reflexivity.
Qed.

Lemma grows_refl cost w : grows_consuming cost w w.
Proof. exists []. split; [reflexivity | constructor]. Qed.

Lemma grows_trans cost w1 w2 w3 :
  grows_consuming cost w1 w2 -> grows_consuming cost w2 w3 ->
  grows_consuming cost w1 w3.
Proof.
  intros (n1 & E1 & F1) (n2 & E2 & F2). exists (n2 ++ n1)%list. split.
  - rewrite E2, E1. apply app_assoc.
  - rewrite consumed_app. apply Forall_app. split; assumption.
Qed.

Lemma grows_bind cost {A B} (m : IO A) (k : A -> IO B) :
  carries (grows_consuming cost) m ->
  (forall a, carries (grows_consuming cost) (k a)) ->
  carries (grows_consuming cost) (bind m k).
Proof. apply carries_bind. apply grows_trans. Qed.

Lemma grows_ret cost {A} (a : A) : carries (grows_consuming cost) (ret a).
Proof. apply carries_ret. apply grows_refl. Qed.

Lemma grows_raise cost {A} (e : Error) : carries (grows_consuming cost) (@raise World A e).
Proof. apply carries_raise. apply grows_refl. Qed.

Lemma grows_lift cost {A} (r : Error + A) : carries (grows_consuming cost) (lift r).
Proof. apply carries_lift. apply grows_refl. Qed.

Lemma grows_one cost ev w w' :
  log w' = ev :: log w -> Forall (eq cost) (consumed [ev]) ->
  grows_consuming cost w w'.
Proof. intros E F. exists [ev]. split; [exact E | exact F]. Qed.

Lemma now_grows cost : carries (grows_consuming cost) now.
Proof. intros w. apply grows_refl. Qed.

Lemma sleeper_grows cost s : carries (grows_consuming cost) (sleeper s).
Proof. intros w. eapply grows_one; [reflexivity | constructor]. Qed.

Lemma exchange_grows cost : carries (grows_consuming cost) exchange.
Proof. intros w. eapply grows_one; [reflexivity | constructor]. Qed.

Lemma consume_grows cost max_wait b :
  carries (grows_consuming cost) (Throttle.consume cost max_wait b).
Proof.
  intros w. unfold Throttle.consume.
  destruct (Qle_bool _ _); [|destruct (Qlt_bool _ _)]; simpl.
  - eapply grows_one; [reflexivity | repeat constructor].
  - eapply grows_one; [reflexivity | repeat constructor].
  - eexists (_ :: _ :: nil). split; [reflexivity | repeat constructor].
Qed.

Lemma consume_local_budget_grows c cost :
  carries (grows_consuming (inject_Z cost)) (GraphQLClient._consume_local_budget c cost).
Proof.
  intros w. unfold GraphQLClient._consume_local_budget.
  destruct (bucket w) as [b|]; [|apply grows_refl].
  apply grows_bind; [apply consume_grows | intros a; apply grows_ret].
Qed.

Lemma graphql_build_headers_grows cost c apis :
  carries (grows_consuming cost) (GraphQLClient._build_headers c apis).
Proof.
  unfold GraphQLClient._build_headers.
  apply grows_bind; [apply grows_lift|].
  intros h w. eapply grows_one; [reflexivity | constructor].
Qed.

Lemma execute_loop_grows `{RetryParser} `{ErrorItemsParser} fuel c apis cost retries :
  carries (grows_consuming (inject_Z cost))
    (GraphQLClient.execute_loop fuel c apis cost retries).
Proof.
  revert retries. induction fuel as [|fuel IH]; intros retries; simpl.
  - intros w. apply grows_refl.
  - apply grows_bind; [apply consume_local_budget_grows | intros _].
    apply grows_bind; [apply graphql_build_headers_grows | intros _].
    apply grows_bind; [apply exchange_grows | intros answer].
    destruct answer as [msg|response]; [apply grows_raise|].
    destruct (status_code response =? 429).
    + apply grows_bind; [apply now_grows | intros t].
      destruct (parse_retry_after _ _) as [[retry_at label]|]; [|apply grows_raise].
      apply grows_bind; [apply now_grows | intros t'].
      destruct (Qlt_bool _ _); [apply grows_raise|].
      destruct (negb _); [apply grows_raise|].
      apply grows_bind; [|intros _; apply IH].
      destruct (Qlt_bool _ _); [apply sleeper_grows | apply grows_ret].
    + destruct (500 <=? _); [apply grows_raise|].
      destruct (400 <=? _); [apply grows_raise|].
      destruct (json response) as [body|]; [|apply grows_raise].
      destruct (_ && _); [apply grows_raise | apply grows_ret].
Qed.

(** C10.  The cost [execute] hands to the local throttle is normalized:
    an [estimated_cost] of [None] counts as 1, a negative one as 0, so the
    cost is never negative; and every cost the token bucket is asked to
    consume during a call of [execute] is that normalized cost. *)
Theorem execute_cost_normalized :
  GraphQLClient.cost_value None = 1
  /\ (forall n : Z, n < 0 -> GraphQLClient.cost_value (Some n) = 0)
  /\ (forall estimated_cost, 0 <= GraphQLClient.cost_value estimated_cost)
  /\ (forall (P : RetryParser) (E : ErrorItemsParser) c query apis estimated_cost w,
        exists new,
          log (snd (GraphQLClient.execute c query apis estimated_cost w))
            = (new ++ log w)%list
          /\ Forall (eq (inject_Z (GraphQLClient.cost_value estimated_cost)))
               (consumed new)
          /\ Forall (fun q => (0 <= q)%Q) (consumed new)).
Proof.
  assert (Hnonneg : forall e, 0 <= GraphQLClient.cost_value e).
  { intros [n|]; unfold GraphQLClient.cost_value; simpl; [|lia].
    destruct (n <? 0) eqn:E; [lia | apply Z.ltb_ge in E; lia]. }
  split; [reflexivity|]. split; [|split; [exact Hnonneg|]].
  - intros n Hn. unfold GraphQLClient.cost_value.
    apply Z.ltb_lt in Hn. rewrite Hn. reflexivity.
  - intros P E c query apis estimated_cost w.
    assert (G : grows_consuming (inject_Z (GraphQLClient.cost_value estimated_cost)) w
                  (snd (GraphQLClient.execute c query apis estimated_cost w))).
    { unfold GraphQLClient.execute. destruct (_ || _).
      - apply grows_refl.
      - apply execute_loop_grows. }
    destruct G as (new & Hlog & Hall). exists new. repeat split; auto.
    eapply Forall_impl; [exact Hall|].
    intros q <-. specialize (Hnonneg estimated_cost).
    unfold Qle; simpl. lia.
Qed.

(** ** One attempt of each executor *)

Ltac run_graphql_attempt H :=
  destruct H as (?w1 & ?headers & ?w2 & Hconsume & Hbuild & Hanswer & ->);
  cbn [GraphQLClient.execute_loop]; unfold bind at 1; rewrite Hconsume;
  unfold bind at 1; rewrite Hbuild;
  unfold bind at 1; unfold exchange at 1; rewrite <- Hanswer.

Ltac run_rest_attempt H :=
  destruct H as (?headers & ?w2 & Hbuild & Hanswer & ->);
  cbn [JiraRestClient.get_json_loop]; unfold bind at 1; rewrite Hbuild;
  unfold bind at 1; unfold exchange at 1; rewrite <- Hanswer.

(** [JiraRestClient._parse_retry_after] reads the clock and nothing else. *)
Lemma rest_parse_retry_after_pure `{RetryParser} header w :
  snd (JiraRestClient._parse_retry_after header w) = w
  /\ exists parsed, fst (JiraRestClient._parse_retry_after header w) = Return parsed.
Proof.
  unfold JiraRestClient._parse_retry_after.
  destruct header as [h|]; [|split; [reflexivity | eexists; reflexivity]].
  destruct (negb _); [split; [reflexivity | eexists; reflexivity]|].
  destruct (Py.isdigit _); split; try reflexivity; eexists; reflexivity.
Qed.

Lemma clamped_wait_positive (computed_wait : Q) :
  Qlt_bool 0 (if Qle_bool computed_wait 0 then 0%Q else computed_wait)
  = Qlt_bool 0 computed_wait.
Proof.
  destruct (Qle_bool computed_wait 0) eqn:E; [|reflexivity].
  transitivity false; [reflexivity|]. symmetry.
  apply Qlt_bool_false. apply Qle_bool_iff. exact E.
Qed.

Lemma clamped_wait_value (computed_wait : Q) :
  Qlt_bool 0 computed_wait = true ->
  (if Qle_bool computed_wait 0 then 0%Q else computed_wait) = computed_wait.
Proof.
  intros Hpos. destruct (Qle_bool computed_wait 0) eqn:E; [|reflexivity].
  apply Qlt_bool_true in Hpos. apply Qle_bool_iff in E.
  exfalso. exact (Qlt_not_le _ _ Hpos E).
Qed.

Lemma sleep_if_positive {A} (computed_wait : Q) (k : IO A) (w : World) :
  bind (if Qlt_bool 0 (if Qle_bool computed_wait 0 then 0%Q else computed_wait)
        then sleeper (if Qle_bool computed_wait 0 then 0%Q else computed_wait)
        else ret tt) (fun _ => k) w
  = k (if Qlt_bool 0 computed_wait then snd (sleeper computed_wait w) else w).
Proof.
  rewrite clamped_wait_positive.
  destruct (Qlt_bool 0 computed_wait) eqn:E; [|reflexivity].
  rewrite (clamped_wait_value _ E). reflexivity.
Qed.

(** C1.  A 429 response whose [Retry-After] parses, in either client: a
    computed wait above [max_wait_seconds] fails with a [RateLimitError]
    that carries the computed wait and [max_wait_seconds], whatever the
    retries left; otherwise, once the retries made have reached
    [max_retries_429], it fails with a [RateLimitError] that carries the
    computed wait and no [max_wait_seconds]; otherwise the loop sleeps
    (the computed wait, when positive) and goes round again with one more
    retry counted. *)
Theorem rate_limit_precedence :
  (forall (P : RetryParser) (E : ErrorItemsParser) c apis cost fuel retries w
          response w' retry_at label,
      graphql_attempt c apis cost w (Responded response) w' ->
      status_code response = 429 ->
      parse_retry_after (retry_after_header response) (clock w') = Some (retry_at, label) ->
      rate_limit_decision (GraphQLClient.max_wait_seconds c)
        (GraphQLClient.max_retries_429 c) retries (retry_after_header response)
        retry_at (retry_at - clock w')%Q w'
        (GraphQLClient.execute_loop (S fuel) c apis cost retries w)
        (GraphQLClient.execute_loop fuel c apis cost (S retries)))
  /\ (forall (P : RetryParser) c fuel retries w response w' retry_at label,
      rest_attempt c w (Responded response) w' ->
      status_code response = 429 ->
      fst (JiraRestClient._parse_retry_after (retry_after_header response) w')
        = Return (Some (retry_at, label)) ->
      rate_limit_decision (JiraRestClient.max_wait_seconds c)
        (JiraRestClient.max_retries_429 c) retries (retry_after_header response)
        retry_at (retry_at - clock w')%Q w'
        (JiraRestClient.get_json_loop (S fuel) c retries w)
        (JiraRestClient.get_json_loop fuel c (S retries))).
Proof.
  split.
  - intros P E c apis cost fuel retries w response w' retry_at label Hatt Hst Hparse.
    run_graphql_attempt Hatt. simpl in Hparse.
    rewrite Hst. cbn [Z.eqb Pos.eqb].
    unfold bind at 1, now at 1. cbn [clock record]. rewrite Hparse.
    unfold bind at 1, now at 1. cbn [clock record].
    repeat split.
    + intros Hover. apply Qlt_bool_true in Hover. rewrite Hover. reflexivity.
    + intros Hcap Hmax. apply Qlt_bool_false in Hcap. rewrite Hcap.
      apply Z.ltb_ge in Hmax. rewrite Hmax. reflexivity.
    + intros Hcap Hmax. apply Qlt_bool_false in Hcap. rewrite Hcap.
      apply Z.ltb_lt in Hmax. rewrite Hmax. cbn [negb].
      apply sleep_if_positive.
  - intros P c fuel retries w response w' retry_at label Hatt Hst Hparse.
    run_rest_attempt Hatt.
    rewrite Hst. cbn [Z.eqb Pos.eqb].
    unfold bind at 1.
    destruct (rest_parse_retry_after_pure (retry_after_header response) (record EvPost w2))
      as [Hw _].
    destruct (JiraRestClient._parse_retry_after _ _) as [r wp]. simpl in Hw, Hparse.
    subst wp r.
    unfold bind at 1, now at 1. cbn [clock record].
    repeat split.
    + intros Hover. apply Qlt_bool_true in Hover. rewrite Hover. reflexivity.
    + intros Hcap Hmax. apply Qlt_bool_false in Hcap. rewrite Hcap.
      apply Z.ltb_ge in Hmax. rewrite Hmax. reflexivity.
    + intros Hcap Hmax. apply Qlt_bool_false in Hcap. rewrite Hcap.
      apply Z.ltb_lt in Hmax. rewrite Hmax. cbn [negb].
      apply sleep_if_positive.
Qed.

(** ** Test doubles for the concrete runs *)

(** ** Failures that are not retried *)

(** C7, as the code has it.  A 429 response whose [Retry-After] is missing,
    empty or not parseable fails at once, in either client: no sleep, no
    further exchange, and a [RateLimitError] with [retry_after=None], the
    attempt number, no wait fields and [header_value] set to the header as
    it was received ([None] only when the header is missing).  The parse
    failure itself never leaves the executor. *)
Theorem unparseable_retry_after_fails :
  (forall (P : RetryParser) (E : ErrorItemsParser) c apis cost fuel retries w response w',
      graphql_attempt c apis cost w (Responded response) w' ->
      status_code response = 429 ->
      parse_retry_after (retry_after_header response) (clock w') = None ->
      GraphQLClient.execute_loop (S fuel) c apis cost retries w
      = (Raise (RateLimitError None (S retries) (retry_after_header response) None None),
         w'))
  /\ (forall (P : RetryParser) c fuel retries w response w',
      rest_attempt c w (Responded response) w' ->
      status_code response = 429 ->
      fst (JiraRestClient._parse_retry_after (retry_after_header response) w')
        = Return None ->
      JiraRestClient.get_json_loop (S fuel) c retries w
      = (Raise (RateLimitError None (S retries) (retry_after_header response) None None),
         w'))
  /\ (forall (P : RetryParser) header w,
      header = None \/ (exists s, header = Some s /\ Py.strip s = "") ->
      fst (JiraRestClient._parse_retry_after header w) = Return None).
Proof.
  split; [|split].
  - intros P E c apis cost fuel retries w response w' Hatt Hst Hparse.
    run_graphql_attempt Hatt. simpl in Hparse.
    rewrite Hst. cbn [Z.eqb Pos.eqb].
    unfold bind at 1, now at 1. cbn [clock record]. rewrite Hparse. reflexivity.
  - intros P c fuel retries w response w' Hatt Hst Hparse.
    run_rest_attempt Hatt.
    rewrite Hst. cbn [Z.eqb Pos.eqb].
    unfold bind at 1.
    destruct (rest_parse_retry_after_pure (retry_after_header response) (record EvPost w2))
      as [Hw _].
    destruct (JiraRestClient._parse_retry_after _ _) as [r wp]. simpl in Hw, Hparse.
    subst wp r. reflexivity.
  - intros P header w [-> | (s & -> & Hs)]; [reflexivity|].
    unfold JiraRestClient._parse_retry_after. rewrite Hs. reflexivity.
Qed.

(** C7 as stated does not hold: an unsupported header value is carried
    by the error, [header_value] is not [None] (the run of the unit test
    [test_raises_rate_limit_error_on_invalid_retry_after]). *)
Lemma invalid_retry_after_keeps_header :
  fst (@GraphQLClient.execute demo_parser demo_error_items (demo_graphql 0 60)
         "query { ok }" None None
         (demo_world 0 None (demo_response 429 (Some "invalid") None) demo_ok))
  = Raise (RateLimitError None 1 (Some "invalid") None None)
  /\ Some "invalid" <> (None : option string).
Proof. split; [vm_compute; reflexivity | discriminate]. Qed.

(** C8, as the code has it.  In either client a response with status 400
    or more, other than 429, fails at once with a [TransportError] that
    carries the status and the first 200 characters of the body; a failure
    of the transport itself fails at once with a [TransportError] of status
    0 that carries the text of the exception.  In both cases the loop ends
    right after that one exchange. *)
Theorem transport_errors_not_retried :
  (forall (P : RetryParser) (E : ErrorItemsParser) c apis cost fuel retries w response w',
      graphql_attempt c apis cost w (Responded response) w' ->
      400 <= status_code response -> status_code response <> 429 ->
      GraphQLClient.execute_loop (S fuel) c apis cost retries w
      = (Raise (TransportError (status_code response) (Py.slice_to 200 (text response))),
         w')
      /\ (String.length (Py.slice_to 200 (text response)) <= 200)%nat)
  /\ (forall (P : RetryParser) (E : ErrorItemsParser) c apis cost fuel retries w msg w',
      graphql_attempt c apis cost w (RequestError msg) w' ->
      GraphQLClient.execute_loop (S fuel) c apis cost retries w
      = (Raise (TransportError 0 msg), w'))
  /\ (forall (P : RetryParser) c fuel retries w response w',
      rest_attempt c w (Responded response) w' ->
      400 <= status_code response -> status_code response <> 429 ->
      JiraRestClient.get_json_loop (S fuel) c retries w
      = (Raise (TransportError (status_code response) (Py.slice_to 200 (text response))),
         w')
      /\ (String.length (Py.slice_to 200 (text response)) <= 200)%nat)
  /\ (forall (P : RetryParser) c fuel retries w msg w',
      rest_attempt c w (RequestError msg) w' ->
      JiraRestClient.get_json_loop (S fuel) c retries w
      = (Raise (TransportError 0 msg), w')).
Proof.
  repeat apply conj.
  - intros P E c apis cost fuel retries w response w' Hatt Hge Hne.
    split; [|apply slice_to_length].
    run_graphql_attempt Hatt.
    apply Z.eqb_neq in Hne. rewrite Hne.
    destruct (500 <=? status_code response); [reflexivity|].
    apply Z.leb_le in Hge. rewrite Hge. reflexivity.
  - intros P E c apis cost fuel retries w msg w' Hatt.
    run_graphql_attempt Hatt. reflexivity.
  - intros P c fuel retries w response w' Hatt Hge Hne.
    split; [|apply slice_to_length].
    run_rest_attempt Hatt.
    apply Z.eqb_neq in Hne. rewrite Hne.
    destruct (500 <=? status_code response); [reflexivity|].
    apply Z.leb_le in Hge. rewrite Hge. reflexivity.
  - intros P c fuel retries w msg w' Hatt.
    run_rest_attempt Hatt. reflexivity.
Qed.

(** C8 as stated does not hold: a 302 response is neither 2xx nor 429 and
    is decoded and returned, and the snippet of a transport failure is the
    whole text of the exception, here 201 characters. *)
Lemma redirect_is_not_a_transport_error :
  fst (@GraphQLClient.execute demo_parser demo_error_items (demo_graphql 2 60)
         "query { ok }" None None
         (demo_world 0 None
            (demo_response 302 None (Some (JDict [("data", JStr "moved")]))) demo_ok))
  = Return {| data := JStr "moved"; errors := None; extensions := JNull |}
  /\ exists msg,
       String.length msg = 201%nat
       /\ fst (@JiraRestClient.get_json demo_parser (demo_rest 2 60) "/rest/api/3/search"
                 (demo_world 0 None (RequestError msg) demo_ok))
          = Raise (TransportError 0 msg).
Proof.
  split; [vm_compute; reflexivity|].
  exists (String.concat "" (repeat "x" 201)).
  split; vm_compute; reflexivity.
Qed.

(** ** One retry after a rate limit *)

Lemma strip_truthy (s : string) :
  Py.truthy (Py.strip s) = true -> Py.truthy s = true.
Proof. destruct s; [discriminate | reflexivity]. Qed.









(** ** The local throttle *)

Lemma consume_rejects_double_capacity (b : TokenBucket) (w : World) :
  capacity b = GraphQLClient._bucket_capacity ->
  refill_rate_per_sec b = GraphQLClient._bucket_refill_rate ->
  exists wait,
    Throttle.consume (inject_Z 20000) (inject_Z 5) b w
    = (Raise (LocalRateLimitError (inject_Z 20000) wait (inject_Z 5)),
       record (EvConsume (inject_Z 20000) (inject_Z 5)) w).
Proof.
  intros Hcap Hrate. unfold Throttle.consume.
  cbn [clock record]. rewrite Hcap, Hrate.
  set (available := Qmin _ _).
  assert (Havail : (available <= 10000)%Q) by apply Q.le_min_l.
  assert (Hshort : Qle_bool (inject_Z 20000) available = false).
  { apply Qle_bool_false. unfold inject_Z. lra. }
  rewrite Hshort.
  assert (Hlong : Qlt_bool (inject_Z 5)
                    ((inject_Z 20000 - available) / GraphQLClient._bucket_refill_rate) = true).
  { apply Qlt_bool_true. apply Qlt_shift_div_l.
    - reflexivity.
    - unfold GraphQLClient._bucket_refill_rate, GraphQLClient._bucket_capacity, inject_Z.
      assert (Hrate' : (5 * (10000 / 60) == 2500 # 3)%Q) by reflexivity.
      rewrite Hrate'. lra. }
  rewrite Hlong. eexists. reflexivity.
Qed.

Lemma local_rejection (c : GraphQLClient.t) (cost : Z) (w : World) e w1 :
  GraphQLClient._consume_local_budget c cost w = (Raise e, w1) ->
  (exists wait,
      e = LocalRateLimitError (inject_Z cost) wait
            (inject_Z (GraphQLClient.max_wait_seconds c)))
  /\ w1 = record (EvConsume (inject_Z cost)
                    (inject_Z (GraphQLClient.max_wait_seconds c))) w.
Proof.
  unfold GraphQLClient._consume_local_budget.
  destruct (bucket w) as [b|]; [|discriminate].
  unfold bind, Throttle.consume.
  destruct (Qle_bool _ _); [discriminate|].
  destruct (Qlt_bool _ _); [|discriminate].
  intros [= <- <-]. split; [eexists; reflexivity | reflexivity].
Qed.

(** C9, as the code has it.  When the token bucket rejects the cost at the
    start of an attempt, [execute] raises that very [LocalRateLimitError]
    and the attempt neither builds headers nor contacts the transport; a
    rejection on the first attempt therefore leaves the call with no HTTP
    exchange at all.  In particular a bucket of capacity 10000 and refill
    rate 10000/60 asked for 20000 under [max_wait_seconds = 5] rejects, on
    the first attempt. *)
Theorem local_rejection_before_transport :
  (forall (P : RetryParser) (E : ErrorItemsParser) c apis cost fuel retries w e w1,
      GraphQLClient._consume_local_budget c cost w = (Raise e, w1) ->
      GraphQLClient.execute_loop (S fuel) c apis cost retries w = (Raise e, w1)
      /\ (exists wait,
            e = LocalRateLimitError (inject_Z cost) wait
                  (inject_Z (GraphQLClient.max_wait_seconds c)))
      /\ log w1 = EvConsume (inject_Z cost)
                    (inject_Z (GraphQLClient.max_wait_seconds c)) :: log w)
  /\ (forall (P : RetryParser) (E : ErrorItemsParser) c query apis estimated_cost w e w1,
      Py.truthy (Py.strip query) = true ->
      GraphQLClient._consume_local_budget c (GraphQLClient.cost_value estimated_cost) w
        = (Raise e, w1) ->
      GraphQLClient.execute c query apis estimated_cost w = (Raise e, w1)
      /\ posts (log w1) = posts (log w))
  /\ (forall (P : RetryParser) (E : ErrorItemsParser) c query apis w b,
      Py.truthy (Py.strip query) = true ->
      GraphQLClient.max_wait_seconds c = 5 ->
      bucket w = Some b ->
      capacity b = GraphQLClient._bucket_capacity ->
      refill_rate_per_sec b = GraphQLClient._bucket_refill_rate ->
      exists wait w1,
        GraphQLClient.execute c query apis (Some 20000) w
        = (Raise (LocalRateLimitError (inject_Z 20000) wait (inject_Z 5)), w1)
        /\ posts (log w1) = posts (log w)).
Proof.
  assert (Hloop : forall (P : RetryParser) (E : ErrorItemsParser) c apis cost fuel
                         retries w e w1,
             GraphQLClient._consume_local_budget c cost w = (Raise e, w1) ->
             GraphQLClient.execute_loop (S fuel) c apis cost retries w = (Raise e, w1)).
  { intros P E c apis cost fuel retries w e w1 Hrej.
    cbn [GraphQLClient.execute_loop]. unfold bind at 1. rewrite Hrej. reflexivity. }
  assert (Hcall : forall (P : RetryParser) (E : ErrorItemsParser) c query apis
                         estimated_cost w e w1,
             Py.truthy (Py.strip query) = true ->
             GraphQLClient._consume_local_budget c (GraphQLClient.cost_value estimated_cost) w
               = (Raise e, w1) ->
             GraphQLClient.execute c query apis estimated_cost w = (Raise e, w1)
             /\ posts (log w1) = posts (log w)).
  { intros P E c query apis est w e w1 Hq Hrej. split.
    - unfold GraphQLClient.execute.
      rewrite Hq, (strip_truthy _ Hq). cbn [negb orb]. apply Hloop. exact Hrej.
    - destruct (local_rejection _ _ _ _ _ Hrej) as [_ ->]. reflexivity. }
  split; [|split].
  - intros P E c apis cost fuel retries w e w1 Hrej.
    split; [apply Hloop; exact Hrej|].
    destruct (local_rejection _ _ _ _ _ Hrej) as [Hwait ->].
    split; [exact Hwait | reflexivity].
  - exact Hcall.
  - intros P E c query apis w b Hq Hmax Hb Hcap Hrate.
    destruct (consume_rejects_double_capacity b w Hcap Hrate) as [wait Hrej].
    exists wait, (record (EvConsume (inject_Z 20000) (inject_Z 5)) w).
    apply Hcall; [exact Hq|].
    unfold GraphQLClient._consume_local_budget. rewrite Hb, Hmax.
    change (GraphQLClient.cost_value (Some 20000)) with 20000.
    unfold bind. rewrite Hrej. reflexivity.
Qed.

(** C9 as stated does not hold: the throttle runs at the start of every
    attempt, so a rejection on a retry comes after the exchanges of the
    earlier attempts.  A full bucket admits a cost of 6000 once; after a
    429 and a sleep of two seconds it holds 4000 + 2 * 10000/60 tokens, the
    wait for 6000 is ten seconds, above the ceiling of five. *)
Lemma local_rejection_after_an_exchange :
  let run :=
    @GraphQLClient.execute demo_parser demo_error_items (demo_graphql 2 5)
      "query { ok }" None (Some 6000)
      (demo_world 0 (Some demo_bucket) (demo_response 429 (Some "2") None) demo_ok) in
  (exists wait, fst run = Raise (LocalRateLimitError (inject_Z 6000) wait (inject_Z 5)))
  /\ posts (log (snd run)) = 1%nat.
Proof.
  split; [eexists|]; vm_compute; reflexivity.
Qed.

(** ** The executors always come back *)

Lemma total_now : total now.
Proof. intros w. discriminate. Qed.

Lemma total_sleeper s : total (sleeper s).
Proof. intros w. discriminate. Qed.

Lemma total_exchange : total exchange.
Proof. intros w. discriminate. Qed.

Lemma total_consume cost max_wait b : total (Throttle.consume cost max_wait b).
Proof.
  intros w. unfold Throttle.consume.
  destruct (Qle_bool _ _); [|destruct (Qlt_bool _ _)]; discriminate.
Qed.

Lemma total_consume_local_budget c cost : total (GraphQLClient._consume_local_budget c cost).
Proof.
  intros w. unfold GraphQLClient._consume_local_budget.
  destruct (bucket w) as [b|]; [|discriminate].
  apply total_bind; [apply total_consume | intros a; apply total_ret].
Qed.

Lemma total_graphql_build_headers c apis : total (GraphQLClient._build_headers c apis).
Proof.
  unfold GraphQLClient._build_headers.
  apply total_bind; [apply total_lift | intros h w; discriminate].
Qed.

Lemma total_rest_build_headers c : total (JiraRestClient._build_headers c).
Proof.
  unfold JiraRestClient._build_headers.
  apply total_bind; [apply total_lift | intros h w; discriminate].
Qed.

Lemma total_rest_parse_retry_after `{RetryParser} header :
  total (JiraRestClient._parse_retry_after header).
Proof.
  intros w. destruct (rest_parse_retry_after_pure header w) as [_ [parsed Hp]].
  rewrite Hp. discriminate.
Qed.

(** With one unit of fuel for each retry left and one more, the loop of
    [execute] ends by returning or raising. *)
Lemma execute_loop_total `{RetryParser} `{ErrorItemsParser} fuel c apis cost retries :
  (Z.to_nat (GraphQLClient.max_retries_429 c) - retries < fuel)%nat ->
  total (GraphQLClient.execute_loop fuel c apis cost retries).
Proof.
  revert retries. induction fuel as [|fuel IH]; intros retries Hfuel; [lia|].
  cbn [GraphQLClient.execute_loop].
  apply total_bind; [apply total_consume_local_budget | intros _].
  apply total_bind; [apply total_graphql_build_headers | intros _].
  apply total_bind; [apply total_exchange | intros answer].
  destruct answer as [msg|response]; [apply total_raise|].
  destruct (status_code response =? 429).
  - apply total_bind; [apply total_now | intros t].
    destruct (parse_retry_after _ _) as [[retry_at label]|]; [|apply total_raise].
    apply total_bind; [apply total_now | intros t'].
    destruct (Qlt_bool _ _); [apply total_raise|].
    destruct (Z.of_nat retries <? GraphQLClient.max_retries_429 c) eqn:Hallowed;
      [|apply total_raise].
    cbn [negb]. apply Z.ltb_lt in Hallowed.
    apply total_bind; [|intros _; apply IH; lia].
    destruct (Qlt_bool _ _); [apply total_sleeper | apply total_ret].
  - destruct (500 <=? _); [apply total_raise|].
    destruct (400 <=? _); [apply total_raise|].
    destruct (json response) as [body|]; [|apply total_raise].
    destruct (_ && _); [apply total_raise | apply total_ret].
Qed.

Lemma get_json_loop_total `{RetryParser} fuel c retries :
  (Z.to_nat (JiraRestClient.max_retries_429 c) - retries < fuel)%nat ->
  total (JiraRestClient.get_json_loop fuel c retries).
Proof.
  revert retries. induction fuel as [|fuel IH]; intros retries Hfuel; [lia|].
  cbn [JiraRestClient.get_json_loop].
  apply total_bind; [apply total_rest_build_headers | intros _].
  apply total_bind; [apply total_exchange | intros answer].
  destruct answer as [msg|response]; [apply total_raise|].
  destruct (status_code response =? 429).
  - apply total_bind; [apply total_rest_parse_retry_after | intros parsed].
    destruct parsed as [[retry_at label]|]; [|apply total_raise].
    apply total_bind; [apply total_now | intros t'].
    destruct (Qlt_bool _ _); [apply total_raise|].
    destruct (Z.of_nat retries <? JiraRestClient.max_retries_429 c) eqn:Hallowed;
      [|apply total_raise].
    cbn [negb]. apply Z.ltb_lt in Hallowed.
    apply total_bind; [|intros _; apply IH; lia].
    destruct (Qlt_bool _ _); [apply total_sleeper | apply total_ret].
  - destruct (500 <=? _); [apply total_raise|].
    destruct (400 <=? _); [apply total_raise|].
    destruct (json response) as [[]|]; first [apply total_raise | apply total_ret].
Qed.

(** [execute] and [get_json] always return or raise: the fuel their loops
    are given is never exhausted. *)
Lemma execute_total `{RetryParser} `{ErrorItemsParser} c query apis estimated_cost :
  total (GraphQLClient.execute c query apis estimated_cost).
Proof.
  unfold GraphQLClient.execute. destruct (_ || _); [apply total_raise|].
  apply execute_loop_total. lia.
Qed.

Lemma get_json_total `{RetryParser} c path : total (JiraRestClient.get_json c path).
Proof.
  unfold JiraRestClient.get_json. destruct (_ || _); [apply total_raise|].
  apply get_json_loop_total. lia.
Qed.

(** ** Cursor selection *)

Lemma find_skips {A} (p : A -> bool) (l1 l2 : list A) :
  Forall (fun x => p x = false) l1 -> List.find p (l1 ++ l2) = List.find p l2.
Proof.
  induction 1 as [|x l1 Hx _ IH]; [reflexivity|].
  simpl. rewrite Hx. exact IH.
Qed.

Lemma find_none {A} (p : A -> bool) (l : list A) :
  Forall (fun x => p x = false) l -> List.find p l = None.
Proof.
  intros H. rewrite <- (app_nil_r l). rewrite find_skips by exact H. reflexivity.
Qed.

(** Searching the reversed list finds the last element that satisfies [p]. *)
Lemma find_rev_last {A} (p : A -> bool) (before after : list A) (x : A) :
  p x = true -> Forall (fun y => p y = false) after ->
  List.find p (rev (before ++ x :: after)) = Some x.
Proof.
  intros Hx Hafter.
  rewrite rev_app_distr. simpl. rewrite <- app_assoc.
  rewrite find_skips.
  - simpl. rewrite Hx. reflexivity.
  - apply Forall_rev. exact Hafter.
Qed.

Lemma next_after_stop `{JiraProjectsApi} end_cursor edge_has_cursor edges_cursors path :
  JiraProjects._next_after_from_pageinfo false end_cursor edge_has_cursor
    edges_cursors path = inr None.
Proof. reflexivity. Qed.

Lemma next_after_end_cursor `{JiraProjectsApi} end_cursor edge_has_cursor edges_cursors path :
  end_cursor_usable end_cursor = true ->
  JiraProjects._next_after_from_pageinfo true end_cursor edge_has_cursor
    edges_cursors path = inr end_cursor.
Proof.
  unfold end_cursor_usable, JiraProjects._next_after_from_pageinfo.
  intros ->. reflexivity.
Qed.

Lemma next_after_last_edge `{JiraProjectsApi} end_cursor before cursor after path :
  end_cursor_usable end_cursor = false ->
  Py.truthy cursor = true ->
  Forall (fun c => Py.truthy_opt c = false) after ->
  JiraProjects._next_after_from_pageinfo true end_cursor true
    (before ++ Some cursor :: after) path = inr (Some cursor).
Proof.
  unfold end_cursor_usable, JiraProjects._next_after_from_pageinfo.
  intros -> Hc Hafter. cbn [negb].
  rewrite (find_rev_last Py.truthy_opt before after (Some cursor) Hc Hafter).
  reflexivity.
Qed.

Lemma next_after_missing `{JiraProjectsApi} end_cursor edge_has_cursor edges_cursors path :
  end_cursor_usable end_cursor = false ->
  no_edge_cursor edge_has_cursor edges_cursors ->
  JiraProjects._next_after_from_pageinfo true end_cursor edge_has_cursor
    edges_cursors path
  = inl (SerializationError ("Pagination cursor missing for " +:+ path)).
Proof.
  unfold end_cursor_usable, JiraProjects._next_after_from_pageinfo.
  intros -> [-> | Hnone]; cbn [negb]; [reflexivity|].
  destruct edge_has_cursor; [|reflexivity].
  rewrite find_none; [reflexivity|]. apply Forall_rev. exact Hnone.
Qed.

(** A cursor the selection returns is a non-empty string. *)
Lemma next_after_nonempty `{JiraProjectsApi} has_next end_cursor edge_has_cursor
    edges_cursors path cursor :
  JiraProjects._next_after_from_pageinfo has_next end_cursor edge_has_cursor
    edges_cursors path = inr (Some cursor) ->
  Py.truthy cursor = true.
Proof.
  unfold JiraProjects._next_after_from_pageinfo.
  destruct has_next; [|discriminate]. cbn [negb].
  destruct (PAGEINFO_HAS_END_CURSOR && Py.truthy_opt end_cursor) eqn:Hend.
  - intros [= ->]. apply andb_prop in Hend. apply Hend.
  - destruct (if edge_has_cursor then _ else _) as [found|] eqn:Hfind; [|discriminate].
    intros [= ->]. destruct edge_has_cursor; [|discriminate].
    apply find_some in Hfind. apply Hfind.
Qed.

(** ** Traces of the cursor paginator *)

Section Cursor.

Context {api : JiraProjectsApi} {W : Type} {client : Executor W}.

Abbreviation Item := CanonicalProjectWithOpsgenieTeams.t.
Abbreviation State := (Run GraphQLRequest Item W).

Lemma projects_loop_step fuel query cloud_id page_size apis after seen_after s page s0 :
  served parse_jira_projects_page
    (projects_request query cloud_id page_size apis after) s page s0 ->
  JiraProjects.projects_loop (S fuel) query cloud_id page_size apis after seen_after s
  = bind (JiraProjects.for_edges fuel cloud_id page_size apis
            (JiraProjectsConnection.edges (JiraProjectsPageData.projects page)))
      (fun _ => outer_continue fuel query cloud_id page_size apis seen_after
                  (projects_next page)) s0.
Proof.
  intros (result & Hcall & Hdata & Hparse).
  cbn [JiraProjects.projects_loop]. unfold bind at 1.
  fold (projects_request query cloud_id page_size apis after). rewrite Hcall.
  rewrite Hdata. unfold bind at 1. rewrite Hparse.
  unfold JiraProjects.parsed, ret at 1. cbv beta iota.
  unfold bind. destruct (JiraProjects.for_edges _ _ _ _ _ _) as [[[]|e|] s1];
    try reflexivity.
  unfold projects_next, outer_continue, lift.
  destruct (JiraProjects._next_after_from_pageinfo _ _ _ _ _) as [e|[c|]];
    reflexivity.
Qed.

Lemma opsgenie_loop_step fuel cloud_id project page_size apis after seen_after out
    parent s conn s0 :
  parent_key cloud_id project = inr parent ->
  served parse_project_opsgenie_teams
    (opsgenie_request parent page_size apis after) s conn s0 ->
  JiraProjects.opsgenie_loop (S fuel) cloud_id project page_size apis after seen_after out s
  = nested_continue fuel cloud_id project page_size apis seen_after
      (out ++ nodes_of conn)%list (opsgenie_next project conn) s0.
Proof.
  intros Hkey (result & Hcall & Hdata & Hparse).
  cbn [JiraProjects.opsgenie_loop]. unfold bind at 1.
  unfold parent_key in Hkey. unfold opsgenie_request in Hcall.
  destruct (String.eqb REFETCH_STRATEGY "node").
  - destruct (negb _); [discriminate|]. injection Hkey as <-.
    unfold ret at 1. unfold bind at 1. cbn [app] in Hcall. rewrite Hcall.
    rewrite Hdata. unfold bind at 1. rewrite Hparse.
    unfold JiraProjects.parsed, ret at 1. cbv beta iota.
    unfold opsgenie_next, nested_continue, nodes_of, bind, lift.
    destruct (JiraProjects._next_after_from_pageinfo _ _ _ _ _) as [e|[c|]];
      reflexivity.
  - destruct (negb _); [discriminate|]. injection Hkey as <-.
    unfold ret at 1. unfold bind at 1. cbn [app] in Hcall. rewrite Hcall.
    rewrite Hdata. unfold bind at 1. rewrite Hparse.
    unfold JiraProjects.parsed, ret at 1. cbv beta iota.
    unfold opsgenie_next, nested_continue, nodes_of, bind, lift.
    destruct (JiraProjects._next_after_from_pageinfo _ _ _ _ _) as [e|[c|]];
      reflexivity.
Qed.

Lemma call_emits {A} (run : GraphQLRequest -> Prog W A) (req : GraphQLRequest)
    (s : State) :
  emitted (snd (call run req s)) = Requested req :: emitted s.
Proof. unfold call. destruct (run req (world s)). reflexivity. Qed.

(** One round of the nested loop, read backwards from its outcome: the
    parent key is missing; or the request was issued and answered by a
    page, and the loop goes on as the cursor selection says; or the request
    was issued and the round failed. *)
Lemma opsgenie_loop_inv fuel cloud_id project page_size apis after seen_after out s r s' :
  JiraProjects.opsgenie_loop (S fuel) cloud_id project page_size apis after seen_after out s
    = (r, s') ->
  (exists e, parent_key cloud_id project = inl e /\ r = Raise e /\ s' = s)
  \/ (exists parent s0,
        parent_key cloud_id project = inr parent
        /\ emitted s0 = Requested (opsgenie_request parent page_size apis after) :: emitted s
        /\ ((exists conn,
               served parse_project_opsgenie_teams
                 (opsgenie_request parent page_size apis after) s conn s0
               /\ nested_continue fuel cloud_id project page_size apis seen_after
                    (out ++ nodes_of conn)%list (opsgenie_next project conn) s0 = (r, s'))
            \/ ((forall x, r <> Return x) /\ s' = s0))).
Proof.
  destruct (parent_key cloud_id project) as [e|parent] eqn:Hkey.
  - intros Hrun. left. exists e. split; [reflexivity|].
    cbn [JiraProjects.opsgenie_loop] in Hrun. unfold bind at 1 in Hrun.
    unfold parent_key in Hkey.
    destruct (String.eqb REFETCH_STRATEGY "node");
      (destruct (negb _); [|discriminate]); injection Hkey as <-;
      injection Hrun as <- <-; split; reflexivity.
  - intros Hrun. right.
    pose (req := opsgenie_request parent page_size apis after).
    destruct (call execute req s) as [res s0] eqn:Hcall.
    exists parent, s0. split; [reflexivity|]. split.
    { pose proof (call_emits execute req s) as He. rewrite Hcall in He. exact He. }
    destruct res as [result| |].
    + destruct (JiraProjects.is_none (data result)) eqn:Hdata.
      * right.
        assert (Hstep : JiraProjects.opsgenie_loop (S fuel) cloud_id project page_size
                          apis after seen_after out s
                        = (Raise (SerializationError
                             "Missing GraphQL data in opsgenie pagination response"), s0)).
        { cbn [JiraProjects.opsgenie_loop]. unfold bind at 1.
          unfold parent_key in Hkey. subst req. unfold opsgenie_request in Hcall.
          destruct (String.eqb REFETCH_STRATEGY "node");
            (destruct (negb _); [discriminate|]); injection Hkey as <-;
            unfold ret at 1; unfold bind at 1; cbn [app] in Hcall; rewrite Hcall;
            rewrite Hdata; reflexivity. }
        rewrite Hstep in Hrun. injection Hrun as <- <-. split; [discriminate | reflexivity].
      * destruct (parse_project_opsgenie_teams (data result)) as [e|conn] eqn:Hparse.
        -- right.
           assert (Hstep : exists e', JiraProjects.opsgenie_loop (S fuel) cloud_id project
                              page_size apis after seen_after out s = (Raise e', s0)).
           { cbn [JiraProjects.opsgenie_loop]. unfold bind at 1.
             unfold parent_key in Hkey. subst req. unfold opsgenie_request in Hcall.
             destruct (String.eqb REFETCH_STRATEGY "node");
               (destruct (negb _); [discriminate|]); injection Hkey as <-;
               unfold ret at 1; unfold bind at 1; cbn [app] in Hcall; rewrite Hcall;
               rewrite Hdata; unfold bind at 1; rewrite Hparse;
               unfold JiraProjects.parsed;
               (destruct e; [| | | | |destruct (nonempty _)]); eexists; reflexivity. }
           destruct Hstep as [e' Hstep]. rewrite Hstep in Hrun.
           injection Hrun as <- <-. split; [discriminate | reflexivity].
        -- left. exists conn.
           assert (Hserved : served parse_project_opsgenie_teams req s conn s0).
           { exists result. auto. }
           split; [exact Hserved|].
           rewrite <- Hrun. symmetry.
           eapply opsgenie_loop_step; [exact Hkey | exact Hserved].
    + right.
      assert (Hstep : JiraProjects.opsgenie_loop (S fuel) cloud_id project page_size
                        apis after seen_after out s = (Raise e, s0)).
      { cbn [JiraProjects.opsgenie_loop]. unfold bind at 1.
        unfold parent_key in Hkey. subst req. unfold opsgenie_request in Hcall.
        destruct (String.eqb REFETCH_STRATEGY "node");
          (destruct (negb _); [discriminate|]); injection Hkey as <-;
          unfold ret at 1; unfold bind at 1; cbn [app] in Hcall; rewrite Hcall;
          reflexivity. }
      rewrite Hstep in Hrun. injection Hrun as <- <-. split; [discriminate | reflexivity].
    + right.
      assert (Hstep : JiraProjects.opsgenie_loop (S fuel) cloud_id project page_size
                        apis after seen_after out s = (OutOfFuel, s0)).
      { cbn [JiraProjects.opsgenie_loop]. unfold bind at 1.
        unfold parent_key in Hkey. subst req. unfold opsgenie_request in Hcall.
        destruct (String.eqb REFETCH_STRATEGY "node");
          (destruct (negb _); [discriminate|]); injection Hkey as <-;
          unfold ret at 1; unfold bind at 1; cbn [app] in Hcall; rewrite Hcall;
          reflexivity. }
      rewrite Hstep in Hrun. injection Hrun as <- <-. split; [discriminate | reflexivity].
Qed.

Lemma opsgenie_loop_trace fuel cloud_id project page_size apis :
  forall after seen_after out s r s',
    after ∈ seen_after ->
    JiraProjects.opsgenie_loop fuel cloud_id project page_size apis after seen_after out s
      = (r, s') ->
    exists cursors,
      emitted s' = (nested_requests cloud_id project page_size apis cursors ++ emitted s)%list
      /\ NoDup cursors
      /\ Forall (fun c => c = after \/ c ∉ seen_after) cursors
      /\ (forall teams, r = Return teams ->
            exists pages,
              drained cloud_id project page_size apis after s pages s'
              /\ cursors = cursors_after project after pages
              /\ teams = (out ++ concat (List.map nodes_of pages))%list).
Proof.
  induction fuel as [|fuel IH]; intros after seen_after out s r s' Hseen Hrun.
  - injection Hrun as <- <-. exists []. repeat split; try constructor. discriminate.
  - apply opsgenie_loop_inv in Hrun.
    destruct Hrun as [(e & Hkey & -> & ->) | (parent & s0 & Hkey & Hemit & Hrest)].
    { exists []. repeat split; try constructor. discriminate. }
    assert (Hreq : opsgenie_request parent page_size apis after
                   = nested_request cloud_id project page_size apis after).
    { unfold nested_request. rewrite Hkey. reflexivity. }
    rewrite Hreq in Hemit.
    assert (Hone : emitted s0
                   = (nested_requests cloud_id project page_size apis [after]
                      ++ emitted s)%list) by exact Hemit.
    assert (Hfail : forall r0, (forall x, r0 <> Return x) ->
              exists cursors,
                emitted s0 = (nested_requests cloud_id project page_size apis cursors
                              ++ emitted s)%list
                /\ NoDup cursors
                /\ Forall (fun c => c = after \/ c ∉ seen_after) cursors
                /\ (forall teams, r0 = Return teams ->
                      exists pages,
                        drained cloud_id project page_size apis after s pages s0
                        /\ cursors = cursors_after project after pages
                        /\ teams = (out ++ concat (List.map nodes_of pages))%list)).
    { intros r0 Hr0. exists [after]. split; [exact Hone|].
      split; [apply NoDup_singleton|]. split; [repeat constructor; auto|].
      intros teams ->. exfalso. exact (Hr0 teams eq_refl). }
    destruct Hrest as [(conn & Hserved & Hcont) | (Hr & ->)]; [|apply Hfail; exact Hr].
    rewrite Hreq in Hserved.
    unfold nested_continue in Hcont.
    destruct (opsgenie_next project conn) as [e|[next|]] eqn:Hnext.
    + injection Hcont as <- <-. apply Hfail. discriminate.
    + destruct (bool_decide (next ∈ seen_after)) eqn:Hin.
      * injection Hcont as <- <-. apply Hfail. discriminate.
      * apply bool_decide_eq_false in Hin.
        apply IH in Hcont; [|set_solver].
        destruct Hcont as (cursors & Htrace & Hnodup & Hfresh & Hdone).
        exists (after :: cursors). split; [|split; [|split]].
        -- rewrite Htrace, Hemit. unfold nested_requests. cbn [List.map rev].
           rewrite <- app_assoc. reflexivity.
        -- constructor; [|exact Hnodup].
           intros Hmem. rewrite Forall_forall in Hfresh.
           destruct (Hfresh _ Hmem) as [-> | Hnot]; [exact (Hin Hseen)|].
           apply Hnot. set_solver.
        -- constructor; [left; reflexivity|].
           eapply Forall_impl; [exact Hfresh|].
           intros c [-> | Hnot]; right; [exact Hin | set_solver].
        -- intros teams Hr. destruct (Hdone teams Hr) as (pages & Hd & Hc & Ht).
           exists (conn :: pages). split; [|split].
           ++ eapply drained_next; eauto.
           ++ cbn [cursors_after]. rewrite Hnext, Hc. reflexivity.
           ++ rewrite Ht. cbn [List.map concat]. rewrite app_assoc. reflexivity.
    + injection Hcont as <- <-. exists [after]. split; [exact Hone|].
      split; [apply NoDup_singleton|]. split; [repeat constructor; auto|].
      intros teams [= <-]. exists [conn]. split; [|split].
      * apply drained_last; assumption.
      * cbn [cursors_after]. rewrite Hnext. reflexivity.
      * cbn [List.map concat]. rewrite app_nil_r. reflexivity.
Qed.

(** The selection stops exactly on the pages that have no next page. *)
Lemma next_after_none_iff has_next end_cursor edge_has_cursor edges_cursors path :
  JiraProjects._next_after_from_pageinfo has_next end_cursor edge_has_cursor
    edges_cursors path = inr None
  <-> has_next = false.
Proof.
  split.
  - destruct has_next; [|reflexivity]. intros Hnone.
    pose proof (next_after_nonempty true end_cursor edge_has_cursor edges_cursors path) as Hne.
    unfold JiraProjects._next_after_from_pageinfo in *. cbn [negb] in *.
    destruct (PAGEINFO_HAS_END_CURSOR && Py.truthy_opt end_cursor) eqn:Hend.
    + injection Hnone as ->. apply andb_prop in Hend. destruct Hend; discriminate.
    + destruct (if edge_has_cursor then _ else _) as [found|] eqn:Hfind; [|discriminate].
      injection Hnone as ->. destruct edge_has_cursor; [|discriminate].
      apply find_some in Hfind. destruct Hfind; discriminate.
  - intros ->. reflexivity.
Qed.

(** In a complete drain every page but the last has a next page, and the
    last has none. *)
Lemma drained_until_last_page cloud_id project page_size apis after s pages s' :
  drained cloud_id project page_size apis after s pages s' ->
  exists front final,
    pages = (front ++ [final])%list
    /\ Forall (fun conn => has_next conn = true) front
    /\ has_next final = false.
Proof.
  induction 1 as [after s conn s' _ Hnext
                 | after s conn s0 next pages s' _ Hnext _ (front & final & -> & Hf & Hl)].
  - exists [], conn. split; [reflexivity|]. split; [constructor|].
    apply next_after_none_iff in Hnext. exact Hnext.
  - exists (conn :: front), final. split; [reflexivity|]. split; [|exact Hl].
    constructor; [|exact Hf]. unfold has_next.
    destruct (PageInfo.has_next_page _) eqn:E; [reflexivity|].
    unfold opsgenie_next in Hnext. rewrite E in Hnext. discriminate.
Qed.

Lemma paginate_opsgenie_teams_trace fuel cloud_id project initial page_size apis s r s' :
  JiraProjects._paginate_opsgenie_teams fuel cloud_id project initial page_size apis s
    = (r, s') ->
  exists cursors,
    emitted s' = (nested_requests cloud_id project page_size apis cursors ++ emitted s)%list
    /\ NoDup cursors
    /\ (forall more, r = Return more -> has_next initial = true ->
          exists after pages,
            opsgenie_next project initial = inr (Some after)
            /\ drained cloud_id project page_size apis after s pages s'
            /\ cursors = cursors_after project after pages
            /\ more = concat (List.map nodes_of pages)).
Proof.
  unfold JiraProjects._paginate_opsgenie_teams. unfold bind at 1.
  fold (opsgenie_next project initial).
  destruct (opsgenie_next project initial) as [e|[after|]] eqn:Hnext; cbn [lift raise ret].
  - intros [= <- <-]. exists []. repeat split; try constructor. discriminate.
  - intros Hrun. apply opsgenie_loop_trace in Hrun; [|set_solver].
    destruct Hrun as (cursors & Htrace & Hnodup & _ & Hdone).
    exists cursors. split; [exact Htrace|]. split; [exact Hnodup|].
    intros more Hr _. destruct (Hdone more Hr) as (pages & Hd & Hc & Hm).
    exists after, pages. auto.
  - intros [= <- <-]. exists []. split; [reflexivity|]. split; [constructor|].
    intros more _ Hhas. apply next_after_none_iff in Hnext.
    unfold has_next in Hhas. congruence.
Qed.

Lemma for_edge_trace fuel cloud_id page_size apis edge s r s' :
  let project := JiraProjectEdge.node edge in
  let initial := JiraProjectNode.opsgenie_teams project in
  JiraProjects.for_edge fuel cloud_id page_size apis edge s = (r, s') ->
  exists cursors,
    NoDup cursors
    /\ (has_next initial = false -> cursors = [])
    /\ ((r = Return tt
         /\ exists s1 item,
              emitted s1 = (nested_requests cloud_id project page_size apis cursors
                            ++ emitted s)%list
              /\ s' = yielded item s1
              /\ ((has_next initial = false /\ s1 = s
                   /\ map_project_with_opsgenie_teams cloud_id project (nodes_of initial)
                      = inr item)
                  \/ (has_next initial = true
                      /\ exists after pages,
                           opsgenie_next project initial = inr (Some after)
                           /\ drained cloud_id project page_size apis after s pages s1
                           /\ cursors = cursors_after project after pages
                           /\ map_project_with_opsgenie_teams cloud_id project
                                (nodes_of initial ++ concat (List.map nodes_of pages))
                              = inr item)))
        \/ ((forall x, r <> Return x)
            /\ emitted s' = (nested_requests cloud_id project page_size apis cursors
                             ++ emitted s)%list)).
Proof.
  intros project initial Hrun. unfold JiraProjects.for_edge in Hrun.
  fold project in Hrun. fold initial in Hrun. fold (nodes_of initial) in Hrun.
  fold (has_next initial) in Hrun.
  unfold bind at 1 in Hrun.
  destruct (has_next initial) eqn:Hhas.
  - unfold bind at 1 in Hrun.
    destruct (JiraProjects._paginate_opsgenie_teams fuel cloud_id project initial
                page_size apis s) as [r1 s1] eqn:Hpag.
    apply paginate_opsgenie_teams_trace in Hpag.
    destruct Hpag as (cursors & Htrace & Hnodup & Hdone).
    exists cursors. split; [exact Hnodup|]. split; [discriminate|].
    destruct r1 as [more| |].
    + cbn [ret] in Hrun. unfold bind at 1 in Hrun.
      destruct (Hdone more eq_refl Hhas) as (after & pages & Hnext & Hd & Hc & Hm).
      destruct (map_project_with_opsgenie_teams cloud_id project
                  (nodes_of initial ++ more)) as [e|item] eqn:Hmap;
        cbn [lift raise ret] in Hrun; injection Hrun as <- <-.
      * right. split; [discriminate | exact Htrace].
      * left. split; [reflexivity|].
        exists s1, item. split; [exact Htrace|]. split; [reflexivity|]. right.
        split; [reflexivity|]. exists after, pages. rewrite <- Hm. auto.
    + injection Hrun as <- <-. right. split; [discriminate | exact Htrace].
    + injection Hrun as <- <-. right. split; [discriminate | exact Htrace].
  - cbn [ret] in Hrun. unfold bind at 1 in Hrun.
    exists []. split; [constructor|]. split; [reflexivity|].
    destruct (map_project_with_opsgenie_teams cloud_id project (nodes_of initial))
      as [e|item] eqn:Hmap; cbn [lift raise ret] in Hrun; injection Hrun as <- <-.
    + right. split; [discriminate | reflexivity].
    + left. split; [reflexivity|].
      exists s, item. split; [reflexivity|]. split; [reflexivity|]. left. auto.
Qed.

Lemma outer_cursors_app l1 l2 :
  outer_cursors (l1 ++ l2) = (outer_cursors l1 ++ outer_cursors l2)%list.
Proof.
  induction l1 as [|[r|i] l1 IH]; cbn [outer_cursors app]; [reflexivity| |exact IH].
  destruct (String.eqb _ _); [cbn [app]; rewrite IH|]; auto.
Qed.

Lemma outer_cursors_nested cloud_id project page_size apis cursors :
  outer_cursors (nested_requests cloud_id project page_size apis cursors) = [].
Proof.
  unfold nested_requests. induction cursors as [|c cursors IH]; [reflexivity|].
  cbn [List.map rev]. rewrite outer_cursors_app, IH. reflexivity.
Qed.

Lemma quiet_refl (s : State) : quiet s s.
Proof. exists []. split; reflexivity. Qed.

Lemma quiet_trans (s1 s2 s3 : State) : quiet s1 s2 -> quiet s2 s3 -> quiet s1 s3.
Proof.
  intros (n1 & E1 & Q1) (n2 & E2 & Q2). exists (n2 ++ n1)%list. split.
  - rewrite E2, E1. apply app_assoc.
  - rewrite outer_cursors_app, Q1, Q2. reflexivity.
Qed.

Lemma for_edge_quiet fuel cloud_id page_size apis edge :
  carries (quiet (W:=W)) (JiraProjects.for_edge fuel cloud_id page_size apis edge).
Proof.
  intros s.
  destruct (JiraProjects.for_edge fuel cloud_id page_size apis edge s) as [r s'] eqn:Hrun.
  apply for_edge_trace in Hrun.
  destruct Hrun as (cursors & _ & _ & [(_ & s1 & item & Htrace & -> & _) | (_ & Htrace)]).
  - eexists (Yielded item :: _). cbn [snd yielded emitted]. rewrite Htrace.
    split; [reflexivity|]. cbn [outer_cursors]. apply outer_cursors_nested.
  - eexists. split; [exact Htrace | apply outer_cursors_nested].
Qed.

Lemma for_edges_quiet fuel cloud_id page_size apis edges :
  carries (quiet (W:=W)) (JiraProjects.for_edges fuel cloud_id page_size apis edges).
Proof.
  induction edges as [|edge rest IH]; cbn [JiraProjects.for_edges].
  - apply carries_ret. exact quiet_refl.
  - apply carries_bind; [exact quiet_trans | apply for_edge_quiet | intros _; exact IH].
Qed.

(** One round of the outer loop, read backwards from its outcome. *)
Lemma projects_loop_inv fuel query cloud_id page_size apis after seen_after s r s' :
  JiraProjects.projects_loop (S fuel) query cloud_id page_size apis after seen_after s
    = (r, s') ->
  exists s0,
    emitted s0 = Requested (projects_request query cloud_id page_size apis after)
                 :: emitted s
    /\ ((exists page,
           served parse_jira_projects_page
             (projects_request query cloud_id page_size apis after) s page s0
           /\ bind (JiraProjects.for_edges fuel cloud_id page_size apis
                      (JiraProjectsConnection.edges (JiraProjectsPageData.projects page)))
                (fun _ => outer_continue fuel query cloud_id page_size apis seen_after
                            (projects_next page)) s0 = (r, s'))
        \/ ((forall x, r <> Return x) /\ s' = s0)).
Proof.
  intros Hrun.
  pose (req := projects_request query cloud_id page_size apis after).
  destruct (call execute req s) as [res s0] eqn:Hcall.
  exists s0. split.
  { pose proof (call_emits execute req s) as He. rewrite Hcall in He. exact He. }
  destruct res as [result| |].
  - destruct (JiraProjects.is_none (data result)) eqn:Hdata.
    + right. cbn [JiraProjects.projects_loop] in Hrun. unfold bind at 1 in Hrun.
      fold (projects_request query cloud_id page_size apis after) in Hrun.
      fold req in Hrun. rewrite Hcall, Hdata in Hrun.
      injection Hrun as <- <-. split; [discriminate | reflexivity].
    + destruct (parse_jira_projects_page (data result)) as [e|page] eqn:Hparse.
      * right. cbn [JiraProjects.projects_loop] in Hrun. unfold bind at 1 in Hrun.
        fold (projects_request query cloud_id page_size apis after) in Hrun.
        fold req in Hrun. rewrite Hcall, Hdata in Hrun.
        unfold bind at 1 in Hrun. rewrite Hparse in Hrun.
        unfold JiraProjects.parsed in Hrun.
        destruct e; [| | | | |destruct (nonempty _)];
          injection Hrun as <- <-; split; try discriminate; reflexivity.
      * left. exists page.
        assert (Hserved : served parse_jira_projects_page req s page s0).
        { exists result. auto. }
        split; [exact Hserved|].
        rewrite <- Hrun. symmetry. apply projects_loop_step. exact Hserved.
  - right. cbn [JiraProjects.projects_loop] in Hrun. unfold bind at 1 in Hrun.
    fold (projects_request query cloud_id page_size apis after) in Hrun.
    fold req in Hrun. rewrite Hcall in Hrun.
    injection Hrun as <- <-. split; [discriminate | reflexivity].
  - right. cbn [JiraProjects.projects_loop] in Hrun. unfold bind at 1 in Hrun.
    fold (projects_request query cloud_id page_size apis after) in Hrun.
    fold req in Hrun. rewrite Hcall in Hrun.
    injection Hrun as <- <-. split; [discriminate | reflexivity].
Qed.

(** The cursors the outer loop asks for from a state of its loop on: the
    current one first, then cursors that are not in the seen set, never
    one twice. *)
Lemma projects_loop_trace fuel query cloud_id page_size apis :
  forall after seen_after s r s',
    (forall a, after = Some a -> a ∈ seen_after) ->
    JiraProjects.projects_loop fuel query cloud_id page_size apis after seen_after s
      = (r, s') ->
    exists new,
      emitted s' = (new ++ emitted s)%list
      /\ NoDup (outer_cursors new)
      /\ Forall (fun j => j = cursor_json after
                          \/ exists c, j = JStr c /\ c ∉ seen_after)
           (outer_cursors new).
Proof.
  induction fuel as [|fuel IH]; intros after seen_after s r s' Hseen Hrun.
  - injection Hrun as <- <-. exists []. repeat split; constructor.
  - apply projects_loop_inv in Hrun. destruct Hrun as (s0 & Hemit & Hrest).
    assert (Hone : exists new,
               emitted s0 = (new ++ emitted s)%list
               /\ outer_cursors new = [cursor_json after]).
    { eexists [_]. split; [exact Hemit | reflexivity]. }
    destruct Hone as (n0 & E0 & Q0).
    assert (Hstop : forall s1, quiet s0 s1 ->
               exists new,
                 emitted s1 = (new ++ emitted s)%list
                 /\ NoDup (outer_cursors new)
                 /\ Forall (fun j => j = cursor_json after
                                     \/ exists c, j = JStr c /\ c ∉ seen_after)
                      (outer_cursors new)).
    { intros s1 (n1 & E1 & Q1).
      exists (n1 ++ n0)%list. split; [rewrite E1, E0; apply app_assoc|].
      rewrite outer_cursors_app, Q1, Q0. cbn [app].
      split; [apply NoDup_singleton | repeat constructor; auto]. }
    destruct Hrest as [(page & Hserved & Hcont) | (_ & ->)]; [|apply Hstop, quiet_refl].
    unfold bind at 1 in Hcont.
    pose proof (for_edges_quiet fuel cloud_id page_size apis
                  (JiraProjectsConnection.edges (JiraProjectsPageData.projects page)) s0)
      as Hquiet.
    destruct (JiraProjects.for_edges _ _ _ _ _ s0) as [[[]|e|] s1]; cbn [snd] in Hquiet;
      try (injection Hcont as <- <-; apply Hstop; exact Hquiet).
    unfold outer_continue in Hcont.
    destruct (projects_next page) as [e|[next|]];
      try (injection Hcont as <- <-; apply Hstop; exact Hquiet).
    destruct (bool_decide (next ∈ seen_after)) eqn:Hin;
      [injection Hcont as <- <-; apply Hstop; exact Hquiet|].
    apply bool_decide_eq_false in Hin.
    apply IH in Hcont; [|intros a [= <-]; set_solver].
    destruct Hcont as (n2 & E2 & Hnodup & Hfresh).
    destruct Hquiet as (n1 & E1 & Q1).
    exists (n2 ++ n1 ++ n0)%list. split; [rewrite E2, E1, E0, !app_assoc; reflexivity|].
    rewrite !outer_cursors_app, Q1, Q0. cbn [app]. split.
    + apply NoDup_app. split; [exact Hnodup|]. split; [|apply NoDup_singleton].
      intros j Hj Hj'. apply list_elem_of_singleton in Hj'. subst j.
      rewrite Forall_forall in Hfresh.
      destruct (Hfresh _ Hj) as [Heq | (c & Heq & Hc)].
      * destruct after as [a|]; [|discriminate]. injection Heq as ->.
        apply Hin. apply Hseen. reflexivity.
      * destruct after as [a|]; [|discriminate]. injection Heq as <-.
        apply Hc. specialize (Hseen a eq_refl). set_solver.
    + apply Forall_app. split; [|repeat constructor; auto].
      eapply Forall_impl; [exact Hfresh|].
      intros j [-> | (c & -> & Hc)]; right; [exists next; auto|].
      exists c. split; [reflexivity | set_solver].
Qed.

End Cursor.

Lemma projects_page_continue {api : JiraProjectsApi} {W : Type} {client : Executor W}
    fuel query cloud_id page_size apis after seen s page s' :
  projects_page_done fuel query cloud_id page_size apis after s page s' ->
  JiraProjects.projects_loop (S fuel) query cloud_id page_size apis after seen s
  = outer_continue fuel query cloud_id page_size apis seen (projects_next page) s'.
Proof.
  intros (s0 & Hserved & Hedges).
  rewrite (projects_loop_step _ _ _ _ _ _ _ _ _ _ Hserved).
  unfold bind. rewrite Hedges. reflexivity.
Qed.

Lemma opsgenie_page_continue {api : JiraProjectsApi} {W : Type} {client : Executor W}
    fuel cloud_id project page_size apis after seen out s conn s' :
  opsgenie_page_done cloud_id project page_size apis after s conn s' ->
  JiraProjects.opsgenie_loop (S fuel) cloud_id project page_size apis after seen out s
  = nested_continue fuel cloud_id project page_size apis seen
      (out ++ nodes_of conn)%list (opsgenie_next project conn) s'.
Proof.
  intros (parent & Hkey & Hserved). eapply opsgenie_loop_step; eassumption.
Qed.

(** C6.  The next cursor of a page, at either level: none when
    [has_next_page] is false, whatever cursors the page carries; else the
    [end_cursor] when the schema exposes it and it is non-empty; else the
    cursor of the last edge that carries a non-empty one; else a
    [SerializationError].  Both loops stop on the first outcome and fail
    on the last. *)
Theorem next_cursor_selection (api : JiraProjectsApi) :
  (forall end_cursor edge_has_cursor edges_cursors path,
      JiraProjects._next_after_from_pageinfo false end_cursor edge_has_cursor
        edges_cursors path = inr None)
  /\ (forall end_cursor edge_has_cursor edges_cursors path,
      end_cursor_usable end_cursor = true ->
      JiraProjects._next_after_from_pageinfo true end_cursor edge_has_cursor
        edges_cursors path = inr end_cursor)
  /\ (forall end_cursor before cursor after path,
      end_cursor_usable end_cursor = false ->
      Py.truthy cursor = true ->
      Forall (fun c => Py.truthy_opt c = false) after ->
      JiraProjects._next_after_from_pageinfo true end_cursor true
        (before ++ Some cursor :: after) path = inr (Some cursor))
  /\ (forall end_cursor edge_has_cursor edges_cursors path,
      end_cursor_usable end_cursor = false ->
      no_edge_cursor edge_has_cursor edges_cursors ->
      JiraProjects._next_after_from_pageinfo true end_cursor edge_has_cursor
        edges_cursors path
      = inl (SerializationError ("Pagination cursor missing for " +:+ path)))
  /\ (forall (W : Type) (client : Executor W) fuel query cloud_id page_size apis
             after seen s page s',
      projects_page_done fuel query cloud_id page_size apis after s page s' ->
      let loop := JiraProjects.projects_loop (S fuel) query cloud_id page_size apis
                    after seen s in
      (PageInfo.has_next_page
         (JiraProjectsConnection.page_info (JiraProjectsPageData.projects page)) = false ->
       loop = (Return tt, s'))
      /\ (forall e, projects_next page = inl e -> loop = (Raise e, s')))
  /\ (forall (W : Type) (client : Executor W) fuel cloud_id project page_size apis
             after seen out s conn s',
      opsgenie_page_done cloud_id project page_size apis after s conn s' ->
      let loop := JiraProjects.opsgenie_loop (S fuel) cloud_id project page_size apis
                    after seen out s in
      (PageInfo.has_next_page (OpsgenieTeamsConnection.page_info conn) = false ->
       loop = (Return (out ++ nodes_of conn)%list, s'))
      /\ (forall e, opsgenie_next project conn = inl e -> loop = (Raise e, s'))).
Proof.
  split; [apply @next_after_stop|].
  split; [apply @next_after_end_cursor|].
  split; [apply @next_after_last_edge|].
  split; [apply @next_after_missing|].
  split.
  - intros W client fuel query cloud_id page_size apis after seen s page s' Hdone loop.
    subst loop. rewrite (projects_page_continue _ _ _ _ _ _ seen _ _ _ Hdone).
    split.
    + intros Hlast. unfold projects_next. rewrite Hlast. reflexivity.
    + intros e ->. reflexivity.
  - intros W client fuel cloud_id project page_size apis after seen out s conn s' Hdone loop.
    subst loop. rewrite (opsgenie_page_continue fuel _ _ _ _ _ seen out _ _ _ Hdone).
    split.
    + intros Hlast. unfold opsgenie_next. rewrite Hlast. reflexivity.
    + intros e ->. reflexivity.
Qed.

Section Drain.

Context {api : JiraProjectsApi} {W : Type} {client : Executor W}.

Lemma drained_first_cursor cloud_id project page_size apis after
    (s : Run GraphQLRequest CanonicalProjectWithOpsgenieTeams.t W) pages s' :
  drained cloud_id project page_size apis after s pages s' ->
  exists rest, cursors_after project after pages = after :: rest.
Proof. intros []; cbn [cursors_after]; eexists; reflexivity. Qed.

(** A complete drain is what the nested loop does, whatever its seen set
    holds besides the cursors of this drain. *)
Lemma drain_succeeds cloud_id project page_size apis parent after
    (s : Run GraphQLRequest CanonicalProjectWithOpsgenieTeams.t W) pages s' :
  parent_key cloud_id project = inr parent ->
  drained cloud_id project page_size apis after s pages s' ->
  forall fuel seen out,
    (length pages <= fuel)%nat ->
    NoDup (tail (cursors_after project after pages)) ->
    Forall (fun c => c ∉ seen) (tail (cursors_after project after pages)) ->
    JiraProjects.opsgenie_loop fuel cloud_id project page_size apis after seen out s
    = (Return (out ++ concat (List.map nodes_of pages))%list, s').
Proof.
  intros Hkey Hdrained.
  assert (Hreq : forall c, nested_request cloud_id project page_size apis c
                           = opsgenie_request parent page_size apis c).
  { intros c. unfold nested_request. rewrite Hkey. reflexivity. }
  induction Hdrained as [after s conn s' Hserved Hnext
                        | after s conn s0 next pages s' Hserved Hnext Hrest IH];
    intros fuel seen out Hfuel Hnodup Hfresh.
  - destruct fuel as [|fuel]; [cbn in Hfuel; lia|].
    rewrite Hreq in Hserved.
    rewrite (opsgenie_loop_step _ _ _ _ _ _ _ _ _ _ _ _ Hkey Hserved).
    rewrite Hnext. cbn [nested_continue List.map concat]. rewrite app_nil_r. reflexivity.
  - destruct fuel as [|fuel]; [cbn in Hfuel; lia|].
    rewrite Hreq in Hserved.
    rewrite (opsgenie_loop_step _ _ _ _ _ _ _ _ _ _ _ _ Hkey Hserved).
    rewrite Hnext. cbn [nested_continue].
    cbn [cursors_after tail] in Hnodup, Hfresh. rewrite Hnext in Hnodup, Hfresh.
    destruct (drained_first_cursor _ _ _ _ _ _ _ _ Hrest) as [rest Hcursors].
    rewrite Hcursors in Hnodup, Hfresh.
    apply NoDup_cons in Hnodup. destruct Hnodup as [Hnotin Hnodup].
    apply Forall_cons in Hfresh. destruct Hfresh as [Hnext_fresh Hfresh].
    rewrite (bool_decide_eq_false_2 _ Hnext_fresh).
    rewrite (IH fuel ({[next]} ∪ seen) (out ++ nodes_of conn)%list).
    + cbn [List.map concat]. rewrite app_assoc. reflexivity.
    + cbn in Hfuel. lia.
    + rewrite Hcursors. exact Hnodup.
    + rewrite Hcursors. cbn [tail]. rewrite Forall_forall in *.
      intros c Hc. specialize (Hfresh c Hc).
      destruct (decide (c = next)) as [Heq|Hne]; [subst c; exfalso; exact (Hnotin Hc)|].
      intros [Hin|Hin]%elem_of_union;
        [apply elem_of_singleton in Hin; contradiction | exact (Hfresh Hin)].
Qed.

Lemma for_edge_succeeds fuel cloud_id page_size apis edge parent after
    (s : Run GraphQLRequest CanonicalProjectWithOpsgenieTeams.t W) pages s1 item :
  let project := JiraProjectEdge.node edge in
  let initial := JiraProjectNode.opsgenie_teams project in
  has_next initial = true ->
  parent_key cloud_id project = inr parent ->
  opsgenie_next project initial = inr (Some after) ->
  drained cloud_id project page_size apis after s pages s1 ->
  NoDup (cursors_after project after pages) ->
  (length pages <= fuel)%nat ->
  map_project_with_opsgenie_teams cloud_id project
    (nodes_of initial ++ concat (List.map nodes_of pages)) = inr item ->
  JiraProjects.for_edge fuel cloud_id page_size apis edge s = (Return tt, yielded item s1).
Proof.
  intros project initial Hhas Hkey Hnext Hdrained Hnodup Hfuel Hmap.
  unfold JiraProjects.for_edge. fold project. fold initial. fold (nodes_of initial).
  fold (has_next initial). rewrite Hhas.
  unfold bind at 1. unfold bind at 1.
  unfold JiraProjects._paginate_opsgenie_teams. unfold bind at 1.
  fold (opsgenie_next project initial). rewrite Hnext. cbn [lift ret].
  destruct (drained_first_cursor _ _ _ _ _ _ _ _ Hdrained) as [rest Hcursors].
  rewrite (drain_succeeds _ _ _ _ _ _ _ _ _ Hkey Hdrained fuel {[after]} []).
  - cbn [app ret]. unfold bind at 1. rewrite Hmap. reflexivity.
  - exact Hfuel.
  - rewrite Hcursors in *. apply NoDup_cons in Hnodup. apply Hnodup.
  - rewrite Hcursors in *. apply NoDup_cons in Hnodup. destruct Hnodup as [Hnotin _].
    cbn [tail]. rewrite Forall_forall. intros c Hc.
    destruct (decide (c = after)) as [Heq|Hne]; [subst c; exfalso; exact (Hnotin Hc)|].
    intros Hin%elem_of_singleton. contradiction.
Qed.

Lemma yields_of_app {Req Item} (l1 l2 : list (Emitted Req Item)) :
  yields_of (l1 ++ l2) = (yields_of l1 ++ yields_of l2)%list.
Proof.
  induction l1 as [|[r|i] l1 IH]; cbn [yields_of app]; rewrite ?IH; reflexivity.
Qed.

Lemma yields_of_nested cloud_id project page_size apis cursors :
  yields_of (nested_requests cloud_id project page_size apis cursors) = [].
Proof.
  unfold nested_requests. induction cursors as [|c cursors IH]; [reflexivity|].
  cbn [List.map rev]. rewrite yields_of_app, IH. reflexivity.
Qed.

End Drain.

Lemma yields_of_rev {Req Item} (l : list (Emitted Req Item)) :
  yields_of (rev l) = rev (yields_of l).
Proof.
  induction l as [|[r|i] l IH]; cbn [yields_of rev]; [reflexivity| |];
    rewrite yields_of_app, IH; cbn [yields_of]; [apply app_nil_r | reflexivity].
Qed.

(** The loop over the edges of a page yields one record for each edge, in
    the order of the edges. *)
Lemma for_edges_yields {api : JiraProjectsApi} {W : Type} {client : Executor W}
    fuel cloud_id page_size apis edges :
  forall (s s' : Run GraphQLRequest CanonicalProjectWithOpsgenieTeams.t W),
    JiraProjects.for_edges fuel cloud_id page_size apis edges s = (Return tt, s') ->
    exists new items,
      emitted s' = (new ++ emitted s)%list
      /\ yields_of (rev new) = items
      /\ Forall2 (record_of cloud_id) edges items.
Proof.
  induction edges as [|edge rest IH]; intros s s' Hrun.
  - injection Hrun as <-. exists [], []. repeat split; constructor.
  - cbn [JiraProjects.for_edges] in Hrun. unfold bind at 1 in Hrun.
    destruct (JiraProjects.for_edge fuel cloud_id page_size apis edge s) as [r1 s1] eqn:Hedge.
    apply for_edge_trace in Hedge.
    destruct Hedge as (cursors & _ & _ & [(-> & s0 & item & Htrace & -> & Hhow) | (Hfail & _)]).
    + apply IH in Hrun. destruct Hrun as (new & items & Hnew & Hyields & Hall).
      exists (new ++ Yielded item
                :: nested_requests cloud_id (JiraProjectEdge.node edge) page_size apis
                     cursors)%list, (item :: items).
      split; [|split].
      * rewrite Hnew. cbn [yielded emitted]. rewrite Htrace, <- app_assoc. reflexivity.
      * rewrite yields_of_rev, yields_of_app in *. cbn [yields_of].
        rewrite yields_of_nested, rev_app_distr. cbn [rev app]. rewrite Hyields.
        reflexivity.
      * constructor; [|exact Hall].
        destruct Hhow as [(_ & _ & Hmap) | (_ & after & pages & _ & _ & _ & Hmap)];
          eexists; exact Hmap.
    + destruct r1 as [[]| |]; [exfalso; exact (Hfail tt eq_refl) | discriminate | discriminate].
Qed.

(** ** The loop over the edges of a page *)

Section EdgeLoop.

Context {api : JiraProjectsApi} {W : Type} {client : Executor W}.

Abbreviation State := (Run GraphQLRequest CanonicalProjectWithOpsgenieTeams.t W).

Lemma served_recorded {Page} (parse : Json -> Error + Page) (req : GraphQLRequest)
    (s : State) (page : Page) (s' : State) :
  served parse req s page s' -> emitted s' = Requested req :: emitted s.
Proof.
  intros (result & Hcall & _). rewrite <- (call_emits execute req s), Hcall. reflexivity.
Qed.

Lemma drained_emits cloud_id project page_size apis after (s : State) pages s' :
  drained cloud_id project page_size apis after s pages s' ->
  emitted s' = (nested_requests cloud_id project page_size apis
                  (cursors_after project after pages) ++ emitted s)%list.
Proof.
  unfold nested_requests.
  induction 1 as [after s conn s' Hserved Hnext
                 | after s conn s0 next pages s' Hserved Hnext Hrest IH];
    cbn [cursors_after]; rewrite Hnext.
  - rewrite (served_recorded _ _ _ _ _ Hserved). reflexivity.
  - rewrite IH, (served_recorded _ _ _ _ _ Hserved).
    cbn [List.map rev]. rewrite <- app_assoc. reflexivity.
Qed.

Lemma for_edge_at_once fuel cloud_id page_size apis edge (s : State) item :
  let project := JiraProjectEdge.node edge in
  let initial := JiraProjectNode.opsgenie_teams project in
  has_next initial = false ->
  map_project_with_opsgenie_teams cloud_id project (nodes_of initial) = inr item ->
  JiraProjects.for_edge fuel cloud_id page_size apis edge s = (Return tt, yielded item s).
Proof.
  intros project initial Hhas Hmap.
  unfold JiraProjects.for_edge. fold project. fold initial. fold (nodes_of initial).
  fold (has_next initial). rewrite Hhas.
  unfold bind at 1. cbn [ret]. unfold bind at 1. rewrite Hmap. reflexivity.
Qed.

(** The loop over the edges of a page ends, in the state and with the
    events that the answers of the client determine. *)
Lemma for_edges_drained fuel cloud_id page_size apis edges (s : State) events s' :
  edges_drained fuel cloud_id page_size apis edges s events s' ->
  JiraProjects.for_edges fuel cloud_id page_size apis edges s = (Return tt, s')
  /\ history s' = (history s ++ events)%list.
Proof.
  unfold history.
  induction 1 as [s
                 | edge rest s item events s' project initial Hhas Hmap Hrest [IHrun IHtrace]
                 | edge rest s parent after pages s1 item events s' project initial Hhas Hkey
                     Hnext Hdrained Hnodup Hfuel Hmap Hrest [IHrun IHtrace]].
  - split; [reflexivity | symmetry; apply app_nil_r].
  - cbn [JiraProjects.for_edges]. unfold bind at 1.
    rewrite (for_edge_at_once fuel cloud_id page_size apis edge s item Hhas Hmap).
    split; [exact IHrun|].
    rewrite IHtrace. cbn [yielded emitted rev]. rewrite <- app_assoc. reflexivity.
  - cbn [JiraProjects.for_edges]. unfold bind at 1.
    rewrite (for_edge_succeeds fuel cloud_id page_size apis edge parent after s pages s1
               item Hhas Hkey Hnext Hdrained Hnodup Hfuel Hmap).
    split; [exact IHrun|].
    rewrite IHtrace. cbn [yielded emitted rev].
    rewrite (drained_emits _ _ _ _ _ _ _ _ Hdrained). unfold nested_requests.
    rewrite rev_app_distr, rev_involutive, <- !app_assoc. reflexivity.
Qed.

(** What the outer loop does after its request was answered by [page] and
    the edges of [page] were gone through. *)
Lemma page_drained_then_next fuel query cloud_id page_size apis after seen
    (s : State) page s0 events s' :
  served parse_jira_projects_page
    (projects_request query cloud_id page_size apis after) s page s0 ->
  edges_drained fuel cloud_id page_size apis
    (JiraProjectsConnection.edges (JiraProjectsPageData.projects page)) s0 events s' ->
  let loop := JiraProjects.projects_loop (S fuel) query cloud_id page_size apis after
                seen s in
  loop = outer_continue fuel query cloud_id page_size apis seen (projects_next page) s'
  /\ history s'
     = (history s ++ Requested (projects_request query cloud_id page_size apis after)
                     :: events)%list
  /\ exists later,
       history (snd loop) = (history s' ++ later)%list
       /\ (projects_next page = inr None -> later = [])
       /\ forall next,
            projects_next page = inr (Some next) -> next ∉ seen -> fuel <> O ->
            exists more,
              later = Requested (projects_request query cloud_id page_size apis
                                   (Some next)) :: more.
Proof.
  intros Hserved Hedges loop.
  destruct (for_edges_drained _ _ _ _ _ _ _ _ Hedges) as [Hrun Htrace].
  assert (Hloop : loop = outer_continue fuel query cloud_id page_size apis seen
                           (projects_next page) s').
  { subst loop. rewrite (projects_loop_step _ _ _ _ _ _ seen _ _ _ Hserved).
    unfold bind. rewrite Hrun. reflexivity. }
  split; [exact Hloop|]. split.
  - rewrite Htrace. unfold history. rewrite (served_recorded _ _ _ _ _ Hserved).
    cbn [rev]. rewrite <- app_assoc. reflexivity.
  - rewrite Hloop. unfold outer_continue.
    destruct (projects_next page) as [e|[next|]].
    + exists []. split; [symmetry; apply app_nil_r|]. split; [discriminate|].
      intros next [=].
    + destruct (bool_decide (next ∈ seen)) eqn:Hin.
      * exists []. split; [symmetry; apply app_nil_r|]. split; [discriminate|].
        intros n [= <-] Hfresh. apply bool_decide_eq_true_1 in Hin. contradiction.
      * destruct fuel as [|fuel'].
        -- exists []. split; [symmetry; apply app_nil_r|]. split; [discriminate|].
           intros n _ _ Hfuel. contradiction.
        -- destruct (JiraProjects.projects_loop (S fuel') query cloud_id page_size apis
                       (Some next) ({[next]} ∪ seen) s') as [r s2] eqn:Hnext.
           cbn [snd].
           destruct (projects_loop_inv _ _ _ _ _ _ _ _ _ _ Hnext)
             as (s3 & Hemit & Hcases).
           assert (Hgrows : exists new, emitted s2 = (new ++ emitted s3)%list).
           { destruct Hcases as [(page2 & _ & Hbind) | (_ & ->)]; [|exists []; reflexivity].
             unfold bind at 1 in Hbind.
             pose proof (for_edges_quiet fuel' cloud_id page_size apis
                           (JiraProjectsConnection.edges
                              (JiraProjectsPageData.projects page2)) s3) as Hquiet.
             destruct (JiraProjects.for_edges _ _ _ _ _ s3) as [[[]|e|] s4];
               cbn [snd] in Hquiet; destruct Hquiet as (n1 & E1 & _);
               try (injection Hbind as <- <-; exists n1; exact E1).
             unfold outer_continue in Hbind.
             destruct (projects_next page2) as [e|[next2|]];
               try (injection Hbind as <- <-; exists n1; exact E1).
             destruct (bool_decide (next2 ∈ {[next]} ∪ seen));
               [injection Hbind as <- <-; exists n1; exact E1|].
             apply projects_loop_trace in Hbind; [|intros a [= <-]; set_solver].
             destruct Hbind as (n2 & E2 & _).
             exists (n2 ++ n1)%list. rewrite E2, E1. apply app_assoc. }
           destruct Hgrows as (new & Hnew).
           exists (Requested (projects_request query cloud_id page_size apis (Some next))
                     :: rev new).
           split; [|split; [discriminate|]].
           ++ unfold history. rewrite Hnew, Hemit, rev_app_distr. cbn [rev].
              rewrite <- app_assoc. reflexivity.
           ++ intros n [= <-] _ _. eexists. reflexivity.
    + exists []. split; [symmetry; apply app_nil_r|]. split; [reflexivity|].
      intros next [=].
Qed.

End EdgeLoop.

(** C5.  An outer edge whose nested connection has a next page: the record
    is yielded only after a complete drain of that connection by the nested
    loop (each page answers the request for the cursor selected on the page
    before, the last page has no next, no cursor is asked twice), its teams
    being those of the edge followed by those of the drained pages in the
    order they were fetched, and nothing is yielded when the drain fails;
    the drain succeeds on any such chain of pages whose own cursors are
    distinct, whatever was requested before (its seen set is its own); the
    outer loop turns to the next cursor only after the loop over the edges
    of the page has ended; and that loop yields one record for each edge,
    in the order of the edges.

    The loop over the edges of a page ends, and does all of this: when the
    client serves, edge after edge, the chain of pages of every nested
    connection that has a next page, the loop returns, and its events are,
    for each edge in the order of the page, the requests of the drain of
    that edge, one for each cursor of its chain in order, followed by the
    yield of its record with all its teams.  The outer loop then goes on from
    that state: all this comes after its request for the page and before
    anything later, and when the page selects a next cursor that was not
    asked for, the next event is the request of the outer loop for it. *)
Theorem nested_drain_before_yield (api : JiraProjectsApi) (W : Type) (client : Executor W) :
  (forall fuel cloud_id page_size apis edge
          (s : Run GraphQLRequest CanonicalProjectWithOpsgenieTeams.t W) r s',
      let project := JiraProjectEdge.node edge in
      let initial := JiraProjectNode.opsgenie_teams project in
      has_next initial = true ->
      JiraProjects.for_edge fuel cloud_id page_size apis edge s = (r, s') ->
      (r = Return tt ->
       exists after pages s1 item,
         opsgenie_next project initial = inr (Some after)
         /\ drained cloud_id project page_size apis after s pages s1
         /\ NoDup (cursors_after project after pages)
         /\ emitted s1 = (nested_requests cloud_id project page_size apis
                            (cursors_after project after pages) ++ emitted s)%list
         /\ map_project_with_opsgenie_teams cloud_id project
              (nodes_of initial ++ concat (List.map nodes_of pages)) = inr item
         /\ s' = yielded item s1)
      /\ ((forall x, r <> Return x) ->
          yields_of (emitted s') = yields_of (emitted s)))
  /\ (forall cloud_id project page_size apis after
             (s : Run GraphQLRequest CanonicalProjectWithOpsgenieTeams.t W) pages s',
      drained cloud_id project page_size apis after s pages s' ->
      exists front final,
        pages = (front ++ [final])%list
        /\ Forall (fun conn => has_next conn = true) front
        /\ has_next final = false)
  /\ (forall fuel cloud_id page_size apis edge parent after
             (s : Run GraphQLRequest CanonicalProjectWithOpsgenieTeams.t W) pages s1 item,
      let project := JiraProjectEdge.node edge in
      let initial := JiraProjectNode.opsgenie_teams project in
      has_next initial = true ->
      parent_key cloud_id project = inr parent ->
      opsgenie_next project initial = inr (Some after) ->
      drained cloud_id project page_size apis after s pages s1 ->
      NoDup (cursors_after project after pages) ->
      (length pages <= fuel)%nat ->
      map_project_with_opsgenie_teams cloud_id project
        (nodes_of initial ++ concat (List.map nodes_of pages)) = inr item ->
      JiraProjects.for_edge fuel cloud_id page_size apis edge s
      = (Return tt, yielded item s1))
  /\ (forall fuel query cloud_id page_size apis after seen
             (s : Run GraphQLRequest CanonicalProjectWithOpsgenieTeams.t W) page s0,
      served parse_jira_projects_page
        (projects_request query cloud_id page_size apis after) s page s0 ->
      JiraProjects.projects_loop (S fuel) query cloud_id page_size apis after seen s
      = bind (JiraProjects.for_edges fuel cloud_id page_size apis
                (JiraProjectsConnection.edges (JiraProjectsPageData.projects page)))
          (fun _ => outer_continue fuel query cloud_id page_size apis seen
                      (projects_next page)) s0)
  /\ (forall fuel cloud_id page_size apis edges
             (s s' : Run GraphQLRequest CanonicalProjectWithOpsgenieTeams.t W),
      JiraProjects.for_edges fuel cloud_id page_size apis edges s = (Return tt, s') ->
      exists new items,
        emitted s' = (new ++ emitted s)%list
        /\ yields_of (rev new) = items
        /\ Forall2 (record_of cloud_id) edges items)
  /\ (forall fuel cloud_id page_size apis edges
             (s : Run GraphQLRequest CanonicalProjectWithOpsgenieTeams.t W) events s',
      edges_drained fuel cloud_id page_size apis edges s events s' ->
      JiraProjects.for_edges fuel cloud_id page_size apis edges s = (Return tt, s')
      /\ history s' = (history s ++ events)%list)
  /\ (forall fuel query cloud_id page_size apis after seen
             (s : Run GraphQLRequest CanonicalProjectWithOpsgenieTeams.t W) page s0
             events s',
      served parse_jira_projects_page
        (projects_request query cloud_id page_size apis after) s page s0 ->
      edges_drained fuel cloud_id page_size apis
        (JiraProjectsConnection.edges (JiraProjectsPageData.projects page)) s0 events s' ->
      let loop := JiraProjects.projects_loop (S fuel) query cloud_id page_size apis after
                    seen s in
      loop = outer_continue fuel query cloud_id page_size apis seen (projects_next page) s'
      /\ history s'
         = (history s ++ Requested (projects_request query cloud_id page_size apis after)
                         :: events)%list
      /\ exists later,
           history (snd loop) = (history s' ++ later)%list
           /\ (projects_next page = inr None -> later = [])
           /\ forall next,
                projects_next page = inr (Some next) -> next ∉ seen -> fuel <> O ->
                exists more,
                  later = Requested (projects_request query cloud_id page_size apis
                                       (Some next)) :: more).
Proof.
  split; [|split; [|split; [|split; [|split; [|split]]]]].
  - intros fuel cloud_id page_size apis edge s r s' project initial Hhas Hrun.
    apply for_edge_trace in Hrun. fold project in Hrun. fold initial in Hrun.
    destruct Hrun as (cursors & Hnodup & _ & Hcases). split.
    + intros ->.
      destruct Hcases as [(_ & s1 & item & Htrace & -> & Hhow) | (Hnot & _)];
        [|exfalso; exact (Hnot tt eq_refl)].
      destruct Hhow as [(Hno & _) | (_ & after & pages & Hnext & Hd & -> & Hmap)];
        [congruence|].
      exists after, pages, s1, item. auto 10.
    + intros Hfail.
      destruct Hcases as [(-> & _) | (_ & Htrace)]; [exfalso; exact (Hfail tt eq_refl)|].
      rewrite Htrace, yields_of_app, yields_of_nested. reflexivity.
  - intros. eapply drained_until_last_page. eassumption.
  - intros. eapply for_edge_succeeds; eassumption.
  - intros. apply projects_loop_step. assumption.
  - intros. eapply for_edges_yields. eassumption.
  - intros. apply for_edges_drained. assumption.
  - intros. eapply page_drained_then_next; eassumption.
Qed.

(** ** Traces of the offset paginators *)

Section Offset.

Context {api : JiraRestApi} {W : Type} {client : RestClient W}.

Lemma call_emits_rest {Item A} (run : RestRequest -> Prog W A) (req : RestRequest)
    (s : Run RestRequest Item W) :
  emitted (snd (call run req s)) = Requested req :: emitted s.
Proof. unfold call. destruct (run req (world s)). reflexivity. Qed.

Lemma total_cases (total : option Z) : (exists t, total_is total t) \/ no_total total.
Proof.
  destruct total as [t|]; [|right; left; reflexivity].
  destruct (Z_le_gt_dec 0 t); [left; exists t; split; auto | right; right; exists t; split; auto; lia].
Qed.

(** What the loop of [iter_projects_via_rest] does after a page: the
    verdicts of lines 63-81, one lemma for all of them. *)
Lemma projects_loop_verdict fuel cloud_id types page_size start_at seen s page s' :
  start_at ∉ seen ->
  projects_page_read cloud_id types page_size start_at s page s' ->
  let n := len (PageBeanProject.values page) in
  let loop := JiraRestProjects.projects_loop (S fuel) cloud_id types page_size start_at seen s in
  let is_last := PageBeanProject.is_last page in
  let total := PageBeanProject.total page in
  (is_last = Some true -> loop = (Return tt, s'))
  /\ (forall t, is_last <> Some true -> total_is total t -> t <= start_at + n ->
      loop = (Return tt, s'))
  /\ (is_last <> Some true -> no_total total -> n < page_size -> loop = (Return tt, s'))
  /\ (forall t, is_last = Some false -> total_is total t -> start_at + n < t -> n = 0 ->
      loop = (Raise (SerializationError
                       "Received empty page with isLast=false; cannot continue pagination"),
              s'))
  /\ (forall t, is_last = None -> total_is total t -> start_at + n < t -> n = 0 ->
      loop = (Return tt, s'))
  /\ (is_last <> Some true ->
      ((exists t, total_is total t /\ start_at + n < t) \/ (no_total total /\ page_size <= n)) ->
      n <> 0 ->
      loop = JiraRestProjects.projects_loop fuel cloud_id types page_size
               (start_at + n) ({[start_at]} ∪ seen) s').
Proof.
  intros Hfresh (payload & s0 & Hcall & Hread & Hvalues) n loop is_last total.
  assert (Hloop : loop
    = (if match is_last with Some _ => true | None => false end
          && match is_last with Some b => b | None => false end
       then ret tt
       else
         if (if match total with Some t => 0 <=? t | None => false end
             then match total with Some t => t <=? start_at + n | None => false end
             else n <? page_size)
         then ret tt
         else if n =? 0 then
           if match is_last with Some _ => true | None => false end
              && negb (match is_last with Some b => b | None => false end)
           then raise (SerializationError
                  "Received empty page with isLast=false; cannot continue pagination")
           else ret tt
         else JiraRestProjects.projects_loop fuel cloud_id types page_size
                (start_at + n) ({[start_at]} ∪ seen)) s').
  { subst loop. cbn [JiraRestProjects.projects_loop].
    rewrite (bool_decide_eq_false_2 _ Hfresh).
    unfold bind at 1. fold (project_search page_size start_at). rewrite Hcall.
    unfold bind at 1. rewrite Hread. cbn [lift ret].
    unfold bind at 1. rewrite Hvalues. reflexivity. }
  rewrite Hloop. clear Hloop loop.
  repeat apply conj.
  - intros ->. reflexivity.
  - intros t Hlast [-> Ht] Hreach.
    apply Z.leb_le in Ht, Hreach. rewrite Ht, Hreach.
    destruct is_last as [[]|]; [congruence | reflexivity | reflexivity].
  - intros Hlast Hnone Hshort. apply Z.ltb_lt in Hshort.
    assert (Htot : match total with Some t => 0 <=? t | None => false end = false).
    { destruct Hnone as [-> | (t & -> & Ht)]; [reflexivity | apply Z.leb_gt; exact Ht]. }
    rewrite Htot, Hshort.
    destruct is_last as [[]|]; [congruence | reflexivity | reflexivity].
  - intros t -> [-> Ht] Hmore Hempty.
    apply Z.leb_le in Ht. apply Z.leb_gt in Hmore. apply Z.eqb_eq in Hempty.
    cbn [andb negb]. rewrite Ht, Hmore, Hempty. reflexivity.
  - intros t -> [-> Ht] Hmore Hempty.
    apply Z.leb_le in Ht. apply Z.leb_gt in Hmore. apply Z.eqb_eq in Hempty.
    cbn [andb negb]. rewrite Ht, Hmore, Hempty. reflexivity.
  - intros Hlast Hgo Hsome. apply Z.eqb_neq in Hsome.
    assert (Hstop : (if match total with Some t => 0 <=? t | None => false end
                     then match total with Some t => t <=? start_at + n | None => false end
                     else n <? page_size) = false).
    { destruct Hgo as [(t & [-> Ht] & Hmore) | ([-> | (t & -> & Ht)] & Hfull)].
      - apply Z.leb_le in Ht. rewrite Ht. apply Z.leb_gt. exact Hmore.
      - apply Z.ltb_ge. exact Hfull.
      - apply Z.leb_gt in Ht. rewrite Ht. apply Z.ltb_ge. exact Hfull. }
    rewrite Hstop, Hsome.
    destruct is_last as [[]|]; [congruence | reflexivity | reflexivity].
Qed.

Lemma issues_loop_verdict fuel cloud_id jql fields page_size start_at seen s page s' :
  start_at ∉ seen ->
  issues_page_read cloud_id jql fields page_size start_at s page s' ->
  let n := len (SearchResults.issues page) in
  let loop := JiraRestIssues.issues_loop (S fuel) cloud_id jql fields page_size start_at seen s in
  let total := SearchResults.total page in
  (forall t, total_is total t -> t <= start_at + n -> loop = (Return tt, s'))
  /\ (no_total total -> n < page_size -> loop = (Return tt, s'))
  /\ (n = 0 -> loop = (Return tt, s'))
  /\ (((exists t, total_is total t /\ start_at + n < t) \/ (no_total total /\ page_size <= n)) ->
      n <> 0 ->
      loop = JiraRestIssues.issues_loop fuel cloud_id jql fields page_size
               (start_at + n) ({[start_at]} ∪ seen) s').
Proof.
  intros Hfresh (payload & s0 & Hcall & Hread & Hvalues) n loop total.
  assert (Hloop : loop
    = (if (if match total with Some t => 0 <=? t | None => false end
           then match total with Some t => t <=? start_at + n | None => false end
           else n <? page_size)
       then ret tt
       else if n =? 0 then ret tt
       else JiraRestIssues.issues_loop fuel cloud_id jql fields page_size
              (start_at + n) ({[start_at]} ∪ seen)) s').
  { subst loop. cbn [JiraRestIssues.issues_loop].
    rewrite (bool_decide_eq_false_2 _ Hfresh).
    unfold bind at 1. fold (issue_search jql fields page_size start_at). rewrite Hcall.
    unfold bind at 1. rewrite Hread. cbn [lift ret].
    unfold bind at 1. rewrite Hvalues. reflexivity. }
  rewrite Hloop. clear Hloop loop.
  repeat apply conj.
  - intros t [-> Ht] Hreach.
    apply Z.leb_le in Ht, Hreach. rewrite Ht, Hreach. reflexivity.
  - intros Hnone Hshort. apply Z.ltb_lt in Hshort.
    assert (Htot : match total with Some t => 0 <=? t | None => false end = false).
    { destruct Hnone as [-> | (t & -> & Ht)]; [reflexivity | apply Z.leb_gt; exact Ht]. }
    rewrite Htot, Hshort. reflexivity.
  - intros Hempty. apply Z.eqb_eq in Hempty. rewrite Hempty.
    destruct total as [t|];
      [destruct (0 <=? t); [destruct (t <=? _) | destruct (_ <? _)] | destruct (_ <? _)];
      reflexivity.
  - intros Hgo Hsome. apply Z.eqb_neq in Hsome.
    assert (Hstop : (if match total with Some t => 0 <=? t | None => false end
                     then match total with Some t => t <=? start_at + n | None => false end
                     else n <? page_size) = false).
    { destruct Hgo as [(t & [-> Ht] & Hmore) | ([-> | (t & -> & Ht)] & Hfull)].
      - apply Z.leb_le in Ht. rewrite Ht. apply Z.leb_gt. exact Hmore.
      - apply Z.ltb_ge. exact Hfull.
      - apply Z.leb_gt in Ht. rewrite Ht. apply Z.ltb_ge. exact Hfull. }
    rewrite Hstop, Hsome. reflexivity.
Qed.

Lemma offsets_app {Item} (l1 l2 : list (Emitted RestRequest Item)) :
  offsets (l1 ++ l2) = (offsets l1 ++ offsets l2)%list.
Proof.
  induction l1 as [|[r|i] l1 IH]; cbn [offsets app]; [reflexivity| |exact IH].
  destruct (dict_get _ _); rewrite ?IH; reflexivity.
Qed.

Lemma for_values_yields cloud_id types values
    (s : Run RestRequest CanonicalProjectWithOpsgenieTeams.t W) :
  exists new,
    emitted (snd (JiraRestProjects.for_values cloud_id types values s))
      = (new ++ emitted s)%list
    /\ offsets new = [].
Proof.
  revert s. induction values as [|item rest IH]; intros s;
    cbn [JiraRestProjects.for_values].
  - exists []. split; reflexivity.
  - unfold bind at 1.
    destruct (map_rest_project cloud_id item) as [e|project]; cbn [lift raise ret].
    + exists []. split; reflexivity.
    + destruct (JiraProject.type project) as [ty|]; [|apply IH].
      destruct (negb _); [apply IH|].
      unfold bind at 1. cbn [yield].
      match goal with |- context [JiraRestProjects.for_values _ _ _ ?s1] =>
        destruct (IH s1) as (new & Hnew & Hoff) end.
      eexists (new ++ [_])%list. split.
      * rewrite Hnew. cbn [emitted]. rewrite <- app_assoc. reflexivity.
      * rewrite offsets_app, Hoff. reflexivity.
Qed.

(** The offsets [iter_projects_via_rest] asks for from a state of its loop
    on: none below the current one, none twice. *)
Lemma projects_loop_offsets fuel cloud_id types page_size :
  forall start_at seen s,
    exists new,
      emitted (snd (JiraRestProjects.projects_loop fuel cloud_id types page_size
                      start_at seen s))
        = (new ++ emitted s)%list
      /\ NoDup (offsets new)
      /\ Forall (fun z => start_at <= z) (offsets new).
Proof.
  induction fuel as [|fuel IH]; intros start_at seen s.
  - exists []. repeat split; constructor.
  - cbn [JiraRestProjects.projects_loop].
    destruct (bool_decide (start_at ∈ seen)).
    { exists []. repeat split; constructor. }
    unfold bind at 1. fold (project_search page_size start_at).
    pose proof (call_emits_rest get_json (project_search page_size start_at) s) as Hemit.
    destruct (call get_json (project_search page_size start_at) s) as [res s0].
    cbn [snd] in Hemit.
    assert (Hone : forall s1 : Run RestRequest CanonicalProjectWithOpsgenieTeams.t W,
               (exists ys, emitted s1 = (ys ++ emitted s0)%list /\ offsets ys = []) ->
               exists new,
                 emitted s1 = (new ++ emitted s)%list
                 /\ NoDup (offsets new)
                 /\ Forall (fun z => start_at <= z) (offsets new)).
    { intros s1 (ys & Hys & Hoff). exists (ys ++ [Requested (project_search page_size start_at)])%list.
      split; [rewrite Hys, Hemit, <- app_assoc; reflexivity|].
      rewrite offsets_app, Hoff. cbn [offsets app project_search params dict_get find fst snd String.eqb].
      cbn. split; [apply NoDup_singleton | repeat constructor; lia]. }
    assert (Hhere : exists ys, emitted s0 = (ys ++ emitted s0)%list
                               /\ offsets (Item:=CanonicalProjectWithOpsgenieTeams.t) ys = []).
    { exists []. split; reflexivity. }
    destruct res as [payload| |]; [|apply Hone; exact Hhere|apply Hone; exact Hhere].
    unfold bind at 1.
    destruct (PageBeanProject_from_dict payload "data") as [e|page]; cbn [lift raise ret];
      [apply Hone; exact Hhere|].
    unfold bind at 1.
    pose proof (for_values_yields cloud_id types (PageBeanProject.values page) s0) as Hys.
    destruct (JiraRestProjects.for_values cloud_id types (PageBeanProject.values page) s0)
      as [[[]| |] s1]; cbn [snd] in Hys; try (apply Hone; exact Hys).
    destruct (_ && _); [apply Hone; exact Hys|].
    match goal with
    | |- context [if (if ?a then ?b else ?c) then ret tt else _] =>
      destruct (if a then b else c)
    end; [apply Hone; exact Hys|].
    destruct (len (PageBeanProject.values page) =? 0) eqn:Hlen.
    { destruct (_ && _); apply Hone; exact Hys. }
    apply Z.eqb_neq in Hlen.
    assert (Hpos : 0 < len (PageBeanProject.values page)) by (unfold len in *; lia).
    match goal with |- context [JiraRestProjects.projects_loop fuel _ _ _ ?st ?sn ?s1] =>
      destruct (IH st sn s1) as (new & Hnew & Hnodup & Hge) end.
    destruct Hys as (ys & Hys & Hoff).
    exists (new ++ ys ++ [Requested (project_search page_size start_at)])%list.
    split; [rewrite Hnew, Hys, Hemit, <- !app_assoc; reflexivity|].
    rewrite !offsets_app, Hoff.
    assert (Hreq : offsets (Item:=CanonicalProjectWithOpsgenieTeams.t)
                     [Requested (project_search page_size start_at)] = [start_at])
      by reflexivity.
    rewrite Hreq. cbn [app]. split.
    + apply NoDup_app. split; [exact Hnodup|]. split; [|apply NoDup_singleton].
      intros z Hz Hz'. apply list_elem_of_singleton in Hz'. subst z.
      rewrite Forall_forall in Hge. specialize (Hge _ Hz). lia.
    + apply Forall_app. split; [|repeat constructor; lia].
      eapply Forall_impl; [exact Hge|]. intros z Hz. cbn beta in Hz. lia.
Qed.

End Offset.

(** ** Loop protection *)

Lemma iter_projects_cursors {api : JiraProjectsApi} {W : Type} {client : Executor W}
    fuel cloud_id project_types page_size apis
    (s : Run GraphQLRequest CanonicalProjectWithOpsgenieTeams.t W) :
  exists new,
    emitted (snd (JiraProjects.iter_projects_with_opsgenie_linkable_teams fuel cloud_id
                    project_types page_size apis s))
      = (new ++ emitted s)%list
    /\ NoDup (outer_cursors new).
Proof.
  assert (Hnone : exists new : list (Emitted GraphQLRequest CanonicalProjectWithOpsgenieTeams.t),
             emitted s = (new ++ emitted s)%list /\ NoDup (outer_cursors new)).
  { exists []. split; [reflexivity | constructor]. }
  unfold JiraProjects.iter_projects_with_opsgenie_linkable_teams.
  destruct (negb _); [exact Hnone|].
  destruct (page_size <=? 0); [exact Hnone|].
  unfold bind at 1.
  destruct (JiraProjects._normalize_project_types project_types) as [e|types];
    cbn [lift raise ret]; [exact Hnone|].
  unfold bind at 1.
  destruct (build_jira_projects_page_query types) as [e|query];
    cbn [lift raise ret]; [exact Hnone|].
  destruct (JiraProjects.projects_loop fuel query (Py.strip cloud_id) page_size apis
              None ∅ s) as [r s'] eqn:Hrun.
  apply projects_loop_trace in Hrun; [|discriminate].
  destruct Hrun as (new & Hnew & Hnodup & _). exists new. auto.
Qed.

Lemma iter_projects_via_rest_offsets {api : JiraRestApi} {W : Type} {client : RestClient W}
    fuel cloud_id project_types page_size
    (s : Run RestRequest CanonicalProjectWithOpsgenieTeams.t W) :
  exists new,
    emitted (snd (JiraRestProjects.iter_projects_via_rest fuel cloud_id project_types
                    page_size s))
      = (new ++ emitted s)%list
    /\ NoDup (offsets new).
Proof.
  assert (Hnone : exists new : list (Emitted RestRequest CanonicalProjectWithOpsgenieTeams.t),
             emitted s = (new ++ emitted s)%list /\ NoDup (offsets new)).
  { exists []. split; [reflexivity | constructor]. }
  unfold JiraRestProjects.iter_projects_via_rest.
  destruct (negb _); [exact Hnone|].
  destruct (page_size <=? 0); [exact Hnone|].
  unfold bind at 1.
  destruct (JiraRestProjects._normalize_project_types project_types) as [e|types];
    cbn [lift raise ret]; [exact Hnone|].
  destruct (projects_loop_offsets fuel (Py.strip cloud_id) (list_to_set types) page_size
              0 ∅ s) as (new & Hnew & Hnodup & _).
  exists new. auto.
Qed.

(** C2.  In the cursor paginator, at both levels, a next cursor that is in
    the seen set ends the loop with a [SerializationError] in the state the
    page left, so with no further request; in the offset paginators an
    offset that is in the seen set ends the loop the same way before any
    request is issued.  The seen sets hold what was requested: over a whole
    call, whatever the client answers and however long the loop runs, no
    cursor and no offset is ever requested twice. *)
Theorem repeated_position_aborts :
  (forall (api : JiraProjectsApi) (W : Type) (client : Executor W) fuel query cloud_id
          page_size apis after seen s page s' next,
      projects_page_done fuel query cloud_id page_size apis after s page s' ->
      projects_next page = inr (Some next) ->
      next ∈ seen ->
      JiraProjects.projects_loop (S fuel) query cloud_id page_size apis after seen s
      = (Raise (SerializationError
                  "Pagination cursor repeated; aborting to prevent infinite loop"), s'))
  /\ (forall (api : JiraProjectsApi) (W : Type) (client : Executor W) fuel cloud_id
             project page_size apis after seen out s conn s' next,
      opsgenie_page_done cloud_id project page_size apis after s conn s' ->
      opsgenie_next project conn = inr (Some next) ->
      next ∈ seen ->
      JiraProjects.opsgenie_loop (S fuel) cloud_id project page_size apis after seen out s
      = (Raise (SerializationError "Opsgenie pagination cursor repeated; aborting"), s'))
  /\ (forall (api : JiraRestApi) (W : Type) (client : RestClient W) fuel cloud_id types
             page_size start_at seen s,
      start_at ∈ seen ->
      JiraRestProjects.projects_loop (S fuel) cloud_id types page_size start_at seen s
      = (Raise (SerializationError
                  "Pagination startAt repeated; aborting to prevent infinite loop"), s))
  /\ (forall (api : JiraRestApi) (W : Type) (client : RestClient W) fuel cloud_id jql
             fields page_size start_at seen s,
      start_at ∈ seen ->
      JiraRestIssues.issues_loop (S fuel) cloud_id jql fields page_size start_at seen s
      = (Raise (SerializationError
                  "Pagination startAt repeated; aborting to prevent infinite loop"), s))
  /\ (forall (api : JiraProjectsApi) (W : Type) (client : Executor W) fuel cloud_id
             project_types page_size apis
             (s : Run GraphQLRequest CanonicalProjectWithOpsgenieTeams.t W),
      exists new,
        emitted (snd (JiraProjects.iter_projects_with_opsgenie_linkable_teams fuel
                        cloud_id project_types page_size apis s))
          = (new ++ emitted s)%list
        /\ NoDup (outer_cursors new))
  /\ (forall (api : JiraProjectsApi) (W : Type) (client : Executor W) fuel cloud_id
             project initial page_size apis
             (s : Run GraphQLRequest CanonicalProjectWithOpsgenieTeams.t W),
      exists cursors,
        emitted (snd (JiraProjects._paginate_opsgenie_teams fuel cloud_id project initial
                        page_size apis s))
          = (nested_requests cloud_id project page_size apis cursors ++ emitted s)%list
        /\ NoDup cursors)
  /\ (forall (api : JiraRestApi) (W : Type) (client : RestClient W) fuel cloud_id
             project_types page_size
             (s : Run RestRequest CanonicalProjectWithOpsgenieTeams.t W),
      exists new,
        emitted (snd (JiraRestProjects.iter_projects_via_rest fuel cloud_id project_types
                        page_size s))
          = (new ++ emitted s)%list
        /\ NoDup (offsets new)).
Proof.
  repeat apply conj.
  - intros api W client fuel query cloud_id page_size apis after seen s page s' next
      Hdone Hnext Hin.
    rewrite (projects_page_continue _ _ _ _ _ _ seen _ _ _ Hdone), Hnext.
    cbn [outer_continue]. rewrite (bool_decide_eq_true_2 _ Hin). reflexivity.
  - intros api W client fuel cloud_id project page_size apis after seen out s conn s' next
      Hdone Hnext Hin.
    rewrite (opsgenie_page_continue fuel _ _ _ _ _ seen out _ _ _ Hdone), Hnext.
    cbn [nested_continue]. rewrite (bool_decide_eq_true_2 _ Hin). reflexivity.
  - intros api W client fuel cloud_id types page_size start_at seen s Hin.
    cbn [JiraRestProjects.projects_loop]. rewrite (bool_decide_eq_true_2 _ Hin).
    reflexivity.
  - intros api W client fuel cloud_id jql fields page_size start_at seen s Hin.
    cbn [JiraRestIssues.issues_loop]. rewrite (bool_decide_eq_true_2 _ Hin).
    reflexivity.
  - intros. apply iter_projects_cursors.
  - intros api W client fuel cloud_id project initial page_size apis s.
    destruct (JiraProjects._paginate_opsgenie_teams fuel cloud_id project initial
                page_size apis s) as [r s'] eqn:Hrun.
    apply paginate_opsgenie_teams_trace in Hrun.
    destruct Hrun as (cursors & Htrace & Hnodup & _). exists cursors. auto.
  - intros. apply iter_projects_via_rest_offsets.
Qed.

(** ** Termination of the offset paginators *)

(** The rules of C4 in the order the code applies them.  After each page
    of an offset-paginated call:
    stop when the is-last flag is present and true; else, when a
    non-negative total is present, stop once offset plus the number of
    items returned reaches it; else (no such total) stop when fewer items
    than [page_size] were returned; a page that none of these rules stops
    and that is empty raises [SerializationError] when it carries an
    is-last flag that is false, and stops the loop otherwise; any other
    page moves the offset on by its number of items.  So an empty page with
    is-last false raises exactly when a total is present and not reached,
    and every other empty page stops the loop normally.  The issue search
    has no is-last flag and follows the same rules without it. *)
Theorem offset_termination_precedence :
  (forall (api : JiraRestApi) (W : Type) (client : RestClient W) fuel cloud_id types
          page_size start_at seen s page s',
      start_at ∉ seen ->
      projects_page_read cloud_id types page_size start_at s page s' ->
      let n := len (PageBeanProject.values page) in
      let loop := JiraRestProjects.projects_loop (S fuel) cloud_id types page_size
                    start_at seen s in
      let is_last := PageBeanProject.is_last page in
      let total := PageBeanProject.total page in
      (is_last = Some true -> loop = (Return tt, s'))
      /\ (forall t, is_last <> Some true -> total_is total t -> t <= start_at + n ->
          loop = (Return tt, s'))
      /\ (is_last <> Some true -> no_total total -> n < page_size ->
          loop = (Return tt, s'))
      /\ (forall t, is_last = Some false -> total_is total t -> start_at < t -> n = 0 ->
          loop = (Raise (SerializationError
                    "Received empty page with isLast=false; cannot continue pagination"),
                  s'))
      /\ (n = 0 -> 0 < page_size ->
          ~ (is_last = Some false /\ exists t, total_is total t /\ start_at < t) ->
          loop = (Return tt, s'))
      /\ (is_last <> Some true ->
          ((exists t, total_is total t /\ start_at + n < t)
           \/ (no_total total /\ page_size <= n)) ->
          n <> 0 ->
          loop = JiraRestProjects.projects_loop fuel cloud_id types page_size
                   (start_at + n) ({[start_at]} ∪ seen) s'))
  /\ (forall (api : JiraRestApi) (W : Type) (client : RestClient W) fuel cloud_id jql
             fields page_size start_at seen s page s',
      start_at ∉ seen ->
      issues_page_read cloud_id jql fields page_size start_at s page s' ->
      let n := len (SearchResults.issues page) in
      let loop := JiraRestIssues.issues_loop (S fuel) cloud_id jql fields page_size
                    start_at seen s in
      let total := SearchResults.total page in
      (forall t, total_is total t -> t <= start_at + n -> loop = (Return tt, s'))
      /\ (no_total total -> n < page_size -> loop = (Return tt, s'))
      /\ (n = 0 -> loop = (Return tt, s'))
      /\ (((exists t, total_is total t /\ start_at + n < t)
           \/ (no_total total /\ page_size <= n)) ->
          n <> 0 ->
          loop = JiraRestIssues.issues_loop fuel cloud_id jql fields page_size
                   (start_at + n) ({[start_at]} ∪ seen) s')).
Proof.
  split.
  - intros api W client fuel cloud_id types page_size start_at seen s page s' Hfresh Hread
      n loop is_last total.
    destruct (projects_loop_verdict fuel cloud_id types page_size start_at seen s page s'
                Hfresh Hread) as (Hlast & Htotal & Hshort & Hraise & Hquiet & Hgo).
    fold n in Hlast, Htotal, Hshort, Hraise, Hquiet, Hgo.
    fold loop in Hlast, Htotal, Hshort, Hraise, Hquiet, Hgo.
    fold is_last in Hlast, Htotal, Hshort, Hraise, Hquiet, Hgo.
    fold total in Htotal, Hshort, Hraise, Hquiet, Hgo.
    repeat apply conj; auto.
    + intros t Hflag Htot Hmore Hempty. apply (Hraise t); auto. lia.
    + intros Hempty Hsize Hnot.
      destruct is_last as [[]|] eqn:Hflag; [apply Hlast; reflexivity| |].
      * destruct (total_cases total) as [(t & Htot) | Hnone].
        -- destruct (Z_le_gt_dec t (start_at + n)) as [Hle|Hgt].
           ++ apply (Htotal t); [discriminate | exact Htot | exact Hle].
           ++ exfalso. apply Hnot. split; [reflexivity|]. exists t. split; [exact Htot | lia].
        -- apply Hshort; [discriminate | exact Hnone | lia].
      * destruct (total_cases total) as [(t & Htot) | Hnone].
        -- destruct (Z_le_gt_dec t (start_at + n)) as [Hle|Hgt].
           ++ apply (Htotal t); [discriminate | exact Htot | exact Hle].
           ++ apply (Hquiet t); [reflexivity | exact Htot | lia | exact Hempty].
        -- apply Hshort; [discriminate | exact Hnone | lia].
  - intros api W client fuel cloud_id jql fields page_size start_at seen s page s'
      Hfresh Hread.
    exact (issues_loop_verdict fuel cloud_id jql fields page_size start_at seen s page s'
             Hfresh Hread).
Qed.

(** C4, where the code misses it.  An empty page with [isLast=false] and
    no total ends the loop normally: the page-size rule (lines 71-73)
    breaks before the guard for such a page (lines 75-79) is reached,
    although that guard, like the claim, is written to raise
    [SerializationError] for it. *)
Lemma empty_page_not_last_stops :
  fst (@JiraRestProjects.iter_projects_via_rest
         (demo_rest_api [{| PageBeanProject.start_at := Some 0;
                            PageBeanProject.max_results := Some 2;
                            PageBeanProject.total := None;
                            PageBeanProject.is_last := Some false;
                            PageBeanProject.values := [] |}])
         (list Json) scripted_rest 5 "cloud-123" ["SOFTWARE"] 2
         (start_of_run [JInt 0]))
  = Return tt.
Proof. vm_compute. reflexivity. Qed.

(** The same page with a total that is not reached takes the guard. *)
Example empty_page_not_last_raises_with_total :
  fst (@JiraRestProjects.iter_projects_via_rest (demo_rest_api [page_short])
         (list Json) scripted_rest 5 "cloud-123" ["SOFTWARE"] 2
         (start_of_run [JInt 0]))
  = Raise (SerializationError
             "Received empty page with isLast=false; cannot continue pagination").
Proof. vm_compute. reflexivity. Qed.

(** ** The scenario of the pagination unit test *)

(** The run of [test_jira_projects_pagination_outer_and_nested]: the nested
    connection of project A is drained before A is yielded and before the
    second outer page is asked for. *)
Example outer_and_nested_run :
  fst test_run = Return tt
  /\ history (snd test_run)
     = [Requested (projects_request "query JiraProjectsPage" "cloud-123" 2 None None);
        Requested (@nested_request test_api "cloud-123" (JiraProjectEdge.node edge_A) 2 None "TA1");
        Yielded (canonical "A" "Project A" [("t1", "Team 1"); ("t2", "Team 2"); ("t3", "Team 3")]);
        Yielded (canonical "B" "Project B" []);
        Requested (projects_request "query JiraProjectsPage" "cloud-123" 2 None
                     (Some "P1"));
        Yielded (canonical "C" "Project C" [("t4", "Team 4")])].
Proof. split; vm_compute; reflexivity. Qed.

Example repeated_cursor_run :
  fst stuck_run
  = Raise (SerializationError "Pagination cursor repeated; aborting to prevent infinite loop")
  /\ List.map (fun r => dict_get "after" (variables r)) (requests_of (history (snd stuck_run)))
     = [JNull; JStr "P1"].
Proof. split; vm_compute; reflexivity. Qed.

(** ** The theorems at concrete inputs *)

Lemma execute_cost_normalized_witness :
  -5 < 0 /\ GraphQLClient.cost_value (Some (-5)) = 0.
Proof.
  split; [lia | apply (proj1 (proj2 execute_cost_normalized)); lia].
Defined.

Lemma rate_limit_precedence_witness :
  graphql_attempt (demo_graphql 2 60) None 1 world_over_cap (Responded response_over_cap)
    (record EvPost (record EvHeaders world_over_cap))
  /\ (inject_Z 60 < 0 + inject_Z 120 - 0)%Q
  /\ @GraphQLClient.execute_loop demo_parser demo_error_items 3 (demo_graphql 2 60)
       None 1 0 world_over_cap
     = (Raise (RateLimitError (Some (0 + inject_Z 120)%Q) 1 (Some "120")
                 (Some (0 + inject_Z 120 - 0)%Q) (Some 60)),
        record EvPost (record EvHeaders world_over_cap)).
Proof.
  assert (Hattempt : graphql_attempt (demo_graphql 2 60) None 1 world_over_cap
                       (Responded response_over_cap)
                       (record EvPost (record EvHeaders world_over_cap))).
  { exists world_over_cap.
    exists [("Authorization", "Bearer token"); ("Content-Type", "application/json");
            ("Accept", "application/json");
            ("User-Agent", "atlassian-graphql-python/0.1.0")].
    exists (record EvHeaders world_over_cap). repeat split; reflexivity. }
  assert (Hover : (inject_Z 60 < 0 + inject_Z 120 - 0)%Q) by reflexivity.
  split; [exact Hattempt|]. split; [exact Hover|].
  refine (proj1 (proj1 rate_limit_precedence demo_parser demo_error_items
                   (demo_graphql 2 60) None 1 2%nat 0%nat world_over_cap
                   response_over_cap (record EvPost (record EvHeaders world_over_cap))
                   (0 + inject_Z 120)%Q "delta-seconds" Hattempt _ _) Hover);
    reflexivity.
Defined.

Lemma unparseable_retry_after_fails_witness :
  graphql_attempt (demo_graphql 2 60) None 1 world_invalid (Responded response_invalid)
    (record EvPost (record EvHeaders world_invalid))
  /\ demo_parser (Some "invalid") 0%Q = None
  /\ @GraphQLClient.execute_loop demo_parser demo_error_items 3 (demo_graphql 2 60)
       None 1 0 world_invalid
     = (Raise (RateLimitError None 1 (Some "invalid") None None),
        record EvPost (record EvHeaders world_invalid)).
Proof.
  assert (Hattempt : graphql_attempt (demo_graphql 2 60) None 1 world_invalid
                       (Responded response_invalid)
                       (record EvPost (record EvHeaders world_invalid))).
  { exists world_invalid.
    exists [("Authorization", "Bearer token"); ("Content-Type", "application/json");
            ("Accept", "application/json");
            ("User-Agent", "atlassian-graphql-python/0.1.0")].
    exists (record EvHeaders world_invalid). repeat split; reflexivity. }
  split; [exact Hattempt|]. split; [reflexivity|].
  refine (proj1 unparseable_retry_after_fails demo_parser demo_error_items
            (demo_graphql 2 60) None 1 2%nat 0%nat world_invalid response_invalid
            (record EvPost (record EvHeaders world_invalid)) Hattempt _ _);
    reflexivity.
Defined.

Lemma transport_errors_not_retried_witness :
  graphql_attempt (demo_graphql 2 60) None 1 world_unavailable
    (Responded response_unavailable) (record EvPost (record EvHeaders world_unavailable))
  /\ @GraphQLClient.execute_loop demo_parser demo_error_items 3 (demo_graphql 2 60)
       None 1 0 world_unavailable
     = (Raise (TransportError 503 "Service Unavailable"),
        record EvPost (record EvHeaders world_unavailable)).
Proof.
  assert (Hattempt : graphql_attempt (demo_graphql 2 60) None 1 world_unavailable
                       (Responded response_unavailable)
                       (record EvPost (record EvHeaders world_unavailable))).
  { exists world_unavailable.
    exists [("Authorization", "Bearer token"); ("Content-Type", "application/json");
            ("Accept", "application/json");
            ("User-Agent", "atlassian-graphql-python/0.1.0")].
    exists (record EvHeaders world_unavailable). repeat split; reflexivity. }
  split; [exact Hattempt|].
  refine (proj1 (proj1 transport_errors_not_retried demo_parser demo_error_items
                   (demo_graphql 2 60) None 1 2%nat 0%nat world_unavailable
                   response_unavailable
                   (record EvPost (record EvHeaders world_unavailable)) Hattempt _ _));
    [apply Z.leb_le; reflexivity | discriminate].
Defined.


Lemma local_rejection_before_transport_witness :
  exists wait w1,
    @GraphQLClient.execute demo_parser demo_error_items (demo_graphql 2 5)
      "query { ok }" None (Some 20000) (demo_world 0 (Some demo_bucket) demo_ok demo_ok)
    = (Raise (LocalRateLimitError (inject_Z 20000) wait (inject_Z 5)), w1)
    /\ posts (log w1) = 0%nat.
Proof.
  refine (proj2 (proj2 local_rejection_before_transport) demo_parser demo_error_items
            (demo_graphql 2 5) "query { ok }" None
            (demo_world 0 (Some demo_bucket) demo_ok demo_ok) demo_bucket _ _ _ _ _);
    reflexivity.
Defined.

Lemma next_cursor_selection_witness :
  @end_cursor_usable test_api (Some "") = false
  /\ @JiraProjects._next_after_from_pageinfo test_api true (Some "") true
       [Some "a"; None; Some "b"; Some ""] "jira.projects" = inr (Some "b")
  /\ @end_cursor_usable test_api (Some "P1") = true
  /\ @JiraProjects._next_after_from_pageinfo test_api true (Some "P1") true
       [Some "a"] "jira.projects" = inr (Some "P1").
Proof.
  split; [reflexivity|]. split.
  - refine (proj1 (proj2 (proj2 (next_cursor_selection test_api)))
              (Some "") [Some "a"; None] "b" [Some ""] "jira.projects" _ _ _);
      [reflexivity | reflexivity | repeat constructor].
  - split; [reflexivity|].
    refine (proj1 (proj2 (next_cursor_selection test_api))
              (Some "P1") true [Some "a"] "jira.projects" _).
    reflexivity.
Defined.

Lemma repeated_position_aborts_witness :
  @projects_page_done stuck_api _ scripted_graphql 3 "query JiraProjectsPage" "cloud-123"
    2 None (Some "P1") stuck_state (demo_page true (Some "P1") [edge_B]) stuck_state_after
  /\ ("P1" ∈ ({["P1"]} : gset string))
  /\ @JiraProjects.projects_loop stuck_api _ scripted_graphql 4 "query JiraProjectsPage"
       "cloud-123" 2 None (Some "P1") {["P1"]} stuck_state
     = (Raise (SerializationError
                 "Pagination cursor repeated; aborting to prevent infinite loop"),
        stuck_state_after).
Proof.
  assert (Hdone : @projects_page_done stuck_api _ scripted_graphql 3
                    "query JiraProjectsPage" "cloud-123" 2 None (Some "P1") stuck_state
                    (demo_page true (Some "P1") [edge_B]) stuck_state_after).
  { exists {| emitted := [Requested (projects_request "query JiraProjectsPage" "cloud-123"
                                       2 None (Some "P1"))];
              world := [demo_result 0] |}.
    split; [exists (demo_result 0); repeat split; reflexivity | reflexivity]. }
  assert (Hin : "P1" ∈ ({["P1"]} : gset string)) by (apply elem_of_singleton; reflexivity).
  split; [exact Hdone|]. split; [exact Hin|].
  refine (proj1 repeated_position_aborts stuck_api _ scripted_graphql 3%nat
            "query JiraProjectsPage" "cloud-123" 2 None (Some "P1") {["P1"]} stuck_state
            (demo_page true (Some "P1") [edge_B]) stuck_state_after "P1" Hdone _ Hin).
  reflexivity.
Defined.

Lemma offset_termination_precedence_witness :
  ((0 : Z) ∉ (∅ : gset Z))
  /\ @projects_page_read (demo_rest_api [page_short]) _ scripted_rest "cloud-123"
       {["SOFTWARE"]} 2 0 rest_state page_short rest_state_after
  /\ @JiraRestProjects.projects_loop (demo_rest_api [page_short]) _ scripted_rest 5
       "cloud-123" {["SOFTWARE"]} 2 0 ∅ rest_state
     = (Raise (SerializationError
                 "Received empty page with isLast=false; cannot continue pagination"),
        rest_state_after).
Proof.
  assert (Hfresh : (0 : Z) ∉ (∅ : gset Z)) by apply not_elem_of_empty.
  assert (Hread : @projects_page_read (demo_rest_api [page_short]) _ scripted_rest
                    "cloud-123" {["SOFTWARE"]} 2 0 rest_state page_short rest_state_after).
  { exists (JInt 0), rest_state_after. repeat split; reflexivity. }
  split; [exact Hfresh|]. split; [exact Hread|].
  refine (proj1 (proj2 (proj2 (proj2
            (proj1 offset_termination_precedence (demo_rest_api [page_short]) _
               scripted_rest 4%nat "cloud-123" {["SOFTWARE"]} 2 0 ∅ rest_state page_short
               rest_state_after Hfresh Hread)))) 3 _ _ _ _);
    [reflexivity | split; [reflexivity | apply Z.leb_le; reflexivity]
    | apply Z.ltb_lt; reflexivity | reflexivity].
Defined.

(** The first page of the unit test: project A is yielded after the one
    further page of its teams is fetched, project B at once. *)
Lemma page_1_edges_drained :
  @edges_drained test_api _ scripted_graphql 4 "cloud-123" 2 None [edge_A; edge_B]
    page_1_served page_1_events page_1_done.
Proof.
  refine (@edge_after_drain test_api _ scripted_graphql 4 "cloud-123" 2 None edge_A
            [edge_B] page_1_served
            [("cloudId", JStr "cloud-123"); ("projectKey", JStr "A")] "TA1" [teams_A_2]
            {| emitted := Requested (@nested_request test_api "cloud-123"
                                       (JiraProjectEdge.node edge_A) 2 None "TA1")
                          :: emitted page_1_served;
               world := [demo_result 1] |}
            (canonical "A" "Project A"
               [("t1", "Team 1"); ("t2", "Team 2"); ("t3", "Team 3")])
            [Yielded (canonical "B" "Project B" [])] page_1_done
            eq_refl eq_refl eq_refl _ _ _ eq_refl _).
  - apply drained_last; [|reflexivity].
    exists (demo_result 0). split; [reflexivity|]. split; reflexivity.
  - repeat constructor. intros H. inversion H.
  - cbn [length]. lia.
  - refine (@edge_at_once test_api _ scripted_graphql 4 "cloud-123" 2 None edge_B []
              _ (canonical "B" "Project B" []) [] page_1_done eq_refl eq_refl _).
    apply edges_none.
Qed.

(** Project A alone, from the state in which its edge is met; then the loop
    over the edges of the first page, and the outer loop after it: its
    request for the second page is the next event. *)
Lemma nested_drain_before_yield_witness :
  (has_next (JiraProjectNode.opsgenie_teams (JiraProjectEdge.node edge_A)) = true
   /\ @JiraProjects.for_edge test_api _ scripted_graphql 3 "cloud-123" 2 None edge_A
        drain_state = (Return tt, drain_state_after)
   /\ exists after pages s1 item,
        @opsgenie_next test_api (JiraProjectEdge.node edge_A)
          (JiraProjectNode.opsgenie_teams (JiraProjectEdge.node edge_A))
        = inr (Some after)
        /\ @drained test_api _ scripted_graphql "cloud-123" (JiraProjectEdge.node edge_A)
             2 None after drain_state pages s1
        /\ NoDup (@cursors_after test_api (JiraProjectEdge.node edge_A) after pages)
        /\ emitted s1
           = (@nested_requests test_api "cloud-123" (JiraProjectEdge.node edge_A) 2 None
                (@cursors_after test_api (JiraProjectEdge.node edge_A) after pages)
              ++ emitted drain_state)%list
        /\ map_project_with_opsgenie_teams "cloud-123" (JiraProjectEdge.node edge_A)
             (nodes_of (JiraProjectNode.opsgenie_teams (JiraProjectEdge.node edge_A))
              ++ concat (List.map nodes_of pages)) = inr item
        /\ drain_state_after = yielded item s1)
  /\ (@JiraProjects.for_edges test_api _ scripted_graphql 4 "cloud-123" 2 None
     [edge_A; edge_B] page_1_served = (Return tt, page_1_done)
   /\ history page_1_done
      = [Requested (projects_request "query JiraProjectsPage" "cloud-123" 2 None None);
         Requested (@nested_request test_api "cloud-123" (JiraProjectEdge.node edge_A) 2
                      None "TA1");
         Yielded (canonical "A" "Project A"
                    [("t1", "Team 1"); ("t2", "Team 2"); ("t3", "Team 3")]);
         Yielded (canonical "B" "Project B" [])]
   /\ exists more,
        history (snd test_run)
        = (history page_1_done
           ++ Requested (projects_request "query JiraProjectsPage" "cloud-123" 2 None
                           (Some "P1")) :: more)%list).
Proof.
  split.
  - assert (Hhas : has_next (JiraProjectNode.opsgenie_teams (JiraProjectEdge.node edge_A))
                   = true) by reflexivity.
    assert (Hrun : @JiraProjects.for_edge test_api _ scripted_graphql 3 "cloud-123" 2 None
                     edge_A drain_state = (Return tt, drain_state_after))
      by (vm_compute; reflexivity).
    split; [exact Hhas|]. split; [exact Hrun|].
    exact (proj1 (proj1 (nested_drain_before_yield test_api _ scripted_graphql)
                    3%nat "cloud-123" 2 None edge_A drain_state (Return tt)
                    drain_state_after Hhas Hrun) eq_refl).
  - pose proof (nested_drain_before_yield test_api _ scripted_graphql) as Hthm.
    destruct Hthm as (_ & _ & _ & _ & _ & Hedges & Hpage).
    destruct (Hedges 4%nat "cloud-123" 2 None [edge_A; edge_B] page_1_served page_1_events
                page_1_done page_1_edges_drained) as [Hrun Htrace].
    split; [exact Hrun|]. split; [exact Htrace|].
    assert (Hserved : @served _ scripted_graphql _ (@parse_jira_projects_page test_api)
                        (projects_request "query JiraProjectsPage" "cloud-123" 2 None None)
                        (start_of_run [demo_result 0; demo_result 0; demo_result 1])
                        page_1 page_1_served).
    { exists (demo_result 0). split; [reflexivity|]. split; reflexivity. }
    destruct (Hpage 4%nat "query JiraProjectsPage" "cloud-123" 2 None None ∅
                (start_of_run [demo_result 0; demo_result 0; demo_result 1])
                page_1 page_1_served page_1_events page_1_done Hserved page_1_edges_drained)
      as (_ & _ & later & Hlater & _ & Hnext).
    destruct (Hnext "P1" eq_refl) as (more & ->).
    + apply not_elem_of_empty.
    + discriminate.
    + exists more. exact Hlater.
Defined.

(** * Properties of the modules around the engine *)

(** ** Strings as lists of characters *)

Lemma rev_app_chars (s1 s2 : string) :
  list_ascii_of_string (String.rev_app s1 s2)
  = (rev (list_ascii_of_string s1) ++ list_ascii_of_string s2)%list.
Proof.
  revert s2. induction s1 as [|a s1 IH]; intros s2; simpl.
  - reflexivity.
  - rewrite IH. simpl. rewrite <- app_assoc. reflexivity.
Qed.

Lemma rev_chars (s : string) :
  list_ascii_of_string (String.rev s) = rev (list_ascii_of_string s).
Proof. unfold String.rev. rewrite rev_app_chars. simpl. apply app_nil_r. Qed.

Lemma append_chars (s1 s2 : string) :
  list_ascii_of_string (s1 +:+ s2)
  = (list_ascii_of_string s1 ++ list_ascii_of_string s2)%list.
Proof. induction s1 as [|a s1 IH]; simpl; [reflexivity | now rewrite IH]. Qed.

Lemma chars_inj (s1 s2 : string) :
  list_ascii_of_string s1 = list_ascii_of_string s2 -> s1 = s2.
Proof.
  intros Heq. rewrite <- (string_of_list_ascii_of_string s1),
    <- (string_of_list_ascii_of_string s2). now rewrite Heq.
Qed.

Lemma truthy_chars (s : string) :
  Py.truthy s = true <-> list_ascii_of_string s <> [].
Proof. destruct s; simpl; split; intros; congruence. Qed.

Lemma lstrip_is (s : string) :
  list_ascii_of_string (Py.lstrip s) = lstrip_chars (list_ascii_of_string s).
Proof.
  induction s as [|a s IH]; simpl; [reflexivity|].
  destruct (Py.isspace a); [exact IH | reflexivity].
Qed.

Lemma rstrip_is (s : string) :
  list_ascii_of_string (Py.rstrip s) = rstrip_chars (list_ascii_of_string s).
Proof. unfold Py.rstrip, rstrip_chars. now rewrite rev_chars, lstrip_is, rev_chars. Qed.

Lemma strip_is (s : string) :
  list_ascii_of_string (Py.strip s)
  = rstrip_chars (lstrip_chars (list_ascii_of_string s)).
Proof. unfold Py.strip. now rewrite rstrip_is, lstrip_is. Qed.

Lemma lstrip_chars_head (l : list ascii) : clean_head (lstrip_chars l).
Proof.
  induction l as [|a l IH]; simpl; [exact I|].
  destruct (Py.isspace a) eqn:Ha; [exact IH | exact Ha].
Qed.

Lemma lstrip_chars_fix (l : list ascii) : clean_head l -> lstrip_chars l = l.
Proof. destruct l as [|a l]; simpl; [reflexivity|]. now intros ->. Qed.

Lemma lstrip_chars_split (l : list ascii) :
  exists p, l = (p ++ lstrip_chars l)%list /\ Forall (fun a => Py.isspace a = true) p.
Proof.
  induction l as [|a l (p & Hp & Hall)]; simpl.
  - exists []. split; [reflexivity | constructor].
  - destruct (Py.isspace a) eqn:Ha.
    + exists (a :: p). split; [simpl; now rewrite <- Hp | now constructor].
    + exists []. split; [reflexivity | constructor].
Qed.

Lemma rstrip_chars_last (l : list ascii) : clean_last (rstrip_chars l).
Proof. unfold clean_last, rstrip_chars. rewrite rev_involutive. apply lstrip_chars_head. Qed.

Lemma rstrip_chars_fix (l : list ascii) : clean_last l -> rstrip_chars l = l.
Proof.
  unfold clean_last, rstrip_chars. intros H.
  rewrite lstrip_chars_fix by exact H. apply rev_involutive.
Qed.

Lemma rstrip_chars_split (l : list ascii) :
  exists q, l = (rstrip_chars l ++ q)%list /\ Forall (fun a => Py.isspace a = true) q.
Proof.
  destruct (lstrip_chars_split (rev l)) as (p & Hp & Hall).
  exists (rev p). split.
  - unfold rstrip_chars. rewrite <- rev_app_distr, <- Hp. symmetry. apply rev_involutive.
  - apply Forall_rev. exact Hall.
Qed.

Lemma rstrip_chars_head (l : list ascii) : clean_head l -> clean_head (rstrip_chars l).
Proof.
  intros H. destruct (rstrip_chars_split l) as (q & Hq & Hall).
  destruct (rstrip_chars l) as [|b r] eqn:Hr; [exact I|].
  rewrite Hq in H. exact H.
Qed.

Lemma strip_chars_clean (l : list ascii) :
  clean_head (rstrip_chars (lstrip_chars l)) /\ clean_last (rstrip_chars (lstrip_chars l)).
Proof.
  split.
  - apply rstrip_chars_head, lstrip_chars_head.
  - apply rstrip_chars_last.
Qed.

Lemma clean_stripped (s : string) :
  clean_head (list_ascii_of_string s) -> clean_last (list_ascii_of_string s) -> stripped s.
Proof.
  intros Hh Hl. apply chars_inj. rewrite strip_is.
  rewrite (lstrip_chars_fix _ Hh). apply rstrip_chars_fix, Hl.
Qed.

Lemma stripped_clean (s : string) :
  stripped s ->
  clean_head (list_ascii_of_string s) /\ clean_last (list_ascii_of_string s).
Proof.
  unfold stripped. intros H. rewrite <- H, strip_is. apply strip_chars_clean.
Qed.

Lemma strip_stripped (s : string) : stripped (Py.strip s).
Proof.
  apply clean_stripped; rewrite strip_is; apply strip_chars_clean.
Qed.

(** Case folding keeps white space where it is. *)
Lemma isspace_upper (a : ascii) : Py.isspace (Py.upper_char a) = Py.isspace a.
Proof. destruct a as [[] [] [] [] [] [] [] []]; reflexivity. Qed.

Lemma upper_char_idempotent (a : ascii) :
  Py.upper_char (Py.upper_char a) = Py.upper_char a.
Proof. destruct a as [[] [] [] [] [] [] [] []]; reflexivity. Qed.

Lemma map_chars_is (f : ascii -> ascii) (s : string) :
  list_ascii_of_string (Py.map_chars f s) = List.map f (list_ascii_of_string s).
Proof. induction s as [|a s IH]; simpl; [reflexivity | now rewrite IH]. Qed.

Lemma lstrip_chars_map (f : ascii -> ascii) (l : list ascii) :
  (forall a, Py.isspace (f a) = Py.isspace a) ->
  lstrip_chars (List.map f l) = List.map f (lstrip_chars l).
Proof.
  intros Hf. induction l as [|a l IH]; simpl; [reflexivity|].
  rewrite Hf. destruct (Py.isspace a); [exact IH | reflexivity].
Qed.

Lemma rstrip_chars_map (f : ascii -> ascii) (l : list ascii) :
  (forall a, Py.isspace (f a) = Py.isspace a) ->
  rstrip_chars (List.map f l) = List.map f (rstrip_chars l).
Proof.
  intros Hf. unfold rstrip_chars.
  rewrite <- List.map_rev, lstrip_chars_map by exact Hf. now rewrite List.map_rev.
Qed.

Lemma strip_map_chars (f : ascii -> ascii) (s : string) :
  (forall a, Py.isspace (f a) = Py.isspace a) ->
  Py.strip (Py.map_chars f s) = Py.map_chars f (Py.strip s).
Proof.
  intros Hf. apply chars_inj.
  rewrite strip_is, !map_chars_is, strip_is.
  now rewrite lstrip_chars_map, rstrip_chars_map.
Qed.

Lemma strip_upper (s : string) : Py.strip (Py.upper s) = Py.upper (Py.strip s).
Proof. apply strip_map_chars, isspace_upper. Qed.

Lemma upper_idempotent (s : string) : Py.upper (Py.upper s) = Py.upper s.
Proof.
  unfold Py.upper. induction s as [|a s IH]; simpl; [reflexivity|].
  now rewrite upper_char_idempotent, IH.
Qed.

Lemma truthy_map_chars (f : ascii -> ascii) (s : string) :
  Py.truthy (Py.map_chars f s) = Py.truthy s.
Proof. destruct s; reflexivity. Qed.

(** ** Normal form of the requested project types *)

Lemma upper_strip_canonical (raw : string) :
  Py.truthy (Py.upper (Py.strip raw)) = true -> canonical_type (Py.upper (Py.strip raw)).
Proof.
  intros Ht. split; [exact Ht|]. split.
  - unfold stripped. rewrite strip_upper. f_equal. apply strip_stripped.
  - apply upper_idempotent.
Qed.

Lemma normalize_fixes (l : list string) :
  Forall canonical_type l ->
  List.filter Py.truthy (List.map (fun raw => Py.upper (Py.strip raw)) l) = l.
Proof.
  induction 1 as [|t l (Ht & Hs & Hu) _ IH]; [reflexivity|].
  cbn [List.map List.filter]. rewrite Hs, Hu, Ht, IH. reflexivity.
Qed.

Lemma normalized_canonical (l : list string) :
  Forall canonical_type
    (List.filter Py.truthy (List.map (fun raw => Py.upper (Py.strip raw)) l)).
Proof.
  induction l as [|raw l IH]; cbn [List.map List.filter]; [constructor|].
  destruct (Py.truthy (Py.upper (Py.strip raw))) eqn:Ht; [|exact IH].
  constructor; [apply upper_strip_canonical, Ht | exact IH].
Qed.

(** X1.  The two copies of _normalize_project_types (in jira_projects.py
    and jira_rest_projects.py) compute the same result. They raise
    ValueError('project_types must be non-empty') exactly when every entry
    is blank after stripping (in particular for the empty list); otherwise
    the list returned is not empty, every entry of it is non-empty,
    stripped and in upper case, and normalizing the returned list again
    returns it unchanged. *)
Theorem normalize_project_types_canonical (project_types : list string) :
  JiraRestProjects._normalize_project_types project_types
    = JiraProjects._normalize_project_types project_types
  /\ (JiraProjects._normalize_project_types project_types
        = inl (ValueError "project_types must be non-empty")
      <-> Forall (fun raw => Py.strip raw = "") project_types)
  /\ (forall cleaned,
        JiraProjects._normalize_project_types project_types = inr cleaned ->
        cleaned <> []
        /\ Forall canonical_type cleaned
        /\ JiraProjects._normalize_project_types cleaned = inr cleaned).
Proof.
  split; [reflexivity|]. unfold JiraProjects._normalize_project_types. split.
  - split.
    + intros H.
      assert (Hnil : List.filter Py.truthy
                       (List.map (fun raw => Py.upper (Py.strip raw)) project_types) = []).
      { destruct (List.filter _ _); [reflexivity | discriminate]. }
      clear H. induction project_types as [|raw l IH]; [constructor|].
      cbn [List.map List.filter] in Hnil.
      destruct (Py.truthy (Py.upper (Py.strip raw))) eqn:Ht; [discriminate|].
      constructor; [|apply IH, Hnil].
      unfold Py.upper in Ht. rewrite truthy_map_chars in Ht.
      destruct (Py.strip raw); [reflexivity | discriminate].
    + intros Hall.
      assert (Hnil : List.filter Py.truthy
                       (List.map (fun raw => Py.upper (Py.strip raw)) project_types) = []).
      { induction Hall as [|raw l Hraw _ IH]; [reflexivity|].
        cbn [List.map List.filter]. rewrite Hraw. exact IH. }
      rewrite Hnil. reflexivity.
  - intros cleaned H.
    pose proof (normalized_canonical project_types) as Hcan.
    destruct (List.filter _ _) as [|t l] eqn:Hl; [discriminate|].
    injection H as <-. split; [discriminate|]. split; [exact Hcan|].
    rewrite (normalize_fixes _ Hcan). reflexivity.
Qed.

Lemma normalize_project_types_canonical_witness :
  JiraProjects._normalize_project_types [" software "; ""; "Service_Desk"]
    = inr ["SOFTWARE"; "SERVICE_DESK"]
  /\ JiraProjects._normalize_project_types ["SOFTWARE"; "SERVICE_DESK"]
     = inr ["SOFTWARE"; "SERVICE_DESK"].
Proof.
  split; [reflexivity|].
  apply (normalize_project_types_canonical [" software "; ""; "Service_Desk"]).
  reflexivity.
Defined.

Lemma elem_of_map {A B} (f : A -> B) (l : list A) (y : B) :
  y ∈ List.map f l <-> exists x, y = f x /\ x ∈ l.
Proof.
  rewrite list_elem_of_In, in_map_iff. split; intros (x & H1 & H2); exists x.
  - split; [auto | now apply list_elem_of_In].
  - split; [auto | now apply list_elem_of_In].
Qed.

(** ** The project mapper *)

Lemma first_with_id_later (t : OpsgenieTeamNode.t) rest r :
  Py.strip (OpsgenieTeamNode.id t) <> OpsgenieTeamRef.id r ->
  first_with_id rest r -> first_with_id (t :: rest) r.
Proof.
  intros Hne (before & u & after & -> & Hi & Hn & Hbefore).
  exists (t :: before), u, after. repeat split; auto.
Qed.

Lemma map_teams_invariant (rest : list OpsgenieTeamNode.t) :
  forall (seen : gset string) (acc out : list OpsgenieTeamRef.t),
    map_teams seen acc rest = inr out ->
    (forall i, i ∈ seen <-> i ∈ List.map OpsgenieTeamRef.id acc) ->
    NoDup (List.map OpsgenieTeamRef.id acc) ->
    exists more,
      out = (acc ++ more)%list
      /\ NoDup (List.map OpsgenieTeamRef.id out)
      /\ Forall clean_team more
      /\ Forall (first_with_id rest) more
      /\ Forall (fun t => Py.strip (OpsgenieTeamNode.id t)
                          ∈ List.map OpsgenieTeamRef.id out) rest.
Proof.
  induction rest as [|t rest IH]; intros seen acc out Hrun Hseen Hnodup;
    cbn [map_teams] in Hrun.
  - injection Hrun as <-. exists []. rewrite app_nil_r.
    repeat split; [exact Hnodup | constructor..].
  - destruct (Py.truthy (Py.strip (OpsgenieTeamNode.id t))) eqn:Hid;
      cbn [negb] in Hrun; [|discriminate].
    destruct (bool_decide (Py.strip (OpsgenieTeamNode.id t) ∈ seen)) eqn:Hin.
    + apply bool_decide_eq_true_1 in Hin.
      destruct (IH _ _ _ Hrun Hseen Hnodup) as (more & -> & Hnd & Hclean & Hfirst & Hall).
      exists more. repeat split; [exact Hnd | exact Hclean | | ].
      * apply Forall_forall. intros r Hr.
        apply first_with_id_later; [|exact (proj1 (Forall_forall _ _) Hfirst r Hr)].
        intros Heq. apply Hseen in Hin. rewrite Heq in Hin.
        rewrite List.map_app in Hnd. apply NoDup_app in Hnd.
        destruct Hnd as (_ & Hdisj & _). apply (Hdisj _ Hin).
        apply elem_of_map. exists r. split; [reflexivity | exact Hr].
      * constructor; [|exact Hall].
        rewrite List.map_app. apply elem_of_app. left. apply Hseen, Hin.
    + apply bool_decide_eq_false_1 in Hin.
      destruct (Py.truthy (Py.strip (OpsgenieTeamNode.name t))) eqn:Hname;
        cbn [negb] in Hrun; [|discriminate].
      set (r := {| OpsgenieTeamRef.id := Py.strip (OpsgenieTeamNode.id t);
                   OpsgenieTeamRef.name := Py.strip (OpsgenieTeamNode.name t) |}) in *.
      assert (Hseen' : forall i, i ∈ ({[Py.strip (OpsgenieTeamNode.id t)]} ∪ seen : gset string)
                                 <-> i ∈ List.map OpsgenieTeamRef.id (acc ++ [r])).
      { intros i. rewrite elem_of_union, elem_of_singleton, List.map_app, elem_of_app.
        cbn [List.map]. rewrite list_elem_of_singleton, Hseen. subst r. cbn. tauto. }
      assert (Hnodup' : NoDup (List.map OpsgenieTeamRef.id (acc ++ [r]))).
      { rewrite List.map_app. apply NoDup_app. split; [exact Hnodup|]. split.
        - intros i Hi Hi'. cbn [List.map] in Hi'. apply list_elem_of_singleton in Hi'.
          subst i. apply Hin, Hseen, Hi.
        - apply NoDup_singleton. }
      destruct (IH _ _ _ Hrun Hseen' Hnodup') as (more & -> & Hnd & Hclean & Hfirst & Hall).
      rewrite <- app_assoc in Hnd, Hall. cbn [app] in Hnd, Hall.
      exists (r :: more). rewrite <- app_assoc. cbn [app].
      repeat split; [exact Hnd | | | ].
      * constructor; [|exact Hclean].
        subst r. repeat split; cbn; auto using strip_stripped.
      * constructor.
        -- exists [], t, rest. repeat split; constructor.
        -- apply Forall_forall. intros r' Hr'.
           apply first_with_id_later; [|exact (proj1 (Forall_forall _ _) Hfirst r' Hr')].
           intros Heq.
           rewrite List.map_app in Hnd. apply NoDup_app in Hnd.
           destruct Hnd as (_ & _ & Hnd). cbn [List.map] in Hnd.
           apply NoDup_cons in Hnd. destruct Hnd as (Hnotin & _).
           apply Hnotin. subst r. cbn [OpsgenieTeamRef.id]. rewrite Heq.
           apply elem_of_map. exists r'. split; [reflexivity | exact Hr'].
      * constructor; [|exact Hall].
        rewrite List.map_app. apply elem_of_app. right.
        cbn [List.map]. left.
Qed.

(** X2.  When map_project_with_opsgenie_teams returns, the team references
    of the result have pairwise distinct ids, every id and name among them
    is stripped and non-empty, every reference is read from the first
    input team that carries its (stripped) id, and the stripped id of
    every input team occurs among the references. *)
Theorem mapped_teams_distinct_first_wins
    (cloud_id : string) (project : JiraProjectNode.t)
    (opsgenie_teams : list OpsgenieTeamNode.t) (item : CanonicalProjectWithOpsgenieTeams.t) :
  map_project_with_opsgenie_teams cloud_id project opsgenie_teams = inr item ->
  let teams := CanonicalProjectWithOpsgenieTeams.opsgenie_teams item in
  NoDup (List.map OpsgenieTeamRef.id teams)
  /\ Forall clean_team teams
  /\ Forall (first_with_id opsgenie_teams) teams
  /\ Forall (fun t => Py.strip (OpsgenieTeamNode.id t) ∈ List.map OpsgenieTeamRef.id teams)
       opsgenie_teams.
Proof.
  unfold map_project_with_opsgenie_teams. intros Hrun.
  destruct (negb _); [discriminate|].
  destruct (negb _); [discriminate|].
  destruct (negb _); [discriminate|].
  destruct (map_teams ∅ [] opsgenie_teams) as [e|out] eqn:Hteams; [discriminate|].
  injection Hrun as <-. cbn.
  apply map_teams_invariant in Hteams.
  - destruct Hteams as (more & -> & Hnd & Hclean & Hfirst & Hall). cbn [app] in *. auto.
  - intros i. cbn. rewrite elem_of_empty. split; [tauto | apply not_elem_of_nil].
  - constructor.
Qed.

Lemma mapped_teams_distinct_first_wins_witness :
  map_project_with_opsgenie_teams " cloud " mapper_project mapper_teams = inr mapper_item
  /\ NoDup (List.map OpsgenieTeamRef.id
              (CanonicalProjectWithOpsgenieTeams.opsgenie_teams mapper_item)).
Proof.
  split; [reflexivity|].
  apply (mapped_teams_distinct_first_wins " cloud " mapper_project mapper_teams mapper_item).
  reflexivity.
Defined.

(** A team whose id was met before is skipped before its name is looked at. *)
Lemma map_teams_ids_truthy (rest : list OpsgenieTeamNode.t) :
  forall seen acc out,
    map_teams seen acc rest = inr out ->
    Forall (fun t => Py.truthy (Py.strip (OpsgenieTeamNode.id t)) = true) rest.
Proof.
  induction rest as [|t rest IH]; intros seen acc out Hrun; [constructor|].
  cbn [map_teams] in Hrun.
  destruct (Py.truthy (Py.strip (OpsgenieTeamNode.id t))) eqn:Hid;
    cbn [negb] in Hrun; [|discriminate].
  constructor; [exact Hid|].
  destruct (bool_decide _); [eapply IH; exact Hrun|].
  destruct (negb _); [discriminate | eapply IH; exact Hrun].
Qed.

Lemma map_teams_repeat (d : OpsgenieTeamNode.t) (rest : list OpsgenieTeamNode.t) :
  Py.truthy (Py.strip (OpsgenieTeamNode.id d)) = true ->
  forall seen acc out,
    map_teams seen acc rest = inr out ->
    Py.strip (OpsgenieTeamNode.id d) ∈ seen
    \/ Py.strip (OpsgenieTeamNode.id d)
       ∈ List.map (fun t => Py.strip (OpsgenieTeamNode.id t)) rest ->
    map_teams seen acc (rest ++ [d]) = inr out.
Proof.
  intros Hd. induction rest as [|t rest IH]; intros seen acc out Hrun Hin.
  - cbn [map_teams] in Hrun. injection Hrun as <-.
    destruct Hin as [Hin | Hin]; [|apply not_elem_of_nil in Hin; contradiction].
    cbn [app map_teams]. rewrite Hd. cbn [negb].
    case_bool_decide; [reflexivity | contradiction].
  - cbn [app map_teams] in *.
    destruct (Py.truthy (Py.strip (OpsgenieTeamNode.id t))) eqn:Hid;
      cbn [negb] in *; [|discriminate].
    destruct (bool_decide (Py.strip (OpsgenieTeamNode.id t) ∈ seen)) eqn:Hseen.
    + apply IH; [exact Hrun|].
      destruct Hin as [Hin | Hin]; [left; exact Hin|].
      cbn [List.map] in Hin. apply elem_of_cons in Hin. destruct Hin as [Heq | Hin].
      * left. rewrite Heq. apply bool_decide_eq_true_1 in Hseen. exact Hseen.
      * right. exact Hin.
    + destruct (negb _); [discriminate|].
      apply IH; [exact Hrun|].
      destruct Hin as [Hin | Hin].
      * left. apply elem_of_union. right. exact Hin.
      * cbn [List.map] in Hin. apply elem_of_cons in Hin. destruct Hin as [Heq | Hin].
        -- left. apply elem_of_union. left. apply elem_of_singleton. exact Heq.
        -- right. exact Hin.
Qed.

(** X3.  If map_project_with_opsgenie_teams returns an item for a list of
    teams, it returns the same item when one more team is appended whose
    stripped id is that of a team already in the list: a repeated team is
    skipped before its name is looked at, so even a blank name on it
    raises nothing. *)
Theorem repeated_team_is_ignored
    (cloud_id : string) (project : JiraProjectNode.t)
    (opsgenie_teams : list OpsgenieTeamNode.t) (again : OpsgenieTeamNode.t)
    (item : CanonicalProjectWithOpsgenieTeams.t) :
  map_project_with_opsgenie_teams cloud_id project opsgenie_teams = inr item ->
  Py.strip (OpsgenieTeamNode.id again)
    ∈ List.map (fun t => Py.strip (OpsgenieTeamNode.id t)) opsgenie_teams ->
  map_project_with_opsgenie_teams cloud_id project (opsgenie_teams ++ [again]) = inr item.
Proof.
  unfold map_project_with_opsgenie_teams. intros Hrun Hin.
  destruct (negb _); [discriminate|].
  destruct (negb _); [discriminate|].
  destruct (negb _); [discriminate|].
  destruct (map_teams ∅ [] opsgenie_teams) as [e|out] eqn:Hteams; [discriminate|].
  rewrite (map_teams_repeat again opsgenie_teams) with (out := out); auto.
  apply map_teams_ids_truthy in Hteams.
  apply elem_of_map in Hin. destruct Hin as (t & -> & Ht).
  rewrite Forall_forall in Hteams. apply Hteams, Ht.
Qed.

Lemma repeated_team_is_ignored_witness :
  map_project_with_opsgenie_teams " cloud " mapper_project
    (mapper_teams ++ [team_node " t2" ""]) = inr mapper_item.
Proof.
  apply (repeated_team_is_ignored " cloud " mapper_project mapper_teams (team_node " t2" "")).
  - reflexivity.
  - apply list_elem_of_In. vm_compute. auto.
Defined.

(** ** Project types on the REST side *)

Lemma normalize_project_type_char (a : ascii) :
  let b := (fun a => if Ascii.eqb a " " then "_"%char else a)
             ((fun a => if Ascii.eqb a "-" then "_"%char else a) (Py.upper_char a)) in
  b <> "-"%char /\ b <> " "%char /\ Py.upper_char b = b.
Proof. destruct a as [[] [] [] [] [] [] [] []]; cbv; repeat split; discriminate. Qed.

Lemma normalize_project_type_normal (value : string) :
  normal_type (_normalize_project_type value).
Proof.
  unfold normal_type, _normalize_project_type, Py.replace_char, Py.upper.
  rewrite !map_chars_is, !List.map_map.
  induction (list_ascii_of_string (Py.strip value)) as [|a l IH]; [constructor|].
  cbn [List.map]. constructor; [apply normalize_project_type_char | exact IH].
Qed.

Lemma yields_only_refl {Req Item W} (P : Item -> Prop) (s : Run Req Item W) :
  yields_only P s s.
Proof. exists []. split; [reflexivity | constructor]. Qed.

Lemma yields_only_trans {Req Item W} (P : Item -> Prop) (s1 s2 s3 : Run Req Item W) :
  yields_only P s1 s2 -> yields_only P s2 s3 -> yields_only P s1 s3.
Proof.
  intros (n1 & H1 & F1) (n2 & H2 & F2). exists (n2 ++ n1)%list. split.
  - rewrite H2, H1. apply app_assoc.
  - rewrite yields_of_app. apply Forall_app. split; assumption.
Qed.

Lemma yields_only_bind {Req Item W A B} (P : Item -> Prop)
    (m : Prog (Run Req Item W) A) (k : A -> Prog (Run Req Item W) B) :
  carries (yields_only P) m -> (forall a, carries (yields_only P) (k a)) ->
  carries (yields_only P) (bind m k).
Proof.
  intros Hm Hk s. unfold bind. specialize (Hm s).
  destruct (m s) as [[a| |] s1]; cbn [snd] in *; try exact Hm.
  eapply yields_only_trans; [exact Hm | apply Hk].
Qed.

Lemma yields_only_call {Req Item W A} (P : Item -> Prop) (run : Req -> Prog W A) (r : Req) :
  carries (yields_only (Req:=Req) (Item:=Item) P) (call run r).
Proof.
  intros s. unfold call. destruct (run r (world s)) as [a w]. cbn [snd].
  exists [Requested r]. split; [reflexivity | constructor].
Qed.

Lemma yields_only_yield {Req Item W} (P : Item -> Prop) (item : Item) :
  P item -> carries (yields_only (Req:=Req) (W:=W) P) (yield item).
Proof.
  intros HP s. exists [Yielded item]. split; [reflexivity | repeat constructor; exact HP].
Qed.

Lemma yields_only_pure {Req Item W A} (P : Item -> Prop) (m : Prog (Run Req Item W) A) :
  (forall s, snd (m s) = s) -> carries (yields_only P) m.
Proof. intros H s. rewrite H. apply yields_only_refl. Qed.

Lemma map_rest_project_shape (cloud_id : string) (item : RestProject.t) (p : JiraProject.t) :
  map_rest_project cloud_id item = inr p ->
  JiraProject.cloud_id p = Py.strip cloud_id
  /\ forall ty, JiraProject.type p = Some ty -> normal_type ty.
Proof.
  unfold map_rest_project. intros H.
  destruct (negb _); [discriminate|].
  destruct (negb _); [discriminate|].
  destruct (negb _); [discriminate|].
  injection H as <-. cbn. split; [reflexivity|].
  intros ty. destruct (Py.truthy _); [|discriminate].
  intros [= <-]. apply normalize_project_type_normal.
Qed.

Lemma for_values_requested {W} (cloud_id : string) (types : gset string)
    (values : list RestProject.t) :
  carries (yields_only (W:=W) (requested_project (Py.strip cloud_id) types))
    (JiraRestProjects.for_values (Py.strip cloud_id) types values).
Proof.
  induction values as [|item rest IH]; cbn [JiraRestProjects.for_values].
  - apply yields_only_pure. reflexivity.
  - intros s. unfold bind at 1.
    destruct (map_rest_project (Py.strip cloud_id) item) as [e|project] eqn:Hmap;
      cbn [lift raise ret snd]; [apply yields_only_refl|].
    apply map_rest_project_shape in Hmap. destruct Hmap as (Hcloud & Hnormal).
    destruct (JiraProject.type project) as [ty|] eqn:Hty; [|apply IH].
    destruct (bool_decide (ty ∈ types)) eqn:Hin; cbn [negb]; [|apply IH].
    apply bool_decide_eq_true_1 in Hin.
    revert s. apply yields_only_bind; [|intros _; exact IH].
    apply yields_only_yield. split; [reflexivity|]. split.
    + cbn. rewrite Hcloud. apply strip_stripped.
    + exists ty. cbn. auto.
Qed.

Lemma rest_projects_loop_requested `{JiraRestApi} {W} `{RestClient W} (fuel : nat)
    (cloud_id : string) (types : gset string) (page_size : Z) :
  forall start_at seen,
    carries (yields_only (requested_project (Py.strip cloud_id) types))
      (JiraRestProjects.projects_loop fuel (Py.strip cloud_id) types page_size start_at seen).
Proof.
  induction fuel as [|fuel IH]; intros start_at seen; cbn [JiraRestProjects.projects_loop].
  - apply yields_only_pure. reflexivity.
  - destruct (bool_decide _); [apply yields_only_pure; reflexivity|].
    apply yields_only_bind; [apply yields_only_call|]. intros payload.
    apply yields_only_bind.
    { apply yields_only_pure. intros s. destruct (PageBeanProject_from_dict _ _); reflexivity. }
    intros page. apply yields_only_bind; [apply for_values_requested|]. intros _.
    destruct (_ && _); [apply yields_only_pure; reflexivity|].
    match goal with
    | |- context [if (if ?a then ?b else ?c) then ret tt else _] =>
      destruct (if a then b else c)
    end; [apply yields_only_pure; reflexivity|].
    destruct (_ =? 0).
    + destruct (_ && _); apply yields_only_pure; reflexivity.
    + apply IH.
Qed.

(** X4.  Whatever the REST client answers and however long the run lasts,
    every item that iter_projects_via_rest yields (in a run that starts
    with no earlier events) has an empty opsgenie_teams list, carries the
    stripped cloud_id, and has a project type that is one of the
    normalized requested project_types and is in upper case with no hyphen
    and no blank. *)
Theorem rest_projects_only_requested_types `{JiraRestApi} {W} `{RestClient W}
    (fuel : nat) (cloud_id : string) (project_types : list string) (page_size : Z)
    (s : Run RestRequest CanonicalProjectWithOpsgenieTeams.t W)
    (item : CanonicalProjectWithOpsgenieTeams.t) :
  let s' := snd (JiraRestProjects.iter_projects_via_rest fuel cloud_id project_types
                   page_size s) in
  emitted s = [] ->
  item ∈ yields_of (history s') ->
  CanonicalProjectWithOpsgenieTeams.opsgenie_teams item = []
  /\ JiraProject.cloud_id (CanonicalProjectWithOpsgenieTeams.project item) = Py.strip cloud_id
  /\ exists cleaned ty,
       JiraRestProjects._normalize_project_types project_types = inr cleaned
       /\ JiraProject.type (CanonicalProjectWithOpsgenieTeams.project item) = Some ty
       /\ ty ∈ cleaned
       /\ normal_type ty.
Proof.
  intros s' Hstart Hitem. subst s'.
  unfold JiraRestProjects.iter_projects_via_rest in Hitem.
  assert (Hnone : item ∈ yields_of (history s) -> False).
  { unfold history. rewrite Hstart. cbn. apply not_elem_of_nil. }
  destruct (negb _); [cbn in Hitem; tauto|].
  destruct (page_size <=? 0); [cbn in Hitem; tauto|].
  unfold bind at 1 in Hitem.
  destruct (JiraRestProjects._normalize_project_types project_types) as [e|cleaned] eqn:Hn;
    cbn [lift raise ret] in Hitem; [cbn in Hitem; tauto|].
  destruct (rest_projects_loop_requested fuel cloud_id (list_to_set cleaned) page_size 0 ∅ s)
    as (new & Hnew & Hall).
  unfold history in Hitem. rewrite Hnew, Hstart, app_nil_r, yields_of_rev in Hitem.
  apply list_elem_of_In, in_rev, list_elem_of_In in Hitem.
  rewrite Forall_forall in Hall. destruct (Hall _ Hitem) as (Hteams & Hcloud & ty & Hty & Hin & Hnorm).
  split; [exact Hteams|]. split; [exact Hcloud|].
  exists cleaned, ty. repeat split; auto.
  apply elem_of_list_to_set in Hin. exact Hin.
Qed.

(** Project C of the unit test of the REST paginator, yielded on the second
    page of a run that asks for [" software "]. *)
Lemma rest_projects_only_requested_types_witness :
  CanonicalProjectWithOpsgenieTeams.opsgenie_teams (software_project "C" "Project C") = []
  /\ JiraProject.cloud_id
       (CanonicalProjectWithOpsgenieTeams.project (software_project "C" "Project C"))
     = Py.strip "cloud-123"
  /\ exists cleaned ty,
       JiraRestProjects._normalize_project_types [" software "] = inr cleaned
       /\ JiraProject.type
            (CanonicalProjectWithOpsgenieTeams.project (software_project "C" "Project C"))
          = Some ty
       /\ ty ∈ cleaned
       /\ normal_type ty.
Proof.
  apply (@rest_projects_only_requested_types generated_rest_api unit
           (table_rest "values" project_rows) 4 "cloud-123" [" software "] 2
           (start_of_run tt)).
  - reflexivity.
  - apply list_elem_of_In. vm_compute. right. left. reflexivity.
Defined.

(** ** How far a call of an executor can go *)

Lemma posts_app (l1 l2 : list Event) : posts (l1 ++ l2) = (posts l1 + posts l2)%nat.
Proof. induction l1 as [|[] l1 IH]; cbn [posts app]; lia. Qed.

Lemma sleeps_app (l1 l2 : list Event) : sleeps (l1 ++ l2) = (sleeps l1 ++ sleeps l2)%list.
Proof. induction l1 as [|[] l1 IH]; cbn [sleeps app]; congruence. Qed.

Lemma within_refl G max_wait w : within G max_wait 0 0 w w.
Proof.
  split; [reflexivity|]. exists []. split; [reflexivity|]. split; [cbn; lia|].
  intros Hb. split; [exact Hb|]. split; [cbn; lia | constructor].
Qed.

Lemma within_weaken G max_wait p k p' k' w w' :
  (p <= p')%nat -> (k <= k')%nat -> within G max_wait p k w w' -> within G max_wait p' k' w w'.
Proof.
  intros Hp Hk (Ht & new & Hlog & Hposts & Hoff). split; [exact Ht|].
  exists new. split; [exact Hlog|]. split; [lia|]. intros Hb.
  destruct (Hoff Hb) as (Hb' & Hlen & Hall). split; [exact Hb'|]. split; [lia | exact Hall].
Qed.

Lemma within_trans G max_wait p1 k1 p2 k2 w1 w2 w3 :
  within G max_wait p1 k1 w1 w2 -> within G max_wait p2 k2 w2 w3 ->
  within G max_wait (p1 + p2) (k1 + k2) w1 w3.
Proof.
  intros (Ht1 & n1 & Hl1 & Hp1 & Ho1) (Ht2 & n2 & Hl2 & Hp2 & Ho2).
  split; [congruence|]. exists (n2 ++ n1)%list.
  split; [rewrite Hl2, Hl1; apply app_assoc|].
  split; [rewrite posts_app; lia|]. intros Hb.
  destruct (Ho1 Hb) as (Hb2 & Hlen1 & Hall1). destruct (Ho2 Hb2) as (Hb3 & Hlen2 & Hall2).
  split; [exact Hb3|]. rewrite sleeps_app, length_app.
  split; [lia | apply Forall_app; split; assumption].
Qed.

Lemma within_bind G max_wait p1 k1 p2 k2 {A B} (m : IO A) (f : A -> IO B) :
  carries (within G max_wait p1 k1) m ->
  (forall a, carries (within G max_wait p2 k2) (f a)) ->
  carries (within G max_wait (p1 + p2) (k1 + k2)) (bind m f).
Proof.
  intros Hm Hf w. unfold bind. specialize (Hm w).
  destruct (m w) as [[a|e|] w1]; cbn [snd] in *.
  - eapply within_trans; [exact Hm | apply Hf].
  - eapply within_weaken; [| |exact Hm]; lia.
  - eapply within_weaken; [| |exact Hm]; lia.
Qed.

Lemma within_still G max_wait {A} (m : IO A) :
  (forall w, snd (m w) = w) -> carries (within G max_wait 0 0) m.
Proof. intros H w. rewrite H. apply within_refl. Qed.

Lemma within_event G max_wait ev w :
  match ev with EvSleep _ | EvPost => False | _ => True end ->
  within G max_wait 0 0 w (record ev w).
Proof.
  intros Hev. split; [reflexivity|]. exists [ev]. split; [reflexivity|].
  destruct ev; try contradiction; (split; [cbn; lia|]); intros Hb;
    (split; [exact Hb|]); (split; [cbn; lia | constructor]).
Qed.

Lemma within_exchange G max_wait : carries (within G max_wait 1 0) exchange.
Proof.
  intros w. split; [reflexivity|]. exists [EvPost]. split; [reflexivity|].
  split; [cbn; lia|]. intros Hb. split; [exact Hb|]. split; [cbn; lia | constructor].
Qed.

Lemma within_sleeper G max_wait s :
  backoff_sleep max_wait s -> carries (within G max_wait 0 1) (sleeper s).
Proof.
  intros Hs w. split; [reflexivity|]. exists [EvSleep s]. split; [reflexivity|].
  split; [cbn; lia|]. intros Hb. split; [exact Hb|].
  split; [cbn; lia | cbn; constructor; [exact Hs | constructor]].
Qed.

Lemma within_rest_build_headers G max_wait c :
  carries (within G max_wait 0 0) (JiraRestClient._build_headers c).
Proof.
  intros w. unfold JiraRestClient._build_headers, bind.
  destruct (apply (JiraRestClient.auth c) _); cbn [lift raise ret snd].
  - apply within_refl.
  - apply within_event. exact I.
Qed.

Lemma within_graphql_build_headers G max_wait c apis :
  carries (within G max_wait 0 0) (GraphQLClient._build_headers c apis).
Proof.
  intros w. unfold GraphQLClient._build_headers, bind.
  destruct (apply (GraphQLClient.auth c) _); cbn [lift raise ret snd].
  - apply within_refl.
  - apply within_event. exact I.
Qed.

Lemma within_consume_local_budget max_wait c cost :
  carries (within throttle_off max_wait 0 0) (GraphQLClient._consume_local_budget c cost).
Proof.
  intros w. unfold GraphQLClient._consume_local_budget.
  destruct (bucket w) as [b|] eqn:Hb; [|apply within_refl].
  unfold bind, Throttle.consume.
  destruct (Qle_bool _ _); [|destruct (Qlt_bool _ _)]; cbn [snd ret];
    (split; [reflexivity|]).
  - eexists [_]. split; [reflexivity|]. split; [cbn; lia | unfold throttle_off; congruence].
  - eexists [_]. split; [reflexivity|]. split; [cbn; lia | unfold throttle_off; congruence].
  - eexists [_; _]. split; [reflexivity|]. split; [cbn; lia | unfold throttle_off; congruence].
Qed.

Lemma within_now G max_wait : carries (within G max_wait 0 0) now.
Proof. apply within_still. reflexivity. Qed.

Lemma within_rest_parse G max_wait `{RetryParser} header :
  carries (within G max_wait 0 0) (JiraRestClient._parse_retry_after header).
Proof. apply within_still. intros w. apply rest_parse_retry_after_pure. Qed.

(** The sleep before a retry, as both loops write it. *)
Lemma within_backoff G max_wait (computed_wait : Q) :
  Qlt_bool (inject_Z max_wait) computed_wait = false ->
  carries (within G max_wait 0 1)
    (if Qlt_bool 0 (if Qle_bool computed_wait 0 then 0%Q else computed_wait)
     then sleeper (if Qle_bool computed_wait 0 then 0%Q else computed_wait)
     else ret tt).
Proof.
  intros Hcap. rewrite clamped_wait_positive.
  destruct (Qlt_bool 0 computed_wait) eqn:Hpos.
  - rewrite (clamped_wait_value _ Hpos). apply within_sleeper. split.
    + apply Qlt_bool_true, Hpos.
    + apply Qlt_bool_false, Hcap.
  - intros w. eapply within_weaken; [| |apply within_refl]; lia.
Qed.

Lemma get_json_loop_within `{RetryParser} (fuel : nat) (c : JiraRestClient.t) :
  forall retries,
    carries (within any_bucket (JiraRestClient.max_wait_seconds c)
               (S (retries_left (JiraRestClient.max_retries_429 c) retries))
               (retries_left (JiraRestClient.max_retries_429 c) retries))
      (JiraRestClient.get_json_loop fuel c retries).
Proof.
  set (mw := JiraRestClient.max_wait_seconds c). set (G0 := any_bucket).
  induction fuel as [|fuel IH]; intros retries; cbn [JiraRestClient.get_json_loop].
  - intros w. eapply within_weaken; [| |apply within_refl]; lia.
  - set (K := retries_left (JiraRestClient.max_retries_429 c) retries).
    change (S K) with (0 + (1 + K))%nat. change K with (0 + (0 + K))%nat at 2.
    apply within_bind; [apply within_rest_build_headers|]. intros headers.
    apply within_bind; [apply within_exchange|]. intros answer.
    assert (Hstop : forall A (e : Error), carries (within G0 mw K K) (@raise World A e)).
    { intros A e w. eapply within_weaken; [| |apply within_refl]; lia. }
    destruct answer as [msg|response]; [apply Hstop|].
    destruct (status_code response =? 429).
    + change K with (0 + K)%nat at 1. change K with (0 + K)%nat at 2.
      apply within_bind; [apply within_rest_parse|]. intros [[retry_at label]|]; [|apply Hstop].
      change K with (0 + K)%nat at 1. change K with (0 + K)%nat at 2.
      apply within_bind; [apply within_now|]. intros current.
      destruct (Qlt_bool _ _) eqn:Hcap; [apply Hstop|].
      destruct (Z.of_nat retries <? JiraRestClient.max_retries_429 c) eqn:Hretry;
        cbn [negb]; [|apply Hstop].
      apply Z.ltb_lt in Hretry.
      assert (HK : K = S (retries_left (JiraRestClient.max_retries_429 c) (S retries))).
      { subst K. unfold retries_left. lia. }
      intros w. eapply within_weaken; [| |
        apply (within_bind G0 mw 0 1 (S (retries_left (JiraRestClient.max_retries_429 c) (S retries)))
                 (retries_left (JiraRestClient.max_retries_429 c) (S retries)))].
      * lia.
      * lia.
      * apply within_backoff. exact Hcap.
      * intros _. apply IH.
    + destruct (500 <=? _); [apply Hstop|]. destruct (400 <=? _); [apply Hstop|].
      destruct (json response) as [[]|]; first [apply Hstop | intros w; eapply within_weaken; [| |apply within_refl]; lia].
Qed.

Lemma execute_loop_within `{RetryParser} `{ErrorItemsParser} (fuel : nat)
    (c : GraphQLClient.t) apis cost :
  forall retries,
    carries (within throttle_off (GraphQLClient.max_wait_seconds c)
               (S (retries_left (GraphQLClient.max_retries_429 c) retries))
               (retries_left (GraphQLClient.max_retries_429 c) retries))
      (GraphQLClient.execute_loop fuel c apis cost retries).
Proof.
  set (mw := GraphQLClient.max_wait_seconds c). set (G0 := throttle_off).
  induction fuel as [|fuel IH]; intros retries; cbn [GraphQLClient.execute_loop].
  - intros w. eapply within_weaken; [| |apply within_refl]; lia.
  - set (K := retries_left (GraphQLClient.max_retries_429 c) retries).
    change (S K) with (0 + (0 + (1 + K)))%nat. change K with (0 + (0 + (0 + K)))%nat at 2.
    apply within_bind; [apply within_consume_local_budget|]. intros _.
    apply within_bind; [apply within_graphql_build_headers|]. intros headers.
    apply within_bind; [apply within_exchange|]. intros answer.
    assert (Hstop : forall A (e : Error), carries (within G0 mw K K) (@raise World A e)).
    { intros A e w. eapply within_weaken; [| |apply within_refl]; lia. }
    destruct answer as [msg|response]; [apply Hstop|].
    destruct (status_code response =? 429).
    + change K with (0 + K)%nat at 1. change K with (0 + K)%nat at 2.
      apply within_bind; [apply within_now|]. intros parse_time.
      destruct (parse_retry_after _ _) as [[retry_at label]|]; [|apply Hstop].
      change K with (0 + K)%nat at 1. change K with (0 + K)%nat at 2.
      apply within_bind; [apply within_now|]. intros current.
      destruct (Qlt_bool _ _) eqn:Hcap; [apply Hstop|].
      destruct (Z.of_nat retries <? GraphQLClient.max_retries_429 c) eqn:Hretry;
        cbn [negb]; [|apply Hstop].
      apply Z.ltb_lt in Hretry.
      intros w. eapply within_weaken; [| |
        apply (within_bind G0 mw 0 1 (S (retries_left (GraphQLClient.max_retries_429 c) (S retries)))
                 (retries_left (GraphQLClient.max_retries_429 c) (S retries)))].
      * subst K. unfold retries_left. lia.
      * subst K. unfold retries_left. lia.
      * apply within_backoff. exact Hcap.
      * intros _. apply IH.
    + destruct (500 <=? _); [apply Hstop|]. destruct (400 <=? _); [apply Hstop|].
      destruct (json response) as [body|]; [|apply Hstop].
      destruct (_ && _); [apply Hstop|].
      intros w. eapply within_weaken; [| |apply within_refl]; lia.
Qed.

(** X5.  Whatever the transport answers, one call of
    JiraRestClient.get_json or of GraphQLClient.execute makes at most
    max_retries_429 + 1 HTTP exchanges (a negative max_retries_429
    counting as 0). It sleeps at most max_retries_429 times, and each
    sleep is positive and at most max_wait_seconds (for
    GraphQLClient.execute the bound on sleeps is shown with the local
    throttle off, since the throttle adds sleeps of its own). *)
Theorem executors_bounded `{RetryParser} `{ErrorItemsParser} :
  (forall (c : JiraRestClient.t) (path : string) (w : World),
      let w' := snd (JiraRestClient.get_json c path w) in
      let retries := Z.to_nat (JiraRestClient.max_retries_429 c) in
      exists new,
        log w' = (new ++ log w)%list
        /\ (posts new <= S retries)%nat
        /\ (length (sleeps new) <= retries)%nat
        /\ Forall (backoff_sleep (JiraRestClient.max_wait_seconds c)) (sleeps new))
  /\ (forall (c : GraphQLClient.t) query apis estimated_cost (w : World),
        let w' := snd (GraphQLClient.execute c query apis estimated_cost w) in
        let retries := Z.to_nat (GraphQLClient.max_retries_429 c) in
        exists new,
          log w' = (new ++ log w)%list
          /\ (posts new <= S retries)%nat
          /\ (bucket w = None ->
              (length (sleeps new) <= retries)%nat
              /\ Forall (backoff_sleep (GraphQLClient.max_wait_seconds c)) (sleeps new))).
Proof.
  split.
  - intros c path w w' retries. subst w'.
    assert (Hnone : exists new, log w = (new ++ log w)%list /\ (posts new <= S retries)%nat
              /\ (length (sleeps new) <= retries)%nat
              /\ Forall (backoff_sleep (JiraRestClient.max_wait_seconds c)) (sleeps new)).
    { exists []. repeat split; cbn; try lia. constructor. }
    unfold JiraRestClient.get_json. destruct (_ || _); [exact Hnone|].
    destruct (get_json_loop_within (S (Z.to_nat (JiraRestClient.max_retries_429 c))) c 0 w)
      as (_ & new & Hlog & Hposts & Hoff).
    exists new. split; [exact Hlog|]. unfold retries_left in *.
    rewrite Z.sub_0_r in *. split; [exact Hposts|]. apply Hoff. exact I.
  - intros c query apis estimated_cost w w' retries. subst w'.
    unfold GraphQLClient.execute. destruct (_ || _).
    { exists []. repeat split; cbn; try lia. constructor. }
    destruct (execute_loop_within (S (Z.to_nat (GraphQLClient.max_retries_429 c))) c apis
                (GraphQLClient.cost_value estimated_cost) 0 w)
      as (_ & new & Hlog & Hposts & Hoff).
    exists new. unfold retries_left in *. rewrite Z.sub_0_r in *.
    split; [exact Hlog|]. split; [exact Hposts|]. intros Hb. apply Hoff, Hb.
Qed.

(** ** What a call returns *)

Lemma bind_returns {S A B} (m : Prog S A) (k : A -> Prog S B) s b s' :
  bind m k s = (Return b, s') ->
  exists a s1, m s = (Return a, s1) /\ k a s1 = (Return b, s').
Proof.
  unfold bind. destruct (m s) as [[a|e|] s1]; intros Hrun; try discriminate.
  exists a, s1. split; [reflexivity | exact Hrun].
Qed.

Lemma get_json_loop_returns `{RetryParser} (fuel : nat) (c : JiraRestClient.t) :
  forall retries w body w',
    JiraRestClient.get_json_loop fuel c retries w = (Return body, w') ->
    exists response fields,
      answered_last w w' response
      /\ json response = Some (JDict fields)
      /\ body = JDict fields.
Proof.
  induction fuel as [|fuel IH]; intros retries w body w' Hrun;
    cbn [JiraRestClient.get_json_loop] in Hrun; [discriminate|].
  apply bind_returns in Hrun. destruct Hrun as (headers & w1 & Hbuild & Hrun).
  pose proof (within_rest_build_headers any_bucket 0 c w) as (Ht1 & _).
  rewrite Hbuild in Ht1. cbn [snd] in Ht1.
  apply bind_returns in Hrun. destruct Hrun as (answer & w2 & Hex & Hrun).
  unfold exchange in Hex. injection Hex as <- <-.
  destruct (transport w1 (posts (log w1))) as [msg|response] eqn:Hanswer; [discriminate|].
  destruct (status_code response =? 429) eqn:H429.
  - apply bind_returns in Hrun. destruct Hrun as (parsed & w3 & Hparse & Hrun).
    pose proof (rest_parse_retry_after_pure (retry_after_header response) (record EvPost w1))
      as (Hsame & _).
    rewrite Hparse in Hsame. cbn [snd] in Hsame. subst w3.
    destruct parsed as [[retry_at label]|]; [|discriminate].
    apply bind_returns in Hrun. destruct Hrun as (current & w4 & Hnow & Hrun).
    injection Hnow as <- <-.
    destruct (Qlt_bool _ _); [discriminate|].
    destruct (negb _); [discriminate|].
    apply bind_returns in Hrun. destruct Hrun as ([] & w5 & Hsleep & Hrun).
    assert (Ht5 : transport w5 = transport w).
    { rewrite <- Ht1. destruct (Qlt_bool 0 _).
      - unfold sleeper in Hsleep. injection Hsleep as <-. reflexivity.
      - injection Hsleep as <-. reflexivity. }
    destruct (IH _ _ _ _ Hrun) as (resp & fields & (earlier & Hlog & Hlast & Hlt & Hne) & Hjson & ->).
    exists resp, fields. split; [|auto].
    exists earlier. rewrite <- Ht5. auto.
  - destruct (500 <=? status_code response) eqn:H500; [discriminate|].
    destruct (400 <=? status_code response) eqn:H400; [discriminate|].
    destruct (json response) as [[| | | | |fields]|] eqn:Hjson; try discriminate.
    injection Hrun as <- <-.
    exists response, fields. split; [|auto].
    exists (log w1). split; [reflexivity|]. rewrite <- Ht1. split; [exact Hanswer|].
    apply Z.leb_gt in H400. apply Z.eqb_neq in H429. auto.
Qed.

Lemma execute_loop_returns `{RetryParser} `{ErrorItemsParser} (fuel : nat)
    (c : GraphQLClient.t) apis cost :
  forall retries w result w',
    GraphQLClient.execute_loop fuel c apis cost retries w = (Return result, w') ->
    exists response body,
      answered_last w w' response
      /\ json response = Some body
      /\ data result = member "data" body
      /\ extensions result = member "extensions" body
      /\ errors result
         = match body with JDict d => parse_error_items (dict_get "errors" d) | _ => None end
      /\ (GraphQLClient.strict c = true -> nonempty (errors result) = false).
Proof.
  induction fuel as [|fuel IH]; intros retries w result w' Hrun;
    cbn [GraphQLClient.execute_loop] in Hrun; [discriminate|].
  apply bind_returns in Hrun. destruct Hrun as ([] & w0 & Hconsume & Hrun).
  pose proof (within_consume_local_budget 0 c cost w) as (Ht0 & _).
  rewrite Hconsume in Ht0. cbn [snd] in Ht0.
  apply bind_returns in Hrun. destruct Hrun as (headers & w1 & Hbuild & Hrun).
  pose proof (within_graphql_build_headers any_bucket 0 c apis w0) as (Ht1 & _).
  rewrite Hbuild in Ht1. cbn [snd] in Ht1.
  apply bind_returns in Hrun. destruct Hrun as (answer & w2 & Hex & Hrun).
  unfold exchange in Hex. injection Hex as <- <-.
  destruct (transport w1 (posts (log w1))) as [msg|response] eqn:Hanswer; [discriminate|].
  destruct (status_code response =? 429) eqn:H429.
  - apply bind_returns in Hrun. destruct Hrun as (parse_time & w3 & Hnow & Hrun).
    injection Hnow as <- <-.
    destruct (parse_retry_after _ _) as [[retry_at label]|]; [|discriminate].
    apply bind_returns in Hrun. destruct Hrun as (current & w4 & Hnow & Hrun).
    injection Hnow as <- <-.
    destruct (Qlt_bool _ _); [discriminate|].
    destruct (negb _); [discriminate|].
    apply bind_returns in Hrun. destruct Hrun as ([] & w5 & Hsleep & Hrun).
    assert (Ht5 : transport w5 = transport w).
    { rewrite <- Ht0, <- Ht1. destruct (Qlt_bool 0 _).
      - unfold sleeper in Hsleep. injection Hsleep as <-. reflexivity.
      - injection Hsleep as <-. reflexivity. }
    destruct (IH _ _ _ _ Hrun)
      as (resp & body & (earlier & Hlog & Hlast & Hlt & Hne) & Hrest).
    exists resp, body. split; [|exact Hrest].
    exists earlier. rewrite <- Ht5. auto.
  - destruct (500 <=? status_code response) eqn:H500; [discriminate|].
    destruct (400 <=? status_code response) eqn:H400; [discriminate|].
    destruct (json response) as [body|] eqn:Hjson; [|discriminate].
    destruct (GraphQLClient.strict c && nonempty _) eqn:Hstrict; [discriminate|].
    injection Hrun as <- <-. cbn [data errors extensions].
    exists response, body. split.
    + exists (log w1). split; [reflexivity|]. rewrite <- Ht0, <- Ht1.
      split; [exact Hanswer|].
      apply Z.leb_gt in H400. apply Z.eqb_neq in H429. auto.
    + split; [exact Hjson|]. split; [reflexivity|]. split; [reflexivity|].
      split; [reflexivity|].
      intros Hs. rewrite Hs in Hstrict. exact Hstrict.
Qed.

(** X6.  When JiraRestClient.get_json returns a value, the last thing the
    call did was an HTTP exchange, the response to it had a status below
    400, and the value returned is the JSON body of that response, which
    is an object. When GraphQLClient.execute returns a result, the same
    holds of the last exchange, and the data, extensions and errors of the
    result are read from the members of that body; in strict mode a result
    that is returned has no errors. *)
Theorem returned_value_is_last_response `{RetryParser} `{ErrorItemsParser} :
  (forall (c : JiraRestClient.t) (path : string) (w : World) (body : Json) (w' : World),
      JiraRestClient.get_json c path w = (Return body, w') ->
      exists response fields,
        answered_last w w' response
        /\ json response = Some (JDict fields)
        /\ body = JDict fields)
  /\ (forall (c : GraphQLClient.t) query apis estimated_cost (w : World)
             (result : GraphQLResult) (w' : World),
        GraphQLClient.execute c query apis estimated_cost w = (Return result, w') ->
        exists response body,
          answered_last w w' response
          /\ json response = Some body
          /\ data result = member "data" body
          /\ extensions result = member "extensions" body
          /\ errors result
             = match body with
               | JDict d => parse_error_items (dict_get "errors" d)
               | _ => None
               end
          /\ (GraphQLClient.strict c = true -> nonempty (errors result) = false)).
Proof.
  split.
  - intros c path w body w'. unfold JiraRestClient.get_json.
    destruct (_ || _); [discriminate|]. apply get_json_loop_returns.
  - intros c query apis estimated_cost w result w'. unfold GraphQLClient.execute.
    destruct (_ || _); [discriminate|]. apply execute_loop_returns.
Qed.

(** A read that is answered at once. *)
Lemma returned_value_is_last_response_witness :
  exists response,
    answered_last (demo_world 0 None demo_ok demo_ok)
      (snd (@JiraRestClient.get_json demo_parser (demo_rest 2 60) "/rest/api/3/myself"
              (demo_world 0 None demo_ok demo_ok)))
      response
    /\ json response = Some (JDict [("data", JDict [("ok", JBool true)])]).
Proof.
  destruct (proj1 (@returned_value_is_last_response demo_parser demo_error_items)
              (demo_rest 2 60) "/rest/api/3/myself" (demo_world 0 None demo_ok demo_ok)
              (JDict [("data", JDict [("ok", JBool true)])])
              (snd (@JiraRestClient.get_json demo_parser (demo_rest 2 60)
                      "/rest/api/3/myself" (demo_world 0 None demo_ok demo_ok))))
    as (response & fields & Hlast & Hjson & Hbody).
  - reflexivity.
  - exists response. split; [exact Hlast|]. rewrite Hjson, Hbody. reflexivity.
Defined.

(** ** A server that pages a table *)

Lemma selected_app cloud_id types l1 l2 :
  selected cloud_id types (l1 ++ l2)
  = (selected cloud_id types l1 ++ selected cloud_id types l2)%list.
Proof.
  induction l1 as [|item l1 IH]; cbn [selected app]; [reflexivity|].
  destruct (map_rest_project cloud_id item) as [e|project]; [exact IH|].
  destruct (JiraProject.type project) as [ty|]; [|exact IH].
  destruct (bool_decide _); [|exact IH]. cbn [app]. now rewrite IH.
Qed.

Lemma slice_length {A} (items : list A) page_size start_at :
  0 < page_size -> 0 <= start_at <= len items ->
  len (slice items page_size start_at) = Z.min page_size (len items - start_at).
Proof.
  intros Hp Hs. unfold len, slice in *. rewrite length_take, length_drop. lia.
Qed.

Lemma slice_rest {A} (items : list A) page_size start_at :
  0 < page_size -> 0 <= start_at <= len items ->
  drop (Z.to_nat start_at) items
  = (slice items page_size start_at
     ++ drop (Z.to_nat (start_at + len (slice items page_size start_at))) items)%list.
Proof.
  intros Hp Hs. rewrite slice_length by assumption. unfold slice, len in *.
  rewrite <- (take_drop (Z.to_nat page_size) (drop (Z.to_nat start_at) items)) at 1.
  f_equal. rewrite drop_drop.
  destruct (Z_le_gt_dec page_size (Z.of_nat (length items) - start_at)).
  - rewrite Z.min_l by lia. f_equal. lia.
  - rewrite Z.min_r by lia. rewrite !drop_ge; [reflexivity | lia | lia].
Qed.

Lemma slice_last {A} (items : list A) page_size start_at :
  0 < page_size -> 0 <= start_at <= len items ->
  len items <= start_at + len (slice items page_size start_at) ->
  slice items page_size start_at = drop (Z.to_nat start_at) items.
Proof.
  intros Hp Hs Hend. rewrite slice_length in Hend by assumption.
  unfold slice, len in *. apply take_ge. rewrite length_drop. lia.
Qed.

Section ServedProjects.

Context {api : JiraRestApi} {W : Type} {client : RestClient W}.

Lemma for_values_selected cloud_id types (values : list RestProject.t)
    (s : Run RestRequest CanonicalProjectWithOpsgenieTeams.t W) :
  Forall (mappable cloud_id) values ->
  exists s',
    JiraRestProjects.for_values cloud_id types values s = (Return tt, s')
    /\ yields_of (history s')
       = (yields_of (history s) ++ selected cloud_id types values)%list.
Proof.
  intros Hall. revert s. induction Hall as [|item rest (project & Hmap) _ IH]; intros s;
    cbn [JiraRestProjects.for_values selected].
  - exists s. split; [reflexivity | now rewrite app_nil_r].
  - unfold bind at 1. rewrite Hmap. cbn [lift ret].
    destruct (JiraProject.type project) as [ty|]; [|apply IH].
    destruct (bool_decide (ty ∈ types)); cbn [negb]; [|apply IH].
    unfold bind at 1. cbn [yield].
    match goal with |- context [JiraRestProjects.for_values _ _ _ ?s1] =>
      destruct (IH s1) as (s' & Hrun & Hys) end.
    exists s'. split; [exact Hrun|]. rewrite Hys. unfold history. cbn [emitted rev].
    rewrite yields_of_app. cbn [yields_of]. now rewrite <- app_assoc.
Qed.

Lemma call_keeps_yields {A} (run : RestRequest -> Prog W A) (req : RestRequest)
    (s : Run RestRequest CanonicalProjectWithOpsgenieTeams.t W) r s0 :
  call run req s = (r, s0) -> yields_of (history s0) = yields_of (history s).
Proof.
  unfold call. destruct (run req (world s)) as [a w]. intros [= <- <-].
  unfold history. cbn [emitted rev]. rewrite yields_of_app. cbn [yields_of].
  apply app_nil_r.
Qed.

Lemma projects_loop_complete (items : list RestProject.t) cloud_id types page_size :
  0 < page_size ->
  serves_projects items page_size ->
  Forall (mappable cloud_id) items ->
  forall fuel start_at seen s,
    0 <= start_at <= len items ->
    (Z.to_nat (len items - start_at) < fuel)%nat ->
    (forall z, z ∈ seen -> z < start_at) ->
    exists s',
      JiraRestProjects.projects_loop fuel cloud_id types page_size start_at seen s
        = (Return tt, s')
      /\ yields_of (history s')
         = (yields_of (history s)
            ++ selected cloud_id types (drop (Z.to_nat start_at) items))%list.
Proof.
  intros Hsize Hserves Hmap.
  induction fuel as [|fuel IH]; intros start_at seen s Hstart Hfuel Hseen; [lia|].
  assert (Hfresh : start_at ∉ seen) by (intros Hin; apply Hseen in Hin; lia).
  destruct (Hserves start_at s Hstart) as (payload & s0 & page & Hcall & Hread & Hvalues & Htotal & Hlast).
  assert (Hslice : Forall (mappable cloud_id) (PageBeanProject.values page)).
  { rewrite Hvalues. unfold slice. apply Forall_take, Forall_drop, Hmap. }
  destruct (for_values_selected cloud_id types _ s0 Hslice) as (s1 & Hfor & Hys).
  rewrite (call_keeps_yields _ _ _ _ _ Hcall) in Hys.
  assert (Hpage : projects_page_read cloud_id types page_size start_at s page s1).
  { exists payload, s0. auto. }
  pose proof (projects_loop_verdict fuel cloud_id types page_size start_at seen s page s1
                Hfresh Hpage) as Hverdict.
  cbv zeta in Hverdict.
  destruct Hverdict as (Vlast & Vtotal & Vshort & _ & _ & Vnext).
  pose proof (slice_length items page_size start_at Hsize Hstart) as Hlen.
  rewrite <- Hvalues in Hlen.
  set (n := len (PageBeanProject.values page)) in *.
  assert (Hdone : len items <= start_at + n ->
            yields_of (history s1)
            = (yields_of (history s)
               ++ selected cloud_id types (drop (Z.to_nat start_at) items))%list).
  { intros Hend. rewrite Hys, Hvalues. f_equal. f_equal.
    apply slice_last; try assumption. rewrite <- Hvalues. exact Hend. }
  assert (Hmore : start_at + n < len items -> n <> 0 ->
            JiraRestProjects.projects_loop (S fuel) cloud_id types page_size start_at seen s
            = JiraRestProjects.projects_loop fuel cloud_id types page_size
                (start_at + n) ({[start_at]} ∪ seen) s1 ->
            exists s',
              JiraRestProjects.projects_loop (S fuel) cloud_id types page_size start_at seen s
                = (Return tt, s')
              /\ yields_of (history s')
                 = (yields_of (history s)
                    ++ selected cloud_id types (drop (Z.to_nat start_at) items))%list).
  { intros Hlt Hn Hstep. rewrite Hstep.
    destruct (IH (start_at + n) ({[start_at]} ∪ seen) s1) as (s' & Hrun & Hys').
    - lia.
    - lia.
    - intros z Hz. apply elem_of_union in Hz. destruct Hz as [Hz | Hz].
      + apply elem_of_singleton in Hz. lia.
      + apply Hseen in Hz. lia.
    - exists s'. split; [exact Hrun|]. rewrite Hys', Hys, <- app_assoc. f_equal.
      rewrite <- selected_app. f_equal.
      rewrite (slice_rest items page_size start_at Hsize Hstart).
      rewrite <- Hvalues. reflexivity. }
  destruct (PageBeanProject.is_last page) as [[]|] eqn:His.
  - (* is-last: the slice ends the table *)
    exists s1. split; [apply Vlast; reflexivity|]. apply Hdone.
    specialize (Hlast true eq_refl). symmetry in Hlast. apply Z.leb_le in Hlast. lia.
  - specialize (Hlast false eq_refl). symmetry in Hlast. apply Z.leb_gt in Hlast.
    assert (Hn : n <> 0) by lia.
    apply Hmore; [lia | exact Hn|]. apply Vnext; [discriminate | | exact Hn].
    destruct (total_cases (PageBeanProject.total page)) as [(t & Ht) | Hnone].
    + left. exists t. split; [exact Ht|]. destruct Ht as (Ht & Hpos).
      rewrite (Htotal t Ht Hpos). lia.
    + right. split; [exact Hnone | lia].
  - destruct (total_cases (PageBeanProject.total page)) as [(t & Ht) | Hnone].
    + pose proof Ht as (Ht' & Hpos). pose proof (Htotal t Ht' Hpos) as ->.
      destruct (Z_le_gt_dec (len items) (start_at + n)) as [Hend | Hgo].
      * exists s1. split; [eapply Vtotal; [discriminate | exact Ht | exact Hend]|].
        apply Hdone, Hend.
      * assert (Hn : n <> 0) by lia.
        apply Hmore; [lia | exact Hn|]. apply Vnext; [discriminate | | exact Hn].
        left. exists (len items). split; [exact Ht | lia].
    + destruct (Z_lt_ge_dec n page_size) as [Hshort | Hfull].
      * exists s1. split; [apply Vshort; [discriminate | exact Hnone | exact Hshort]|].
        apply Hdone. lia.
      * assert (Hn : n <> 0) by lia.
        destruct (Z_le_gt_dec (len items) (start_at + n)) as [Hend | Hgo].
        -- (* a full last page and no total: one more, empty, page is read *)
           rewrite Vnext; [|discriminate | right; split; [exact Hnone | lia] | exact Hn].
           destruct (IH (start_at + n) ({[start_at]} ∪ seen) s1) as (s' & Hrun & Hys').
           ++ lia.
           ++ lia.
           ++ intros z Hz. apply elem_of_union in Hz. destruct Hz as [Hz | Hz].
              ** apply elem_of_singleton in Hz. lia.
              ** apply Hseen in Hz. lia.
           ++ exists s'. split; [exact Hrun|]. rewrite Hys', (Hdone Hend).
              rewrite (drop_ge items (Z.to_nat (start_at + n)));
                [cbn [selected]; now rewrite app_nil_r|].
              unfold len in *. lia.
        -- apply Hmore; [lia | exact Hn|]. apply Vnext; [discriminate | | exact Hn].
           right. split; [exact Hnone | lia].
Qed.

End ServedProjects.

(** X7.  Against a server that holds a table of projects and answers every
    page request with the slice asked for (a total it reports, if not
    negative, is the size of the table; an isLast flag it reports is true
    exactly on the slice that ends the table), iter_projects_via_rest with
    a non-blank cloud_id, a positive page_size, valid project_types and
    projects that all map without error terminates normally (with fuel
    above the number of projects) and yields exactly the projects of the
    table whose normalized type was requested, in table order, each once. *)
Theorem rest_projects_complete `{JiraRestApi} {W} `{RestClient W}
    (items : list RestProject.t) (fuel : nat) (cloud_id : string)
    (project_types cleaned : list string) (page_size : Z)
    (s : Run RestRequest CanonicalProjectWithOpsgenieTeams.t W) :
  Py.truthy (Py.strip cloud_id) = true ->
  0 < page_size ->
  JiraRestProjects._normalize_project_types project_types = inr cleaned ->
  serves_projects items page_size ->
  Forall (mappable (Py.strip cloud_id)) items ->
  (length items < fuel)%nat ->
  exists s',
    JiraRestProjects.iter_projects_via_rest fuel cloud_id project_types page_size s
      = (Return tt, s')
    /\ yields_of (history s')
       = (yields_of (history s)
          ++ selected (Py.strip cloud_id) (list_to_set cleaned) items)%list.
Proof.
  intros Hcloud Hsize Hnorm Hserves Hmap Hfuel.
  unfold JiraRestProjects.iter_projects_via_rest.
  rewrite Hcloud. cbn [negb].
  destruct (page_size <=? 0) eqn:Hp; [apply Z.leb_le in Hp; lia|].
  unfold bind at 1. rewrite Hnorm. cbn [lift ret].
  destruct (projects_loop_complete items (Py.strip cloud_id) (list_to_set cleaned) page_size
              Hsize Hserves Hmap fuel 0 ∅ s) as (s' & Hrun & Hys).
  - unfold len. lia.
  - unfold len. lia.
  - intros z Hz. apply elem_of_empty in Hz. contradiction.
  - exists s'. split; [exact Hrun | exact Hys].
Qed.

(** The table server serves the three projects of the unit test. *)
Lemma table_serves_projects :
  @serves_projects generated_rest_api unit (table_rest "values" project_rows)
    table_projects 2.
Proof.
  intros start_at s Hs.
  assert (H : start_at = 0 \/ start_at = 1 \/ start_at = 2 \/ start_at = 3)
    by (unfold len in Hs; simpl in Hs; lia).
  destruct H as [-> | [-> | [-> | ->]]];
    (eexists _, _, _; split; [reflexivity|]; split; [vm_compute; reflexivity|];
     split; [reflexivity|]; split;
     [intros t Ht _; injection Ht as <-; reflexivity | intros b Hb; discriminate Hb]).
Qed.

(** The run of the unit test: of the projects A, B and C the two software
    projects are yielded. *)
Lemma rest_projects_complete_witness :
  exists s',
    @JiraRestProjects.iter_projects_via_rest generated_rest_api unit
      (table_rest "values" project_rows) 4 "cloud-123" ["SOFTWARE"] 2 (start_of_run tt)
    = (Return tt, s')
    /\ yields_of (history s')
       = [software_project "A" "Project A"; software_project "C" "Project C"].
Proof.
  destruct (@rest_projects_complete generated_rest_api unit
              (table_rest "values" project_rows) table_projects 4 "cloud-123"
              ["SOFTWARE"] ["SOFTWARE"] 2 (start_of_run tt))
    as (s' & Hrun & Hyields).
  - reflexivity.
  - lia.
  - reflexivity.
  - exact table_serves_projects.
  - repeat constructor; eexists; vm_compute; reflexivity.
  - simpl. lia.
  - exists s'. split; [exact Hrun|]. rewrite Hyields. vm_compute. reflexivity.
Defined.

(** ** Bearer tokens *)

Lemma map_chars_app (f : ascii -> ascii) (s1 s2 : string) :
  Py.map_chars f (s1 +:+ s2) = Py.map_chars f s1 +:+ Py.map_chars f s2.
Proof. induction s1 as [|a s1 IH]; simpl; [reflexivity | rewrite IH; reflexivity]. Qed.

Lemma prefix_append (s1 s2 : string) : String.prefix s1 (s1 +:+ s2) = true.
Proof.
  induction s1 as [|a s1 IH]; simpl.
  - destruct s2; reflexivity.
  - destruct (ascii_dec a a); [exact IH | contradiction].
Qed.

(** A character that [lower] maps to a letter is no blank. *)
Lemma lower_char_letter (a : ascii) :
  Py.isspace (Str.lower_char a) = false -> Str.lower_char a <> " "%char ->
  Py.isspace a = false /\ a <> " "%char.
Proof. destruct a as [[] [] [] [] [] [] [] []]; cbv; intros; split; congruence. Qed.

Lemma lower_char_blank (a : ascii) : Str.lower_char a = " "%char -> a = " "%char.
Proof. destruct a as [[] [] [] [] [] [] [] []]; cbv; congruence. Qed.

Lemma bearer_prefix_shape (p : string) :
  bearer_prefix p ->
  exists c1 c2 c3 c4 c5 c6,
    p = String c1 (String c2 (String c3 (String c4 (String c5 (String c6 " ")))))
    /\ Forall (fun c => Py.isspace c = false /\ c <> " "%char) [c1; c2; c3; c4; c5; c6].
Proof.
  unfold bearer_prefix, Str.lower. intros H.
  destruct p as [|c1 [|c2 [|c3 [|c4 [|c5 [|c6 [|c7 [|]]]]]]]]; try discriminate.
  simpl in H. injection H as H1 H2 H3 H4 H5 H6 H7.
  apply lower_char_blank in H7. subst c7.
  exists c1, c2, c3, c4, c5, c6. split; [reflexivity|].
  repeat constructor;
    match goal with
    | |- Py.isspace ?c = false =>
      apply (lower_char_letter c);
        match goal with Hc : Str.lower_char c = _ |- _ => rewrite Hc end;
        [reflexivity | discriminate]
    | |- ?c <> _ =>
      apply (lower_char_letter c);
        match goal with Hc : Str.lower_char c = _ |- _ => rewrite Hc end;
        [reflexivity | discriminate]
    end.
Qed.

Lemma split_once_found (sep : ascii) (s : string) :
  (exists before after, s = before +:+ String sep after) ->
  exists first rest, Str.split_once sep s = [first; rest].
Proof.
  intros (before & after & ->). induction before as [|a before (first & rest & IH)]; simpl.
  - rewrite Ascii.eqb_refl. eauto.
  - destruct (Ascii.eqb a sep); [eauto|]. rewrite IH. eauto.
Qed.

Lemma prefix_split (s1 s2 : string) :
  String.prefix s1 s2 = true -> exists rest, s2 = s1 +:+ rest.
Proof.
  revert s2. induction s1 as [|a s1 IH]; intros s2 H.
  - exists s2. reflexivity.
  - destruct s2 as [|b s2]; [discriminate|]. simpl in H.
    destruct (ascii_dec a b) as [->|]; [|discriminate].
    destruct (IH _ H) as (rest & ->). exists rest. reflexivity.
Qed.

Lemma lower_blank_at (s : string) (before after : string) :
  Str.lower s = before +:+ String " " after ->
  exists before' after', s = before' +:+ String " " after'.
Proof.
  revert s. induction before as [|b before IH]; intros s H.
  - destruct s as [|a s]; [discriminate|]. simpl in H. injection H as Ha _.
    apply lower_char_blank in Ha. subst a. exists "", s. reflexivity.
  - destruct s as [|a s]; [discriminate|]. simpl in H. injection H as _ Hs.
    destruct (IH _ Hs) as (before' & after' & ->).
    exists (String a before'), after'. reflexivity.
Qed.

Lemma stripped_truthy_append (p t : string) :
  clean_head (list_ascii_of_string p) -> Py.truthy p = true ->
  stripped t -> Py.truthy t = true ->
  stripped (p +:+ t).
Proof.
  intros Hp Hpt Ht Htt. apply clean_stripped; rewrite append_chars.
  - destruct p; [discriminate|]. exact Hp.
  - unfold clean_last. rewrite rev_app_distr.
    apply stripped_clean in Ht. destruct Ht as (_ & Hlast). unfold clean_last in Hlast.
    destruct (rev (list_ascii_of_string t)) as [|a l] eqn:Hrev; [|exact Hlast].
    apply (f_equal (@rev ascii)) in Hrev. rewrite rev_involutive in Hrev.
    destruct t; discriminate.
Qed.

(** X8.  OAuthBearerAuth.apply either raises ValueError('OAuth token
    getter returned empty token') or sets the Authorization header to
    'Bearer ' followed by a token that is non-empty and stripped, leaving
    every other header as it was. When the token getter returns the word
    'bearer ' in any letter case followed by a non-empty stripped token,
    the header is 'Bearer ' followed by that token: the prefix is not
    doubled. *)
Theorem bearer_token_normalized (token : option string) (headers : gmap string string) :
  (forall e, OAuthBearerAuth.apply token headers = inl e ->
     e = Library (ValueError "OAuth token getter returned empty token"))
  /\ (forall result, OAuthBearerAuth.apply token headers = inr result ->
        exists t,
          Py.truthy t = true /\ stripped t
          /\ result = <["Authorization" := "Bearer " +:+ t]> headers)
  /\ (forall p t, bearer_prefix p -> Py.truthy t = true -> stripped t ->
        OAuthBearerAuth.apply (Some (p +:+ t)) headers
        = inr (<["Authorization" := "Bearer " +:+ t]> headers)).
Proof.
  repeat apply conj.
  - unfold OAuthBearerAuth.apply. intros e.
    destruct (negb (Py.truthy_opt token)); [congruence|].
    destruct (Str.startswith _ _) eqn:Hstart.
    + apply prefix_split in Hstart. destruct Hstart as (rest & Hlower).
      apply (lower_blank_at _ "bearer" rest) in Hlower.
      destruct (split_once_found " " _ Hlower) as (first & after & ->).
      destruct (negb _); [congruence | discriminate].
    + destruct (negb _); [congruence | discriminate].
  - unfold OAuthBearerAuth.apply. intros result.
    destruct (negb (Py.truthy_opt token)); [discriminate|].
    destruct (Str.startswith _ _).
    + destruct (Str.split_once _ _) as [|first [|rest more]]; try discriminate.
      destruct (Py.truthy (Py.strip rest)) eqn:Ht; cbn [negb]; [|discriminate].
      intros [= <-]. exists (Py.strip rest). auto using strip_stripped.
    + destruct (Py.truthy (Py.strip (Py.or_empty token))) eqn:Ht; cbn [negb]; [|discriminate].
      intros [= <-]. exists (Py.strip (Py.or_empty token)). auto using strip_stripped.
  - intros p t Hp Ht Hst.
    destruct (bearer_prefix_shape p Hp) as (c1 & c2 & c3 & c4 & c5 & c6 & -> & Hletters).
    change (String c1 (String c2 (String c3 (String c4 (String c5 (String c6 " ")))))
            +:+ t)
      with (String c1 (String c2 (String c3 (String c4 (String c5
              (String c6 (String " " t))))))).
    unfold OAuthBearerAuth.apply. cbn [Py.truthy_opt Py.truthy negb Py.or_empty].
    assert (Hs : Py.strip (String c1 (String c2 (String c3 (String c4 (String c5
                   (String c6 (String " " t)))))))
                 = String c1 (String c2 (String c3 (String c4 (String c5
                   (String c6 (String " " t))))))).
    { apply (stripped_truthy_append
               (String c1 (String c2 (String c3 (String c4 (String c5 (String c6 " ")))))) t);
        auto.
      inversion Hletters as [|? ? (Hc1 & _) _]. exact Hc1. }
    rewrite Hs.
    assert (Hl : Str.startswith
                   (Str.lower (String c1 (String c2 (String c3 (String c4 (String c5
                      (String c6 (String " " t)))))))) "bearer " = true).
    { unfold Str.startswith.
      change (String c1 (String c2 (String c3 (String c4 (String c5
                (String c6 (String " " t)))))))
        with (String c1 (String c2 (String c3 (String c4 (String c5 (String c6 " ")))))
              +:+ t).
      unfold Str.lower. rewrite map_chars_app.
      unfold bearer_prefix, Str.lower in Hp. rewrite Hp. apply prefix_append. }
    rewrite Hl.
    assert (Hsplit : Str.split_once " "
                       (String c1 (String c2 (String c3 (String c4 (String c5
                          (String c6 (String " " t)))))))
                     = [String c1 (String c2 (String c3 (String c4 (String c5
                          (String c6 ""))))); t]).
    { cbn [Str.split_once].
      repeat match goal with
             | H : Forall _ (_ :: _) |- _ => inversion H as [|? ? (_ & ?) ?]; clear H; subst
             end.
      repeat match goal with
             | Hc : ?c <> " "%char |- context [Ascii.eqb ?c " "] =>
               rewrite (proj2 (Ascii.eqb_neq c " ") Hc)
             end.
      reflexivity. }
    rewrite Hsplit, Hst, Ht. reflexivity.
Qed.

Lemma bearer_token_normalized_witness :
  OAuthBearerAuth.apply (Some ("BeArEr " +:+ "abc123")) ∅
  = inr (<["Authorization" := "Bearer " +:+ "abc123"]> ∅).
Proof.
  apply (bearer_token_normalized None ∅); reflexivity.
Defined.

(** ** Names listed in the environment *)

Lemma split_free (sep : ascii) (s : string) :
  Forall (free_of sep) (Str.split sep s).
Proof.
  induction s as [|a s IH]; simpl.
  - repeat constructor. intros [].
  - destruct (Ascii.eqb a sep) eqn:Ha.
    + constructor; [intros [] | exact IH].
    + destruct (Str.split sep s) as [|part parts]; [repeat constructor|].
      * intros [<-|[]]. now rewrite Ascii.eqb_refl in Ha.
      * inversion IH as [|? ? Hpart Hparts]; subst. constructor; [|exact Hparts].
        intros [<-|Hin]; [now rewrite Ascii.eqb_refl in Ha | exact (Hpart Hin)].
Qed.

Lemma lstrip_chars_incl (l : list ascii) (c : ascii) : In c (lstrip_chars l) -> In c l.
Proof.
  induction l as [|a l IH]; simpl; [tauto|].
  destruct (Py.isspace a); [intros H; right; exact (IH H) | tauto].
Qed.

Lemma strip_free (c : ascii) (s : string) : free_of c s -> free_of c (Py.strip s).
Proof.
  unfold free_of. rewrite strip_is. intros Hfree Hin. apply Hfree.
  unfold rstrip_chars in Hin. apply in_rev in Hin.
  apply lstrip_chars_incl in Hin. apply in_rev in Hin.
  apply lstrip_chars_incl in Hin. exact Hin.
Qed.

Lemma split_single (sep : ascii) (s : string) : free_of sep s -> Str.split sep s = [s].
Proof.
  unfold free_of. induction s as [|a s IH]; simpl; [reflexivity|]. intros Hfree.
  destruct (Ascii.eqb a sep) eqn:Ha.
  - apply Ascii.eqb_eq in Ha. subst a. exfalso. apply Hfree. now left.
  - rewrite IH; [reflexivity|]. intros Hin. apply Hfree. now right.
Qed.

Lemma split_first (sep : ascii) (s rest : string) :
  free_of sep s -> Str.split sep (s +:+ String sep rest) = s :: Str.split sep rest.
Proof.
  unfold free_of. induction s as [|a s IH]; simpl; intros Hfree.
  - now rewrite Ascii.eqb_refl.
  - destruct (Ascii.eqb a sep) eqn:Ha.
    + apply Ascii.eqb_eq in Ha. subst a. exfalso. apply Hfree. now left.
    + rewrite IH; [reflexivity|]. intros Hin. apply Hfree. now right.
Qed.

Lemma split_join (names : list string) :
  names <> [] -> Forall (free_of ",") names ->
  Str.split "," (JiraRestIssues.join_commas names) = names.
Proof.
  intros Hne Hall. induction Hall as [|name rest Hname Hrest IH]; [contradiction|].
  destruct rest as [|next rest].
  - simpl. apply split_single, Hname.
  - change (JiraRestIssues.join_commas (name :: next :: rest))
      with (name +:+ "," +:+ JiraRestIssues.join_commas (next :: rest)).
    change ("," +:+ JiraRestIssues.join_commas (next :: rest))
      with (String "," (JiraRestIssues.join_commas (next :: rest))).
    rewrite split_first by exact Hname. f_equal. apply IH. discriminate.
Qed.

Lemma api_names_kept (names : list string) :
  Forall api_name names ->
  List.map Py.strip (List.filter (fun part => Py.truthy (Py.strip part)) names) = names.
Proof.
  induction 1 as [|name rest (Ht & Hs & _) _ IH]; [reflexivity|].
  cbn [List.filter List.map]. rewrite Hs, Ht. cbn [List.map]. now rewrite Hs, IH.
Qed.

(** X9.  _env_experimental_apis returns only names that are non-empty,
    stripped and free of commas; it returns the empty list when
    ATLASSIAN_GQL_EXPERIMENTAL_APIS is not set; and when the variable
    holds such names joined by commas it returns exactly those names, in
    order. *)
Theorem env_experimental_apis_names (env : Environ) :
  Forall api_name (_env_experimental_apis env)
  /\ (getenv env "ATLASSIAN_GQL_EXPERIMENTAL_APIS" = None -> _env_experimental_apis env = [])
  /\ (forall names,
        Forall api_name names ->
        getenv env "ATLASSIAN_GQL_EXPERIMENTAL_APIS"
          = Some (JiraRestIssues.join_commas names) ->
        _env_experimental_apis env = names).
Proof.
  unfold _env_experimental_apis. repeat apply conj.
  - pose proof (split_free "," (default "" (getenv env "ATLASSIAN_GQL_EXPERIMENTAL_APIS")))
      as Hfree.
    induction Hfree as [|part parts Hpart _ IH]; cbn [List.filter List.map]; [constructor|].
    destruct (Py.truthy (Py.strip part)) eqn:Ht; [|exact IH].
    cbn [List.map]. constructor; [|exact IH].
    split; [exact Ht|]. split; [apply strip_stripped | apply strip_free, Hpart].
  - intros ->. reflexivity.
  - intros names Hnames ->. unfold default. cbn [from_option id].
    destruct names as [|name rest]; [reflexivity|].
    rewrite split_join.
    + apply api_names_kept, Hnames.
    + discriminate.
    + eapply Forall_impl; [exact Hnames|]. intros n (_ & _ & Hfree). exact Hfree.
Qed.

Lemma env_experimental_apis_names_witness :
  _env_experimental_apis
    (<["ATLASSIAN_GQL_EXPERIMENTAL_APIS" := "jiraProjects,opsgenieTeams"]> ∅)
  = ["jiraProjects"; "opsgenieTeams"].
Proof.
  apply (env_experimental_apis_names
           (<["ATLASSIAN_GQL_EXPERIMENTAL_APIS" := "jiraProjects,opsgenieTeams"]> ∅)).
  - repeat constructor; cbv; intuition discriminate.
  - reflexivity.
Defined.

(** ** The site behind a GraphQL endpoint *)

Lemma rev_append (s1 s2 : string) :
  String.rev (s1 +:+ s2) = String.rev s2 +:+ String.rev s1.
Proof.
  apply chars_inj. rewrite rev_chars, !append_chars, !rev_chars. apply rev_app_distr.
Qed.

Lemma rev_rev (s : string) : String.rev (String.rev s) = s.
Proof. apply chars_inj. rewrite !rev_chars. apply rev_involutive. Qed.

Lemma endswith_append (s suffix : string) : Str.endswith (s +:+ suffix) suffix = true.
Proof. unfold Str.endswith. rewrite rev_append. apply prefix_append. Qed.

Lemma endswith_split (s suffix : string) :
  Str.endswith s suffix = true -> exists before, s = before +:+ suffix.
Proof.
  unfold Str.endswith. intros H. apply prefix_split in H. destruct H as (rest & Hrev).
  exists (String.rev rest).
  rewrite <- (rev_rev s), Hrev, rev_append, rev_rev. reflexivity.
Qed.

Lemma length_append (s1 s2 : string) :
  String.length (s1 +:+ s2) = (String.length s1 + String.length s2)%nat.
Proof. induction s1 as [|a s1 IH]; simpl; [reflexivity | now rewrite IH]. Qed.

Lemma substring_append (s1 s2 : string) : substring 0 (String.length s1) (s1 +:+ s2) = s1.
Proof.
  induction s1 as [|a s1 IH]; simpl.
  - destruct s2; reflexivity.
  - now rewrite IH.
Qed.

Lemma drop_last_append (s suffix : string) :
  Str.drop_last (String.length suffix) (s +:+ suffix) = s.
Proof.
  unfold Str.drop_last. rewrite length_append.
  replace (String.length s + String.length suffix - String.length suffix)%nat
    with (String.length s) by lia.
  apply substring_append.
Qed.

Lemma prefix_cancel (s s1 s2 : string) :
  String.prefix (s +:+ s1) (s +:+ s2) = String.prefix s1 s2.
Proof.
  induction s as [|a s IH]; simpl; [reflexivity|].
  destruct (ascii_dec a a); [exact IH | contradiction].
Qed.

Lemma lstrip_slash_fix (s : string) : lstrip_slash (lstrip_slash s) = lstrip_slash s.
Proof.
  induction s as [|a s IH]; [reflexivity|]. simpl.
  destruct a as [[] [] [] [] [] [] [] []]; try reflexivity. exact IH.
Qed.

Lemma rstrip_slash_fix (s : string) : no_trailing_slash (rstrip_slash s).
Proof.
  unfold no_trailing_slash, rstrip_slash. rewrite rev_rev, lstrip_slash_fix. reflexivity.
Qed.

Lemma lstrip_slash_split (s : string) :
  exists slashes,
    s = slashes +:+ lstrip_slash s
    /\ Forall (fun c => c = "/"%char) (list_ascii_of_string slashes).
Proof.
  induction s as [|a s (slashes & Hs & Hall)].
  - exists "". split; [reflexivity | constructor].
  - destruct (Ascii.eqb a "/") eqn:Ha.
    + apply Ascii.eqb_eq in Ha. subst a. exists (String "/" slashes). split.
      * change (String "/" s = String "/" (slashes +:+ lstrip_slash s)).
        f_equal. exact Hs.
      * simpl. constructor; [reflexivity | exact Hall].
    + exists "". split; [|constructor].
      destruct a as [[] [] [] [] [] [] [] []]; try reflexivity. discriminate.
Qed.

Lemma rstrip_slash_split (s : string) :
  exists slashes,
    s = rstrip_slash s +:+ slashes
    /\ Forall (fun c => c = "/"%char) (list_ascii_of_string slashes).
Proof.
  destruct (lstrip_slash_split (String.rev s)) as (slashes & Hs & Hall).
  exists (String.rev slashes). split.
  - unfold rstrip_slash. rewrite <- rev_append, <- Hs. symmetry. apply rev_rev.
  - rewrite rev_chars. apply Forall_rev. exact Hall.
Qed.

(** A suffix that ends with a letter shields what is before it. *)
Lemma rstrip_slash_append (s suffix : string) :
  no_trailing_slash suffix -> Py.truthy suffix = true ->
  no_trailing_slash (s +:+ suffix).
Proof.
  unfold no_trailing_slash, rstrip_slash. intros Hsuffix Ht.
  rewrite rev_append.
  destruct (String.rev suffix) as [|a r] eqn:Hrev.
  { apply (f_equal String.rev) in Hrev. rewrite rev_rev in Hrev. subst suffix. discriminate. }
  assert (Ha : lstrip_slash (String a r) = String a r).
  { apply (f_equal String.rev) in Hsuffix. rewrite !rev_rev, Hrev in Hsuffix.
    exact Hsuffix. }
  assert (Hgo : lstrip_slash (String a r +:+ String.rev s) = String a r +:+ String.rev s).
  { simpl in *. destruct a as [[] [] [] [] [] [] [] []]; try reflexivity.
    exfalso. clear -Ha.
    (* a leading slash would have been removed *)
    assert (Hlen : forall x, (String.length (lstrip_slash x) <= String.length x)%nat).
    { induction x as [|b x IHx]; [simpl; lia|].
      simpl. destruct b as [[] [] [] [] [] [] [] []]; simpl; lia. }
    specialize (Hlen r). rewrite Ha in Hlen. simpl in Hlen. lia. }
  rewrite Hgo, <- Hrev, <- rev_append. apply rev_rev.
Qed.

Lemma for_suffixes_finds (site suffix : string) :
  endpoint_of site suffix ->
  JiraRestEnv.for_suffixes (site +:+ suffix) JiraRestEnv.suffixes = Some (rstrip_slash site).
Proof.
  unfold JiraRestEnv.suffixes.
  intros [-> | [-> | [-> Hnot]]]; cbn [JiraRestEnv.for_suffixes].
  - rewrite endswith_append, drop_last_append. reflexivity.
  - assert (Hfirst : Str.endswith (site +:+ "/gateway/api") "/gateway/api/graphql" = false).
    { unfold Str.endswith. rewrite rev_append. reflexivity. }
    rewrite Hfirst, endswith_append, drop_last_append. reflexivity.
  - assert (Hfirst : Str.endswith (site +:+ "/graphql") "/gateway/api/graphql" = false).
    { unfold Str.endswith in *. rewrite rev_append.
      replace (String.rev "/gateway/api/graphql")
        with (String.rev "/graphql" +:+ String.rev "/gateway/api") by reflexivity.
      rewrite prefix_cancel. exact Hnot. }
    assert (Hsecond : Str.endswith (site +:+ "/graphql") "/gateway/api" = false).
    { unfold Str.endswith. rewrite rev_append. reflexivity. }
    rewrite Hfirst, Hsecond, endswith_append, drop_last_append. reflexivity.
Qed.

Lemma for_suffixes_sound (candidate : string) (suffixes : list string) (site : string) :
  JiraRestEnv.for_suffixes candidate suffixes = Some site ->
  no_trailing_slash site
  /\ exists slashes suffix,
       In suffix suffixes
       /\ candidate = site +:+ slashes +:+ suffix
       /\ Forall (fun c => c = "/"%char) (list_ascii_of_string slashes).
Proof.
  induction suffixes as [|suffix rest IH]; cbn [JiraRestEnv.for_suffixes]; [discriminate|].
  destruct (Str.endswith candidate suffix) eqn:Hend.
  - intros [= <-]. split; [apply rstrip_slash_fix|].
    apply endswith_split in Hend. destruct Hend as (before & ->).
    rewrite drop_last_append.
    destruct (rstrip_slash_split before) as (slashes & Hb & Hall).
    exists slashes, suffix. split; [now left|]. split; [|exact Hall].
    rewrite Hb at 1. 
    apply chars_inj. rewrite !append_chars. now rewrite app_assoc.
  - intros H. destruct (IH H) as (Hsite & slashes & suf & Hin & Hc & Hall).
    split; [exact Hsite|]. exists slashes, suf. split; [now right | auto].
Qed.

(** X10.  A site that _derive_site_base_url_from_gql_base returns never
    ends with a slash, and the stripped input without its trailing slashes
    is that site, followed by zero or more slashes, followed by one of the
    suffixes /gateway/api/graphql, /gateway/api and /graphql. Conversely,
    for a site without trailing slash and a URL site + suffix without
    surrounding white space, the function returns the site when the suffix
    is /gateway/api/graphql or /gateway/api, and when it is /graphql
    provided the site itself does not end with /gateway/api. *)
Theorem site_base_url_derivation :
  (forall gql_base_url site,
      JiraRestEnv._derive_site_base_url_from_gql_base gql_base_url = Some site ->
      no_trailing_slash site
      /\ exists slashes suffix,
           In suffix JiraRestEnv.suffixes
           /\ rstrip_slash (Py.strip (Py.or_empty gql_base_url))
              = site +:+ slashes +:+ suffix
           /\ Forall (fun c => c = "/"%char) (list_ascii_of_string slashes))
  /\ (forall site suffix,
        endpoint_of site suffix ->
        no_trailing_slash site ->
        stripped (site +:+ suffix) ->
        JiraRestEnv._derive_site_base_url_from_gql_base (Some (site +:+ suffix)) = Some site).
Proof.
  split.
  - intros gql_base_url site. unfold JiraRestEnv._derive_site_base_url_from_gql_base.
    destruct (negb _); [discriminate|]. apply for_suffixes_sound.
  - intros site suffix Hend Hsite Hstripped.
    unfold JiraRestEnv._derive_site_base_url_from_gql_base.
    cbn [Py.or_empty]. rewrite Hstripped.
    assert (Hsuffix : no_trailing_slash suffix /\ Py.truthy suffix = true).
    { destruct Hend as [-> | [-> | [-> _]]]; split; reflexivity. }
    destruct Hsuffix as (Hsuffix & Ht).
    rewrite (rstrip_slash_append site suffix Hsuffix Ht).
    assert (Htruthy : Py.truthy (site +:+ suffix) = true).
    { destruct site; [exact Ht | reflexivity]. }
    rewrite Htruthy. cbn [negb].
    rewrite (for_suffixes_finds site suffix Hend). f_equal. exact Hsite.
Qed.

Lemma site_base_url_derivation_witness :
  JiraRestEnv._derive_site_base_url_from_gql_base
    (Some ("https://example.atlassian.net" +:+ "/gateway/api"))
  = Some "https://example.atlassian.net".
Proof.
  apply site_base_url_derivation.
  - right. left. reflexivity.
  - reflexivity.
  - reflexivity.
Defined.

(** ** The refreshing token provider *)

Lemma strip_twice (s : string) : Py.strip (Py.strip s) = Py.strip s.
Proof. apply strip_stripped. Qed.

Lemma blank_strip (s : string) : OAuth.blank s = false -> OAuth.blank (Py.strip s) = false.
Proof.
  unfold OAuth.blank. rewrite strip_twice. intros H.
  apply orb_false_iff in H. destruct H as (_ & H). now rewrite H.
Qed.

Lemma parsed_token_clean (payload : Json) (token : OAuth.OAuthToken) :
  OAuth._parse_oauth_token payload = inr token ->
  Py.truthy (OAuth.access_token token) = true
  /\ stripped (OAuth.access_token token)
  /\ Py.truthy (OAuth.token_type token) = true
  /\ stripped (OAuth.token_type token)
  /\ (forall r, OAuth.refresh_token token = Some r -> stripped r)
  /\ (forall s, OAuth.scope token = Some s -> stripped s).
Proof.
  unfold OAuth._parse_oauth_token. destruct payload as [| | | | |fields]; try discriminate.
  destruct (dict_get "access_token" fields) as [| | |access| |]; try discriminate.
  destruct (Py.truthy (Py.strip access)) eqn:Ha; cbn [negb]; [|discriminate].
  destruct (dict_get "token_type" fields) as [| | |type| |]; try discriminate.
  destruct (Py.truthy (Py.strip type)) eqn:Ht; cbn [negb]; [|discriminate].
  destruct (match dict_get "expires_in" fields with
            | JInt n => Some n | JBool b => Some (if b then 1 else 0) | _ => None end);
    [|discriminate].
  intros [= <-]. cbn.
  repeat split; auto using strip_stripped.
  - intros r. destruct (dict_get "refresh_token" fields); cbn; try discriminate.
    intros [= <-]. apply strip_stripped.
  - intros s. destruct (dict_get "scope" fields); cbn; try discriminate.
    intros [= <-]. apply strip_stripped.
Qed.

Lemma refresh_access_token_outcome client_id client_secret refresh_token token_url timeout w :
  OAuth.blank client_id = false -> OAuth.blank client_secret = false ->
  OAuth.blank refresh_token = false -> OAuth.blank token_url = false ->
  (match timeout with None => true | Some s => Qle_bool s 0 end) = false ->
  let payload := [("grant_type", "refresh_token"); ("client_id", Py.strip client_id);
                  ("client_secret", Py.strip client_secret);
                  ("refresh_token", Py.strip refresh_token)] in
  let w' := {| OAuth.clock := OAuth.clock w; OAuth.answers := OAuth.answers w;
               OAuth.posted := (Py.strip token_url, payload) :: OAuth.posted w |} in
  exists r,
    OAuth.refresh_access_token client_id client_secret refresh_token token_url timeout w
      = (r, w')
    /\ match r with
       | inl e => ~ argument_error e
       | inr token =>
         exists resp body,
           OAuth.answers w (length (OAuth.posted w)) = Responded resp
           /\ status_code resp = 200
           /\ json resp = Some body
           /\ OAuth._parse_oauth_token body = inr token
       end.
Proof.
  intros H1 H2 H3 H4 H5 payload w'. unfold OAuth.refresh_access_token.
  rewrite H1, H2, H3, H4, H5. unfold OAuth._post_json. fold payload. fold w'.
  destruct (OAuth.answers w (length (OAuth.posted w))) as [msg|resp] eqn:Hanswer.
  - eexists. split; [reflexivity | intros (m & _ & [=])].
  - destruct (status_code resp =? 200) eqn:Hstatus; cbn [negb].
    + destruct (json resp) as [body|] eqn:Hjson.
      * destruct (OAuth._parse_oauth_token body) as [e|token] eqn:Hparse.
        -- eexists. split; [reflexivity|].
           unfold OAuth._parse_oauth_token in Hparse.
           repeat match type of Hparse with
                  | match ?x with _ => _ end = _ => destruct x
                  | (if ?x then _ else _) = _ => destruct x
                  end; try discriminate; injection Hparse as <-; intros (m & _ & [=]).
        -- eexists. split; [reflexivity|]. exists resp, body.
           apply Z.eqb_eq in Hstatus. auto.
      * eexists. split; [reflexivity | intros (m & _ & [=])].
    + eexists. split; [reflexivity | intros (m & _ & [=])].
Qed.

Lemma get_access_token_cached self token w :
  fresh_at self token (OAuth.clock w) ->
  OAuthRefreshTokenAuth._get_access_token self w = (inr token, self, w).
Proof.
  intros (Htoken & Ht & expires_at & Hexp & Hlt).
  unfold OAuthRefreshTokenAuth._get_access_token. rewrite Htoken, Hexp, Ht.
  apply Qlt_bool_true in Hlt. rewrite Hlt. reflexivity.
Qed.

Lemma refresh_access_token_success client_id client_secret refresh_token token_url timeout
    w token w' :
  OAuth.refresh_access_token client_id client_secret refresh_token token_url timeout w
    = (inr token, w') ->
  exists resp body,
    OAuth.answers w (length (OAuth.posted w)) = Responded resp
    /\ status_code resp = 200
    /\ json resp = Some body
    /\ OAuth._parse_oauth_token body = inr token
    /\ w' = {| OAuth.clock := OAuth.clock w; OAuth.answers := OAuth.answers w;
               OAuth.posted :=
                 (Py.strip token_url,
                  [("grant_type", "refresh_token"); ("client_id", Py.strip client_id);
                   ("client_secret", Py.strip client_secret);
                   ("refresh_token", Py.strip refresh_token)]) :: OAuth.posted w |}.
Proof.
  unfold OAuth.refresh_access_token. intros Hrun.
  repeat match type of Hrun with
         | (if ?x then _ else _) = _ => destruct x; [discriminate|]
         end.
  unfold OAuth._post_json in Hrun.
  destruct (OAuth.answers w _) as [msg|resp] eqn:Hanswer; [discriminate|].
  destruct (status_code resp =? 200) eqn:Hstatus; cbn [negb] in Hrun; [|discriminate].
  destruct (json resp) as [body|] eqn:Hjson; [|discriminate].
  destruct (OAuth._parse_oauth_token body) as [e|tok] eqn:Hparse; [discriminate|].
  injection Hrun as <- <-. exists resp, body. apply Z.eqb_eq in Hstatus.
  repeat split; auto.
Qed.

(** X11.  When OAuthRefreshTokenAuth.apply succeeds it sets Authorization
    to 'Bearer <token>', and either the cached token was still fresh (now
    plus the refresh margin is before its expiry) and neither the object
    nor the endpoint changed, or exactly one request went to the token
    endpoint, carrying the stored refresh token, it was answered with
    status 200 and a well-formed token, and the object now caches that
    token with expiry now + max(0, expires_in) and stores the rotated
    refresh token if one came. In both cases a later apply, at any time at
    which that token is still fresh, sets the same header without
    contacting the endpoint and without changing the object. *)
Theorem refreshed_token_is_reused (self : OAuthRefreshTokenAuth.t)
    (headers : gmap string string) (w : OAuth.Endpoint)
    (headers' : gmap string string) (self' : OAuthRefreshTokenAuth.t) (w' : OAuth.Endpoint) :
  OAuthRefreshTokenAuth.apply self headers w = (inr headers', self', w') ->
  exists token,
    headers' = <["Authorization" := "Bearer " +:+ token]> headers
    /\ ((fresh_at self token (OAuth.clock w) /\ self' = self /\ w' = w)
        \/ (exists resp body answer,
              OAuth.answers w (length (OAuth.posted w)) = Responded resp
              /\ status_code resp = 200
              /\ json resp = Some body
              /\ OAuth._parse_oauth_token body = inr answer
              /\ token = OAuth.access_token answer
              /\ refreshed self (OAuth.clock w) answer self'
              /\ asked_once self w w'))
    /\ forall headers2 w2,
         fresh_at self' token (OAuth.clock w2) ->
         OAuthRefreshTokenAuth.apply self' headers2 w2
         = (inr (<["Authorization" := "Bearer " +:+ token]> headers2), self', w2).
Proof.
  intros Happly. unfold OAuthRefreshTokenAuth.apply in Happly.
  destruct (OAuthRefreshTokenAuth._get_access_token self w) as [[[e|token] self1] w1] eqn:Hget;
    [discriminate|].
  injection Happly as <- <- <-. exists token.
  split; [reflexivity|]. split.
  - unfold OAuthRefreshTokenAuth._get_access_token in Hget.
    destruct (OAuthRefreshTokenAuth._access_token self) as [token0|] eqn:Ha;
      [destruct (OAuthRefreshTokenAuth._expires_at self) as [expires_at|] eqn:He;
       [destruct (Py.truthy token0 && _) eqn:Hfresh|]|].
    + injection Hget as <- <- <-. left. apply andb_true_iff in Hfresh.
      destruct Hfresh as (Ht & Hlt). apply Qlt_bool_true in Hlt.
      split; [|auto]. split; [exact Ha|]. split; [exact Ht|]. exists expires_at. auto.
    + destruct (OAuth.refresh_access_token _ _ _ _ _ w) as [[e|tok] w2] eqn:Hrefresh;
        [discriminate|].
      injection Hget as <- <- <-. right.
      apply refresh_access_token_success in Hrefresh.
      destruct Hrefresh as (resp & body & Hanswer & Hstatus & Hjson & Hparse & ->).
      exists resp, body, tok. repeat split; auto; cbn.
      * f_equal. f_equal. f_equal. destruct (OAuth.expires_in tok <? 0) eqn:Hneg.
        -- apply Z.ltb_lt in Hneg. lia.
        -- apply Z.ltb_ge in Hneg. lia.
      * destruct (parsed_token_clean _ _ Hparse) as (_ & _ & _ & _ & Hr & _).
        destruct (OAuth.refresh_token tok) as [rotated|]; cbn; [|reflexivity].
        destruct (Py.truthy rotated); [apply (Hr rotated eq_refl) | reflexivity].
    + destruct (OAuth.refresh_access_token _ _ _ _ _ w) as [[e|tok] w2] eqn:Hrefresh;
        [discriminate|].
      injection Hget as <- <- <-. right.
      apply refresh_access_token_success in Hrefresh.
      destruct Hrefresh as (resp & body & Hanswer & Hstatus & Hjson & Hparse & ->).
      exists resp, body, tok. repeat split; auto; cbn.
      * f_equal. f_equal. f_equal. destruct (OAuth.expires_in tok <? 0) eqn:Hneg.
        -- apply Z.ltb_lt in Hneg. lia.
        -- apply Z.ltb_ge in Hneg. lia.
      * destruct (parsed_token_clean _ _ Hparse) as (_ & _ & _ & _ & Hr & _).
        destruct (OAuth.refresh_token tok) as [rotated|]; cbn; [|reflexivity].
        destruct (Py.truthy rotated); [apply (Hr rotated eq_refl) | reflexivity].
    + destruct (OAuth.refresh_access_token _ _ _ _ _ w) as [[e|tok] w2] eqn:Hrefresh;
        [discriminate|].
      injection Hget as <- <- <-. right.
      apply refresh_access_token_success in Hrefresh.
      destruct Hrefresh as (resp & body & Hanswer & Hstatus & Hjson & Hparse & ->).
      exists resp, body, tok. repeat split; auto; cbn.
      * f_equal. f_equal. f_equal. destruct (OAuth.expires_in tok <? 0) eqn:Hneg.
        -- apply Z.ltb_lt in Hneg. lia.
        -- apply Z.ltb_ge in Hneg. lia.
      * destruct (parsed_token_clean _ _ Hparse) as (_ & _ & _ & _ & Hr & _).
        destruct (OAuth.refresh_token tok) as [rotated|]; cbn; [|reflexivity].
        destruct (Py.truthy rotated); [apply (Hr rotated eq_refl) | reflexivity].
  - intros headers2 w2 Hfresh. unfold OAuthRefreshTokenAuth.apply.
    rewrite (get_access_token_cached _ _ _ Hfresh). reflexivity.
Qed.

(** The unit test of the provider: the first use fetches [access-1], the second
    takes it from the object. *)
Lemma refreshed_token_is_reused_witness :
  OAuthRefreshTokenAuth.apply test_provider ∅ token_endpoint
  = (inr (<["Authorization" := "Bearer access-1"]> ∅), provider_after, endpoint_after)
  /\ OAuthRefreshTokenAuth.apply provider_after ∅ endpoint_after
     = (inr (<["Authorization" := "Bearer access-1"]> ∅), provider_after, endpoint_after).
Proof.
  assert (Hfirst : OAuthRefreshTokenAuth.apply test_provider ∅ token_endpoint
                   = (inr (<["Authorization" := "Bearer access-1"]> ∅),
                      provider_after, endpoint_after)) by reflexivity.
  split; [exact Hfirst|].
  destruct (refreshed_token_is_reused test_provider ∅ token_endpoint _ _ _ Hfirst)
    as (token & Hheaders & _ & Hreuse).
  assert (Htoken : token = "access-1").
  { apply (f_equal (fun m => m !! "Authorization")) in Hheaders.
    rewrite !lookup_insert_eq in Hheaders. injection Hheaders as Hheaders.
    symmetry. exact Hheaders. }
  subst token. apply Hreuse.
  split; [reflexivity|]. split; [reflexivity|].
  eexists. split; [reflexivity|]. reflexivity.
Defined.

(** X12.  A constructed OAuthRefreshTokenAuth has a non-blank client id,
    client secret, refresh token and token URL, a timeout that passed the
    constructor's check (it is set and not <= 0), a refresh margin that is
    not negative and no cached token. Every apply, whether it succeeds or
    fails, keeps these settings valid, also when it stores a rotated
    refresh token; so an apply never fails with one of the argument checks
    of refresh_access_token ('client_id is required', 'client_secret is
    required', 'refresh_token is required', 'token_url is required',
    'timeout_seconds must be > 0'), and an apply that fails leaves the
    stored refresh token and the stored expiry as they were. *)
Theorem refresh_provider_invariant :
  (forall client_id client_secret refresh_token token_url timeout margin self,
      OAuthRefreshTokenAuth.init client_id client_secret refresh_token token_url timeout margin
        = inr self ->
      well_formed self
      /\ 0 <= OAuthRefreshTokenAuth._refresh_margin self
      /\ OAuthRefreshTokenAuth._access_token self = None)
  /\ (forall self headers w r self' w',
        well_formed self ->
        OAuthRefreshTokenAuth.apply self headers w = (r, self', w') ->
        well_formed self'
        /\ forall e, r = inl e ->
             ~ argument_error e
             /\ OAuthRefreshTokenAuth._refresh_token self'
                = OAuthRefreshTokenAuth._refresh_token self
             /\ OAuthRefreshTokenAuth._expires_at self'
                = OAuthRefreshTokenAuth._expires_at self).
Proof.
  split.
  - intros client_id client_secret refresh_token token_url timeout margin self.
    unfold OAuthRefreshTokenAuth.init.
    destruct (OAuth.blank client_id) eqn:H1; [discriminate|].
    destruct (OAuth.blank client_secret) eqn:H2; [discriminate|].
    destruct (OAuth.blank refresh_token) eqn:H3; [discriminate|].
    destruct (OAuth.blank token_url) eqn:H4; [discriminate|].
    destruct (match timeout with None => true | Some s => Qle_bool s 0 end) eqn:H5;
      [discriminate|].
    destruct (margin <? 0) eqn:H6; [discriminate|].
    intros [= <-]. apply Z.ltb_ge in H6.
    repeat split; cbn; auto using blank_strip.
  - intros self headers w r self' w' (H1 & H2 & H3 & H4 & H5).
    unfold OAuthRefreshTokenAuth.apply, OAuthRefreshTokenAuth._get_access_token.
    destruct (match OAuthRefreshTokenAuth._access_token self,
                    OAuthRefreshTokenAuth._expires_at self with
              | Some token0, Some expires_at =>
                if Py.truthy token0
                   && Qlt_bool (OAuth.clock w
                                + inject_Z (OAuthRefreshTokenAuth._refresh_margin self))
                        expires_at
                then Some token0 else None
              | _, _ => None
              end) as [cached|].
    + intros [= <- <- <-]. split; [repeat split; assumption | discriminate].
    + destruct (refresh_access_token_outcome _ _ _ _ _ w H1 H2 H3 H4 H5) as (res & -> & Hres).
      destruct res as [e|token].
      * intros [= <- <- <-]. split; [repeat split; assumption|].
        intros e' [= <-]. split; [exact Hres | split; reflexivity].
      * intros [= <- <- <-]. split; [|discriminate].
        destruct Hres as (resp & body & _ & _ & _ & Hparse).
        destruct (parsed_token_clean _ _ Hparse) as (_ & _ & _ & _ & Hr & _).
        repeat split;
          cbn [OAuthRefreshTokenAuth._client_id OAuthRefreshTokenAuth._client_secret
               OAuthRefreshTokenAuth._token_url OAuthRefreshTokenAuth._timeout_seconds
               OAuthRefreshTokenAuth._refresh_token];
          try assumption.
        destruct (OAuth.refresh_token token) as [rotated|] eqn:Hrot;
          cbn [Py.truthy_opt Py.or_empty]; [|assumption].
        destruct (Py.truthy rotated) eqn:Ht; [|assumption].
        pose proof (Hr rotated eq_refl) as Hs. unfold stripped in Hs.
        unfold OAuth.blank. rewrite !Hs, Ht. reflexivity.
Qed.

(** The provider of the unit test: as constructed, after its first use, and
    after a token endpoint refused it. *)
Lemma refresh_provider_invariant_witness :
  OAuthRefreshTokenAuth.init " client-id " "client-secret" "refresh-token"
    "https://example.com/oauth/token" (Some 30%Q) 60 = inr test_provider
  /\ well_formed test_provider
  /\ well_formed provider_after
  /\ OAuthRefreshTokenAuth.apply test_provider ∅ refusing_endpoint
     = (inl (Library (TransportError 401 "unauthorized")), test_provider, refused_endpoint)
  /\ ~ argument_error (Library (TransportError 401 "unauthorized")).
Proof.
  split; [reflexivity|].
  assert (Hwf : well_formed test_provider).
  { apply (proj1 refresh_provider_invariant " client-id " "client-secret" "refresh-token"
             "https://example.com/oauth/token" (Some 30%Q) 60 test_provider).
    reflexivity. }
  split; [exact Hwf|]. split.
  - apply (proj2 refresh_provider_invariant test_provider ∅ token_endpoint
             (inr (<["Authorization" := "Bearer access-1"]> ∅)) provider_after
             endpoint_after Hwf).
    reflexivity.
  - assert (Hrun : OAuthRefreshTokenAuth.apply test_provider ∅ refusing_endpoint
                   = (inl (Library (TransportError 401 "unauthorized")), test_provider,
                      refused_endpoint)) by reflexivity.
    split; [exact Hrun|].
    apply (proj2 (proj2 refresh_provider_invariant test_provider ∅ refusing_endpoint _ _ _
                    Hwf Hrun) _ eq_refl).
Defined.

(** ** The REST mappers *)

Lemma and_then_inr {A B} (r : Error + A) (k : A -> Error + B) (b : B) :
  and_then r k = inr b -> exists a, r = inr a /\ k a = inr b.
Proof. destruct r as [e|a]; cbn; [discriminate | eauto]. Qed.

Lemma and_then_inl {A B} (r : Error + A) (k : A -> Error + B) (e : Error) :
  and_then r k = inl e -> r = inl e \/ exists a, r = inr a /\ k a = inl e.
Proof. destruct r as [e'|a]; cbn; [intros [= ->]; now left | eauto]. Qed.

Lemma strip_clean (s : string) : Py.truthy (Py.strip s) = true -> clean (Py.strip s).
Proof. intros H. split; [exact H | apply strip_stripped]. Qed.

Lemma require_non_empty_inr value path s :
  RestMappers._require_non_empty value path = inr s ->
  clean s /\ exists raw, value = Some raw /\ s = Py.strip raw.
Proof.
  unfold RestMappers._require_non_empty. destruct value as [raw|]; [|discriminate].
  destruct (Py.truthy (Py.strip raw)) eqn:Ht; cbn [negb]; [|discriminate].
  intros [= <-]. split; [apply strip_clean, Ht | eauto].
Qed.

Lemma require_non_empty_inl value path e :
  RestMappers._require_non_empty value path = inl e ->
  e = ValueError (path +:+ " is required").
Proof.
  unfold RestMappers._require_non_empty. destruct value as [raw|]; [|congruence].
  destruct (negb _); congruence.
Qed.

Lemma stripped_or_none_clean value : clean_opt (RestMappers.stripped_or_none value).
Proof.
  unfold RestMappers.stripped_or_none. destruct value as [s|]; [|exact I].
  destruct (Py.truthy (Py.strip s)) eqn:Ht; [apply strip_clean, Ht | exact I].
Qed.

Lemma map_user_inr user path out :
  RestMappers._map_user user path = inr out ->
  clean_user out /\ (out = None <-> user = None).
Proof.
  unfold RestMappers._map_user. destruct user as [u|].
  - intros H. apply and_then_inr in H. destruct H as (account & Ha & H).
    apply and_then_inr in H. destruct H as (display & Hd & H). injection H as <-.
    apply require_non_empty_inr in Ha, Hd. split.
    + cbn. split; [apply Ha|]. split; [apply Hd|]. apply stripped_or_none_clean.
    + split; discriminate.
  - intros [= <-]. split; [exact I | tauto].
Qed.

Lemma map_user_inl user path e :
  RestMappers._map_user user path = inl e -> is_value_error e.
Proof.
  unfold RestMappers._map_user. destruct user as [u|]; [|discriminate].
  intros H. apply and_then_inl in H.
  destruct H as [H | (account & _ & H)]; [apply require_non_empty_inl in H; now subst|].
  apply and_then_inl in H.
  destruct H as [H | (display & _ & H)]; [apply require_non_empty_inl in H; now subst|].
  discriminate.
Qed.

(** X13.  A worklog that map_worklog returns carries the stripped issue
    key; its issue key, worklog id and started, created and updated stamps
    are non-empty and stripped; its time spent is that of the input and is
    not negative; and it has an author exactly when the input has one,
    with non-empty stripped account id and display name. Every failure of
    map_worklog is a ValueError. *)
Theorem mapped_worklog_is_clean (issue_key : string) (worklog : Worklog.t) :
  (forall out,
      RestMappers.map_worklog issue_key worklog = inr out ->
      JiraWorklog.issue_key out = Py.strip issue_key
      /\ clean (JiraWorklog.issue_key out)
      /\ clean (JiraWorklog.worklog_id out)
      /\ clean (JiraWorklog.started_at out)
      /\ clean (JiraWorklog.created_at out)
      /\ clean (JiraWorklog.updated_at out)
      /\ Worklog.time_spent_seconds worklog = Some (JiraWorklog.time_spent_seconds out)
      /\ 0 <= JiraWorklog.time_spent_seconds out
      /\ clean_user (JiraWorklog.author out)
      /\ (JiraWorklog.author out = None <-> Worklog.author worklog = None))
  /\ (forall e, RestMappers.map_worklog issue_key worklog = inl e -> is_value_error e).
Proof.
  unfold RestMappers.map_worklog. split.
  - intros out H.
    destruct (Py.truthy (Py.strip issue_key)) eqn:Hkey; cbn [negb] in H; [|discriminate].
    apply and_then_inr in H. destruct H as (wid & Hid & H).
    apply and_then_inr in H. destruct H as (started & Hstarted & H).
    apply and_then_inr in H. destruct H as (created & Hcreated & H).
    apply and_then_inr in H. destruct H as (updated & Hupdated & H).
    destruct (Worklog.time_spent_seconds worklog) as [tss|]; [|discriminate].
    destruct (tss <? 0) eqn:Htss; [discriminate|].
    apply and_then_inr in H. destruct H as (author & Hauthor & H). injection H as <-.
    apply require_non_empty_inr in Hid, Hstarted, Hcreated, Hupdated.
    apply map_user_inr in Hauthor. apply Z.ltb_ge in Htss.
    destruct Hid as (Hid & _), Hstarted as (Hstarted & _), Hcreated as (Hcreated & _),
      Hupdated as (Hupdated & _), Hauthor as (Hauthor & Hnone).
    cbn. split; [reflexivity|]. split; [apply strip_clean, Hkey|].
    repeat (split; [assumption|]). split; [reflexivity|].
    split; [exact Htss|]. split; assumption.
  - intros e H.
    destruct (negb _); [injection H as <-; exact I|].
    repeat (apply and_then_inl in H;
            destruct H as [H | (? & _ & H)];
            [apply require_non_empty_inl in H; now subst|]).
    destruct (Worklog.time_spent_seconds worklog) as [tss|]; [|injection H as <-; exact I].
    destruct (tss <? 0); [injection H as <-; exact I|].
    apply and_then_inl in H. destruct H as [H | (? & _ & H)]; [|discriminate].
    eapply map_user_inl, H.
Qed.

(** The first worklog of the unit test. *)
Lemma mapped_worklog_is_clean_witness :
  exists out,
    RestMappers.map_worklog " A-1 " worklog_200 = inr out
    /\ JiraWorklog.issue_key out = "A-1"
    /\ JiraWorklog.worklog_id out = "200"
    /\ clean_user (JiraWorklog.author out).
Proof.
  eexists. split; [vm_compute; reflexivity|].
  split; [reflexivity|]. split; [reflexivity|].
  apply (mapped_worklog_is_clean " A-1 " worklog_200). vm_compute. reflexivity.
Defined.

Lemma map_item_inr item path out :
  RestMappers._map_item item path = inr out -> item_of item out.
Proof.
  unfold RestMappers._map_item. intros H.
  apply and_then_inr in H. destruct H as (field & Hfield & H). injection H as <-.
  apply require_non_empty_inr in Hfield. destruct Hfield as (Hclean & raw & Hraw & ->).
  split; [exact Hclean|]. cbn. rewrite Hraw. repeat split; reflexivity.
Qed.

Lemma map_item_names item path :
  names_field item -> exists out, RestMappers._map_item item path = inr out.
Proof.
  intros (raw & Hraw & Ht). unfold RestMappers._map_item, RestMappers._require_non_empty.
  rewrite Hraw, Ht. cbn. eauto.
Qed.

Lemma map_item_nameless item path :
  ~ names_field item ->
  RestMappers._map_item item path = inl (ValueError ((path +:+ ".field") +:+ " is required")).
Proof.
  intros Hno. unfold RestMappers._map_item, RestMappers._require_non_empty.
  destruct (ChangeDetails.field item) as [raw|] eqn:Hraw; [|reflexivity].
  destruct (Py.truthy (Py.strip raw)) eqn:Ht; [|reflexivity].
  exfalso. apply Hno. exists raw. auto.
Qed.

Lemma map_items_inr items :
  forall idx out, RestMappers.map_items idx items = inr out -> Forall2 item_of items out.
Proof.
  induction items as [|item rest IH]; intros idx out H; cbn [RestMappers.map_items] in H.
  - injection H as <-. constructor.
  - apply and_then_inr in H. destruct H as (mapped & Hmapped & H).
    apply and_then_inr in H. destruct H as (others & Hothers & H). injection H as <-.
    constructor; [eapply map_item_inr, Hmapped | eapply IH, Hothers].
Qed.

Lemma map_items_first_nameless before item after :
  Forall names_field before -> ~ names_field item ->
  forall idx,
    RestMappers.map_items idx (before ++ item :: after)
    = inl (ValueError ((Str.indexed "changelog.items" (idx + length before) +:+ ".field")
                       +:+ " is required")).
Proof.
  intros Hbefore Hitem. induction Hbefore as [|b before Hb _ IH]; intros idx;
    cbn [app RestMappers.map_items length].
  - rewrite Nat.add_0_r, (map_item_nameless _ _ Hitem). reflexivity.
  - destruct (map_item_names b (Str.indexed "changelog.items" idx) Hb) as (out & ->).
    cbn [and_then]. rewrite IH. cbn [and_then].
    replace (S idx + length before)%nat with (idx + S (length before))%nat by lia.
    reflexivity.
Qed.

(** X14.  An event that map_changelog_event returns carries the stripped
    issue key, a non-empty stripped id and creation stamp, and a non-empty
    list of items that correspond one to one, in order, to the changes of
    the input: the field name stripped and non-empty, the from/to values
    and strings stripped, or None when blank or absent. When issue key, id
    and created are valid and the first change without a non-blank field
    name is at index i, it raises ValueError('changelog.items[i].field is
    required'). *)
Theorem mapped_changelog_event (issue_key : string) (changelog : Changelog.t) :
  (forall event,
      RestMappers.map_changelog_event issue_key changelog = inr event ->
      JiraChangelogEvent.issue_key event = Py.strip issue_key
      /\ clean (JiraChangelogEvent.issue_key event)
      /\ clean (JiraChangelogEvent.event_id event)
      /\ clean (JiraChangelogEvent.created_at event)
      /\ JiraChangelogEvent.items event <> []
      /\ Forall2 item_of (Changelog.items changelog) (JiraChangelogEvent.items event)
      /\ clean_user (JiraChangelogEvent.author event))
  /\ (forall before item after id created,
        Py.truthy (Py.strip issue_key) = true ->
        RestMappers._require_non_empty (Changelog.id changelog) "changelog.id" = inr id ->
        RestMappers._require_non_empty (Changelog.created changelog) "changelog.created"
          = inr created ->
        Changelog.items changelog = (before ++ item :: after)%list ->
        Forall names_field before ->
        ~ names_field item ->
        RestMappers.map_changelog_event issue_key changelog
        = inl (ValueError ((Str.indexed "changelog.items" (length before) +:+ ".field")
                           +:+ " is required"))).
Proof.
  unfold RestMappers.map_changelog_event. split.
  - intros event H.
    destruct (Py.truthy (Py.strip issue_key)) eqn:Hkey; cbn [negb] in H; [|discriminate].
    apply and_then_inr in H. destruct H as (id & Hid & H).
    apply and_then_inr in H. destruct H as (created & Hcreated & H).
    apply and_then_inr in H. destruct H as (items & Hitems & H).
    destruct items as [|first others]; [discriminate|].
    apply and_then_inr in H. destruct H as (author & Hauthor & H). injection H as <-.
    apply require_non_empty_inr in Hid, Hcreated. apply map_user_inr in Hauthor.
    apply map_items_inr in Hitems. cbn.
    split; [reflexivity|]. split; [apply strip_clean, Hkey|].
    split; [apply Hid|]. split; [apply Hcreated|]. split; [discriminate|].
    split; [exact Hitems | apply Hauthor].
  - intros before item after id created Hkey Hid Hcreated Hitems Hbefore Hitem.
    rewrite Hkey, Hid, Hcreated, Hitems. cbn [negb and_then].
    rewrite (map_items_first_nameless before item after Hbefore Hitem 0). reflexivity.
Qed.

(** A change of status whose new string is blank. *)
Lemma mapped_changelog_event_witness :
  exists event,
    RestMappers.map_changelog_event "A-1" status_change = inr event
    /\ JiraChangelogEvent.event_id event = "100"
    /\ Forall2 item_of (Changelog.items status_change) (JiraChangelogEvent.items event).
Proof.
  eexists. split; [vm_compute; reflexivity|].
  split; [reflexivity|].
  apply (mapped_changelog_event "A-1" status_change). vm_compute. reflexivity.
Defined.

(** ** The issue mapper *)

Lemma issue_expect_str_inr obj path s :
  IssuesMapper._expect_str obj path = inr s ->
  clean s /\ exists raw, obj = JStr raw /\ s = Py.strip raw.
Proof.
  unfold IssuesMapper._expect_str. destruct obj as [| | |raw| |]; try discriminate.
  destruct (Py.truthy (Py.strip raw)) eqn:Ht; cbn [negb]; [|discriminate].
  intros [= <-]. split; [apply strip_clean, Ht | eauto].
Qed.

Lemma issue_expect_str_inl obj path e :
  IssuesMapper._expect_str obj path = inl e -> is_value_error e.
Proof.
  unfold IssuesMapper._expect_str.
  destruct obj; try (intros [= <-]; exact I).
  destruct (negb _); [intros [= <-]; exact I | discriminate].
Qed.

Lemma issue_expect_dict_inl obj path e :
  IssuesMapper._expect_dict obj path = inl e -> is_value_error e.
Proof. destruct obj; cbn; intros H; try discriminate; injection H as <-; exact I. Qed.

Lemma issue_expect_list_inl obj path e :
  IssuesMapper._expect_list obj path = inl e -> is_value_error e.
Proof. destruct obj; cbn; intros H; try discriminate; injection H as <-; exact I. Qed.

Lemma maybe_user_inr obj path out :
  IssuesMapper._maybe_user obj path = inr out ->
  clean_user out /\ (out = None <-> obj = JNull).
Proof.
  unfold IssuesMapper._maybe_user.
  destruct obj as [| | | | |fields]; try discriminate.
  - intros [= <-]. split; [exact I | tauto].
  - cbn [IssuesMapper._expect_dict and_then]. intros H.
    apply and_then_inr in H. destruct H as (email & Hemail & H).
    apply and_then_inr in H. destruct H as (account & Haccount & H).
    apply and_then_inr in H. destruct H as (display & Hdisplay & H). injection H as <-.
    apply issue_expect_str_inr in Haccount, Hdisplay. split; [|split; discriminate].
    cbn. split; [apply Haccount|]. split; [apply Hdisplay|].
    destruct (dict_get "emailAddress" fields) as [| | |e| |]; try discriminate.
    + injection Hemail as <-. exact I.
    + injection Hemail as <-.
      destruct (Py.truthy (Py.strip e)) eqn:Ht; [apply strip_clean, Ht | exact I].
Qed.

Lemma maybe_user_inl obj path e :
  IssuesMapper._maybe_user obj path = inl e -> is_value_error e.
Proof.
  unfold IssuesMapper._maybe_user.
  destruct obj as [| | | | |fields];
    try (cbn; intros H; try discriminate; injection H as <-; exact I).
  cbn [IssuesMapper._expect_dict and_then]. intros H.
  apply and_then_inl in H. destruct H as [H | (email & _ & H)].
  { destruct (dict_get "emailAddress" fields); try discriminate; injection H as <-; exact I. }
  apply and_then_inl in H. destruct H as [H | (account & _ & H)];
    [eapply issue_expect_str_inl, H|].
  apply and_then_inl in H. destruct H as [H | (display & _ & H)];
    [eapply issue_expect_str_inl, H | discriminate].
Qed.

Lemma for_labels_inr items :
  forall idx out,
    IssuesMapper.for_labels idx items = inr out ->
    Forall2 (fun item label => clean label /\ exists raw, item = JStr raw /\ label = Py.strip raw)
      items out.
Proof.
  induction items as [|item rest IH]; intros idx out H; cbn [IssuesMapper.for_labels] in H.
  - injection H as <-. constructor.
  - apply and_then_inr in H. destruct H as (label & Hlabel & H).
    apply and_then_inr in H. destruct H as (others & Hothers & H). injection H as <-.
    constructor; [eapply issue_expect_str_inr, Hlabel | eapply IH, Hothers].
Qed.

Lemma for_labels_inl items :
  forall idx e, IssuesMapper.for_labels idx items = inl e -> is_value_error e.
Proof.
  induction items as [|item rest IH]; intros idx e H; cbn [IssuesMapper.for_labels] in H;
    [discriminate|].
  apply and_then_inl in H. destruct H as [H | (label & _ & H)];
    [eapply issue_expect_str_inl, H|].
  apply and_then_inl in H. destruct H as [H | (others & _ & H)];
    [eapply IH, H | discriminate].
Qed.

Lemma for_components_inr items :
  forall idx out,
    IssuesMapper.for_components idx items = inr out ->
    Forall2 (fun item name =>
               clean name
               /\ exists fields raw,
                    item = JDict fields /\ dict_get "name" fields = JStr raw
                    /\ name = Py.strip raw)
      items out.
Proof.
  induction items as [|item rest IH]; intros idx out H; cbn [IssuesMapper.for_components] in H.
  - injection H as <-. constructor.
  - apply and_then_inr in H. destruct H as (fields & Hfields & H).
    apply and_then_inr in H. destruct H as (name & Hname & H).
    apply and_then_inr in H. destruct H as (others & Hothers & H). injection H as <-.
    constructor; [|eapply IH, Hothers].
    apply issue_expect_str_inr in Hname. destruct Hname as (Hclean & raw & Hraw & ->).
    split; [exact Hclean|]. exists fields, raw.
    destruct item; try discriminate. injection Hfields as ->. auto.
Qed.

Lemma for_components_inl items :
  forall idx e, IssuesMapper.for_components idx items = inl e -> is_value_error e.
Proof.
  induction items as [|item rest IH]; intros idx e H; cbn [IssuesMapper.for_components] in H;
    [discriminate|].
  apply and_then_inl in H. destruct H as [H | (fields & _ & H)];
    [eapply issue_expect_dict_inl, H|].
  apply and_then_inl in H. destruct H as [H | (name & _ & H)];
    [eapply issue_expect_str_inl, H|].
  apply and_then_inl in H. destruct H as [H | (others & _ & H)];
    [eapply IH, H | discriminate].
Qed.

(** X15.  An issue that map_issue returns carries the stripped cloud id;
    its cloud id, key, project key, issue type, status and created and
    updated stamps are non-empty and stripped; resolved_at is None or such
    a string; its labels and component names correspond one to one, in
    order, to the entries of the fields 'labels' and 'components', each
    stripped; assignee and reporter, when present, have non-empty stripped
    account id and display name; story_points is None and sprint_ids is
    empty. Every failure of map_issue is a ValueError. *)
Theorem mapped_issue_is_clean (cloud_id : string) (issue : IssueBean.t) :
  (forall out,
      IssuesMapper.map_issue cloud_id issue = inr out ->
      JiraIssue.cloud_id out = Py.strip cloud_id
      /\ Forall clean
           [JiraIssue.cloud_id out; JiraIssue.key out; JiraIssue.project_key out;
            JiraIssue.issue_type out; JiraIssue.status out; JiraIssue.created_at out;
            JiraIssue.updated_at out]
      /\ clean_opt (JiraIssue.resolved_at out)
      /\ Forall2 (fun item label =>
                    clean label /\ exists raw, item = JStr raw /\ label = Py.strip raw)
           (listed (IssueBean.fields issue) "labels") (JiraIssue.labels out)
      /\ Forall2 (fun item name =>
                    clean name
                    /\ exists fields raw,
                         item = JDict fields /\ dict_get "name" fields = JStr raw
                         /\ name = Py.strip raw)
           (listed (IssueBean.fields issue) "components") (JiraIssue.components out)
      /\ clean_user (JiraIssue.assignee out)
      /\ clean_user (JiraIssue.reporter out)
      /\ JiraIssue.story_points out = None
      /\ JiraIssue.sprint_ids out = [])
  /\ (forall e, IssuesMapper.map_issue cloud_id issue = inl e -> is_value_error e).
Proof.
  unfold IssuesMapper.map_issue. split.
  - intros out H.
    destruct (Py.truthy (Py.strip cloud_id)) eqn:Hcloud; cbn [negb] in H; [|discriminate].
    apply and_then_inr in H. destruct H as (key & Hkey & H).
    apply and_then_inr in H. destruct H as (project & _ & H).
    apply and_then_inr in H. destruct H as (project_key & Hproject_key & H).
    apply and_then_inr in H. destruct H as (issuetype & _ & H).
    apply and_then_inr in H. destruct H as (issue_type & Hissue_type & H).
    apply and_then_inr in H. destruct H as (status_obj & _ & H).
    apply and_then_inr in H. destruct H as (status & Hstatus & H).
    apply and_then_inr in H. destruct H as (created & Hcreated & H).
    apply and_then_inr in H. destruct H as (updated & Hupdated & H).
    apply and_then_inr in H. destruct H as (resolved & Hresolved & H).
    apply and_then_inr in H. destruct H as (labels & Hlabels & H).
    apply and_then_inr in H. destruct H as (components & Hcomponents & H).
    apply and_then_inr in H. destruct H as (assignee & Hassignee & H).
    apply and_then_inr in H. destruct H as (reporter & Hreporter & H).
    injection H as <-. cbn.
    assert (Hk : clean key).
    { destruct (IssueBean.key issue); apply issue_expect_str_inr in Hkey; apply Hkey. }
    apply issue_expect_str_inr in Hproject_key, Hissue_type, Hstatus, Hcreated, Hupdated.
    apply maybe_user_inr in Hassignee, Hreporter.
    split; [reflexivity|]. split.
    { repeat (constructor; [first [apply strip_clean, Hcloud | tauto]|]). constructor. }
    split.
    { destruct (dict_get "resolutiondate" (IssueBean.fields issue)) as [| | |r| |];
        try discriminate; injection Hresolved as <-; [exact I|].
      destruct (Py.truthy (Py.strip r)) eqn:Ht; [apply strip_clean, Ht | exact I]. }
    split.
    { unfold listed.
      destruct (dict_get "labels" (IssueBean.fields issue)) as [| | | |items|];
        try discriminate.
      - injection Hlabels as <-. constructor.
      - cbn in Hlabels. eapply for_labels_inr, Hlabels. }
    split.
    { unfold listed.
      destruct (dict_get "components" (IssueBean.fields issue)) as [| | | |items|];
        try discriminate.
      - injection Hcomponents as <-. constructor.
      - cbn in Hcomponents. eapply for_components_inr, Hcomponents. }
    split; [apply Hassignee|]. split; [apply Hreporter|]. split; reflexivity.
  - intros e H.
    destruct (negb _); [injection H as <-; exact I|].
    apply and_then_inl in H. destruct H as [H | (key & _ & H)].
    { destruct (IssueBean.key issue); eapply issue_expect_str_inl, H. }
    repeat (apply and_then_inl in H;
            destruct H as [H | (? & _ & H)];
            [first [eapply issue_expect_str_inl, H | eapply issue_expect_dict_inl, H]|]).
    apply and_then_inl in H. destruct H as [H | (resolved & _ & H)].
    { destruct (dict_get "resolutiondate" _); try discriminate; injection H as <-; exact I. }
    apply and_then_inl in H. destruct H as [H | (labels & _ & H)].
    { destruct (dict_get "labels" _) as [| | | |items|]; try discriminate;
        try (injection H as <-; exact I).
      cbn in H. eapply for_labels_inl, H. }
    apply and_then_inl in H. destruct H as [H | (components & _ & H)].
    { destruct (dict_get "components" _) as [| | | |items|]; try discriminate;
        try (injection H as <-; exact I).
      cbn in H. eapply for_components_inl, H. }
    apply and_then_inl in H. destruct H as [H | (assignee & _ & H)];
      [eapply maybe_user_inl, H|].
    apply and_then_inl in H. destruct H as [H | (reporter & _ & H)];
      [eapply maybe_user_inl, H | discriminate].
Qed.

(** The second issue of the unit test. *)
Lemma mapped_issue_is_clean_witness :
  exists out,
    IssuesMapper.map_issue " cloud-123 " issue_A_2 = inr out
    /\ JiraIssue.cloud_id out = "cloud-123"
    /\ JiraIssue.key out = "A-2"
    /\ clean_user (JiraIssue.assignee out).
Proof.
  eexists. split; [vm_compute; reflexivity|].
  split; [reflexivity|]. split; [reflexivity|].
  apply (mapped_issue_is_clean " cloud-123 " issue_A_2). vm_compute. reflexivity.
Defined.

(** ** The generated readers *)

Lemma reader_expect_dict : reader Generated._expect_dict.
Proof.
  split; intros obj; destruct obj; cbn; intros; try discriminate; try assumption;
    match goal with H : inl _ = inl _ |- _ => injection H as <-; eauto end.
Qed.

Lemma reader_expect_list : reader Generated._expect_list.
Proof.
  split; intros obj; destruct obj; cbn; intros; try discriminate; try assumption;
    match goal with H : inl _ = inl _ |- _ => injection H as <-; eauto end.
Qed.

Lemma reader_expect_str : reader Generated._expect_str.
Proof.
  split; intros obj; destruct obj; cbn; intros; try discriminate; try assumption;
    match goal with H : inl _ = inl _ |- _ => injection H as <-; eauto end.
Qed.

Lemma reader_expect_int : reader Generated._expect_int.
Proof.
  split; intros obj; destruct obj; cbn; intros; try discriminate; try assumption;
    match goal with H : inl _ = inl _ |- _ => injection H as <-; eauto end.
Qed.

Lemma reader_expect_bool : reader Generated._expect_bool.
Proof.
  split; intros obj; destruct obj; cbn; intros; try discriminate; try assumption;
    match goal with H : inl _ = inl _ |- _ => injection H as <-; eauto end.
Qed.

Lemma reader_optional {A} (read : Json -> string -> Error + A) :
  reader read -> reader (Generated.optional read).
Proof.
  intros (Hfree & Hkind). split.
  - intros obj p1 p2 a. unfold Generated.optional.
    destruct obj; try exact (fun H => H); intros H;
      apply and_then_inr in H; destruct H as (x & Hx & H);
      rewrite (Hfree _ _ p2 _ Hx); exact H.
  - intros obj p e. unfold Generated.optional.
    destruct obj; try discriminate; intros H;
      apply and_then_inl in H; destruct H as [H | (x & _ & H)];
      first [discriminate | eapply Hkind, H].
Qed.

Lemma each_reader {A} (read : Json -> string -> Error + A) :
  reader read ->
  forall items,
    (forall p1 i1 p2 i2 out,
        Generated.each read p1 i1 items = inr out -> Generated.each read p2 i2 items = inr out)
    /\ (forall p i e, Generated.each read p i items = inl e -> exists msg, e = SerializationError msg)
    /\ (forall p i out,
          Generated.each read p i items = inr out ->
          Forall2 (fun item a => forall path, read item path = inr a) items out).
Proof.
  intros (Hfree & Hkind). induction items as [|item rest (IH1 & IH2 & IH3)];
    cbn [Generated.each]; repeat apply conj.
  - auto.
  - discriminate.
  - intros p i out [= <-]. constructor.
  - intros p1 i1 p2 i2 out H.
    apply and_then_inr in H. destruct H as (a & Ha & H).
    apply and_then_inr in H. destruct H as (others & Hothers & H).
    rewrite (Hfree _ _ (Str.indexed p2 i2) _ Ha). cbn [and_then].
    rewrite (IH1 _ _ p2 (S i2) _ Hothers). exact H.
  - intros p i e H.
    apply and_then_inl in H. destruct H as [H | (a & _ & H)]; [eapply Hkind, H|].
    apply and_then_inl in H. destruct H as [H | (others & _ & H)];
      [eapply IH2, H | discriminate].
  - intros p i out H.
    apply and_then_inr in H. destruct H as (a & Ha & H).
    apply and_then_inr in H. destruct H as (others & Hothers & H). injection H as <-.
    constructor; [|eapply IH3, Hothers].
    intros path. eapply Hfree, Ha.
Qed.

Lemma reader_items_of {A} (read : Json -> string -> Error + A) :
  reader read -> reader (Generated.items_of read).
Proof.
  intros Hread. split.
  - intros obj p1 p2 out. unfold Generated.items_of. intros H.
    apply and_then_inr in H. destruct H as (items & Hitems & H).
    assert (Hitems' : (match obj with JNull => inr [] | _ => Generated._expect_list obj p2 end)
                      = inr items).
    { destruct obj; try exact Hitems; discriminate. }
    rewrite Hitems'. cbn [and_then].
    eapply (proj1 (each_reader read Hread items)), H.
  - intros obj p e. unfold Generated.items_of. intros H.
    apply and_then_inl in H. destruct H as [H | (items & _ & H)].
    + destruct obj; try discriminate; injection H as <-; eauto.
    + eapply (proj1 (proj2 (each_reader read Hread items))), H.
Qed.

(** One step of a reader: a member read by [read] at a path under [path]. *)
Ltac reader_step Hread p2 :=
  match goal with
  | H : and_then (?read ?obj _) _ = inr _ |- _ =>
    let Hs := fresh "Hstep" in
    apply and_then_inr in H; destruct H as (? & Hs & H);
    rewrite (proj1 Hread _ _ p2 _ Hs); cbn [and_then]
  end.

Ltac reader_fails Hread :=
  match goal with
  | H : and_then _ _ = inl _ |- _ =>
    apply and_then_inl in H; destruct H as [H | (? & _ & H)];
    [eapply (proj2 Hread), H|]
  end.

Lemma reader_user_details : reader UserDetails.from_dict.
Proof.
  pose proof (reader_optional _ reader_expect_str) as Hstr.
  split.
  - intros obj p1 p2 out H. unfold UserDetails.from_dict in *.
    reader_step reader_expect_dict p2.
    reader_step Hstr (p2 +:+ ".accountId").
    reader_step Hstr (p2 +:+ ".displayName").
    reader_step Hstr (p2 +:+ ".emailAddress").
    exact H.
  - intros obj p e H. unfold UserDetails.from_dict in H.
    reader_fails reader_expect_dict. do 3 reader_fails Hstr. discriminate.
Qed.

Lemma reader_worklog : reader Worklog.from_dict.
Proof.
  pose proof (reader_optional _ reader_expect_str) as Hstr.
  pose proof (reader_optional _ reader_expect_int) as Hint.
  pose proof (reader_optional _ reader_user_details) as Huser.
  split.
  - intros obj p1 p2 out H. unfold Worklog.from_dict in *.
    reader_step reader_expect_dict p2.
    reader_step Hstr (p2 +:+ ".id").
    reader_step Hstr (p2 +:+ ".started").
    reader_step Hint (p2 +:+ ".timeSpentSeconds").
    reader_step Hstr (p2 +:+ ".created").
    reader_step Hstr (p2 +:+ ".updated").
    reader_step Huser (p2 +:+ ".author").
    exact H.
  - intros obj p e H. unfold Worklog.from_dict in H.
    reader_fails reader_expect_dict. do 2 reader_fails Hstr. reader_fails Hint.
    do 2 reader_fails Hstr. reader_fails Huser. discriminate.
Qed.

(** X16.  When the generated PageOfWorklogs.from_dict returns a page, it
    returns the same page for every path argument (the path only labels
    error messages), the input is a JSON object, the worklogs of the page
    are the entries of the member 'worklogs' (none when it is absent or
    null), each read by Worklog.from_dict, in order, and the total of the
    page is the member 'total' read as an optional integer. Every failure
    is a SerializationError. *)
Theorem page_of_worklogs_reader (obj : Json) (path : string) :
  (forall page,
      PageOfWorklogs.from_dict obj path = inr page ->
      (forall other, PageOfWorklogs.from_dict obj other = inr page)
      /\ exists fields,
           obj = JDict fields
           /\ Forall2 (fun item worklog => forall p, Worklog.from_dict item p = inr worklog)
                (listed fields "worklogs") (PageOfWorklogs.worklogs page)
           /\ Generated.optional Generated._expect_int (dict_get "total" fields) path
              = inr (PageOfWorklogs.total page))
  /\ (forall e, PageOfWorklogs.from_dict obj path = inl e ->
        exists msg, e = SerializationError msg).
Proof.
  pose proof (reader_optional _ reader_expect_int) as Hint.
  pose proof (reader_items_of _ reader_worklog) as Hitems.
  split.
  - intros page H. split.
    + intros other. unfold PageOfWorklogs.from_dict in *.
      reader_step reader_expect_dict other.
      reader_step Hint (other +:+ ".startAt").
      reader_step Hint (other +:+ ".maxResults").
      reader_step Hint (other +:+ ".total").
      reader_step Hitems (other +:+ ".worklogs").
      exact H.
    + unfold PageOfWorklogs.from_dict in H.
      apply and_then_inr in H. destruct H as (fields & Hfields & H).
      apply and_then_inr in H. destruct H as (start_at & _ & H).
      apply and_then_inr in H. destruct H as (max_results & _ & H).
      apply and_then_inr in H. destruct H as (total & Htotal & H).
      apply and_then_inr in H. destruct H as (worklogs & Hworklogs & H).
      injection H as <-. cbn [PageOfWorklogs.worklogs PageOfWorklogs.total].
      exists fields. split; [destruct obj; try discriminate; now injection Hfields as ->|].
      split; [|eapply (proj1 Hint), Htotal].
      unfold Generated.items_of in Hworklogs.
      apply and_then_inr in Hworklogs. destruct Hworklogs as (items & Hlist & Heach).
      apply (proj2 (proj2 (each_reader _ reader_worklog items))) in Heach.
      unfold listed. destruct (dict_get "worklogs" fields); try discriminate;
        injection Hlist as <-; exact Heach.
  - intros e H. unfold PageOfWorklogs.from_dict in H.
    reader_fails reader_expect_dict. do 3 reader_fails Hint. reader_fails Hitems.
    discriminate.
Qed.

(** A page read under another path than the paginator gives. *)
Lemma page_of_worklogs_reader_witness :
  PageOfWorklogs.from_dict
    (JDict [("startAt", JInt 0); ("total", JInt 2); ("worklogs", JList worklog_rows)])
    "elsewhere"
  = inr {| PageOfWorklogs.start_at := Some 0; PageOfWorklogs.max_results := None;
           PageOfWorklogs.total := Some 2; PageOfWorklogs.worklogs := table_worklogs |}.
Proof.
  apply (page_of_worklogs_reader
           (JDict [("startAt", JInt 0); ("total", JInt 2); ("worklogs", JList worklog_rows)])
           "data").
  vm_compute. reflexivity.
Defined.

Lemma reader_project : reader Project.from_dict.
Proof.
  pose proof (reader_optional _ reader_expect_str) as Hstr.
  split.
  - intros obj p1 p2 out H. unfold Project.from_dict in *.
    reader_step reader_expect_dict p2.
    reader_step Hstr (p2 +:+ ".id").
    reader_step Hstr (p2 +:+ ".key").
    reader_step Hstr (p2 +:+ ".name").
    reader_step Hstr (p2 +:+ ".projectTypeKey").
    exact H.
  - intros obj p e H. unfold Project.from_dict in H.
    reader_fails reader_expect_dict. do 4 reader_fails Hstr. discriminate.
Qed.

Lemma reader_page_bean_project : reader PageBeanProjectReader.from_dict.
Proof.
  pose proof (reader_optional _ reader_expect_int) as Hint.
  pose proof (reader_optional _ reader_expect_bool) as Hbool.
  pose proof (reader_items_of _ reader_project) as Hitems.
  split.
  - intros obj p1 p2 out H. unfold PageBeanProjectReader.from_dict in *.
    reader_step reader_expect_dict p2.
    reader_step Hint (p2 +:+ ".startAt").
    reader_step Hint (p2 +:+ ".maxResults").
    reader_step Hint (p2 +:+ ".total").
    reader_step Hbool (p2 +:+ ".isLast").
    reader_step Hitems (p2 +:+ ".values").
    exact H.
  - intros obj p e H. unfold PageBeanProjectReader.from_dict in H.
    reader_fails reader_expect_dict. do 3 reader_fails Hint. reader_fails Hbool.
    reader_fails Hitems. discriminate.
Qed.

Lemma reader_issue_bean : reader IssueBean.from_dict.
Proof.
  pose proof (reader_optional _ reader_expect_str) as Hstr.
  split.
  - intros obj p1 p2 out H. unfold IssueBean.from_dict in *.
    reader_step reader_expect_dict p2.
    reader_step Hstr (p2 +:+ ".id").
    reader_step Hstr (p2 +:+ ".key").
    apply and_then_inr in H. destruct H as (fields & Hfields & H).
    assert (Hfields' : (match dict_get "fields" x with
                        | JNull => inr []
                        | fields_raw => Generated._expect_dict fields_raw (p2 +:+ ".fields")
                        end) = inr fields).
    { destruct (dict_get "fields" x); try exact Hfields; discriminate. }
    rewrite Hfields'. exact H.
  - intros obj p e H. unfold IssueBean.from_dict in H.
    reader_fails reader_expect_dict. do 2 reader_fails Hstr.
    apply and_then_inl in H. destruct H as [H | (? & _ & H)]; [|discriminate].
    destruct (dict_get "fields" _); try discriminate; injection H as <-; eauto.
Qed.

Lemma reader_search_results : reader SearchResultsReader.from_dict.
Proof.
  pose proof (reader_optional _ reader_expect_int) as Hint.
  pose proof (reader_items_of _ reader_issue_bean) as Hitems.
  split.
  - intros obj p1 p2 out H. unfold SearchResultsReader.from_dict in *.
    reader_step reader_expect_dict p2.
    reader_step Hint (p2 +:+ ".startAt").
    reader_step Hint (p2 +:+ ".maxResults").
    reader_step Hint (p2 +:+ ".total").
    reader_step Hitems (p2 +:+ ".issues").
    exact H.
  - intros obj p e H. unfold SearchResultsReader.from_dict in H.
    reader_fails reader_expect_dict. do 3 reader_fails Hint. reader_fails Hitems.
    discriminate.
Qed.

Lemma reader_change_details : reader ChangeDetails.from_dict.
Proof.
  pose proof (reader_optional _ reader_expect_str) as Hstr.
  split.
  - intros obj p1 p2 out H. unfold ChangeDetails.from_dict in *.
    reader_step reader_expect_dict p2.
    reader_step Hstr (p2 +:+ ".field").
    reader_step Hstr (p2 +:+ ".from").
    reader_step Hstr (p2 +:+ ".to").
    reader_step Hstr (p2 +:+ ".fromString").
    reader_step Hstr (p2 +:+ ".toString").
    exact H.
  - intros obj p e H. unfold ChangeDetails.from_dict in H.
    reader_fails reader_expect_dict. do 5 reader_fails Hstr. discriminate.
Qed.

Lemma reader_changelog : reader Changelog.from_dict.
Proof.
  pose proof (reader_optional _ reader_expect_str) as Hstr.
  pose proof (reader_optional _ reader_user_details) as Huser.
  pose proof (reader_items_of _ reader_change_details) as Hitems.
  split.
  - intros obj p1 p2 out H. unfold Changelog.from_dict in *.
    reader_step reader_expect_dict p2.
    reader_step Hstr (p2 +:+ ".id").
    reader_step Hstr (p2 +:+ ".created").
    reader_step Huser (p2 +:+ ".author").
    reader_step Hitems (p2 +:+ ".items").
    exact H.
  - intros obj p e H. unfold Changelog.from_dict in H.
    reader_fails reader_expect_dict. do 2 reader_fails Hstr. reader_fails Huser.
    reader_fails Hitems. discriminate.
Qed.

Lemma reader_page_bean_changelog : reader PageBeanChangelog.from_dict.
Proof.
  pose proof (reader_optional _ reader_expect_int) as Hint.
  pose proof (reader_optional _ reader_expect_bool) as Hbool.
  pose proof (reader_items_of _ reader_changelog) as Hitems.
  split.
  - intros obj p1 p2 out H. unfold PageBeanChangelog.from_dict in *.
    reader_step reader_expect_dict p2.
    reader_step Hint (p2 +:+ ".startAt").
    reader_step Hint (p2 +:+ ".maxResults").
    reader_step Hint (p2 +:+ ".total").
    reader_step Hbool (p2 +:+ ".isLast").
    reader_step Hitems (p2 +:+ ".values").
    exact H.
  - intros obj p e H. unfold PageBeanChangelog.from_dict in H.
    reader_fails reader_expect_dict. do 3 reader_fails Hint. reader_fails Hbool.
    reader_fails Hitems. discriminate.
Qed.

(** X20.  Each generated reader from_dict (of UserDetails, Project,
    PageBeanProject, IssueBean, SearchResults, ChangeDetails, Changelog,
    PageBeanChangelog and Worklog) returns, when it returns, the same
    value whatever path argument it is given, and fails only with a
    SerializationError. *)
Theorem generated_readers_report_serialization_errors :
  reader UserDetails.from_dict
  /\ reader Project.from_dict
  /\ reader PageBeanProjectReader.from_dict
  /\ reader IssueBean.from_dict
  /\ reader SearchResultsReader.from_dict
  /\ reader ChangeDetails.from_dict
  /\ reader Changelog.from_dict
  /\ reader PageBeanChangelog.from_dict
  /\ reader Worklog.from_dict.
Proof.
  exact (conj reader_user_details
           (conj reader_project
              (conj reader_page_bean_project
                 (conj reader_issue_bean
                    (conj reader_search_results
                       (conj reader_change_details
                          (conj reader_changelog
                             (conj reader_page_bean_changelog reader_worklog)))))))).
Qed.

(** ** Paging through issues and worklogs *)

Lemma call_keeps_yields_of {Item W A} (run : RestRequest -> Prog W A) (req : RestRequest)
    (s : Run RestRequest Item W) r s0 :
  call run req s = (r, s0) -> yields_of (history s0) = yields_of (history s).
Proof.
  unfold call. destruct (run req (world s)) as [a w]. intros [= <- <-].
  unfold history. cbn [emitted rev]. rewrite yields_of_app. cbn [yields_of].
  apply app_nil_r.
Qed.

Lemma Forall2_slice {A B} (R : A -> B -> Prop) (l : list A) (k : list B) page_size start_at :
  Forall2 R l k -> Forall2 R (slice l page_size start_at) (slice k page_size start_at).
Proof. intros H. unfold slice. apply Forall2_take, Forall2_drop, H. Qed.

Lemma Forall2_len {A B} (R : A -> B -> Prop) (l : list A) (k : list B) :
  Forall2 R l k -> len l = len k.
Proof. intros H. unfold len. f_equal. eapply Forall2_length, H. Qed.

Section ServedIssues.

Context {api : JiraRestApi} {W : Type} {client : RestClient W}.

Lemma for_issues_mapped cloud_id (issues : list IssueBean) (outs : list JiraIssue)
    (s : Run RestRequest JiraIssue W) :
  Forall2 (fun issue out => map_issue cloud_id issue = inr out) issues outs ->
  exists s',
    JiraRestIssues.for_issues cloud_id issues s = (Return tt, s')
    /\ yields_of (history s') = (yields_of (history s) ++ outs)%list.
Proof.
  intros Hall. revert s. induction Hall as [|issue out issues outs Hmap _ IH]; intros s;
    cbn [JiraRestIssues.for_issues].
  - exists s. split; [reflexivity | now rewrite app_nil_r].
  - unfold bind at 1. rewrite Hmap. cbn [lift ret].
    unfold bind at 1. cbn [yield].
    match goal with |- context [JiraRestIssues.for_issues _ _ ?s1] =>
      destruct (IH s1) as (s' & Hrun & Hys) end.
    exists s'. split; [exact Hrun|]. rewrite Hys. unfold history. cbn [emitted rev].
    rewrite yields_of_app. cbn [yields_of]. now rewrite <- app_assoc.
Qed.

Lemma issues_loop_complete (items : list IssueBean) (outs : list JiraIssue)
    cloud_id jql fields page_size :
  0 < page_size ->
  serves_issues items jql fields page_size ->
  Forall2 (fun issue out => map_issue cloud_id issue = inr out) items outs ->
  forall fuel start_at seen s,
    0 <= start_at <= len items ->
    (Z.to_nat (len items - start_at) < fuel)%nat ->
    (forall z, z ∈ seen -> z < start_at) ->
    exists s',
      JiraRestIssues.issues_loop fuel cloud_id jql fields page_size start_at seen s
        = (Return tt, s')
      /\ yields_of (history s')
         = (yields_of (history s) ++ drop (Z.to_nat start_at) outs)%list.
Proof.
  intros Hsize Hserves Hmap.
  pose proof (Forall2_len _ _ _ Hmap) as Hsame.
  induction fuel as [|fuel IH]; intros start_at seen s Hstart Hfuel Hseen; [lia|].
  assert (Hfresh : start_at ∉ seen) by (intros Hin; apply Hseen in Hin; lia).
  destruct (Hserves start_at s Hstart) as (payload & s0 & page & Hcall & Hread & Hissues & Htotal).
  assert (Hslice : Forall2 (fun issue out => map_issue cloud_id issue = inr out)
                     (SearchResults.issues page) (slice outs page_size start_at)).
  { rewrite Hissues. apply Forall2_slice, Hmap. }
  destruct (for_issues_mapped cloud_id _ _ s0 Hslice) as (s1 & Hfor & Hys).
  rewrite (call_keeps_yields_of _ _ _ _ _ Hcall) in Hys.
  assert (Hpage : issues_page_read cloud_id jql fields page_size start_at s page s1).
  { exists payload, s0. auto. }
  pose proof (issues_loop_verdict fuel cloud_id jql fields page_size start_at seen s page s1
                Hfresh Hpage) as Hverdict.
  cbv zeta in Hverdict. destruct Hverdict as (Vtotal & Vshort & _ & Vnext).
  pose proof (slice_length items page_size start_at Hsize Hstart) as Hlen.
  rewrite <- Hissues in Hlen.
  set (n := len (SearchResults.issues page)) in *.
  assert (Hn_outs : len (slice outs page_size start_at) = n).
  { symmetry. eapply Forall2_len, Hslice. }
  assert (Hstart' : 0 <= start_at <= len outs) by lia.
  assert (Hdone : len items <= start_at + n ->
            yields_of (history s1)
            = (yields_of (history s) ++ drop (Z.to_nat start_at) outs)%list).
  { intros Hend. rewrite Hys. f_equal.
    apply slice_last; try assumption. lia. }
  assert (Hmore : n <> 0 ->
            exists s',
              JiraRestIssues.issues_loop fuel cloud_id jql fields page_size
                (start_at + n) ({[start_at]} ∪ seen) s1 = (Return tt, s')
              /\ yields_of (history s')
                 = (yields_of (history s) ++ drop (Z.to_nat start_at) outs)%list).
  { intros Hn.
    destruct (IH (start_at + n) ({[start_at]} ∪ seen) s1) as (s' & Hrun & Hys').
    - lia.
    - lia.
    - intros z Hz. apply elem_of_union in Hz. destruct Hz as [Hz | Hz].
      + apply elem_of_singleton in Hz. lia.
      + apply Hseen in Hz. lia.
    - exists s'. split; [exact Hrun|]. rewrite Hys', Hys, <- app_assoc. f_equal.
      rewrite (slice_rest outs page_size start_at Hsize Hstart'), Hn_outs.
      reflexivity. }
  destruct (total_cases (SearchResults.total page)) as [(t & Ht) | Hnone].
  - pose proof Ht as (Ht' & Hpos). pose proof (Htotal t Ht' Hpos) as ->.
    destruct (Z_le_gt_dec (len items) (start_at + n)) as [Hend | Hgo].
    + exists s1. split; [eapply Vtotal; [exact Ht | exact Hend]|]. apply Hdone, Hend.
    + assert (Hn : n <> 0) by lia.
      rewrite Vnext; [apply Hmore, Hn | | exact Hn].
      left. exists (len items). split; [exact Ht | lia].
  - destruct (Z_lt_ge_dec n page_size) as [Hshort | Hfull].
    + exists s1. split; [apply Vshort; [exact Hnone | exact Hshort]|]. apply Hdone. lia.
    + assert (Hn : n <> 0) by lia.
      rewrite Vnext; [apply Hmore, Hn | | exact Hn].
      right. split; [exact Hnone | lia].
Qed.

End ServedIssues.

(** X17.  Against a server that holds a table of issues and answers every
    search with the slice asked for (a total it reports, if not negative,
    is the size of the table), iter_issues_via_rest with a non-blank
    cloud_id and jql, a positive page_size, the default fields and issues
    that all map without error terminates normally (with fuel above the
    number of issues) and yields the mapped issues of the whole table, in
    order, each once. *)
Theorem rest_issues_complete `{JiraRestApi} {W} `{RestClient W}
    (items : list IssueBean) (outs : list JiraIssue) (fuel : nat) (cloud_id jql : string)
    (page_size : Z) (s : Run RestRequest JiraIssue W) :
  Py.truthy (Py.strip cloud_id) = true ->
  Py.truthy (Py.strip jql) = true ->
  0 < page_size ->
  serves_issues items (Py.strip jql)
    (JiraRestIssues.join_commas JiraRestIssues._DEFAULT_SEARCH_FIELDS) page_size ->
  Forall2 (fun issue out => map_issue (Py.strip cloud_id) issue = inr out) items outs ->
  (length items < fuel)%nat ->
  exists s',
    JiraRestIssues.iter_issues_via_rest fuel cloud_id jql page_size None s = (Return tt, s')
    /\ yields_of (history s') = (yields_of (history s) ++ outs)%list.
Proof.
  intros Hcloud Hjql Hsize Hserves Hmap Hfuel.
  unfold JiraRestIssues.iter_issues_via_rest.
  rewrite Hcloud, Hjql. cbn [negb].
  destruct (page_size <=? 0) eqn:Hp; [apply Z.leb_le in Hp; lia|].
  change (nonempty (@None (list string))) with false. cbv iota.
  change (List.map Py.strip
            (List.filter (fun f => Py.truthy f && Py.truthy (Py.strip f))
               JiraRestIssues._DEFAULT_SEARCH_FIELDS))
    with JiraRestIssues._DEFAULT_SEARCH_FIELDS.
  cbv iota.
  destruct (issues_loop_complete items outs (Py.strip cloud_id) (Py.strip jql)
              (JiraRestIssues.join_commas JiraRestIssues._DEFAULT_SEARCH_FIELDS) page_size
              Hsize Hserves Hmap fuel 0 ∅ s) as (s' & Hrun & Hys).
  - unfold len. lia.
  - unfold len. lia.
  - intros z Hz. apply elem_of_empty in Hz. contradiction.
  - exists s'. split; [exact Hrun | exact Hys].
Qed.

(** The table server serves the three issues of the unit test. *)
Lemma table_serves_issues :
  @serves_issues generated_rest_api unit (table_rest "issues" issue_rows)
    table_issues "project = A"
    (JiraRestIssues.join_commas JiraRestIssues._DEFAULT_SEARCH_FIELDS) 2.
Proof.
  intros start_at s Hs.
  assert (H : start_at = 0 \/ start_at = 1 \/ start_at = 2 \/ start_at = 3)
    by (unfold len in Hs; simpl in Hs; lia).
  destruct H as [-> | [-> | [-> | ->]]];
    (eexists _, _, _; split; [reflexivity|]; split; [vm_compute; reflexivity|];
     split; [reflexivity|]; intros t Ht _; injection Ht as <-; reflexivity).
Qed.

(** The run of the unit test: the three issues come on two pages. *)
Lemma rest_issues_complete_witness :
  exists s',
    @JiraRestIssues.iter_issues_via_rest generated_rest_api unit
      (table_rest "issues" issue_rows) 4 "cloud-123" " project = A " 2 None
      (start_of_run tt)
    = (Return tt, s')
    /\ List.map JiraIssue.key (yields_of (history s')) = ["A-1"; "A-2"; "A-3"].
Proof.
  pose proof (fun outs =>
                @rest_issues_complete generated_rest_api unit
                  (table_rest "issues" issue_rows) table_issues outs 4 "cloud-123"
                  " project = A " 2 (start_of_run tt)) as Hcomplete.
  edestruct Hcomplete as (s' & Hrun & Hyields).
  - reflexivity.
  - reflexivity.
  - lia.
  - exact table_serves_issues.
  - repeat (constructor; [vm_compute; reflexivity|]). constructor.
  - simpl. lia.
  - exists s'. split; [exact Hrun|]. rewrite Hyields. reflexivity.
Defined.

Section ServedWorklogs.

Context {W : Type} {client : RestClient W}.

Lemma for_worklogs_mapped issue_key (worklogs : list Worklog.t) (outs : list JiraWorklog.t)
    (s : Run RestRequest JiraWorklog.t W) :
  Forall2 (fun wl out => RestMappers.map_worklog issue_key wl = inr out) worklogs outs ->
  exists s',
    JiraRestWorklogs.for_worklogs issue_key worklogs s = (Return tt, s')
    /\ yields_of (history s') = (yields_of (history s) ++ outs)%list.
Proof.
  intros Hall. revert s. induction Hall as [|wl out worklogs outs Hmap _ IH]; intros s;
    cbn [JiraRestWorklogs.for_worklogs].
  - exists s. split; [reflexivity | now rewrite app_nil_r].
  - unfold bind at 1. rewrite Hmap. cbn [lift ret].
    unfold bind at 1. cbn [yield].
    match goal with |- context [JiraRestWorklogs.for_worklogs _ _ ?s1] =>
      destruct (IH s1) as (s' & Hrun & Hys) end.
    exists s'. split; [exact Hrun|]. rewrite Hys. unfold history. cbn [emitted rev].
    rewrite yields_of_app. cbn [yields_of]. now rewrite <- app_assoc.
Qed.

(** What the loop does after a page that was read and mapped. *)
Lemma worklogs_loop_step fuel issue_key page_size start_at seen
    (s : Run RestRequest JiraWorklog.t W) payload s0 page s1 :
  start_at ∉ seen ->
  call get_json (worklog_request issue_key page_size start_at) s = (Return payload, s0) ->
  PageOfWorklogs.from_dict payload "data" = inr page ->
  JiraRestWorklogs.for_worklogs issue_key (PageOfWorklogs.worklogs page) s0 = (Return tt, s1) ->
  let n := len (PageOfWorklogs.worklogs page) in
  let total := PageOfWorklogs.total page in
  JiraRestWorklogs.worklogs_loop (S fuel) issue_key page_size start_at seen s
  = (if (if match total with Some t => 0 <=? t | None => false end
         then match total with Some t => t <=? start_at + n | None => false end
         else n <? page_size)
     then ret tt
     else if n =? 0 then ret tt
     else JiraRestWorklogs.worklogs_loop fuel issue_key page_size (start_at + n)
            ({[start_at]} ∪ seen)) s1.
Proof.
  intros Hfresh Hcall Hread Hfor n total. cbn [JiraRestWorklogs.worklogs_loop].
  rewrite (bool_decide_eq_false_2 _ Hfresh).
  unfold bind at 1. fold (worklog_request issue_key page_size start_at). rewrite Hcall.
  unfold bind at 1. rewrite Hread. cbn [lift ret].
  unfold bind at 1. rewrite Hfor. reflexivity.
Qed.

Lemma worklogs_loop_complete (items : list Worklog.t) (outs : list JiraWorklog.t)
    issue_key page_size :
  0 < page_size ->
  serves_worklogs items issue_key page_size ->
  Forall2 (fun wl out => RestMappers.map_worklog issue_key wl = inr out) items outs ->
  forall fuel start_at seen s,
    0 <= start_at <= len items ->
    (Z.to_nat (len items - start_at) < fuel)%nat ->
    (forall z, z ∈ seen -> z < start_at) ->
    exists s',
      JiraRestWorklogs.worklogs_loop fuel issue_key page_size start_at seen s
        = (Return tt, s')
      /\ yields_of (history s')
         = (yields_of (history s) ++ drop (Z.to_nat start_at) outs)%list.
Proof.
  intros Hsize Hserves Hmap.
  pose proof (Forall2_len _ _ _ Hmap) as Hsame.
  induction fuel as [|fuel IH]; intros start_at seen s Hstart Hfuel Hseen; [lia|].
  assert (Hfresh : start_at ∉ seen) by (intros Hin; apply Hseen in Hin; lia).
  destruct (Hserves start_at s Hstart) as (payload & s0 & page & Hcall & Hread & Hlogs & Htotal).
  assert (Hslice : Forall2 (fun wl out => RestMappers.map_worklog issue_key wl = inr out)
                     (PageOfWorklogs.worklogs page) (slice outs page_size start_at)).
  { rewrite Hlogs. apply Forall2_slice, Hmap. }
  destruct (for_worklogs_mapped issue_key _ _ s0 Hslice) as (s1 & Hfor & Hys).
  rewrite (call_keeps_yields_of _ _ _ _ _ Hcall) in Hys.
  rewrite (worklogs_loop_step fuel issue_key page_size start_at seen s payload s0 page s1
             Hfresh Hcall Hread Hfor).
  pose proof (slice_length items page_size start_at Hsize Hstart) as Hlen.
  rewrite <- Hlogs in Hlen.
  set (n := len (PageOfWorklogs.worklogs page)) in *.
  assert (Hn_outs : len (slice outs page_size start_at) = n).
  { symmetry. eapply Forall2_len, Hslice. }
  assert (Hstart' : 0 <= start_at <= len outs) by lia.
  assert (Hdone : len items <= start_at + n ->
            yields_of (history s1)
            = (yields_of (history s) ++ drop (Z.to_nat start_at) outs)%list).
  { intros Hend. rewrite Hys. f_equal. apply slice_last; try assumption. lia. }
  assert (Hmore : n <> 0 ->
            exists s',
              JiraRestWorklogs.worklogs_loop fuel issue_key page_size
                (start_at + n) ({[start_at]} ∪ seen) s1 = (Return tt, s')
              /\ yields_of (history s')
                 = (yields_of (history s) ++ drop (Z.to_nat start_at) outs)%list).
  { intros Hn.
    destruct (IH (start_at + n) ({[start_at]} ∪ seen) s1) as (s' & Hrun & Hys').
    - lia.
    - lia.
    - intros z Hz. apply elem_of_union in Hz. destruct Hz as [Hz | Hz].
      + apply elem_of_singleton in Hz. lia.
      + apply Hseen in Hz. lia.
    - exists s'. split; [exact Hrun|]. rewrite Hys', Hys, <- app_assoc. f_equal.
      rewrite (slice_rest outs page_size start_at Hsize Hstart'), Hn_outs.
      reflexivity. }
  destruct (PageOfWorklogs.total page) as [t|] eqn:Ht.
  - destruct (0 <=? t) eqn:Hpos.
    + apply Z.leb_le in Hpos. pose proof (Htotal t eq_refl Hpos) as ->.
      destruct (len items <=? start_at + n) eqn:Hend.
      * apply Z.leb_le in Hend. exists s1. split; [reflexivity | apply Hdone, Hend].
      * apply Z.leb_gt in Hend. assert (Hn : n <> 0) by lia.
        apply Z.eqb_neq in Hn. rewrite Hn. apply Hmore. apply Z.eqb_neq in Hn. exact Hn.
    + destruct (n <? page_size) eqn:Hshort.
      * apply Z.ltb_lt in Hshort. exists s1. split; [reflexivity | apply Hdone; lia].
      * apply Z.ltb_ge in Hshort. assert (Hn : n <> 0) by lia.
        apply Z.eqb_neq in Hn. rewrite Hn. apply Hmore. apply Z.eqb_neq in Hn. exact Hn.
  - destruct (n <? page_size) eqn:Hshort.
    + apply Z.ltb_lt in Hshort. exists s1. split; [reflexivity | apply Hdone; lia].
    + apply Z.ltb_ge in Hshort. assert (Hn : n <> 0) by lia.
      apply Z.eqb_neq in Hn. rewrite Hn. apply Hmore. apply Z.eqb_neq in Hn. exact Hn.
Qed.

End ServedWorklogs.

(** X18.  Against a server that holds a table of worklogs of an issue and
    answers every page request with the slice asked for (a total it
    reports, if not negative, is the size of the table),
    iter_issue_worklogs_via_rest with a non-blank issue_key, a positive
    page_size and worklogs that all map without error terminates normally
    (with fuel above the number of worklogs) and yields the mapped
    worklogs of the whole table, in order, each once. *)
Theorem rest_worklogs_complete {W} `{RestClient W}
    (items : list Worklog.t) (outs : list JiraWorklog.t) (fuel : nat) (issue_key : string)
    (page_size : Z) (s : Run RestRequest JiraWorklog.t W) :
  Py.truthy (Py.strip issue_key) = true ->
  0 < page_size ->
  serves_worklogs items (Py.strip issue_key) page_size ->
  Forall2 (fun wl out => RestMappers.map_worklog (Py.strip issue_key) wl = inr out)
    items outs ->
  (length items < fuel)%nat ->
  exists s',
    JiraRestWorklogs.iter_issue_worklogs_via_rest fuel issue_key page_size s = (Return tt, s')
    /\ yields_of (history s') = (yields_of (history s) ++ outs)%list.
Proof.
  intros Hkey Hsize Hserves Hmap Hfuel.
  unfold JiraRestWorklogs.iter_issue_worklogs_via_rest.
  rewrite Hkey. cbn [negb].
  destruct (page_size <=? 0) eqn:Hp; [apply Z.leb_le in Hp; lia|].
  destruct (worklogs_loop_complete items outs (Py.strip issue_key) page_size
              Hsize Hserves Hmap fuel 0 ∅ s) as (s' & Hrun & Hys).
  - unfold len. lia.
  - unfold len. lia.
  - intros z Hz. apply elem_of_empty in Hz. contradiction.
  - exists s'. split; [exact Hrun | exact Hys].
Qed.

(** The table server serves the two worklogs of the unit test. *)
Lemma table_serves_worklogs :
  @serves_worklogs unit (table_rest "worklogs" worklog_rows) table_worklogs "A-1" 1.
Proof.
  intros start_at s Hs.
  assert (H : start_at = 0 \/ start_at = 1 \/ start_at = 2)
    by (unfold len in Hs; simpl in Hs; lia).
  destruct H as [-> | [-> | ->]];
    (eexists _, _, _; split; [reflexivity|]; split; [vm_compute; reflexivity|];
     split; [reflexivity|]; intros t Ht _; injection Ht as <-; reflexivity).
Qed.

(** The run of the unit test: the two worklogs come on two pages of one. *)
Lemma rest_worklogs_complete_witness :
  exists s',
    @JiraRestWorklogs.iter_issue_worklogs_via_rest unit
      (table_rest "worklogs" worklog_rows) 3 "A-1" 1 (start_of_run tt)
    = (Return tt, s')
    /\ List.map (fun w => (JiraWorklog.worklog_id w, JiraWorklog.time_spent_seconds w))
         (yields_of (history s'))
       = [("200", 60); ("201", 120)].
Proof.
  pose proof (fun outs =>
                @rest_worklogs_complete unit (table_rest "worklogs" worklog_rows)
                  table_worklogs outs 3 "A-1" 1 (start_of_run tt)) as Hcomplete.
  edestruct Hcomplete as (s' & Hrun & Hyields).
  - reflexivity.
  - lia.
  - exact table_serves_worklogs.
  - repeat (constructor; [vm_compute; reflexivity|]). constructor.
  - simpl. lia.
  - exists s'. split; [exact Hrun|]. rewrite Hyields. reflexivity.
Defined.

(** ** Paging through projects by cursor *)

Lemma requests_of_app {Req Item} (l1 l2 : list (Emitted Req Item)) :
  requests_of (l1 ++ l2) = (requests_of l1 ++ requests_of l2)%list.
Proof.
  induction l1 as [|[r|i] l1 IH]; cbn [requests_of app]; rewrite ?IH; reflexivity.
Qed.

Section ServedPages.

Context {api : JiraProjectsApi} {W : Type} {client : Executor W}.

Lemma for_edges_whole fuel cloud_id page_size apis edges items
    (s : Run GraphQLRequest CanonicalProjectWithOpsgenieTeams.t W) :
  Forall2 (whole_edge cloud_id) edges items ->
  exists s',
    JiraProjects.for_edges fuel cloud_id page_size apis edges s = (Return tt, s')
    /\ yields_of (history s') = (yields_of (history s) ++ items)%list
    /\ requests_of (history s') = requests_of (history s).
Proof.
  intros Hall. revert s. induction Hall as [|edge item edges items (Hnext & Hmap) _ IH];
    intros s; cbn [JiraProjects.for_edges].
  - exists s. split; [reflexivity|]. split; [now rewrite app_nil_r | reflexivity].
  - unfold bind at 1. unfold JiraProjects.for_edge. unfold has_next in Hnext.
    rewrite Hnext. unfold bind at 1. cbn [ret]. unfold bind at 1.
    unfold nodes_of in Hmap. rewrite Hmap. cbn [lift ret yield].
    match goal with |- context [JiraProjects.for_edges _ _ _ _ _ ?s1] =>
      destruct (IH s1) as (s' & Hrun & Hys & Hreq) end.
    exists s'. split; [exact Hrun|]. split.
    + rewrite Hys. unfold history. cbn [emitted rev].
      rewrite yields_of_app. cbn [yields_of]. now rewrite <- app_assoc.
    + rewrite Hreq. unfold history. cbn [emitted rev].
      rewrite requests_of_app. cbn [requests_of]. apply app_nil_r.
Qed.

Lemma served_emits {Page} (parse : Json -> Error + Page) (req : GraphQLRequest)
    (s : Run GraphQLRequest CanonicalProjectWithOpsgenieTeams.t W) page s0 :
  served parse req s page s0 ->
  yields_of (history s0) = yields_of (history s)
  /\ requests_of (history s0) = (requests_of (history s) ++ [req])%list.
Proof.
  intros (result & Hcall & _). unfold call in Hcall.
  destruct (execute req (world s)) as [a w]. injection Hcall as _ <-.
  unfold history. cbn [emitted rev]. rewrite yields_of_app, requests_of_app.
  cbn [yields_of requests_of]. split; [apply app_nil_r | reflexivity].
Qed.

Lemma cursor_loop_complete query cloud_id page_size apis
    (pages : list JiraProjectsPageData.t) :
  forall (items : list CanonicalProjectWithOpsgenieTeams.t) fuel after seen
         (s : Run GraphQLRequest CanonicalProjectWithOpsgenieTeams.t W),
    serves_chain query cloud_id page_size apis after pages ->
    Forall2 (whole_edge cloud_id) (edges_of pages) items ->
    NoDup (selected_cursors pages) ->
    Forall (fun c => c ∉ seen) (selected_cursors pages) ->
    (length pages <= fuel)%nat ->
    exists s',
      JiraProjects.projects_loop fuel query cloud_id page_size apis after seen s
        = (Return tt, s')
      /\ yields_of (history s') = (yields_of (history s) ++ items)%list
      /\ requests_of (history s')
         = (requests_of (history s)
            ++ List.map (projects_request query cloud_id page_size apis)
                 (after :: List.map Some (selected_cursors pages)))%list.
Proof.
  induction pages as [|page rest IH]; intros items fuel after seen s Hchain Hitems Hnodup
    Hfresh Hfuel; [contradiction|].
  destruct fuel as [|fuel]; [cbn in Hfuel; lia|].
  destruct Hchain as (Hpage & Hrest).
  destruct (Hpage s) as (s0 & Hserved).
  rewrite (projects_loop_step fuel query cloud_id page_size apis after seen s page s0 Hserved).
  destruct (served_emits _ _ _ _ _ Hserved) as (Hys0 & Hreq0).
  unfold edges_of in Hitems. cbn [List.map concat] in Hitems.
  apply Forall2_app_inv_l in Hitems.
  destruct Hitems as (here & later & Hhere & Hlater & ->).
  destruct (for_edges_whole fuel cloud_id page_size apis _ _ s0 Hhere)
    as (s1 & Hedges & Hys1 & Hreq1).
  unfold bind at 1. rewrite Hedges.
  destruct rest as [|page' rest].
  - rewrite Hrest. cbn [outer_continue ret].
    exists s1. split; [reflexivity|].
    inversion Hlater; subst. rewrite app_nil_r.
    split; [rewrite Hys1, Hys0; reflexivity|].
    rewrite Hreq1, Hreq0. cbn [selected_cursors]. rewrite Hrest. reflexivity.
  - destruct Hrest as (next & Hnext & Hrest).
    rewrite Hnext. cbn [outer_continue].
    cbn [selected_cursors] in Hnodup, Hfresh. rewrite Hnext in Hnodup, Hfresh.
    apply NoDup_cons in Hnodup. destruct Hnodup as (Hnotin & Hnodup).
    apply Forall_cons in Hfresh. destruct Hfresh as (Hnew & Hfresh).
    rewrite (bool_decide_eq_false_2 _ Hnew).
    destruct (IH later fuel (Some next) ({[next]} ∪ seen) s1 Hrest Hlater Hnodup)
      as (s' & Hrun & Hys & Hreq).
    + rewrite Forall_forall in *. intros c Hc.
      intros [Hin|Hin]%elem_of_union.
      * apply elem_of_singleton in Hin. subst c. exact (Hnotin Hc).
      * exact (Hfresh c Hc Hin).
    + cbn [length] in *. lia.
    + exists s'. split; [exact Hrun|]. split.
      * rewrite Hys, Hys1, Hys0, <- app_assoc. reflexivity.
      * rewrite Hreq, Hreq1, Hreq0, <- app_assoc.
        cbn [selected_cursors]. rewrite Hnext. reflexivity.
Qed.

End ServedPages.

(** X19.  Against a client that serves a chain of pages by cursor (the
    first page for no cursor, each further page for the cursor selected on
    the page before it, the last page selecting none), where no project
    has further pages of teams, every project maps without error and the
    selected cursors are pairwise distinct,
    iter_projects_with_opsgenie_linkable_teams with a non-blank cloud_id,
    a positive page_size and valid project_types terminates normally (with
    fuel of at least the number of pages), yields the mapped projects of
    all pages in order, and issues exactly one request per page: the first
    with no cursor, then one with each selected cursor in turn. *)
Theorem graphql_projects_complete `{JiraProjectsApi} {W} `{Executor W}
    (pages : list JiraProjectsPageData.t) (items : list CanonicalProjectWithOpsgenieTeams.t)
    (fuel : nat) (cloud_id : string) (project_types cleaned : list string) (query : string)
    (page_size : Z) (apis : option (list string))
    (s : Run GraphQLRequest CanonicalProjectWithOpsgenieTeams.t W) :
  Py.truthy (Py.strip cloud_id) = true ->
  0 < page_size ->
  JiraProjects._normalize_project_types project_types = inr cleaned ->
  build_jira_projects_page_query cleaned = inr query ->
  serves_chain query (Py.strip cloud_id) page_size apis None pages ->
  Forall2 (whole_edge (Py.strip cloud_id)) (edges_of pages) items ->
  NoDup (selected_cursors pages) ->
  (length pages <= fuel)%nat ->
  exists s',
    JiraProjects.iter_projects_with_opsgenie_linkable_teams fuel cloud_id project_types
      page_size apis s = (Return tt, s')
    /\ yields_of (history s') = (yields_of (history s) ++ items)%list
    /\ requests_of (history s')
       = (requests_of (history s)
          ++ List.map (projects_request query (Py.strip cloud_id) page_size apis)
               (None :: List.map Some (selected_cursors pages)))%list.
Proof.
  intros Hcloud Hsize Hnorm Hquery Hchain Hitems Hnodup Hfuel.
  unfold JiraProjects.iter_projects_with_opsgenie_linkable_teams.
  rewrite Hcloud. cbn [negb].
  destruct (page_size <=? 0) eqn:Hp; [apply Z.leb_le in Hp; lia|].
  unfold bind at 1. rewrite Hnorm. cbn [lift ret].
  unfold bind at 1. rewrite Hquery. cbn [lift ret].
  apply cursor_loop_complete; auto.
  rewrite Forall_forall. intros c _ Hin. apply elem_of_empty in Hin. exact Hin.
Qed.

(** Two pages of one project each, the second asked for with the cursor of the
    first. *)
Lemma graphql_projects_complete_witness :
  exists s',
    @JiraProjects.iter_projects_with_opsgenie_linkable_teams cursor_api unit cursor_graphql
      2 "cloud-123" ["software"] 2 None (start_of_run tt)
    = (Return tt, s')
    /\ yields_of (history s')
       = [canonical "B" "Project B" []; canonical "C" "Project C" [("t4", "Team 4")]]
    /\ requests_of (history s')
       = List.map (@projects_request "query JiraProjectsPage" "cloud-123" 2 None)
           [None; Some "P1"].
Proof.
  destruct (@graphql_projects_complete cursor_api unit cursor_graphql
              [page_B; page_2]
              [canonical "B" "Project B" []; canonical "C" "Project C" [("t4", "Team 4")]]
              2 "cloud-123" ["software"] ["SOFTWARE"] "query JiraProjectsPage" 2 None
              (start_of_run tt))
    as (s' & Hrun & Hyields & Hrequests).
  - reflexivity.
  - lia.
  - reflexivity.
  - reflexivity.
  - split.
    + intros s. eexists. eexists. split; [reflexivity|]. split; reflexivity.
    + exists "P1". split; [reflexivity|]. split; [|reflexivity].
      intros s. eexists. eexists. split; [reflexivity|]. split; reflexivity.
  - repeat (constructor; [split; reflexivity|]). constructor.
  - vm_compute. repeat constructor. intros H. inversion H.
  - simpl. lia.
  - exists s'. split; [exact Hrun|]. split.
    + rewrite Hyields. reflexivity.
    + rewrite Hrequests. reflexivity.
Defined.
